(** * ogx360 firmware: a shallow embedding and its verified properties

    The firmware bridges modern gamepads to the original Xbox.  This
    development embeds, function by function, the parts of

      - [Firmware/src/usbh/usbh_xinput.cpp]  (host side wire decoder),
      - [Firmware/src/usbd/usbd_xid.cpp]     (console facing XID device),
      - [Firmware/src/slave.cpp]             (peer node bus handlers),
      - [Firmware/src/master.cpp]            (mapping engine, coordinator),
      - [Firmware/src/main.cpp]              (main loop of a node)

    and proves properties of them.  Integers are [Z] with the wrap-around
    of the AVR target written out ([int] is 16 bits wide there), arrays
    are lists, C structs are records, and every function that mutates an
    object through a pointer returns the updated object.  Values read
    from the environment ([millis()], USB and I2C transfers) are explicit
    arguments. *)

From Stdlib Require Import ZArith List Bool Lia.
Import ListNotations.
Open Scope Z_scope.

(** ** Fixed-width integers of the target *)

Module CInt.

Definition u8 (x : Z) : Z := x mod 2 ^ 8.
Definition u16 (x : Z) : Z := x mod 2 ^ 16.
Definition u32 (x : Z) : Z := x mod 2 ^ 32.
Definition s16 (x : Z) : Z := (x + 2 ^ 15) mod 2 ^ 16 - 2 ^ 15.
Definition s32 (x : Z) : Z := (x + 2 ^ 31) mod 2 ^ 32 - 2 ^ 31.

(** A C scalar used as a condition. *)
Definition truthy (x : Z) : bool := negb (x =? 0).

(** Arduino's [abs] and [constrain] are macros, so they work at the type
    of their argument. *)
Definition abs (x : Z) : Z := if 0 <? x then x else - x.
Definition constrain (amt low high : Z) : Z :=
  if amt <? low then low else if high <? amt then high else amt.

Definition is_u8 (x : Z) : Prop := 0 <= x < 256.
Definition is_u16 (x : Z) : Prop := 0 <= x < 65536.

End CInt.
Import CInt.

(** ** Arrays as lists *)

Module Buf.

(** [a[i]] *)
Definition get (a : list Z) (i : nat) : Z := nth i a 0.

(** [a[i] = v]; the firmware only stores inside its arrays. *)
Fixpoint set (a : list Z) (i : nat) (v : Z) : list Z :=
  match a, i with
  | [], _ => []
  | _ :: t, O => v :: t
  | h :: t, S j => h :: set t j v
  end.

(** [memcpy(dst, src, n)]: the first [n] bytes of [dst] are replaced by
    the first [n] bytes of [src]. *)
Definition memcpy (dst src : list Z) (n : nat) : list Z :=
  firstn n src ++ skipn n dst.

(** [memset(dst, 0, n)] *)
Definition memzero (dst : list Z) (n : nat) : list Z :=
  repeat 0 n ++ skipn n dst.

End Buf.

(** ** usbh_xinput.h *)

Definition XINPUT_MAXGAMEPADS : nat := 4.

Definition XINPUT_GAMEPAD_DPAD_UP : Z := 0x0001.
Definition XINPUT_GAMEPAD_DPAD_DOWN : Z := 0x0002.
Definition XINPUT_GAMEPAD_DPAD_LEFT : Z := 0x0004.
Definition XINPUT_GAMEPAD_DPAD_RIGHT : Z := 0x0008.
Definition XINPUT_GAMEPAD_START : Z := 0x0010.
Definition XINPUT_GAMEPAD_BACK : Z := 0x0020.
Definition XINPUT_GAMEPAD_LEFT_THUMB : Z := 0x0040.
Definition XINPUT_GAMEPAD_RIGHT_THUMB : Z := 0x0080.
Definition XINPUT_GAMEPAD_LEFT_SHOULDER : Z := 0x0100.
Definition XINPUT_GAMEPAD_RIGHT_SHOULDER : Z := 0x0200.
Definition XINPUT_GAMEPAD_XBOX_BUTTON : Z := 0x0400.
Definition XINPUT_GAMEPAD_SYNC : Z := 0x0800.
Definition XINPUT_GAMEPAD_A : Z := 0x1000.
Definition XINPUT_GAMEPAD_B : Z := 0x2000.
Definition XINPUT_GAMEPAD_X : Z := 0x4000.
Definition XINPUT_GAMEPAD_Y : Z := 0x8000.

Definition XINPUT_CHATPAD_1 : Z := 23.
Definition XINPUT_CHATPAD_2 : Z := 22.
Definition XINPUT_CHATPAD_3 : Z := 21.
Definition XINPUT_CHATPAD_4 : Z := 20.
Definition XINPUT_CHATPAD_5 : Z := 19.
Definition XINPUT_CHATPAD_6 : Z := 18.
Definition XINPUT_CHATPAD_7 : Z := 17.
Definition XINPUT_CHATPAD_8 : Z := 103.
Definition XINPUT_CHATPAD_9 : Z := 102.
Definition XINPUT_CHATPAD_0 : Z := 101.
Definition XINPUT_CHATPAD_Q : Z := 39.
Definition XINPUT_CHATPAD_W : Z := 38.
Definition XINPUT_CHATPAD_U : Z := 33.
Definition XINPUT_CHATPAD_I : Z := 118.
Definition XINPUT_CHATPAD_P : Z := 100.
Definition XINPUT_CHATPAD_A : Z := 55.
Definition XINPUT_CHATPAD_S : Z := 54.
Definition XINPUT_CHATPAD_D : Z := 53.
Definition XINPUT_CHATPAD_F : Z := 52.
Definition XINPUT_CHATPAD_G : Z := 51.
Definition XINPUT_CHATPAD_J : Z := 49.
Definition XINPUT_CHATPAD_K : Z := 119.
Definition XINPUT_CHATPAD_COMMA : Z := 98.
Definition XINPUT_CHATPAD_Z : Z := 70.
Definition XINPUT_CHATPAD_X : Z := 69.
Definition XINPUT_CHATPAD_C : Z := 68.
Definition XINPUT_CHATPAD_V : Z := 67.
Definition XINPUT_CHATPAD_N : Z := 65.
Definition XINPUT_CHATPAD_M : Z := 82.
Definition XINPUT_CHATPAD_ENTER : Z := 99.
Definition XINPUT_CHATPAD_LEFT : Z := 85.
Definition XINPUT_CHATPAD_SPACE : Z := 84.
Definition XINPUT_CHATPAD_RIGHT : Z := 81.
Definition XINPUT_CHATPAD_BACK : Z := 113.
Definition XINPUT_CHATPAD_SHIFT : Z := 1.
Definition XINPUT_CHATPAD_GREEN : Z := 2.
Definition XINPUT_CHATPAD_ORANGE : Z := 4.
Definition XINPUT_CHATPAD_MESSENGER : Z := 8.
Definition XINPUT_CHATPAD_CAPSLOCK : Z := 0x20.

Record xinput_padstate_t : Type := mk_padstate {
  wButtons : Z;          (* uint16_t *)
  bLeftTrigger : Z;      (* uint8_t *)
  bRightTrigger : Z;     (* uint8_t *)
  sThumbLX : Z;          (* int16_t *)
  sThumbLY : Z;
  sThumbRX : Z;
  sThumbRY : Z
}.

Inductive xinput_type_t : Type :=
  | XINPUT_UNKNOWN
  | XBOXONE
  | XBOX360_WIRELESS
  | XBOX360_WIRED
  | XBOXOG
  | XINPUT_KEYBOARD
  | XINPUT_MOUSE
  | XINPUT_8BITDO_IDLE.

Definition xinput_type_eqb (a b : xinput_type_t) : bool :=
  match a, b with
  | XINPUT_UNKNOWN, XINPUT_UNKNOWN | XBOXONE, XBOXONE
  | XBOX360_WIRELESS, XBOX360_WIRELESS | XBOX360_WIRED, XBOX360_WIRED
  | XBOXOG, XBOXOG | XINPUT_KEYBOARD, XINPUT_KEYBOARD
  | XINPUT_MOUSE, XINPUT_MOUSE | XINPUT_8BITDO_IDLE, XINPUT_8BITDO_IDLE => true
  | _, _ => false
  end.

(** [usbh_inPipe] and [usbh_outPipe] point into the [epInfo] array of
    the driver object; a pointer is the index of its target, [None] is
    [NULL]. *)
Record usbh_xinput_t : Type := mk_xinput {
  itf_num : Z;
  bAddress : Z;
  usbh_inPipe : option nat;
  usbh_outPipe : option nat;
  type : xinput_type_t;
  pad_state : xinput_padstate_t;
  pad_state_wButtons_old : Z;       (* uint16_t *)
  lValue_requested : Z;             (* uint8_t *)
  rValue_requested : Z;
  lValue_actual : Z;
  rValue_actual : Z;
  led_requested : Z;
  led_actual : Z;
  chatpad_initialised : Z;
  chatpad_state : list Z;           (* uint8_t [3] *)
  chatpad_state_old : list Z;       (* uint8_t [3] *)
  chatpad_led_requested : Z;
  chatpad_led_actual : Z;
  chatpad_keepalive_toggle : Z;
  timer_periodic : Z;               (* uint32_t *)
  timer_out : Z;
  timer_poweroff : Z
}.

(** [memset(&dev, 0, sizeof(usbh_xinput_t))] *)
Definition xinput_zero : usbh_xinput_t :=
  mk_xinput 0 0 None None XINPUT_UNKNOWN (mk_padstate 0 0 0 0 0 0 0)
            0 0 0 0 0 0 0 0 [0; 0; 0] [0; 0; 0] 0 0 0 0 0 0.

(** Field assignments [x->f = v]. *)
Definition set_pad_state (x : usbh_xinput_t) (p : xinput_padstate_t) :=
  mk_xinput (itf_num x) (bAddress x) (usbh_inPipe x) (usbh_outPipe x) (type x)
    p (pad_state_wButtons_old x) (lValue_requested x) (rValue_requested x)
    (lValue_actual x) (rValue_actual x) (led_requested x) (led_actual x)
    (chatpad_initialised x) (chatpad_state x) (chatpad_state_old x)
    (chatpad_led_requested x) (chatpad_led_actual x)
    (chatpad_keepalive_toggle x) (timer_periodic x) (timer_out x)
    (timer_poweroff x).

Definition set_wButtons_old (x : usbh_xinput_t) (v : Z) :=
  mk_xinput (itf_num x) (bAddress x) (usbh_inPipe x) (usbh_outPipe x) (type x)
    (pad_state x) v (lValue_requested x) (rValue_requested x)
    (lValue_actual x) (rValue_actual x) (led_requested x) (led_actual x)
    (chatpad_initialised x) (chatpad_state x) (chatpad_state_old x)
    (chatpad_led_requested x) (chatpad_led_actual x)
    (chatpad_keepalive_toggle x) (timer_periodic x) (timer_out x)
    (timer_poweroff x).

Definition set_rumble_requested (x : usbh_xinput_t) (l r : Z) :=
  mk_xinput (itf_num x) (bAddress x) (usbh_inPipe x) (usbh_outPipe x) (type x)
    (pad_state x) (pad_state_wButtons_old x) l r
    (lValue_actual x) (rValue_actual x) (led_requested x) (led_actual x)
    (chatpad_initialised x) (chatpad_state x) (chatpad_state_old x)
    (chatpad_led_requested x) (chatpad_led_actual x)
    (chatpad_keepalive_toggle x) (timer_periodic x) (timer_out x)
    (timer_poweroff x).

Definition set_rumble_actual (x : usbh_xinput_t) (l r : Z) :=
  mk_xinput (itf_num x) (bAddress x) (usbh_inPipe x) (usbh_outPipe x) (type x)
    (pad_state x) (pad_state_wButtons_old x) (lValue_requested x)
    (rValue_requested x) l r (led_requested x) (led_actual x)
    (chatpad_initialised x) (chatpad_state x) (chatpad_state_old x)
    (chatpad_led_requested x) (chatpad_led_actual x)
    (chatpad_keepalive_toggle x) (timer_periodic x) (timer_out x)
    (timer_poweroff x).

Definition set_led_actual (x : usbh_xinput_t) (v : Z) :=
  mk_xinput (itf_num x) (bAddress x) (usbh_inPipe x) (usbh_outPipe x) (type x)
    (pad_state x) (pad_state_wButtons_old x) (lValue_requested x)
    (rValue_requested x) (lValue_actual x) (rValue_actual x)
    (led_requested x) v
    (chatpad_initialised x) (chatpad_state x) (chatpad_state_old x)
    (chatpad_led_requested x) (chatpad_led_actual x)
    (chatpad_keepalive_toggle x) (timer_periodic x) (timer_out x)
    (timer_poweroff x).

Definition set_chatpad_initialised (x : usbh_xinput_t) (v : Z) :=
  mk_xinput (itf_num x) (bAddress x) (usbh_inPipe x) (usbh_outPipe x) (type x)
    (pad_state x) (pad_state_wButtons_old x) (lValue_requested x)
    (rValue_requested x) (lValue_actual x) (rValue_actual x)
    (led_requested x) (led_actual x)
    v (chatpad_state x) (chatpad_state_old x)
    (chatpad_led_requested x) (chatpad_led_actual x)
    (chatpad_keepalive_toggle x) (timer_periodic x) (timer_out x)
    (timer_poweroff x).

Definition set_chatpad_state (x : usbh_xinput_t) (v : list Z) :=
  mk_xinput (itf_num x) (bAddress x) (usbh_inPipe x) (usbh_outPipe x) (type x)
    (pad_state x) (pad_state_wButtons_old x) (lValue_requested x)
    (rValue_requested x) (lValue_actual x) (rValue_actual x)
    (led_requested x) (led_actual x)
    (chatpad_initialised x) v (chatpad_state_old x)
    (chatpad_led_requested x) (chatpad_led_actual x)
    (chatpad_keepalive_toggle x) (timer_periodic x) (timer_out x)
    (timer_poweroff x).

Definition set_chatpad_state_old (x : usbh_xinput_t) (v : list Z) :=
  mk_xinput (itf_num x) (bAddress x) (usbh_inPipe x) (usbh_outPipe x) (type x)
    (pad_state x) (pad_state_wButtons_old x) (lValue_requested x)
    (rValue_requested x) (lValue_actual x) (rValue_actual x)
    (led_requested x) (led_actual x)
    (chatpad_initialised x) (chatpad_state x) v
    (chatpad_led_requested x) (chatpad_led_actual x)
    (chatpad_keepalive_toggle x) (timer_periodic x) (timer_out x)
    (timer_poweroff x).

Definition set_chatpad_led_requested (x : usbh_xinput_t) (v : Z) :=
  mk_xinput (itf_num x) (bAddress x) (usbh_inPipe x) (usbh_outPipe x) (type x)
    (pad_state x) (pad_state_wButtons_old x) (lValue_requested x)
    (rValue_requested x) (lValue_actual x) (rValue_actual x)
    (led_requested x) (led_actual x)
    (chatpad_initialised x) (chatpad_state x) (chatpad_state_old x)
    v (chatpad_led_actual x)
    (chatpad_keepalive_toggle x) (timer_periodic x) (timer_out x)
    (timer_poweroff x).

Definition set_chatpad_led_actual (x : usbh_xinput_t) (v : Z) :=
  mk_xinput (itf_num x) (bAddress x) (usbh_inPipe x) (usbh_outPipe x) (type x)
    (pad_state x) (pad_state_wButtons_old x) (lValue_requested x)
    (rValue_requested x) (lValue_actual x) (rValue_actual x)
    (led_requested x) (led_actual x)
    (chatpad_initialised x) (chatpad_state x) (chatpad_state_old x)
    (chatpad_led_requested x) v
    (chatpad_keepalive_toggle x) (timer_periodic x) (timer_out x)
    (timer_poweroff x).

Definition set_timer_out (x : usbh_xinput_t) (v : Z) :=
  mk_xinput (itf_num x) (bAddress x) (usbh_inPipe x) (usbh_outPipe x) (type x)
    (pad_state x) (pad_state_wButtons_old x) (lValue_requested x)
    (rValue_requested x) (lValue_actual x) (rValue_actual x)
    (led_requested x) (led_actual x)
    (chatpad_initialised x) (chatpad_state x) (chatpad_state_old x)
    (chatpad_led_requested x) (chatpad_led_actual x)
    (chatpad_keepalive_toggle x) (timer_periodic x) v
    (timer_poweroff x).

(** ** usbh_xinput.cpp: the chatpad and gamepad queries *)

(** [usbh_xinput_is_chatpad_pressed]; [code] is a [uint16_t] parameter. *)
Definition usbh_xinput_is_chatpad_pressed (xinput : usbh_xinput_t) (code : Z) : Z :=
  let code := u16 code in
  if bAddress xinput =? 0 then 0
  else if (code <? 17) && truthy (Z.land (Buf.get (chatpad_state xinput) 0) code)
  then 1
  else if code <? 17 then 0
  else if (Buf.get (chatpad_state xinput) 1 =? code)
          || (Buf.get (chatpad_state xinput) 2 =? code)
  then 1
  else 0.

(** [for (i = 0; i < 3; i++) if (old[i] == code) old[i] = 0;] *)
Definition history_clear (old : list Z) (code : Z) : list Z :=
  map (fun e => if e =? code then 0 else e) old.

(** [for (i = 0; i < 3; i++) if (old[i] == 0) { old[i] = code; return 1; }]
    The result is [None] when the loop falls through. *)
Fixpoint history_claim (old : list Z) (code : Z) : option (list Z) :=
  match old with
  | [] => None
  | e :: rest =>
      if e =? 0 then Some (u8 code :: rest)
      else option_map (cons e) (history_claim rest code)
  end.

(** [old[0] != code && old[1] != code && old[2] != code] *)
Definition history_lacks (old : list Z) (code : Z) : bool :=
  forallb (fun e => negb (e =? code)) old.

Definition usbh_xinput_was_chatpad_pressed (xinput : usbh_xinput_t) (code : Z)
  : usbh_xinput_t * Z :=
  let code := u16 code in
  if negb (truthy (usbh_xinput_is_chatpad_pressed xinput code)) then
    (set_chatpad_state_old xinput
       (history_clear (chatpad_state_old xinput) code), 0)
  else if history_lacks (chatpad_state_old xinput) code then
    match history_claim (chatpad_state_old xinput) code with
    | Some old' => (set_chatpad_state_old xinput old', 1)
    | None => (xinput, 0)
    end
  else (xinput, 0).

(** [usbh_xinput_is_gamepad_pressed]: the [uint16_t] conjunction is
    returned through a [uint8_t]. *)
Definition usbh_xinput_is_gamepad_pressed (xinput : usbh_xinput_t)
  (button_mask : Z) : Z :=
  let button_mask := u16 button_mask in
  if bAddress xinput =? 0 then 0
  else u8 (Z.land (wButtons (pad_state xinput)) button_mask).

Definition usbh_xinput_was_gamepad_pressed (xinput : usbh_xinput_t)
  (button_mask : Z) : usbh_xinput_t * Z :=
  let button_mask := u16 button_mask in
  if truthy (usbh_xinput_is_gamepad_pressed xinput button_mask) then
    if negb (truthy (Z.land (pad_state_wButtons_old xinput) button_mask)) then
      (set_wButtons_old xinput
         (u16 (Z.lor (pad_state_wButtons_old xinput) button_mask)), 1)
    else (xinput, 0)
  else
    (set_wButtons_old xinput
       (u16 (Z.land (pad_state_wButtons_old xinput) (Z.lnot button_mask))), 0).

(** ** usbh_xinput.cpp: the driver object

    [xinput_devices] and [xdata] are file-scope statics; together with
    the fields of the [XINPUT] object that the embedded methods use they
    form the driver state.  Calls of [pUsb->outTransfer] and
    [pUsb->ctrlReq] are recorded in [usb_trace] (most recent first); the
    result code of a transfer is an argument of the method that looks at
    it. *)

Record EpInfo : Type := mk_EpInfo {
  epAddr : Z;
  maxPktSize : Z;
  dir : Z
}.

Inductive usb_event : Type :=
  | OutTransfer (addr ep : Z) (data : list Z)
  | CtrlReq (addr itf : Z).

Record XINPUT : Type := mk_XINPUT {
  this_bAddress : Z;
  this_epInfo : list EpInfo;
  this_PID : Z;
  this_VID : Z;
  dev_type : xinput_type_t;
  xinput_devices : list usbh_xinput_t;
  xdata : list Z;                       (* uint8_t [256] *)
  usb_trace : list usb_event
}.

Definition sizeof_xdata : Z := 256.
Definition hrSUCCESS : Z := 0.

Definition xbox360_wired_rumble : list Z := [0x00; 0x08; 0x00; 0x00; 0x00; 0x00; 0x00; 0x00].
Definition xbox360_wired_led : list Z := [0x01; 0x03; 0x00].
Definition xboxone_start_input : list Z := [0x05; 0x20; 0x03; 0x01; 0x00].
Definition xboxone_s_init : list Z := [0x05; 0x20; 0x00; 0x0f; 0x06].
Definition xboxone_pdp_init1 : list Z := [0x0a; 0x20; 0x00; 0x03; 0x00; 0x01; 0x14].
Definition xboxone_pdp_init2 : list Z := [0x06; 0x30].
Definition xboxone_pdp_init3 : list Z := [0x06; 0x20; 0x00; 0x02; 0x01; 0x00].
Definition xboxone_rumble : list Z :=
  [0x09; 0x00; 0x00; 0x09; 0x00; 0x0f; 0x00; 0x00; 0x00; 0x00; 0xFF; 0x00; 0xEB].
Definition xboxone_powera_init1 : list Z :=
  [0x09; 0x00; 0x00; 0x09; 0x00; 0x0F; 0x00; 0x00; 0x1D; 0x1D; 0xFF; 0x00; 0x00].
Definition xboxone_powera_init2 : list Z :=
  [0x09; 0x00; 0x00; 0x09; 0x00; 0x0F; 0x00; 0x00; 0x00; 0x00; 0x00; 0x00; 0x00].
Definition xbox360w_led : list Z := [0x00; 0x00; 0x08; 0x40].
Definition xbox360w_rumble_enable : list Z := [0x00; 0x00; 0x08; 0x01].
Definition xbox360w_rumble : list Z := [0x00; 0x01; 0x0F; 0xC0].
Definition xbox360w_controller_info : list Z := [0x00; 0x00; 0x00; 0x40].
Definition xbox360w_unknown : list Z := [0x00; 0x00; 0x02; 0x80].
Definition xboxog_rumble : list Z := [0x00; 0x06; 0x00; 0x00; 0x00; 0x00].

Definition set_xinput_devices (d : XINPUT) (l : list usbh_xinput_t) : XINPUT :=
  mk_XINPUT (this_bAddress d) (this_epInfo d) (this_PID d) (this_VID d)
            (dev_type d) l (xdata d) (usb_trace d).

Definition set_xdata (d : XINPUT) (b : list Z) : XINPUT :=
  mk_XINPUT (this_bAddress d) (this_epInfo d) (this_PID d) (this_VID d)
            (dev_type d) (xinput_devices d) b (usb_trace d).

Definition emit (d : XINPUT) (e : usb_event) : XINPUT :=
  mk_XINPUT (this_bAddress d) (this_epInfo d) (this_PID d) (this_VID d)
            (dev_type d) (xinput_devices d) (xdata d) (e :: usb_trace d).

(** [xinput_devices[i]] and an update of it through a pointer. *)
Definition dev (d : XINPUT) (i : nat) : usbh_xinput_t :=
  nth i (xinput_devices d) xinput_zero.

Fixpoint list_upd {A : Type} (l : list A) (i : nat) (f : A -> A) : list A :=
  match l, i with
  | [], _ => []
  | h :: t, O => f h :: t
  | h :: t, S j => h :: list_upd t j f
  end.

Definition upd_dev (d : XINPUT) (i : nat) (f : usbh_xinput_t -> usbh_xinput_t)
  : XINPUT :=
  set_xinput_devices d (list_upd (xinput_devices d) i f).

(** [p->epAddr] for a pipe pointer [p]; the firmware dereferences only
    pipes of live devices, the value for [NULL] is a placeholder. *)
Definition pipe_epAddr (d : XINPUT) (p : option nat) : Z :=
  match p with
  | Some k => epAddr (nth k (this_epInfo d) (mk_EpInfo 0 0 0))
  | None => 0
  end.

(** [pUsb->outTransfer(bAddress, ep, len, xdata)] *)
Definition outTransfer_xdata (d : XINPUT) (ep : Z) (len : nat) : XINPUT :=
  emit d (OutTransfer (this_bAddress d) ep (firstn len (xdata d))).

(** [XINPUT::WritePacket]; the packets are flash resident, so both
    branches of the [TRANSFER_PGM] test copy [data] to [xdata]. *)
Definition WritePacket (d : XINPUT) (i : nat) (data : list Z) (now : Z) : XINPUT :=
  let d := upd_dev d i (fun x => set_timer_out x now) in
  let d := set_xdata d (Buf.memcpy (xdata d) data (length data)) in
  outTransfer_xdata d (pipe_epAddr d (usbh_outPipe (dev d i))) (length data).

(** [XINPUT::SetRumble]; [rc] is what [outTransfer] returns. *)
Definition SetRumble (d : XINPUT) (i : nat) (lValue rValue : Z) (now rc : Z)
  : XINPUT * Z :=
  let d := upd_dev d i (fun x =>
             set_timer_out
               (set_rumble_actual x (lValue_requested x) (rValue_requested x))
               now) in
  let ep := pipe_epAddr d (usbh_outPipe (dev d i)) in
  let send (pkt : list Z) (stores : list (nat * Z)) :=
    let buf := Buf.memcpy (xdata d) pkt (length pkt) in
    let buf := fold_left (fun b s => Buf.set b (fst s) (snd s)) stores buf in
    (outTransfer_xdata (set_xdata d buf) ep (length pkt), rc) in
  match type (dev d i) with
  | XBOX360_WIRELESS => send xbox360w_rumble [(5%nat, lValue); (6%nat, rValue)]
  | XBOX360_WIRED => send xbox360_wired_rumble [(3%nat, lValue); (4%nat, rValue)]
  | XBOXONE =>
      (* [lValue / 2.6f] stored in a byte: for an 8-bit dividend the
         truncated quotient is [5 * lValue / 13] *)
      send xboxone_rumble [(8%nat, 5 * lValue / 13); (9%nat, 5 * rValue / 13)]
  | XBOXOG =>
      send xboxog_rumble
           [(2%nat, lValue); (3%nat, lValue); (4%nat, rValue); (5%nat, rValue)]
  | _ => (d, hrSUCCESS)
  end.

(** [XINPUT::SetLed] *)
Definition SetLed (d : XINPUT) (i : nat) (quadrant : Z) (now rc : Z)
  : XINPUT * Z :=
  let d := upd_dev d i (fun x =>
             set_timer_out (set_led_actual x (led_requested x)) now) in
  let ep := pipe_epAddr d (usbh_outPipe (dev d i)) in
  let send (pkt : list Z) (k : nat) (v : Z) :=
    let buf := Buf.set (Buf.memcpy (xdata d) pkt (length pkt)) k v in
    (outTransfer_xdata (set_xdata d buf) ep (length pkt), rc) in
  match type (dev d i) with
  | XBOX360_WIRELESS =>
      send xbox360w_led 3%nat
           (if quadrant =? 0 then 0x40 else u8 (Z.lor 0x40 (quadrant + 5)))
  | XBOX360_WIRED =>
      send xbox360_wired_led 2%nat
           (if quadrant =? 0 then 0 else u8 (quadrant + 5))
  | _ => (d, hrSUCCESS)
  end.

(** [XINPUT::free_xinput_device] *)
Definition free_xinput_device (d : XINPUT) (i : nat) : XINPUT * Z :=
  if (i <? XINPUT_MAXGAMEPADS)%nat
  then (upd_dev d i (fun _ => xinput_zero), 1)
  else (d, 0).

(** The first slot whose [bAddress] is zero. *)
Fixpoint first_free (l : list usbh_xinput_t) (k : nat) : option nat :=
  match l with
  | [] => None
  | x :: rest => if bAddress x =? 0 then Some k else first_free rest (S k)
  end.

(** [XINPUT::alloc_xinput_device]; the result is the index of the new
    device, [None] for [NULL]. *)
Definition alloc_xinput_device (d : XINPUT) (bAddr itf : Z)
  (pin pout : option nat) (ty : xinput_type_t) (now : Z)
  : XINPUT * option nat :=
  match first_free (firstn XINPUT_MAXGAMEPADS (xinput_devices d)) 0 with
  | None => (d, None)
  | Some index =>
      let d := upd_dev d index (fun x =>
        mk_xinput itf bAddr pin pout ty
          (pad_state x) (pad_state_wButtons_old x) (lValue_requested x)
          (rValue_requested x) (lValue_actual x) (rValue_actual x)
          (u8 (Z.of_nat index + 1)) (led_actual x)
          (chatpad_initialised x) (chatpad_state x) (chatpad_state_old x)
          XINPUT_CHATPAD_GREEN (chatpad_led_actual x)
          (chatpad_keepalive_toggle x) (timer_periodic x) (timer_out x)
          (timer_poweroff x)) in
      let d :=
        match ty with
        | XBOX360_WIRELESS =>
            let d := WritePacket d index xbox360w_controller_info now in
            let d := WritePacket d index xbox360w_unknown now in
            WritePacket d index xbox360w_rumble_enable now
        | XBOX360_WIRED =>
            emit d (OutTransfer bAddr (pipe_epAddr d pout)
                      (Buf.set xbox360_wired_led 2 (u8 (Z.of_nat index + 2))))
        | XBOXONE =>
            let d := WritePacket d index xboxone_start_input now in
            let d :=
              if (this_VID d =? 0x045e)
                 && ((this_PID d =? 0x02ea) || (this_PID d =? 0x0b00))
              then WritePacket d index xboxone_s_init now else d in
            let d :=
              if this_VID d =? 0x0e6f then
                let d := WritePacket d index xboxone_pdp_init1 now in
                let d := WritePacket d index xboxone_pdp_init2 now in
                WritePacket d index xboxone_pdp_init3 now
              else d in
            if this_VID d =? 0x24c6 then
              let d := WritePacket d index xboxone_powera_init1 now in
              WritePacket d index xboxone_powera_init2 now
            else d
        | XINPUT_MOUSE | XINPUT_KEYBOARD =>
            emit d (CtrlReq bAddr (itf_num (dev d index)))
        | _ => d
        end in
      (d, Some index)
  end.

(** The digital button tables of [ParseInputData]: source bit, canonical
    mask, in the order of the [if] statements. *)
Definition buttons_xbox360_wired : list (Z * Z) :=
  [(0, XINPUT_GAMEPAD_DPAD_UP); (1, XINPUT_GAMEPAD_DPAD_DOWN);
   (2, XINPUT_GAMEPAD_DPAD_LEFT); (3, XINPUT_GAMEPAD_DPAD_RIGHT);
   (4, XINPUT_GAMEPAD_START); (5, XINPUT_GAMEPAD_BACK);
   (6, XINPUT_GAMEPAD_LEFT_THUMB); (7, XINPUT_GAMEPAD_RIGHT_THUMB);
   (8, XINPUT_GAMEPAD_LEFT_SHOULDER); (9, XINPUT_GAMEPAD_RIGHT_SHOULDER);
   (12, XINPUT_GAMEPAD_A); (13, XINPUT_GAMEPAD_B);
   (14, XINPUT_GAMEPAD_X); (15, XINPUT_GAMEPAD_Y)].

Definition buttons_xbox360_wireless : list (Z * Z) :=
  [(0, XINPUT_GAMEPAD_DPAD_UP); (1, XINPUT_GAMEPAD_DPAD_DOWN);
   (2, XINPUT_GAMEPAD_DPAD_LEFT); (3, XINPUT_GAMEPAD_DPAD_RIGHT);
   (4, XINPUT_GAMEPAD_START); (5, XINPUT_GAMEPAD_BACK);
   (6, XINPUT_GAMEPAD_LEFT_THUMB); (7, XINPUT_GAMEPAD_RIGHT_THUMB);
   (8, XINPUT_GAMEPAD_LEFT_SHOULDER); (9, XINPUT_GAMEPAD_RIGHT_SHOULDER);
   (10, XINPUT_GAMEPAD_XBOX_BUTTON);
   (12, XINPUT_GAMEPAD_A); (13, XINPUT_GAMEPAD_B);
   (14, XINPUT_GAMEPAD_X); (15, XINPUT_GAMEPAD_Y)].

Definition buttons_xboxone : list (Z * Z) :=
  [(8, XINPUT_GAMEPAD_DPAD_UP); (9, XINPUT_GAMEPAD_DPAD_DOWN);
   (10, XINPUT_GAMEPAD_DPAD_LEFT); (11, XINPUT_GAMEPAD_DPAD_RIGHT);
   (2, XINPUT_GAMEPAD_START); (3, XINPUT_GAMEPAD_BACK);
   (14, XINPUT_GAMEPAD_LEFT_THUMB); (15, XINPUT_GAMEPAD_RIGHT_THUMB);
   (12, XINPUT_GAMEPAD_LEFT_SHOULDER); (13, XINPUT_GAMEPAD_RIGHT_SHOULDER);
   (4, XINPUT_GAMEPAD_A); (5, XINPUT_GAMEPAD_B);
   (6, XINPUT_GAMEPAD_X); (7, XINPUT_GAMEPAD_Y)].

Definition buttons_xboxog : list (Z * Z) :=
  [(0, XINPUT_GAMEPAD_DPAD_UP); (1, XINPUT_GAMEPAD_DPAD_DOWN);
   (2, XINPUT_GAMEPAD_DPAD_LEFT); (3, XINPUT_GAMEPAD_DPAD_RIGHT);
   (4, XINPUT_GAMEPAD_START); (5, XINPUT_GAMEPAD_BACK);
   (6, XINPUT_GAMEPAD_LEFT_THUMB); (7, XINPUT_GAMEPAD_RIGHT_THUMB)].

(** [if (wButtons & (1 << bit)) acc |= mask;] for every table entry. *)
Definition map_buttons (tbl : list (Z * Z)) (w : Z) (acc : Z) : Z :=
  fold_left
    (fun a e => if truthy (Z.land w (Z.shiftl 1 (fst e)))
                then u16 (Z.lor a (snd e)) else a)
    tbl acc.

(** The analog face buttons of the original pad: [if (xdata[k] > 0x20)]. *)
Definition map_analog (tbl : list (nat * Z)) (b : list Z) (acc : Z) : Z :=
  fold_left
    (fun a e => if 0x20 <? Buf.get b (fst e) then u16 (Z.lor a (snd e)) else a)
    tbl acc.

(** [xdata[k] | (xdata[k + 1] << 8)] as [uint16_t] and as [int16_t]. *)
Definition le16 (b : list Z) (k : nat) : Z :=
  u16 (Z.lor (Buf.get b k) (Z.shiftl (Buf.get b (S k)) 8)).
Definition le16s (b : list Z) (k : nat) : Z :=
  s16 (Z.lor (Buf.get b k) (Z.shiftl (Buf.get b (S k)) 8)).

(** [XINPUT::ParseInputData].  [xpad] is [*xpad] on entry, the second
    component of the result is [*xpad] on exit.  Every length guard of
    the source compares [sizeof(xdata)], a constant; the number of bytes
    received is not an argument of the function. *)
Definition ParseInputData (d : XINPUT) (xpad : option nat) (ep_in : nat) (now : Z)
  : XINPUT * option nat * bool :=
  let _dev_type :=
    if xinput_type_eqb (dev_type d) XBOX360_WIRELESS then dev_type d
    else match xpad with
         | Some i => type (dev d i)
         | None => XINPUT_UNKNOWN
         end in
  let b := xdata d in
  (* [_xpad->...] on a null pointer does not occur on the paths below:
     a family other than wireless is only selected through [_xpad->type] *)
  let i := match xpad with Some i => i | None => O end in
  match _dev_type with
  | XINPUT_UNKNOWN => (d, xpad, false)
  | XBOX360_WIRED =>
      if (Buf.get b 0 =? 0x01) && (3 <=? sizeof_xdata) then
        let led := Z.land (Buf.get b 2) 0x0F in
        let led := if truthy led then u8 (led - (if 5 <? led then 5 else 1))
                   else led in
        (upd_dev d i (fun x => set_led_actual x led), xpad, false)
      else if (Buf.get b 0 =? 0x03) && (5 <=? sizeof_xdata) then
        (upd_dev d i (fun x =>
           set_rumble_actual x (u8 (Z.shiftl (Buf.get b 3) 8))
                               (u8 (Z.shiftl (Buf.get b 4) 8))),
         xpad, false)
      else if negb (Buf.get b 0 =? 0x00) || negb (Buf.get b 1 =? 0x14)
              || (sizeof_xdata <? 14) then
        (d, xpad, false)
      else
        let w := map_buttons buttons_xbox360_wired (le16 b 2) 0 in
        (upd_dev d i (fun x =>
           set_pad_state x
             (mk_padstate w (Buf.get b 4) (Buf.get b 5)
                (le16s b 6) (le16s b 8) (le16s b 10) (le16s b 12))),
         xpad, true)
  | XBOX360_WIRELESS =>
      if sizeof_xdata <? 27 then (d, xpad, false)
      else
        (* connected / disconnected packet *)
        let step1 : XINPUT * option nat * option nat * bool :=
          (* driver, _xpad, *xpad, leave *)
          if truthy (Z.land (Buf.get b 0) 0x08) then
            match xpad with
            | None =>
                if negb (Buf.get b 1 =? 0x00) then
                  match alloc_xinput_device d (this_bAddress d) 0
                          (Some ep_in) (Some (S ep_in)) XBOX360_WIRELESS now with
                  | (d', None) => (d', None, xpad, true)
                  | (d', Some k) => (d', Some k, Some k, false)
                  end
                else (d, xpad, xpad, false)
            | Some k =>
                if Buf.get b 1 =? 0x00
                then (fst (free_xinput_device d k), xpad, None, true)
                else (d, xpad, xpad, false)
            end
          else (d, xpad, xpad, false) in
        match step1 with
        | (d, _, xpad', true) => (d, xpad', false)
        | (d, None, xpad', false) => (d, xpad', false)
        | (d, Some i, xpad', false) =>
            let b := xdata d in
            let d :=
              if Buf.get b 1 =? 0xF8
              then upd_dev d i (fun x => set_chatpad_initialised x 0) else d in
            (* controller pad event *)
            let d :=
              if truthy (Z.land (Buf.get b 1) 1) && (Buf.get b 5 =? 0x13)
                 && (18 <=? sizeof_xdata) then
                let w := map_buttons buttons_xbox360_wireless (le16 b 6) 0 in
                upd_dev d i (fun x =>
                  set_pad_state x
                    (mk_padstate w (Buf.get b 8) (Buf.get b 9)
                       (le16s b 10) (le16s b 12) (le16s b 14) (le16s b 16)))
              else d in
            (* chatpad report *)
            let d :=
              if truthy (Z.land (Buf.get b 1) 2) then
                let d :=
                  if (Buf.get b 24 =? 0x00) && (28 <=? sizeof_xdata) then
                    upd_dev d i (fun x =>
                      set_chatpad_state x
                        [Buf.get b 25; Buf.get b 26; Buf.get b 27])
                  else d in
                if (Buf.get b 24 =? 0xF0) && (27 <=? sizeof_xdata) then
                  let d :=
                    if Buf.get b 25 =? 0x03
                    then upd_dev d i (fun x => set_chatpad_initialised x 0)
                    else d in
                  if (Buf.get b 25 =? 0x04)
                     && truthy (Z.land (Buf.get b 26) 0x80)
                  then upd_dev d i (fun x =>
                         set_chatpad_led_actual x (Z.land (Buf.get b 26) 0x7F))
                  else d
                else d
              else d in
            (d, xpad', true)
        end
  | XBOXONE =>
      if negb (Buf.get b 0 =? 0x20) || (sizeof_xdata <? 18) then (d, xpad, false)
      else
        let w := map_buttons buttons_xboxone (le16 b 4) 0 in
        (upd_dev d i (fun x =>
           set_pad_state x
             (mk_padstate w
                (u8 (Z.shiftr (le16s b 6) 2)) (u8 (Z.shiftr (le16s b 8) 2))
                (le16s b 10) (le16s b 12) (le16s b 14) (le16s b 16))),
         xpad, true)
  | XBOXOG =>
      if negb (Buf.get b 1 =? 0x14) || (sizeof_xdata <? 20) then (d, xpad, false)
      else
        let w := map_buttons buttons_xboxog (le16 b 2) 0 in
        let w := map_analog
                   [(4%nat, XINPUT_GAMEPAD_A); (5%nat, XINPUT_GAMEPAD_B);
                    (6%nat, XINPUT_GAMEPAD_X); (7%nat, XINPUT_GAMEPAD_Y);
                    (8%nat, XINPUT_GAMEPAD_RIGHT_SHOULDER);
                    (9%nat, XINPUT_GAMEPAD_LEFT_SHOULDER)] b w in
        (upd_dev d i (fun x =>
           set_pad_state x
             (mk_padstate w (Buf.get b 10) (Buf.get b 11)
                (le16s b 12) (le16s b 14) (le16s b 16) (le16s b 18))),
         xpad, true)
  | XINPUT_KEYBOARD => (d, xpad, true)
  | XINPUT_MOUSE => (d, xpad, true)
  | XINPUT_8BITDO_IDLE => (d, xpad, false)
  end.

(** The read of one IN endpoint in [XINPUT::Poll]:
    [pUsb->inTransfer(bAddress, epaddr, &len, xdata)] stores the bytes
    received, at most [min(maxPktSize, EP_MAXPKTSIZE)] of them, at the
    start of [xdata] and, on [hrSUCCESS], the buffer is handed to
    [ParseInputData]. *)
Definition EP_MAXPKTSIZE : Z := 32.

Definition Poll_in (d : XINPUT) (xinput : option nat) (ep : nat)
  (rcode : Z) (received : list Z) (now : Z) : XINPUT * option nat * bool :=
  let len := Z.min (maxPktSize (nth ep (this_epInfo d) (mk_EpInfo 0 0 0)))
                   EP_MAXPKTSIZE in
  let received := firstn (Z.to_nat len) received in
  let d := set_xdata d (Buf.memcpy (xdata d) received (length received)) in
  if rcode =? hrSUCCESS then ParseInputData d xinput ep now
  else (d, xinput, false).

(** ** usbd_xid.h

    The header is not part of the sources at hand.  What the embedded
    functions take from it (the values of its macros and enumerators,
    the sizes of its packed report structures and the offsets of the
    out-report fields that are read) is collected in a class; every
    definition and theorem below is parametric in it. *)

Class usbd_xid_h : Type := {
  (* xid_type_t *)
  DISCONNECTED : Z;
  DUKE : Z;
  STEELBATTALION : Z;
  (* sizeof *)
  sizeof_usbd_duke_in_t : Z;
  sizeof_usbd_duke_out_t : Z;
  sizeof_usbd_sbattalion_in_t : Z;
  sizeof_usbd_sbattalion_out_t : Z;
  sizeof_xid_out_data : Z;
  (* offsetof, out reports *)
  offsetof_duke_out_lValue : nat;
  offsetof_CockpitHatch_EmergencyEject : nat;
  offsetof_Washing_LineColorChange : nat;
  offsetof_Chaff_Extinguisher : nat;
  offsetof_Comm1_MagazineChange : nat;
  (* Duke buttons *)
  DUKE_DUP : Z;
  DUKE_DDOWN : Z;
  DUKE_DLEFT : Z;
  DUKE_DRIGHT : Z;
  DUKE_START : Z;
  DUKE_BACK : Z;
  DUKE_LS : Z;
  DUKE_RS : Z;
  (* Steel Battalion buttons, word 0 *)
  SBC_W0_RIGHTJOYMAINWEAPON : Z;
  SBC_W0_RIGHTJOYFIRE : Z;
  SBC_W0_RIGHTJOYLOCKON : Z;
  SBC_W0_EJECT : Z;
  SBC_W0_COCKPITHATCH : Z;
  SBC_W0_IGNITION : Z;
  SBC_W0_START : Z;
  SBC_W0_MULTIMONOPENCLOSE : Z;
  SBC_W0_MULTIMONMAPZOOMINOUT : Z;
  SBC_W0_MULTIMONMODESELECT : Z;
  SBC_W0_MULTIMONSUBMONITOR : Z;
  SBC_W0_MAINMONZOOMIN : Z;
  SBC_W0_MAINMONZOOMOUT : Z;
  SBC_W0_FUNCTIONFSS : Z;
  SBC_W0_FUNCTIONMANIPULATOR : Z;
  SBC_W0_FUNCTIONLINECOLORCHANGE : Z;
  (* word 1 *)
  SBC_W1_WASHING : Z;
  SBC_W1_EXTINGUISHER : Z;
  SBC_W1_CHAFF : Z;
  SBC_W1_FUNCTIONTANKDETACH : Z;
  SBC_W1_FUNCTIONOVERRIDE : Z;
  SBC_W1_FUNCTIONNIGHTSCOPE : Z;
  SBC_W1_FUNCTIONF1 : Z;
  SBC_W1_FUNCTIONF2 : Z;
  SBC_W1_FUNCTIONF3 : Z;
  SBC_W1_WEAPONCONMAIN : Z;
  SBC_W1_WEAPONCONSUB : Z;
  SBC_W1_WEAPONCONMAGAZINE : Z;
  SBC_W1_COMM1 : Z;
  SBC_W1_COMM2 : Z;
  SBC_W1_COMM3 : Z;
  SBC_W1_COMM4 : Z;
  (* word 2 *)
  SBC_W2_COMM5 : Z;
  SBC_W2_LEFTJOYSIGHTCHANGE : Z;
  SBC_W2_TOGGLEFILTERCONTROL : Z;
  SBC_W2_TOGGLEOXYGENSUPPLY : Z;
  SBC_W2_TOGGLEFUELFLOWRATE : Z;
  SBC_W2_TOGGLEBUFFREMATERIAL : Z;
  SBC_W2_TOGGLEVTLOCATION : Z;
  (* gear lever and aiming *)
  SBC_GEAR_R : Z;
  SBC_GEAR_N : Z;
  SBC_GEAR_5 : Z;
  SBC_AIMING_MID : Z
}.

(** One instantiation of the header, with the report layout of the
    original Xbox accessories; it is used where a property is evaluated
    on concrete data. *)
Definition xid_layout : usbd_xid_h := {|
  DISCONNECTED := 0; DUKE := 1; STEELBATTALION := 2;
  sizeof_usbd_duke_in_t := 20; sizeof_usbd_duke_out_t := 6;
  sizeof_usbd_sbattalion_in_t := 26; sizeof_usbd_sbattalion_out_t := 22;
  sizeof_xid_out_data := 32;
  offsetof_duke_out_lValue := 2;
  offsetof_CockpitHatch_EmergencyEject := 2;
  offsetof_Washing_LineColorChange := 8;
  offsetof_Chaff_Extinguisher := 9;
  offsetof_Comm1_MagazineChange := 14;
  DUKE_DUP := 0x01; DUKE_DDOWN := 0x02; DUKE_DLEFT := 0x04;
  DUKE_DRIGHT := 0x08; DUKE_START := 0x10; DUKE_BACK := 0x20;
  DUKE_LS := 0x40; DUKE_RS := 0x80;
  SBC_W0_RIGHTJOYMAINWEAPON := 0x0001; SBC_W0_RIGHTJOYFIRE := 0x0002;
  SBC_W0_RIGHTJOYLOCKON := 0x0004; SBC_W0_EJECT := 0x0008;
  SBC_W0_COCKPITHATCH := 0x0010; SBC_W0_IGNITION := 0x0020;
  SBC_W0_START := 0x0040; SBC_W0_MULTIMONOPENCLOSE := 0x0080;
  SBC_W0_MULTIMONMAPZOOMINOUT := 0x0100; SBC_W0_MULTIMONMODESELECT := 0x0200;
  SBC_W0_MULTIMONSUBMONITOR := 0x0400; SBC_W0_MAINMONZOOMIN := 0x0800;
  SBC_W0_MAINMONZOOMOUT := 0x1000; SBC_W0_FUNCTIONFSS := 0x2000;
  SBC_W0_FUNCTIONMANIPULATOR := 0x4000;
  SBC_W0_FUNCTIONLINECOLORCHANGE := 0x8000;
  SBC_W1_WASHING := 0x0001; SBC_W1_EXTINGUISHER := 0x0002;
  SBC_W1_CHAFF := 0x0004; SBC_W1_FUNCTIONTANKDETACH := 0x0008;
  SBC_W1_FUNCTIONOVERRIDE := 0x0010; SBC_W1_FUNCTIONNIGHTSCOPE := 0x0020;
  SBC_W1_FUNCTIONF1 := 0x0040; SBC_W1_FUNCTIONF2 := 0x0080;
  SBC_W1_FUNCTIONF3 := 0x0100; SBC_W1_WEAPONCONMAIN := 0x0200;
  SBC_W1_WEAPONCONSUB := 0x0400; SBC_W1_WEAPONCONMAGAZINE := 0x0800;
  SBC_W1_COMM1 := 0x1000; SBC_W1_COMM2 := 0x2000;
  SBC_W1_COMM3 := 0x4000; SBC_W1_COMM4 := 0x8000;
  SBC_W2_COMM5 := 0x0001; SBC_W2_LEFTJOYSIGHTCHANGE := 0x0002;
  SBC_W2_TOGGLEFILTERCONTROL := 0x0004; SBC_W2_TOGGLEOXYGENSUPPLY := 0x0008;
  SBC_W2_TOGGLEFUELFLOWRATE := 0x0010; SBC_W2_TOGGLEBUFFREMATERIAL := 0x0020;
  SBC_W2_TOGGLEVTLOCATION := 0x0040;
  SBC_GEAR_R := 7; SBC_GEAR_N := 8; SBC_GEAR_5 := 13;
  SBC_AIMING_MID := 32768
|}.

(** ** usbd_xid.cpp: the console facing device *)

Module Xid.

Record XID_ : Type := mk_XID {
  xid_in_data : list Z;
  xid_out_data : list Z;
  xid_out_expired : Z;       (* uint32_t, a [millis()] stamp *)
  xid_type : Z
}.

Section WithHeader.
Context {H : usbd_xid_h}.

(** [MIN(len, sizeof(xid_out_data))]; the macro compares its arguments
    as [size_t] (16 bits) and yields the smaller one uncast. *)
Definition capped (len : Z) : Z :=
  if u16 len <? u16 sizeof_xid_out_data then u16 len else sizeof_xid_out_data.

(** [XID_::getReport(data, len)].  [USB_Recv] is the environment: it
    returns [recv_len] and leaves [r] in the local receive buffer;
    [now] is [millis()].  The result holds the device, the caller's
    buffer and the returned [int]. *)
Definition getReport (x : XID_) (data : list Z) (len : Z)
  (recv_len : Z) (r : list Z) (now : Z) : XID_ * list Z * Z :=
  let capped_len := capped len in
  let n := Z.to_nat capped_len in
  if recv_len =? capped_len then
    (mk_XID (xid_in_data x) (Buf.memcpy (xid_out_data x) r n) (u32 now)
            (xid_type x),
     Buf.memcpy data r n, capped_len)
  else if 500 <? u32 (now - xid_out_expired x) then
    (x, Buf.memzero data n, 0)
  else
    (x, Buf.memcpy data (xid_out_data x) n, Buf.get (xid_out_data x) 1).

End WithHeader.
End Xid.

(** ** The receive side of the [Wire] object *)

Module TwoWire.

(** The receive buffer of [Wire]. *)
Definition wire := list Z.

(** [Wire.read()] stored in a [uint8_t]; an empty buffer reads as -1. *)
Definition Wire_read (w : wire) : Z * wire :=
  match w with
  | [] => (u8 (-1), [])
  | b :: rest => (b, rest)
  end.

(** [for (i = 0; i < rxlen && Wire.available(); i++) rxbuf[i] = Wire.read();]
    started at index [i] with [n] iterations left. *)
Fixpoint read_into (rxbuf : list Z) (i n : nat) (w : wire) : list Z * wire :=
  match n, w with
  | S n', b :: rest => read_into (Buf.set rxbuf i b) (S i) n' rest
  | _, _ => (rxbuf, w)
  end.

(** [while (Wire.available()) Wire.read();] *)
Definition flush (w : wire) : wire := [].

End TwoWire.

(** ** slave.cpp: the peer node *)

Module Slave.
Import TwoWire.

(** [usbd_c[0]] as [i2c_get_data] uses it: the target family and the two
    in-reports, each accessed through a [uint8_t *]. *)
Record usbd_controller_t : Type := mk_slot {
  c_type : Z;
  duke_in : list Z;
  sb_in : list Z
}.

Inductive rx_target : Type := RxDuke | RxSb | RxNull.

Section WithHeader.
Context {H : usbd_xid_h}.

(** [rxbuf] and [rxlen] as selected by the target family. *)
Definition rxbuf_of (ty : Z) : rx_target :=
  if ty =? DUKE then RxDuke
  else if ty =? STEELBATTALION then RxSb else RxNull.

Definition rxlen_of (ty : Z) : Z :=
  if ty =? DUKE then u8 sizeof_usbd_duke_in_t
  else if ty =? STEELBATTALION then u8 sizeof_usbd_sbattalion_in_t
  else 0.

(** [i2c_get_data(len)]: the slot, the bus buffer, and whether the
    status LED was blinked. *)
Definition i2c_get_data (c : usbd_controller_t) (w : wire) (len : Z)
  : usbd_controller_t * wire * bool :=
  if len <? 1 then (c, w, false)
  else
    let (packet_id, w) := Wire_read w in
    if packet_id =? 0xAA then (c, flush w, true)
    else if Z.land packet_id 0xF0 =? 0xF0 then
      let ty := Z.land packet_id 0x0F in
      let c := mk_slot ty (duke_in c) (sb_in c) in
      let rxbuf := rxbuf_of ty in
      let rxlen := rxlen_of ty in
      match rxbuf with
      | RxNull => (c, flush w, false)
      | _ =>
          if negb (len =? rxlen + 1) || (rxlen =? 0) then (c, flush w, false)
          else
            match rxbuf with
            | RxDuke =>
                let (buf, w) := read_into (duke_in c) 0 (Z.to_nat rxlen) w in
                (mk_slot ty buf (sb_in c), flush w, false)
            | _ =>
                let (buf, w) := read_into (sb_in c) 0 (Z.to_nat rxlen) w in
                (mk_slot ty (duke_in c) buf, flush w, false)
            end
      end
    else (c, flush w, false).

End WithHeader.
End Slave.

(** ** master.cpp: the mapping engine and the coordinator *)

Module Master.

Definition MAX_GAMEPADS : nat := 4.
Definition DEADZONE : Z := 7500.
Definition UINT16_MAX : Z := 65535.

Record xinput_user_data_t : Type := mk_user_data {
  modifiers : Z;             (* uint8_t *)
  button_hold_timer : Z;     (* uint32_t *)
  vmouse_x : Z;              (* int32_t *)
  vmouse_y : Z
}.

(** [usbd_duke_in_t]; the out-report is kept as the bytes the bus and
    the console write into it. *)
Record usbd_duke_in_t : Type := mk_duke_in {
  dk_startByte : Z;
  dk_bLength : Z;
  dk_wButtons : Z;           (* uint16_t *)
  dk_A : Z; dk_B : Z; dk_X : Z; dk_Y : Z;
  dk_BLACK : Z; dk_WHITE : Z; dk_L : Z; dk_R : Z;
  leftStickX : Z; leftStickY : Z; rightStickX : Z; rightStickY : Z
}.

(** [uint16_t wButtons[3]] of the cockpit report. *)
Record sb_words : Type := mk_words { word0 : Z; word1 : Z; word2 : Z }.

Record usbd_sbattalion_in_t : Type := mk_sb_in {
  sb_startByte : Z;
  sb_bLength : Z;
  sb_wButtons : sb_words;
  aimingX : Z;               (* uint16_t *)
  aimingY : Z;
  rotationLever : Z;         (* int16_t *)
  sightChangeX : Z;
  sightChangeY : Z;
  leftPedal : Z;             (* uint16_t *)
  middlePedal : Z;
  rightPedal : Z;
  tunerDial : Z;             (* uint8_t *)
  gearLever : Z
}.

Record usbd_controller_t : Type := mk_controller {
  c_type : Z;
  duke_in : usbd_duke_in_t;
  duke_out : list Z;
  sb_in : usbd_sbattalion_in_t;
  sb_out : list Z
}.

(** [wButtons[k]], [wButtons[k] |= m], [wButtons[k] ^= m].  The offsets
    in the tables are the literals 0, 1 and 2. *)
Definition word_get (w : sb_words) (k : nat) : Z :=
  match k with
  | 0%nat => word0 w
  | 1%nat => word1 w
  | _ => word2 w
  end.

Definition word_upd (w : sb_words) (k : nat) (f : Z -> Z) : sb_words :=
  match k with
  | 0%nat => mk_words (f (word0 w)) (word1 w) (word2 w)
  | 1%nat => mk_words (word0 w) (f (word1 w)) (word2 w)
  | _ => mk_words (word0 w) (word1 w) (f (word2 w))
  end.

Definition word_or (w : sb_words) (k : nat) (m : Z) : sb_words :=
  word_upd w k (fun v => u16 (Z.lor v m)).

Definition word_xor (w : sb_words) (k : nat) (m : Z) : sb_words :=
  word_upd w k (fun v => u16 (Z.lxor v m)).

(** [sb_map_t] *)
Record sb_map_t : Type := mk_map {
  xinput_mask : Z;
  sb_mask : Z;
  sb_word_offset : nat
}.

(** The nine presets of the sensitivity selection. *)
Definition sensitivities : list Z :=
  [1200; 1000; 800; 650; 400; 350; 300; 250; 200].

(** [sb_sensitivity] with the writes of [EEPROM.put(1, v)], most recent
    first. *)
Record settings : Type := mk_settings {
  sb_sensitivity : Z;        (* uint16_t *)
  eeprom_puts : list Z
}.

(** What one call reads from outside: [millis()], and the value an
    [int32_t] division by zero yields on the target (C leaves it
    undefined). *)
Record env : Type := mk_env {
  millis : Z;
  div_by_zero : Z
}.

(** [a / b] for [int32_t a] and [uint16_t b], computed as [long]. *)
Definition div32 (e : env) (a b : Z) : Z :=
  if b =? 0 then s32 (div_by_zero e) else s32 (Z.quot a b).

(** [was_gamepad_pressed(x, m1) || was_gamepad_pressed(x, m2)] with the
    short circuit of [||]. *)
Definition was_gamepad_pressed_either (x : usbh_xinput_t) (m1 m2 : Z)
  : usbh_xinput_t * bool :=
  let (x, r1) := usbh_xinput_was_gamepad_pressed x m1 in
  if truthy r1 then (x, true)
  else let (x, r2) := usbh_xinput_was_gamepad_pressed x m2 in (x, truthy r2).

(** The loops over the mapping tables. *)
Definition apply_pad_map (tbl : list sb_map_t) (x : usbh_xinput_t)
  (w : sb_words) : sb_words :=
  fold_left
    (fun w e => if truthy (Z.land (wButtons (pad_state x)) (u16 (xinput_mask e)))
                then word_or w (sb_word_offset e) (sb_mask e) else w)
    tbl w.

Definition apply_chatpad_map (tbl : list sb_map_t) (x : usbh_xinput_t)
  (w : sb_words) : sb_words :=
  fold_left
    (fun w e => if truthy (usbh_xinput_is_chatpad_pressed x (xinput_mask e))
                then word_or w (sb_word_offset e) (sb_mask e) else w)
    tbl w.

Definition apply_toggle_map (tbl : list sb_map_t)
  (xw : usbh_xinput_t * sb_words) : usbh_xinput_t * sb_words :=
  fold_left
    (fun xw e =>
       let (x, r) := usbh_xinput_was_chatpad_pressed (fst xw) (xinput_mask e) in
       (x, if truthy r then word_xor (snd xw) (sb_word_offset e) (sb_mask e)
           else snd xw))
    tbl xw.

(** The preset loop: [for (i = 0; i < 9; i++) if (was_chatpad_pressed(x,
    XINPUT_CHATPAD_1 + i)) { ...; break; }], entered with the presets
    still to try and the index of the first of them. *)
Fixpoint select_sensitivity (presets : list Z) (i : Z)
  (x : usbh_xinput_t) (g : settings) : usbh_xinput_t * settings :=
  match presets with
  | [] => (x, g)
  | new_sensitivity :: rest =>
      let (x, r) := usbh_xinput_was_chatpad_pressed x (XINPUT_CHATPAD_1 + i) in
      if truthy r then
        if negb (sb_sensitivity g =? new_sensitivity)
        then (x, mk_settings new_sensitivity (new_sensitivity :: eeprom_puts g))
        else (x, g)
      else select_sensitivity rest (i + 1) x g
  end.

Definition XINPUT_MOD_RSX_INVERT : Z := 1.
Definition XINPUT_MOD_RSY_INVERT : Z := 2.

Section WithHeader.
Context {H : usbd_xid_h}.

Definition sb_pad_map : list sb_map_t :=
  [mk_map XINPUT_GAMEPAD_START SBC_W0_START 0;
   mk_map XINPUT_GAMEPAD_LEFT_SHOULDER SBC_W0_RIGHTJOYFIRE 0;
   mk_map XINPUT_GAMEPAD_RIGHT_THUMB SBC_W0_RIGHTJOYLOCKON 0;
   mk_map XINPUT_GAMEPAD_B SBC_W0_RIGHTJOYLOCKON 0;
   mk_map XINPUT_GAMEPAD_RIGHT_SHOULDER SBC_W0_RIGHTJOYMAINWEAPON 0;
   mk_map XINPUT_GAMEPAD_A SBC_W0_RIGHTJOYMAINWEAPON 0;
   mk_map XINPUT_GAMEPAD_XBOX_BUTTON SBC_W0_EJECT 0;
   mk_map XINPUT_GAMEPAD_LEFT_THUMB SBC_W2_LEFTJOYSIGHTCHANGE 2;
   mk_map XINPUT_GAMEPAD_Y SBC_W1_CHAFF 1].

Definition sb_chatpad_map : list sb_map_t :=
  [mk_map XINPUT_CHATPAD_0 SBC_W0_EJECT 0;
   mk_map XINPUT_CHATPAD_D SBC_W1_WASHING 1;
   mk_map XINPUT_CHATPAD_F SBC_W1_EXTINGUISHER 1;
   mk_map XINPUT_CHATPAD_G SBC_W1_CHAFF 1;
   mk_map XINPUT_CHATPAD_X SBC_W1_WEAPONCONMAIN 1;
   mk_map XINPUT_CHATPAD_RIGHT SBC_W1_WEAPONCONMAIN 1;
   mk_map XINPUT_CHATPAD_C SBC_W1_WEAPONCONSUB 1;
   mk_map XINPUT_CHATPAD_LEFT SBC_W1_WEAPONCONSUB 1;
   mk_map XINPUT_CHATPAD_V SBC_W1_WEAPONCONMAGAZINE 1;
   mk_map XINPUT_CHATPAD_SPACE SBC_W1_WEAPONCONMAGAZINE 1;
   mk_map XINPUT_CHATPAD_U SBC_W0_MULTIMONOPENCLOSE 0;
   mk_map XINPUT_CHATPAD_J SBC_W0_MULTIMONMODESELECT 0;
   mk_map XINPUT_CHATPAD_N SBC_W0_MAINMONZOOMIN 0;
   mk_map XINPUT_CHATPAD_I SBC_W0_MULTIMONMAPZOOMINOUT 0;
   mk_map XINPUT_CHATPAD_K SBC_W0_MULTIMONSUBMONITOR 0;
   mk_map XINPUT_CHATPAD_M SBC_W0_MAINMONZOOMOUT 0;
   mk_map XINPUT_CHATPAD_ENTER SBC_W0_START 0;
   mk_map XINPUT_CHATPAD_P SBC_W0_COCKPITHATCH 0;
   mk_map XINPUT_CHATPAD_COMMA SBC_W0_IGNITION 0].

Definition sb_chatpad_alt1_map : list sb_map_t :=
  [mk_map XINPUT_CHATPAD_1 SBC_W1_COMM1 1;
   mk_map XINPUT_CHATPAD_2 SBC_W1_COMM2 1;
   mk_map XINPUT_CHATPAD_3 SBC_W1_COMM3 1;
   mk_map XINPUT_CHATPAD_4 SBC_W1_COMM4 1;
   mk_map XINPUT_CHATPAD_5 SBC_W2_COMM5 2].

Definition sb_chatpad_alt2_map : list sb_map_t :=
  [mk_map XINPUT_CHATPAD_1 SBC_W1_FUNCTIONF1 1;
   mk_map XINPUT_CHATPAD_2 SBC_W1_FUNCTIONTANKDETACH 1;
   mk_map XINPUT_CHATPAD_3 SBC_W0_FUNCTIONFSS 0;
   mk_map XINPUT_CHATPAD_4 SBC_W1_FUNCTIONF2 1;
   mk_map XINPUT_CHATPAD_5 SBC_W1_FUNCTIONOVERRIDE 1;
   mk_map XINPUT_CHATPAD_6 SBC_W0_FUNCTIONMANIPULATOR 0;
   mk_map XINPUT_CHATPAD_7 SBC_W1_FUNCTIONF3 1;
   mk_map XINPUT_CHATPAD_8 SBC_W1_FUNCTIONNIGHTSCOPE 1;
   mk_map XINPUT_CHATPAD_9 SBC_W0_FUNCTIONLINECOLORCHANGE 0].

Definition sb_chatpad_toggle_map : list sb_map_t :=
  [mk_map XINPUT_CHATPAD_Q SBC_W2_TOGGLEOXYGENSUPPLY 2;
   mk_map XINPUT_CHATPAD_A SBC_W2_TOGGLEFILTERCONTROL 2;
   mk_map XINPUT_CHATPAD_W SBC_W2_TOGGLEVTLOCATION 2;
   mk_map XINPUT_CHATPAD_S SBC_W2_TOGGLEBUFFREMATERIAL 2;
   mk_map XINPUT_CHATPAD_Z SBC_W2_TOGGLEFUELFLOWRATE 2].

(** The state [handle_sbattalion] works on: the device record, the
    cockpit report pair, the per-slot context and the settings. *)
Record sb_state : Type := mk_sb_state {
  st_xinput : usbh_xinput_t;
  st_in : usbd_sbattalion_in_t;
  st_out : list Z;
  st_user : xinput_user_data_t;
  st_settings : settings
}.

(** What the X button does depends on the lamps of the out-report. *)
Definition sb_x_button (wB : Z) (out : list Z) (w : sb_words) : sb_words :=
  let w :=
    if truthy (Z.land wB XINPUT_GAMEPAD_X)
       && truthy (Z.land (Buf.get out offsetof_Chaff_Extinguisher) 0x0F)
    then word_or w 1 SBC_W1_EXTINGUISHER else w in
  let w :=
    if truthy (Z.land wB XINPUT_GAMEPAD_X)
       && truthy (Z.land (Buf.get out offsetof_Comm1_MagazineChange) 0x0F)
    then word_or w 1 SBC_W1_WEAPONCONMAGAZINE else w in
  if truthy (Z.land wB XINPUT_GAMEPAD_X)
     && truthy (Z.land (Buf.get out offsetof_Washing_LineColorChange) 0xF0)
  then word_or w 1 SBC_W1_WASHING else w.

(** Messenger or BACK held: the comms table and the tuner dial;
    otherwise, unless orange is held, the function table and the gear
    lever.  The result holds the device record, the button words, the
    dial and the gear. *)
Definition sb_alternate (x : usbh_xinput_t) (r : usbd_sbattalion_in_t)
  (w : sb_words) : usbh_xinput_t * sb_words * Z * Z :=
  let wB := wButtons (pad_state x) in
  if truthy (usbh_xinput_is_chatpad_pressed x XINPUT_CHATPAD_MESSENGER)
     || truthy (Z.land wB XINPUT_GAMEPAD_BACK) then
    let w := apply_chatpad_map sb_chatpad_alt1_map x w in
    let dial := tunerDial r in
    let (x, up) := was_gamepad_pressed_either x XINPUT_GAMEPAD_DPAD_UP
                     XINPUT_GAMEPAD_DPAD_RIGHT in
    let dial := if up then u8 (dial + 1) else dial in
    let (x, down) := was_gamepad_pressed_either x XINPUT_GAMEPAD_DPAD_DOWN
                       XINPUT_GAMEPAD_DPAD_LEFT in
    let dial := if down then u8 (dial - 1) else dial in
    (x, w, u8 (constrain dial 0 15), gearLever r)
  else if negb (truthy (usbh_xinput_is_chatpad_pressed x XINPUT_CHATPAD_ORANGE))
  then
    let w := apply_chatpad_map sb_chatpad_alt2_map x w in
    if negb (truthy (Z.land wB (Z.lor XINPUT_GAMEPAD_DPAD_LEFT
                                      XINPUT_GAMEPAD_DPAD_RIGHT))) then
      let gear := gearLever r in
      let (x, up) := usbh_xinput_was_gamepad_pressed x XINPUT_GAMEPAD_DPAD_UP in
      let gear := if truthy up then u8 (gear + 1) else gear in
      let (x, down) :=
        usbh_xinput_was_gamepad_pressed x XINPUT_GAMEPAD_DPAD_DOWN in
      let gear := if truthy down then u8 (gear - 1) else gear in
      (x, w, tunerDial r, u8 (constrain gear SBC_GEAR_R SBC_GEAR_5))
    else (x, w, tunerDial r, gearLever r)
  else (x, w, tunerDial r, gearLever r).

(** The button words of the report after the mapping tables, the X
    button overload, the alternate tables and the shift bank; the dial
    and the gear lever are updated on the way.  Words 0 and 1 are
    rebuilt from zero, word 2 is carried over from the last report. *)
Definition sb_buttons (x : usbh_xinput_t) (r : usbd_sbattalion_in_t)
  (out : list Z) : usbh_xinput_t * sb_words * Z * Z :=
  let wB := wButtons (pad_state x) in
  let w := mk_words 0 0 (word2 (sb_wButtons r)) in
  let w := apply_pad_map sb_pad_map x w in
  let w := apply_chatpad_map sb_chatpad_map x w in
  let (x, w) := apply_toggle_map sb_chatpad_toggle_map (x, w) in
  let w := sb_x_button wB out w in
  let '(x, w, dial, gear) := sb_alternate x r w in
  let (x, shift) := usbh_xinput_was_chatpad_pressed x XINPUT_CHATPAD_SHIFT in
  let w := if truthy shift then word_xor w 2 0xFFFC else w in
  (x, w, dial, gear).

(** The virtual pointer: accumulate, clamp, recentre. *)
Definition sb_vmouse (e : env) (x : usbh_xinput_t) (u : xinput_user_data_t)
  (g : settings) : xinput_user_data_t :=
  let axisVal := sThumbRX (pad_state x) in
  let vx := if DEADZONE <? abs axisVal
            then s32 (vmouse_x u + div32 e axisVal (sb_sensitivity g))
            else vmouse_x u in
  let axisVal := sThumbRY (pad_state x) in
  let vy := if DEADZONE <? abs axisVal
            then s32 (vmouse_y u - div32 e axisVal (sb_sensitivity g))
            else vmouse_y u in
  let vx := constrain vx 0 UINT16_MAX in
  let vy := constrain vy 0 UINT16_MAX in
  if truthy (Z.land (wButtons (pad_state x)) XINPUT_GAMEPAD_LEFT_THUMB) then
    if 500 <? u32 (millis e - button_hold_timer u)
    then mk_user_data (modifiers u) (button_hold_timer u)
                      SBC_AIMING_MID SBC_AIMING_MID
    else mk_user_data (modifiers u) (button_hold_timer u) vx vy
  else mk_user_data (modifiers u) (u32 (millis e)) vx vy.

(** [handle_sbattalion] *)
Definition handle_sbattalion (e : env) (s : sb_state) : sb_state :=
  let x := st_xinput s in
  let r := st_in s in
  let out := st_out s in
  let xs := pad_state x in
  let '(x, w, dial, gear) := sb_buttons x r out in
  (* pedals, rotation lever, sight *)
  let leftP := u16 (Z.shiftl (bLeftTrigger xs) 8) in
  let rightP := u16 (Z.shiftl (bRightTrigger xs) 8) in
  let middleP :=
    if truthy (usbh_xinput_is_chatpad_pressed x XINPUT_CHATPAD_BACK)
    then 0xFF00 else 0 in
  let rot :=
    if truthy (usbh_xinput_is_chatpad_pressed x XINPUT_CHATPAD_MESSENGER) then 0
    else if truthy (Z.land (wButtons xs) XINPUT_GAMEPAD_BACK) then 0
    else if truthy (Z.land (wButtons xs) XINPUT_GAMEPAD_DPAD_LEFT) then -32768
    else if truthy (Z.land (wButtons xs) XINPUT_GAMEPAD_DPAD_RIGHT) then 32767
    else 0 in
  let sightX := sThumbLX xs in
  let sightY := s16 (- sThumbLY xs - 1) in
  (* aiming *)
  let u := sb_vmouse e x (st_user s) (st_settings s) in
  let aimX := u16 (vmouse_x u) in
  let aimY := u16 (vmouse_y u) in
  (* rumble feedback *)
  let ce := Buf.get out offsetof_Chaff_Extinguisher in
  let rumble :=
    u8 (Z.lor (Z.lor (Z.lor ce (Z.shiftl ce 4))
                     (Z.shiftl (Buf.get out offsetof_Comm1_MagazineChange) 4))
              (Z.shiftl (Buf.get out offsetof_CockpitHatch_EmergencyEject) 4)) in
  let x := set_rumble_requested x rumble rumble in
  (* sensitivity presets *)
  let (x, g) :=
    if truthy (usbh_xinput_is_chatpad_pressed x XINPUT_CHATPAD_ORANGE)
    then select_sensitivity sensitivities 0 x (st_settings s)
    else (x, st_settings s) in
  (* ignition excludes aiming and the hatch *)
  let '(w, aimX, aimY) :=
    if truthy (Z.land (word0 w) SBC_W0_IGNITION)
    then (word_upd w 0 (fun v => u16 (Z.land v (Z.lnot SBC_W0_COCKPITHATCH))),
          0, 0)
    else (w, aimX, aimY) in
  mk_sb_state x
    (mk_sb_in 0 (u8 sizeof_usbd_sbattalion_in_t) w aimX aimY rot sightX sightY
              leftP middleP rightP dial gear)
    out u g.

(** *** Ticks

    Between two calls of [handle_sbattalion] the wire decoder stores a
    new pad state and chatpad sample and the console or the bus a new
    out-report; the history of the edge detectors, the report, the
    mapping context and the settings are carried over. *)
Record sb_tick : Type := mk_tick {
  tick_env : env;
  tick_pad : xinput_padstate_t;
  tick_chatpad : list Z;
  tick_out : list Z
}.

Definition sb_load (t : sb_tick) (s : sb_state) : sb_state :=
  mk_sb_state
    (set_chatpad_state (set_pad_state (st_xinput s) (tick_pad t))
       (tick_chatpad t))
    (st_in s) (tick_out t) (st_user s) (st_settings s).

Definition sb_step (t : sb_tick) (s : sb_state) : sb_state :=
  handle_sbattalion (tick_env t) (sb_load t s).

(** The states after each tick, and the last of them. *)
Fixpoint sb_run (ticks : list sb_tick) (s : sb_state) : list sb_state :=
  match ticks with
  | [] => []
  | t :: rest => let s' := sb_step t s in s' :: sb_run rest s'
  end.

Definition sb_final (ticks : list sb_tick) (s : sb_state) : sb_state :=
  fold_left (fun s t => sb_step t s) ticks s.

(** The accumulators of the virtual pointer fit a [uint16_t]. *)
Definition pointer_in_range (u : xinput_user_data_t) : Prop :=
  0 <= vmouse_x u <= 65535 /\ 0 <= vmouse_y u <= 65535.

(** The left stick is clicked in during tick [t]. *)
Definition left_thumb_down (t : sb_tick) : Prop :=
  Z.land (wButtons (tick_pad t)) XINPUT_GAMEPAD_LEFT_THUMB <> 0.

(** *** The toggle bank

    [toggle_bank_steady x e0 held_codes]: on device [x] the keys of the
    toggle table whose codes are listed in [held_codes] are down, every
    other key of the table apart from the key of [e0] is up, and so
    are shift, orange and the 5 key (the keys that flip the whole bank,
    select the presets, or reach word 2 through the comms table). *)
Definition toggle_bank_steady (x : usbh_xinput_t) (e0 : sb_map_t)
  (held_codes : list Z) : Prop :=
  Forall is_u8 (chatpad_state x) /\
  (forall e, In e sb_chatpad_toggle_map ->
             xinput_mask e <> xinput_mask e0 ->
             (In (xinput_mask e) held_codes ->
              usbh_xinput_is_chatpad_pressed x (xinput_mask e) = 1) /\
             (~ In (xinput_mask e) held_codes ->
              usbh_xinput_is_chatpad_pressed x (xinput_mask e) = 0)) /\
  usbh_xinput_is_chatpad_pressed x XINPUT_CHATPAD_SHIFT = 0 /\
  usbh_xinput_is_chatpad_pressed x XINPUT_CHATPAD_ORANGE = 0 /\
  usbh_xinput_is_chatpad_pressed x XINPUT_CHATPAD_5 = 0.

(** The codes of [held_codes] are codes of keys of the toggle table
    other than the key of [e0], and the history of the device holds
    them: these keys went down before. *)
Definition toggle_keys_tracked (x : usbh_xinput_t) (e0 : sb_map_t)
  (held_codes : list Z) : Prop :=
  forall c, In c held_codes ->
    c <> xinput_mask e0 /\
    In c (map xinput_mask sb_chatpad_toggle_map) /\
    In c (chatpad_state_old x).

(** The device record [handle_sbattalion] sees in tick [t]. *)
Definition tick_device (t : sb_tick) (s : sb_state) : usbh_xinput_t :=
  st_xinput (sb_load t s).

(** The switch bit of table entry [e0] in the report of state [s]. *)
Definition toggle_bit (e0 : sb_map_t) (s : sb_state) : Z :=
  Z.land (word2 (sb_wButtons (st_in s))) (sb_mask e0).

(** Word 2 of the report after the direct gamepad table: the carried
    over word with the sight change bit of the left stick click. *)
Definition pad_word2 (x : usbh_xinput_t) (w2 : Z) : Z :=
  if truthy (Z.land (wButtons (pad_state x)) (u16 XINPUT_GAMEPAD_LEFT_THUMB))
  then u16 (Z.lor w2 SBC_W2_LEFTJOYSIGHTCHANGE) else w2.

(** The history after the polls of a run of released keys. *)
Definition history_clear_all (tbl : list sb_map_t) (old : list Z) : list Z :=
  fold_left (fun o e => history_clear o (u16 (xinput_mask e))) tbl old.

(** [handle_duke] *)
Definition handle_duke (x : usbh_xinput_t) (out : list Z)
  (u : xinput_user_data_t) : usbh_xinput_t * usbd_duke_in_t * xinput_user_data_t :=
  let xs := pad_state x in
  let wB := wButtons xs in
  let pressed (m : Z) := truthy (Z.land wB m) in
  let w :=
    fold_left (fun a e => if pressed (fst e) then u16 (Z.lor a (snd e)) else a)
      [(XINPUT_GAMEPAD_DPAD_UP, DUKE_DUP); (XINPUT_GAMEPAD_DPAD_DOWN, DUKE_DDOWN);
       (XINPUT_GAMEPAD_DPAD_LEFT, DUKE_DLEFT);
       (XINPUT_GAMEPAD_DPAD_RIGHT, DUKE_DRIGHT);
       (XINPUT_GAMEPAD_START, DUKE_START); (XINPUT_GAMEPAD_BACK, DUKE_BACK);
       (XINPUT_GAMEPAD_LEFT_THUMB, DUKE_LS);
       (XINPUT_GAMEPAD_RIGHT_THUMB, DUKE_RS)] 0 in
  let full (m : Z) := if pressed m then 0xFF else 0 in
  let x := set_chatpad_led_requested x XINPUT_CHATPAD_GREEN in
  let rumble := u8 (Z.shiftr (le16 out offsetof_duke_out_lValue) 8) in
  let x := set_rumble_requested x rumble rumble in
  let rsY := if truthy (Z.land (modifiers u) XINPUT_MOD_RSY_INVERT)
             then s16 (- sThumbRY xs - 1) else sThumbRY xs in
  let rsX := if truthy (Z.land (modifiers u) XINPUT_MOD_RSX_INVERT)
             then s16 (- sThumbRX xs - 1) else sThumbRX xs in
  let r := mk_duke_in 0 (u8 sizeof_usbd_duke_in_t) w
             (full XINPUT_GAMEPAD_A) (full XINPUT_GAMEPAD_B)
             (full XINPUT_GAMEPAD_X) (full XINPUT_GAMEPAD_Y)
             (full XINPUT_GAMEPAD_RIGHT_SHOULDER)
             (full XINPUT_GAMEPAD_LEFT_SHOULDER)
             (bLeftTrigger xs) (bRightTrigger xs)
             (sThumbLX xs) (sThumbLY xs) rsX rsY in
  if pressed XINPUT_GAMEPAD_RIGHT_THUMB then
    let (x, f) := was_gamepad_pressed_either x XINPUT_GAMEPAD_DPAD_UP
                    XINPUT_GAMEPAD_DPAD_DOWN in
    let m := if f then u8 (Z.lxor (modifiers u) XINPUT_MOD_RSY_INVERT)
             else modifiers u in
    let (x, f) := was_gamepad_pressed_either x XINPUT_GAMEPAD_DPAD_RIGHT
                    XINPUT_GAMEPAD_DPAD_LEFT in
    let m := if f then u8 (Z.lxor m XINPUT_MOD_RSX_INVERT) else m in
    (x, r, mk_user_data m (button_hold_timer u) (vmouse_x u) (vmouse_y u))
  else (x, r, u).

(** *** [master_task]

    The three arrays [usbh_head], [usbd_c] and [user_data] are indexed
    by the same loop variable; [slot] is one index of them.  The host
    stack calls at the head of [master_task] belong to the environment:
    the state given to [master_task] is the one they leave behind. *)

Record slot : Type := mk_slot {
  usbh_xinput : usbh_xinput_t;
  usbd_c : usbd_controller_t;
  user_data : xinput_user_data_t
}.

Record master_state : Type := mk_master {
  slots : list slot;           (* MAX_GAMEPADS entries *)
  globals : settings
}.

(** What the bus does for one peer in one tick: the result of
    [Wire.endTransmission], the result of [Wire.requestFrom] and the
    bytes it leaves in the receive buffer; [io_env] is what the mapping
    of that slot reads. *)
Record slot_io : Type := mk_io {
  io_env : env;
  io_end : Z;
  io_request : Z;
  io_rx : list Z
}.

Inductive tx_payload : Type :=
  | TxDuke (r : usbd_duke_in_t)
  | TxSb (r : usbd_sbattalion_in_t)
  | TxNone.

Inductive wire_event : Type :=
  | Transmit (peer : nat) (status : Z) (payload : tx_payload)
  | Request (peer : nat) (quantity : Z).

Definition set_type (c : usbd_controller_t) (t : Z) : usbd_controller_t :=
  mk_controller t (duke_in c) (duke_out c) (sb_in c) (sb_out c).

(** The head of the loop body: target family, then the mapping. *)
Definition map_slot (e : env) (s : slot) (g : settings) : slot * settings :=
  let x := usbh_xinput s in
  let c := usbd_c s in
  let c := if bAddress x =? 0 then set_type c DISCONNECTED
           else if c_type c =? DISCONNECTED then set_type c DUKE else c in
  let (c, x) :=
    if truthy (usbh_xinput_is_chatpad_pressed x XINPUT_CHATPAD_GREEN)
    then (set_type c DUKE, set_chatpad_led_requested x XINPUT_CHATPAD_GREEN)
    else if truthy (usbh_xinput_is_chatpad_pressed x XINPUT_CHATPAD_ORANGE)
    then (set_type c STEELBATTALION,
          set_chatpad_led_requested x XINPUT_CHATPAD_ORANGE)
    else (c, x) in
  if c_type c =? DUKE then
    let '(x, r, u) := handle_duke x (duke_out c) (user_data s) in
    (mk_slot x (mk_controller (c_type c) r (duke_out c) (sb_in c) (sb_out c)) u,
     g)
  else if c_type c =? STEELBATTALION then
    let s' := handle_sbattalion e
                (mk_sb_state x (sb_in c) (sb_out c) (user_data s) g) in
    (mk_slot (st_xinput s')
       (mk_controller (c_type c) (duke_in c) (duke_out c) (st_in s') (st_out s'))
       (st_user s'),
     st_settings s')
  else (mk_slot x c (user_data s), g).

(** The tail of the loop body for [i > 0]: the exchange with peer [i]. *)
Definition exchange_slot (io : slot_io) (i : nat) (c : usbd_controller_t)
  : usbd_controller_t * list wire_event :=
  let is_duke := c_type c =? DUKE in
  let is_sb := c_type c =? STEELBATTALION in
  let tx_buff := if is_duke then TxDuke (duke_in c)
                 else if is_sb then TxSb (sb_in c) else TxNone in
  let tx_len := if is_duke then u8 sizeof_usbd_duke_in_t
                else if is_sb then u8 sizeof_usbd_sbattalion_in_t else 0 in
  let rx_len := if is_duke then u8 sizeof_usbd_duke_out_t
                else if is_sb then u8 sizeof_usbd_sbattalion_out_t else 0 in
  let status := u8 (Z.lor 0xF0 (c_type c)) in
  let sent := Transmit i status (if tx_len =? 0 then TxNone else tx_buff) in
  if negb (io_end io =? 0) then (c, [sent])
  else if (is_duke || is_sb) && negb (rx_len =? 0) then
    let c :=
      if u8 (io_request io) =? rx_len then
        if is_duke then
          mk_controller (c_type c) (duke_in c)
            (fst (TwoWire.read_into (duke_out c) 0 (Z.to_nat rx_len) (io_rx io)))
            (sb_in c) (sb_out c)
        else
          mk_controller (c_type c) (duke_in c) (duke_out c) (sb_in c)
            (fst (TwoWire.read_into (sb_out c) 0 (Z.to_nat rx_len) (io_rx io)))
      else c in
    (c, [sent; Request i rx_len])
  else (c, [sent]).

Definition slot_zero : slot :=
  mk_slot xinput_zero
    (mk_controller 0 (mk_duke_in 0 0 0 0 0 0 0 0 0 0 0 0 0 0 0) []
       (mk_sb_in 0 0 (mk_words 0 0 0) 0 0 0 0 0 0 0 0 0 0) [])
    (mk_user_data 0 0 0 0).

(** One iteration of the loop of [master_task]; the events are in the
    order in which they happen. *)
Definition master_slot (bus : nat -> slot_io) (i : nat) (st : master_state)
  : master_state * list wire_event :=
  let (s, g) := map_slot (io_env (bus i)) (nth i (slots st) slot_zero)
                  (globals st) in
  if (i =? 0)%nat then
    (mk_master (list_upd (slots st) i (fun _ => s)) g, [])
  else
    let (c, evs) := exchange_slot (bus i) i (usbd_c s) in
    (mk_master
       (list_upd (slots st) i
          (fun _ => mk_slot (usbh_xinput s) c (user_data s))) g,
     evs).

(** [for (int i = 0; i < MAX_GAMEPADS; i++)] *)
Fixpoint master_loop (bus : nat -> slot_io) (indices : list nat)
  (st : master_state) : master_state * list wire_event :=
  match indices with
  | [] => (st, [])
  | i :: rest =>
      let (st, evs) := master_slot bus i st in
      let (st, evs') := master_loop bus rest st in
      (st, evs ++ evs')
  end.

Definition master_task (bus : nat -> slot_io) (st : master_state)
  : master_state * list wire_event :=
  master_loop bus (seq 0 MAX_GAMEPADS) st.

(** The peer an event of the bus is addressed to, the two buffers the
    receive step of a slot writes to, and the number of bytes requested
    from the peer of a slot. *)
Definition event_peer (ev : wire_event) : nat :=
  match ev with
  | Transmit peer _ _ => peer
  | Request peer _ => peer
  end.

Definition rx_buffers (s : slot) : list Z * list Z :=
  (duke_out (usbd_c s), sb_out (usbd_c s)).

Definition rx_len_of (c : usbd_controller_t) : Z :=
  if c_type c =? DUKE then u8 sizeof_usbd_duke_out_t
  else if c_type c =? STEELBATTALION then u8 sizeof_usbd_sbattalion_out_t
  else 0.

Definition slot_at (st : master_state) (i : nat) : slot :=
  nth i (slots st) slot_zero.

End WithHeader.
End Master.

(** ** What the queries read

    The queries and edge detectors read the bus address, the pad state
    and the chatpad sample of a device and write only the two histories
    of it. *)
Definition inputs (x : usbh_xinput_t) : Z * xinput_padstate_t * list Z :=
  (bAddress x, pad_state x, chatpad_state x).

(** ** Traces of the chatpad edge detector

    Between two polls the decoder may store a new chatpad sample; the
    history is only touched by the edge detector itself. *)

Definition poll (x : usbh_xinput_t) (sample : list Z) (code : Z)
  : usbh_xinput_t * Z :=
  usbh_xinput_was_chatpad_pressed (set_chatpad_state x sample) code.

(** A run of polls of any codes: each entry is the sample the decoder
    has stored before the poll, and the code polled.  The mapping
    engine polls many codes on the one history of a device. *)
Fixpoint poll_run (x : usbh_xinput_t) (polls : list (list Z * Z))
  : usbh_xinput_t * list Z :=
  match polls with
  | [] => (x, [])
  | (sample, code) :: rest =>
      let (x, r) := poll x sample code in
      let (x, rs) := poll_run x rest in
      (x, r :: rs)
  end.

(** The key [code] is down on device [x] once [sample] is stored. *)
Definition key_down (x : usbh_xinput_t) (code : Z) (sample : list Z) : Prop :=
  Forall is_u8 sample /\
  usbh_xinput_is_chatpad_pressed (set_chatpad_state x sample) code = 1.

Definition key_up (x : usbh_xinput_t) (code : Z) (sample : list Z) : Prop :=
  usbh_xinput_is_chatpad_pressed (set_chatpad_state x sample) code = 0.

(** ** Concrete inputs

    The states and packets on which properties are evaluated. *)

(** A wired pad in slot 0 that asks for rumble and for LED quadrant 2
    while the host controller reports a failed write. *)
Definition failing_write_driver : XINPUT :=
  mk_XINPUT 1 [mk_EpInfo 0 8 0; mk_EpInfo 1 32 0x80; mk_EpInfo 2 32 0]
    0x028e 0x045e XBOX360_WIRED
    [mk_xinput 0 1 (Some 1%nat) (Some 2%nat) XBOX360_WIRED
       (mk_padstate 0 0 0 0 0 0 0) 0 200 100 0 0 2 0 0
       [0; 0; 0] [0; 0; 0] 0 0 0 0 0 0;
     xinput_zero; xinput_zero; xinput_zero]
    (repeat 0 256) [].

(** A wired pad in slot 0; [xdata] still holds the previous, complete
    report. *)
Definition short_packet_driver : XINPUT :=
  mk_XINPUT 1 [mk_EpInfo 0 8 0; mk_EpInfo 1 32 0x80; mk_EpInfo 2 32 0]
    0x028e 0x045e XBOX360_WIRED
    [mk_xinput 0 1 (Some 1%nat) (Some 2%nat) XBOX360_WIRED
       (mk_padstate 0 0 0 0 0 0 0) 0 0 0 0 0 1 1 0
       [0; 0; 0] [0; 0; 0] 0 0 0 0 0 0;
     xinput_zero; xinput_zero; xinput_zero]
    ([0x00; 0x14; 0x00; 0x00; 0x00; 0x00; 0x00; 0x00; 0x00; 0x00; 0x00; 0x00;
      0x00; 0x7F] ++ repeat 0 242) [].

(** Thirteen bytes, one less than the wired report needs. *)
Definition short_packet : list Z :=
  [0x00; 0x14; 0x01; 0x00; 0xFF; 0x00; 0x10; 0x00; 0x20; 0x00; 0x30; 0x00; 0x40].

(** A wireless pad whose chatpad holds the comma (ignition) and P
    (cockpit hatch) keys, with the pointer away from zero. *)
Definition ignition_state : Master.sb_state :=
  Master.mk_sb_state
    (mk_xinput 0 1 (Some 1%nat) (Some 2%nat) XBOX360_WIRELESS
       (mk_padstate 0 0 0 0 0 20000 0) 0 0 0 0 0 1 1 1
       [0; XINPUT_CHATPAD_COMMA; XINPUT_CHATPAD_P] [0; 0; 0] 0 0 0 0 0 0)
    (Master.mk_sb_in 0 26 (Master.mk_words 0 0 0) 0 0 0 0 0 0 0 0 0 8)
    (repeat 0 22)
    (Master.mk_user_data 0 0 32768 32768)
    (Master.mk_settings 400 []).

(** Three ticks of the cockpit mapping: the left stick is released at
    1000 ms, clicked in at 1200 ms with the right stick pushed, and still
    held at 1501 ms. *)
Definition tick_released : Master.sb_tick :=
  Master.mk_tick (Master.mk_env 1000 0)
    (mk_padstate 0 0 0 0 0 32767 (-32768)) [0; 0; 0] (repeat 0 22).

Definition tick_held : Master.sb_tick :=
  Master.mk_tick (Master.mk_env 1200 0)
    (mk_padstate XINPUT_GAMEPAD_LEFT_THUMB 0 0 0 0 32767 (-32768)) [0; 0; 0]
    (repeat 0 22).

Definition tick_recentre : Master.sb_tick :=
  Master.mk_tick (Master.mk_env 1501 0)
    (mk_padstate XINPUT_GAMEPAD_LEFT_THUMB 0 0 0 0 32767 (-32768)) [0; 0; 0]
    (repeat 0 22).

(** A pointer close to the upper bound and the fastest preset. *)
Definition pointer_state : Master.sb_state :=
  Master.mk_sb_state
    (mk_xinput 0 1 (Some 1%nat) (Some 2%nat) XBOX360_WIRELESS
       (mk_padstate 0 0 0 0 0 0 0) 0 0 0 0 0 1 1 1
       [0; 0; 0] [0; 0; 0] 0 0 0 0 0 0)
    (Master.mk_sb_in 0 26 (Master.mk_words 0 0 0) 0 0 0 0 0 0 0 0 0 8)
    (repeat 0 22)
    (Master.mk_user_data 0 0 65500 20)
    (Master.mk_settings 200 []).

(** Four connected wired pads on the coordinator; the bus fails the
    send to peer 2 and serves the other peers. *)
Definition four_pads : Master.master_state :=
  let pad (k : Z) :=
    Master.mk_slot
      (mk_xinput 0 k (Some 1%nat) (Some 2%nat) XBOX360_WIRED
         (mk_padstate XINPUT_GAMEPAD_A 0 0 0 0 0 0) 0 0 0 0 0 k k 0
         [0; 0; 0] [0; 0; 0] 0 0 0 0 0 0)
      (Master.mk_controller 1
         (Master.mk_duke_in 0 20 0 0 0 0 0 0 0 0 0 0 0 0 0) (repeat 0 6)
         (Master.mk_sb_in 0 26 (Master.mk_words 0 0 0) 0 0 0 0 0 0 0 0 0 8)
         (repeat 0 22))
      (Master.mk_user_data 0 0 32768 32768) in
  Master.mk_master [pad 1; pad 2; pad 3; pad 4] (Master.mk_settings 400 []).

Definition bus_peer2_fails (i : nat) : Master.slot_io :=
  if (i =? 2)%nat
  then Master.mk_io (Master.mk_env 5000 0) 2 6 [0; 6; 0xAA; 0xAA; 0; 0]
  else Master.mk_io (Master.mk_env 5000 0) 0 6 [0; 6; 0x55; 0x55; 0; 0].

(** The oxygen supply switch (the Q key) beside the filter control
    switch (the A key).  Both switches are on and A is held down all
    the time: its code is in the history, next to a stale entry.  Q
    goes down, stays down for two more calls, is released, and goes
    down again; the left stick is clicked in on the way. *)
Definition oxygen_entry : Master.sb_map_t :=
  Master.mk_map XINPUT_CHATPAD_Q
    (SBC_W2_TOGGLEOXYGENSUPPLY (usbd_xid_h := xid_layout)) 2.

Definition oxygen_on : Master.sb_state :=
  Master.mk_sb_state
    (mk_xinput 0 1 (Some 1%nat) (Some 2%nat) XBOX360_WIRELESS
       (mk_padstate 0 0 0 0 0 0 0) 0 0 0 0 0 1 1 1
       [0; 0; 0] [XINPUT_CHATPAD_A; XINPUT_CHATPAD_D; 0] 0 0 0 0 0 0)
    (Master.mk_sb_in 0 26 (Master.mk_words 0 0 0x000C) 0 0 0 0 0 0 0 0 0 8)
    (repeat 0 22)
    (Master.mk_user_data 0 0 32768 32768)
    (Master.mk_settings 400 []).

Definition tick_q_down : Master.sb_tick :=
  Master.mk_tick (Master.mk_env 100 0)
    (mk_padstate XINPUT_GAMEPAD_A 0 0 0 0 0 0)
    [0; XINPUT_CHATPAD_Q; XINPUT_CHATPAD_A] (repeat 0 22).

Definition tick_q_held : Master.sb_tick :=
  Master.mk_tick (Master.mk_env 104 0)
    (mk_padstate XINPUT_GAMEPAD_LEFT_THUMB 0 0 0 0 0 0)
    [0; XINPUT_CHATPAD_A; XINPUT_CHATPAD_Q] (repeat 0 22).

Definition tick_q_still : Master.sb_tick :=
  Master.mk_tick (Master.mk_env 108 0)
    (mk_padstate 0 0 0 0 0 0 0)
    [0; XINPUT_CHATPAD_Q; XINPUT_CHATPAD_A] (repeat 0 22).

Definition tick_q_up : Master.sb_tick :=
  Master.mk_tick (Master.mk_env 112 0)
    (mk_padstate XINPUT_GAMEPAD_LEFT_THUMB 0 0 0 0 0 0)
    [0; XINPUT_CHATPAD_A; 0] (repeat 0 22).

Definition tick_q_again : Master.sb_tick :=
  Master.mk_tick (Master.mk_env 116 0)
    (mk_padstate 0 0 0 0 0 0 0)
    [0; XINPUT_CHATPAD_A; XINPUT_CHATPAD_Q] (repeat 0 22).

(** * The rest of the firmware *)

(** ** usbh_xinput.h: the remaining command packets *)

Definition XBOX_MAX_ENDPOINTS : nat := 9.

Definition xbox360w_inquire_present : list Z := [0x08; 0x00; 0x0F; 0xC0].
Definition xbox360w_power_off : list Z := [0x00; 0x00; 0x08; 0xC0].
Definition xbox360w_chatpad_init : list Z := [0x00; 0x00; 0x0C; 0x1B].
Definition xbox360w_chatpad_keepalive1 : list Z := [0x00; 0x00; 0x0C; 0x1F].
Definition xbox360w_chatpad_keepalive2 : list Z := [0x00; 0x00; 0x0C; 0x1E].
Definition xbox360w_chatpad_led_ctrl : list Z := [0x00; 0x00; 0x0C; 0x00].
Definition chatpad_mod : list Z :=
  [XINPUT_CHATPAD_CAPSLOCK; XINPUT_CHATPAD_GREEN; XINPUT_CHATPAD_ORANGE;
   XINPUT_CHATPAD_MESSENGER].
Definition chatpad_led_on : list Z := [0x08; 0x09; 0x0A; 0x0B].
Definition chatpad_led_off : list Z := [0x00; 0x01; 0x02; 0x03].

Definition set_chatpad_keepalive_toggle (x : usbh_xinput_t) (v : Z) :=
  mk_xinput (itf_num x) (bAddress x) (usbh_inPipe x) (usbh_outPipe x) (type x)
    (pad_state x) (pad_state_wButtons_old x) (lValue_requested x)
    (rValue_requested x) (lValue_actual x) (rValue_actual x)
    (led_requested x) (led_actual x)
    (chatpad_initialised x) (chatpad_state x) (chatpad_state_old x)
    (chatpad_led_requested x) (chatpad_led_actual x)
    v (timer_periodic x) (timer_out x) (timer_poweroff x).

Definition set_timer_periodic (x : usbh_xinput_t) (v : Z) :=
  mk_xinput (itf_num x) (bAddress x) (usbh_inPipe x) (usbh_outPipe x) (type x)
    (pad_state x) (pad_state_wButtons_old x) (lValue_requested x)
    (rValue_requested x) (lValue_actual x) (rValue_actual x)
    (led_requested x) (led_actual x)
    (chatpad_initialised x) (chatpad_state x) (chatpad_state_old x)
    (chatpad_led_requested x) (chatpad_led_actual x)
    (chatpad_keepalive_toggle x) v (timer_out x) (timer_poweroff x).

Definition set_timer_poweroff (x : usbh_xinput_t) (v : Z) :=
  mk_xinput (itf_num x) (bAddress x) (usbh_inPipe x) (usbh_outPipe x) (type x)
    (pad_state x) (pad_state_wButtons_old x) (lValue_requested x)
    (rValue_requested x) (lValue_actual x) (rValue_actual x)
    (led_requested x) (led_actual x)
    (chatpad_initialised x) (chatpad_state x) (chatpad_state_old x)
    (chatpad_led_requested x) (chatpad_led_actual x)
    (chatpad_keepalive_toggle x) (timer_periodic x) (timer_out x) v.

(** ** usbh_xinput.cpp: the out pipes of [XINPUT::Poll]

    One pass of the loop body of [Poll] for an endpoint that is not an
    IN endpoint.  [xinput] is the device the lookup at the head of the
    body has found ([None] for [NULL]), [ep] the loop index.  The body
    reads [millis()] several times; [millis k] is what the call number
    [k] of the pass returns.  The result codes of the transfers are
    dropped by [Poll]. *)

(** One turn of [for (led = 0; led < 4; led++)]; the state is the driver
    and the number of [millis()] calls so far. *)
Definition chatpad_led_step (i ep : nat) (millis : nat -> Z)
  (st : XINPUT * nat) (led : nat) : XINPUT * nat :=
  let (d, k) := st in
  let x := dev d i in
  let m := nth led chatpad_mod 0 in
  let actual := u8 (Z.land (chatpad_led_actual x) m) in
  let want := u8 (Z.land (chatpad_led_requested x) m) in
  let send (code led_actual' : Z) : XINPUT * nat :=
    let d := set_xdata d (Buf.set (xdata d) 3 code) in
    let d := upd_dev d i (fun x => set_chatpad_led_actual x led_actual') in
    let d := outTransfer_xdata d
               (epAddr (nth ep (this_epInfo d) (mk_EpInfo 0 0 0)))
               (length xbox360w_chatpad_led_ctrl) in
    let d := upd_dev d i (fun x =>
               set_timer_periodic (set_timer_out x (millis k))
                 (u32 (timer_periodic x - 2000))) in
    (d, S k) in
  if negb (truthy actual) && truthy want then
    send (nth led chatpad_led_on 0) (u8 (Z.lor (chatpad_led_actual x) m))
  else if truthy actual && negb (truthy want) then
    send (nth led chatpad_led_off 0)
         (u8 (Z.land (chatpad_led_actual x) (Z.lnot m)))
  else (d, k).

Definition Poll_out (d : XINPUT) (xinput : option nat) (ep : nat)
  (millis : nat -> Z) : XINPUT :=
  match xinput with
  | None => d
  | Some i =>
      let x := dev d i in
      let wireless := xinput_type_eqb (type x) XBOX360_WIRELESS in
      let xbox_button :=
        truthy (Z.land (wButtons (pad_state x)) XINPUT_GAMEPAD_XBOX_BUTTON) in
      (* controller isn't connected *)
      if pipe_epAddr d (usbh_outPipe x) =? 0x00 then d
      else if u32 (millis 0%nat - timer_out x) <? 20 then d
      (* send rumble *)
      else if negb (lValue_requested x =? lValue_actual x)
              || negb (rValue_requested x =? rValue_actual x) then
        fst (SetRumble d i (lValue_requested x) (rValue_requested x)
               (millis 1%nat) hrSUCCESS)
      (* send LED commands *)
      else if negb (led_requested x =? led_actual x) then
        fst (SetLed d i (led_requested x) (millis 1%nat) hrSUCCESS)
      (* chatpad initialisation *)
      else if wireless && (chatpad_initialised x =? 0) then
        upd_dev (WritePacket d i xbox360w_chatpad_init (millis 1%nat)) i
                (fun x => set_chatpad_initialised x 1)
      (* chatpad LEDs *)
      else if wireless
              && negb (chatpad_led_requested x =? chatpad_led_actual x) then
        let d := set_xdata d
                   (Buf.memcpy (xdata d) xbox360w_chatpad_led_ctrl
                      (length xbox360w_chatpad_led_ctrl)) in
        fst (fold_left (chatpad_led_step i ep millis) [0; 1; 2; 3]%nat
               (d, 1%nat))
      (* controller power off *)
      else if wireless && xbox_button then
        if 1000 <? u32 (millis 1%nat - timer_poweroff x) then
          upd_dev (WritePacket d i xbox360w_power_off (millis 2%nat)) i
                  (fun x => set_timer_poweroff x (millis 3%nat))
        else d
      (* reset the hold timer of the Xbox button *)
      else if wireless && negb xbox_button then
        upd_dev d i (fun x => set_timer_poweroff x (millis 1%nat))
      (* background periodic writes *)
      else if 1000 <? u32 (millis 1%nat - timer_periodic x) then
        if wireless then
          let d := WritePacket d i xbox360w_inquire_present (millis 2%nat) in
          let d := WritePacket d i xbox360w_controller_info (millis 3%nat) in
          let d := fst (SetLed d i (led_requested (dev d i)) (millis 4%nat)
                          hrSUCCESS) in
          let d := upd_dev d i (fun x =>
                     set_chatpad_keepalive_toggle x
                       (u8 (Z.lxor (chatpad_keepalive_toggle x) 1))) in
          let d := WritePacket d i
                     (if truthy (chatpad_keepalive_toggle (dev d i))
                      then xbox360w_chatpad_keepalive1
                      else xbox360w_chatpad_keepalive2) (millis 5%nat) in
          upd_dev d i (fun x => set_timer_periodic x (millis 6%nat))
        else upd_dev d i (fun x => set_timer_periodic x (millis 2%nat))
      else d
  end.

(** The packets that keep the chatpad of a wireless pad alive. *)
Definition keep_alive_packet (p : list Z) : Prop :=
  p = xbox360w_chatpad_keepalive1 \/ p = xbox360w_chatpad_keepalive2 \/
  p = xbox360w_inquire_present.

(** A field of the device record that no assignment of the out pipes
    touches. *)
Definition kept_by_poll {B : Type} (g : usbh_xinput_t -> B) : Prop :=
  (forall x t, g (set_timer_out x t) = g x) /\
  (forall x t, g (set_timer_periodic x t) = g x) /\
  (forall x t, g (set_timer_poweroff x t) = g x) /\
  (forall x l r, g (set_rumble_actual x l r) = g x) /\
  (forall x v, g (set_led_actual x v) = g x) /\
  (forall x v, g (set_chatpad_initialised x v) = g x) /\
  (forall x v, g (set_chatpad_led_actual x v) = g x) /\
  (forall x v, g (set_chatpad_keepalive_toggle x v) = g x).

(** ** usbh_xinput.cpp: [XINPUT::Release]

    Besides the driver the result holds [bIsReady], the address handed
    to [FreeAddress] and the value returned. *)
Record released : Type := mk_released {
  rel_driver : XINPUT;
  rel_bIsReady : bool;
  rel_freed : Z;
  rel_result : Z
}.

Definition Release (d : XINPUT) : released :=
  let clear (x : usbh_xinput_t) :=
    if truthy (this_bAddress d) && (bAddress x =? this_bAddress d)
    then xinput_zero else x in
  let devs := map clear (firstn XINPUT_MAXGAMEPADS (xinput_devices d))
              ++ skipn XINPUT_MAXGAMEPADS (xinput_devices d) in
  let eps := map (fun _ => mk_EpInfo 0 0 0)
                 (firstn XBOX_MAX_ENDPOINTS (this_epInfo d))
             ++ skipn XBOX_MAX_ENDPOINTS (this_epInfo d) in
  mk_released
    (mk_XINPUT 0 eps (this_PID d) (this_VID d) (dev_type d) devs (xdata d)
               (usb_trace d))
    false (this_bAddress d) 0.

(** ** Traces of the gamepad edge detector

    Between two polls the decoder may store a new pad state; the button
    history is only touched by the edge detector itself. *)
Definition pad_poll (x : usbh_xinput_t) (p : xinput_padstate_t) (mask : Z)
  : usbh_xinput_t * Z :=
  usbh_xinput_was_gamepad_pressed (set_pad_state x p) mask.

Fixpoint pad_poll_all (x : usbh_xinput_t) (ps : list xinput_padstate_t)
  (mask : Z) : usbh_xinput_t * list Z :=
  match ps with
  | [] => (x, [])
  | p :: rest =>
      let (x, r) := pad_poll x p mask in
      let (x, rs) := pad_poll_all x rest mask in
      (x, r :: rs)
  end.

(** ** usbd_xid.cpp: the in-report, the device type and the constructor *)

Module Usbd.
Import Xid.

(** [memcmp(a, b, n) != 0] *)
Fixpoint bytes_eqb (a b : list Z) : bool :=
  match a, b with
  | [], [] => true
  | x :: a', y :: b' => (x =? y) && bytes_eqb a' b'
  | _, _ => false
  end.

Definition memcmp_differs (a b : list Z) (n : nat) : bool :=
  negb (bytes_eqb (firstn n a) (firstn n b)).

Section WithHeader.
Context {H : usbd_xid_h}.

(** [sizeof(xid_in_data)], a member array declared in [usbd_xid.h]. *)
Variable sizeof_xid_in_data : Z.

(** [MIN(len, sizeof(xid_in_data))] *)
Definition capped_in (len : Z) : Z :=
  if u16 len <? u16 sizeof_xid_in_data then u16 len else sizeof_xid_in_data.

(** [XID_::sendReport(data, len)].  [sent_len] is what [USB_Send]
    returns.  The result holds the device, the bytes handed to
    [USB_Send] ([None] when it is not called) and the returned [int]. *)
Definition sendReport (x : XID_) (data : list Z) (len : Z) (sent_len : Z)
  : XID_ * option (list Z) * Z :=
  let capped_len := capped_in len in
  let n := Z.to_nat capped_len in
  if memcmp_differs (xid_in_data x) data n then
    let in_data := Buf.memcpy (xid_in_data x) data n in
    (mk_XID in_data (xid_out_data x) (xid_out_expired x) (xid_type x),
     Some (firstn n in_data), sent_len)
  else (x, None, capped_len).

(** [XID_::setType(type)].  [detach] is the DETACH bit of [UDCON]; the
    third component tells whether the device has dropped off the bus
    for the 10 ms pulse. *)
Definition setType (x : XID_) (detach : bool) (ty : Z) : XID_ * bool * bool :=
  if xid_type x =? ty then (x, detach, false)
  else
    let x := mk_XID (xid_in_data x) (xid_out_data x) (xid_out_expired x) ty in
    (x, if negb (xid_type x =? DISCONNECTED) then false else true, true).

Definition getType (x : XID_) : Z := xid_type x.

(** [XID_::XID_()] on the zero-initialised static object. *)
Definition XID_new : XID_ :=
  mk_XID (repeat 0 (Z.to_nat sizeof_xid_in_data))
         (repeat 0 (Z.to_nat sizeof_xid_out_data)) 0 DUKE.

End WithHeader.
End Usbd.

(** ** slave.cpp: the reply of a peer node, and main.cpp: the poll of
    the console *)

Module Node.

(** [usbd_c[0]] with its four reports as byte arrays. *)
Record usbd_slot : Type := mk_usbd_slot {
  slot_in : Slave.usbd_controller_t;   (* type, duke.in, sb.in *)
  duke_out : list Z;
  sb_out : list Z
}.

Record node : Type := mk_node {
  usbd_xid : Xid.XID_;
  usbd_c0 : usbd_slot;
  poll_timer : Z;            (* uint32_t *)
  udcon_detach : bool;       (* UDCON, bit DETACH *)
  rxled : bool
}.

Section WithHeader.
Context {H : usbd_xid_h}.
Variable sizeof_xid_in_data : Z.

(** [i2c_send_data]: the bytes handed to [Wire.write]. *)
Definition i2c_send_data (s : usbd_slot) : list Z :=
  if Slave.c_type (slot_in s) =? DUKE then
    firstn (Z.to_nat sizeof_usbd_duke_out_t) (duke_out s)
  else if Slave.c_type (slot_in s) =? STEELBATTALION then
    firstn (Z.to_nat sizeof_usbd_sbattalion_out_t) (sb_out s)
  else [0].

(** [i2c_get_data] on the slot; the out-reports are not touched. *)
Definition i2c_receive (s : usbd_slot) (w : TwoWire.wire) (len : Z)
  : usbd_slot :=
  mk_usbd_slot (fst (fst (Slave.i2c_get_data (slot_in s) w len)))
               (duke_out s) (sb_out s).

(** The second half of [loop()], after [master_task()] or
    [slave_task()].  [millis k] is the result of call number [k] of
    [millis()], [sent_len] what [USB_Send] returns, [recv_len] and [r]
    what [USB_Recv] returns and stores.  The second component lists the
    reports handed to [USB_Send]. *)
Definition loop_poll (n : node) (millis : nat -> Z)
  (sent_len recv_len : Z) (r : list Z) : node * list (list Z) :=
  if 4 <=? u32 (millis 0%nat - poll_timer n) then
    let current_type := Usbd.getType (usbd_xid n) in
    let c := usbd_c0 n in
    let ty := Slave.c_type (slot_in c) in
    let sent (o : option (list Z)) :=
      match o with Some b => [b] | None => [] end in
    if current_type =? DUKE then
      let '(xid, detach, _) :=
        if negb (ty =? DUKE)
        then Usbd.setType (usbd_xid n) (udcon_detach n) DUKE
        else (usbd_xid n, udcon_detach n, false) in
      let '(xid, tx, _) :=
        Usbd.sendReport sizeof_xid_in_data xid (Slave.duke_in (slot_in c))
          sizeof_usbd_duke_in_t sent_len in
      let '(xid, out, _) :=
        Xid.getReport xid (duke_out c) sizeof_usbd_duke_out_t recv_len r
          (millis 1%nat) in
      (mk_node xid (mk_usbd_slot (slot_in c) out (sb_out c)) (millis 2%nat)
               false true,
       sent tx)
    else if current_type =? STEELBATTALION then
      let '(xid, detach, _) :=
        if negb (ty =? STEELBATTALION)
        then Usbd.setType (usbd_xid n) (udcon_detach n) STEELBATTALION
        else (usbd_xid n, udcon_detach n, false) in
      let '(xid, tx, _) :=
        Usbd.sendReport sizeof_xid_in_data xid (Slave.sb_in (slot_in c))
          sizeof_usbd_sbattalion_in_t sent_len in
      let '(xid, out, _) :=
        Xid.getReport xid (sb_out c) sizeof_usbd_sbattalion_out_t recv_len r
          (millis 1%nat) in
      (mk_node xid (mk_usbd_slot (slot_in c) (duke_out c) out) (millis 2%nat)
               false true,
       sent tx)
    else if current_type =? DISCONNECTED then
      let '(xid, detach, _) :=
        if negb (ty =? DISCONNECTED)
        then Usbd.setType (usbd_xid n) (udcon_detach n) DISCONNECTED
        else (usbd_xid n, udcon_detach n, false) in
      (mk_node xid c (millis 1%nat) true false, [])
    else
      (mk_node (usbd_xid n) c (millis 1%nat) (udcon_detach n) (rxled n), [])
  else (n, []).

(** [loop()]: the task of the node (with the bus handlers that
    interrupt it) leaves [usbd_c[0]] as [lio_task] says, then the
    console is polled with the readings of this turn. *)
Record loop_io : Type := mk_loop_io {
  lio_task : usbd_slot -> usbd_slot;
  lio_millis : nat -> Z;
  lio_sent_len : Z;
  lio_recv_len : Z;
  lio_recv : list Z
}.

Definition loop (n : node) (io : loop_io) : node * list (list Z) :=
  loop_poll
    (mk_node (usbd_xid n) (lio_task io (usbd_c0 n)) (poll_timer n)
             (udcon_detach n) (rxled n))
    (lio_millis io) (lio_sent_len io) (lio_recv_len io) (lio_recv io).

Definition loops (ios : list loop_io) (n : node) : node :=
  fold_left (fun n io => fst (loop n io)) ios n.

End WithHeader.
End Node.

(** ** master.cpp: [master_init] and the EEPROM *)

Module Boot.
Import Master.

Definition magic : Z := 0xAB.

(** The EEPROM as its bytes; [EEPROM.put(a, v)] and [EEPROM.get(a, v)]
    for a [uint16_t], whose low byte comes first on the target. *)
Definition EEPROM_read (rom : list Z) (a : nat) : Z := Buf.get rom a.
Definition EEPROM_write (rom : list Z) (a : nat) (v : Z) : list Z :=
  Buf.set rom a (u8 v).
Definition EEPROM_put16 (rom : list Z) (a : nat) (v : Z) : list Z :=
  Buf.set (Buf.set rom a (u8 v)) (S a) (u8 (Z.shiftr (u16 v) 8)).
Definition EEPROM_get16 (rom : list Z) (a : nat) : Z :=
  u16 (Z.lor (Buf.get rom a) (Z.shiftl (Buf.get rom (S a)) 8)).

(** The EEPROM after the [EEPROM.put(1, v)] calls logged in a
    [settings] record (most recent first). *)
Definition EEPROM_replay (puts : list Z) (rom : list Z) : list Z :=
  fold_right (fun v rom => EEPROM_put16 rom 1 v) rom puts.

Section WithHeader.
Context {H : usbd_xid_h}.

(** The initial cockpit state of one slot. *)
Definition init_slot (s : slot) : slot :=
  let c := usbd_c s in
  let r := sb_in c in
  let u := user_data s in
  mk_slot (usbh_xinput s)
    (mk_controller (c_type c) (duke_in c) (duke_out c)
       (mk_sb_in (sb_startByte r) (sb_bLength r) (sb_wButtons r) (aimingX r)
          (aimingY r) (rotationLever r) (sightChangeX r) (sightChangeY r)
          (leftPedal r) (middlePedal r) (rightPedal r) (tunerDial r)
          (u8 SBC_GEAR_N))
       (sb_out c))
    (mk_user_data (modifiers u) (button_hold_timer u)
       (s32 SBC_AIMING_MID) (s32 SBC_AIMING_MID)).

(** [master_init].  [init_failures] is the number of times
    [UsbHost.Init()] returns -1 before it succeeds (the function does
    not return while it fails), [led] the level of the status LED pin,
    [rom] the EEPROM.  The pings are listed in the order they are
    sent. *)
Definition master_init (st : master_state) (rom : list Z)
  (init_failures : nat) (led : bool)
  : master_state * list Z * bool * list wire_event :=
  let led := Nat.iter init_failures negb led in
  let pings := map (fun i => Transmit i 0xAA TxNone)
                   (seq 1 (MAX_GAMEPADS - 1)) in
  let slots' := map init_slot (firstn MAX_GAMEPADS (slots st))
                ++ skipn MAX_GAMEPADS (slots st) in
  let g := globals st in
  if negb (EEPROM_read rom 0 =? magic) then
    let rom := EEPROM_write rom 0 magic in
    let rom := EEPROM_put16 rom 1 (sb_sensitivity g) in
    (mk_master slots'
       (mk_settings (sb_sensitivity g) (sb_sensitivity g :: eeprom_puts g)),
     rom, led, pings)
  else
    (mk_master slots' (mk_settings (EEPROM_get16 rom 1) (eeprom_puts g)),
     rom, led, pings).

End WithHeader.
End Boot.

(** ** Predicates used in the statements *)

(** What a report of a device cannot change: its place on the bus, its
    family, the requests of the mapping engine and the histories of the
    edge detectors. *)
Definition kept_by_decoder (x : usbh_xinput_t) :=
  (bAddress x, itf_num x, usbh_inPipe x, usbh_outPipe x, type x,
   (lValue_requested x, rValue_requested x, led_requested x,
    chatpad_led_requested x),
   (pad_state_wButtons_old x, chatpad_state_old x)).

(** The record [alloc_xinput_device] leaves in the slot it has chosen,
    field by field: the seven fields it assigns, the time of the last
    write, which the start-up packets of a wireless or Xbox One pad
    stamp through [WritePacket], and every other field as it was. *)
Definition allocated (x x' : usbh_xinput_t) (bAddr itf : Z)
  (pin pout : option nat) (ty : xinput_type_t) (index : nat) (now : Z)
  : Prop :=
  x' = mk_xinput itf bAddr pin pout ty
         (pad_state x) (pad_state_wButtons_old x)
         (lValue_requested x) (rValue_requested x)
         (lValue_actual x) (rValue_actual x)
         (Z.of_nat index + 1) (led_actual x)
         (chatpad_initialised x) (chatpad_state x) (chatpad_state_old x)
         XINPUT_CHATPAD_GREEN (chatpad_led_actual x)
         (chatpad_keepalive_toggle x) (timer_periodic x)
         (match ty with
          | XBOX360_WIRELESS | XBOXONE => now
          | _ => timer_out x
          end)
         (timer_poweroff x).

(** A field of the device record that the edge detectors do not
    touch. *)
Definition kept_by_edges {B : Type} (g : usbh_xinput_t -> B) : Prop :=
  (forall x v, g (set_chatpad_state_old x v) = g x) /\
  (forall x v, g (set_wButtons_old x v) = g x).

(** A press that the history does not hold yet. *)
Definition rising_edge (x : usbh_xinput_t) (mask : Z) : bool :=
  negb (Z.land (wButtons (pad_state x)) mask =? 0)
  && (Z.land (pad_state_wButtons_old x) mask =? 0).

(** ** More concrete inputs *)

(** A wired pad in slot 0 with rumble 200/100 running; [xdata] holds a
    report with D-pad up, the guide button (bit 10) and A. *)
Definition wired_pad (buf : list Z) : XINPUT :=
  mk_XINPUT 1 [mk_EpInfo 0 8 0; mk_EpInfo 1 32 0x80; mk_EpInfo 2 32 0]
    0x028e 0x045e XBOX360_WIRED
    [mk_xinput 0 1 (Some 1%nat) (Some 2%nat) XBOX360_WIRED
       (mk_padstate 0 0 0 0 0 0 0) 0 200 100 200 100 1 1 0
       [0; 0; 0] [0; 0; 0] 0 0 0 0 0 0;
     xinput_zero; xinput_zero; xinput_zero]
    (buf ++ repeat 0 (256 - length buf)) [].

Definition wired_report : list Z :=
  [0x00; 0x14; 0x01; 0x14; 0x80; 0x00; 0x10; 0x00; 0x20; 0x00; 0x30; 0x00;
   0x40; 0x80].

(** A rumble feedback packet that reports both motors at full level. *)
Definition wired_rumble_feedback : list Z :=
  [0x03; 0x00; 0x00; 0xFF; 0xFF; 0x00; 0x00; 0x00].

(** An Xbox One pad in slot 0; the left trigger is fully pulled (1023),
    the right one half way (512). *)
Definition xboxone_pad : XINPUT :=
  mk_XINPUT 1 [mk_EpInfo 0 8 0; mk_EpInfo 1 32 0x80; mk_EpInfo 2 32 0]
    0x02ea 0x045e XBOXONE
    [mk_xinput 0 1 (Some 1%nat) (Some 2%nat) XBOXONE
       (mk_padstate 0 0 0 0 0 0 0) 0 0 0 0 0 1 1 0
       [0; 0; 0] [0; 0; 0] 0 0 0 0 0 0;
     xinput_zero; xinput_zero; xinput_zero]
    ([0x20; 0x00; 0x01; 0x0E; 0x10; 0x00; 0xFF; 0x03; 0x00; 0x02]
     ++ repeat 0 246) [].

(** A wired pad in slot 0 that has rumble 50/60 and LED quadrant 3
    requested and none of them served yet. *)
Definition pending_pad : XINPUT :=
  mk_XINPUT 1 [mk_EpInfo 0 8 0; mk_EpInfo 1 32 0x80; mk_EpInfo 2 32 0]
    0x028e 0x045e XBOX360_WIRED
    [mk_xinput 0 1 (Some 1%nat) (Some 2%nat) XBOX360_WIRED
       (mk_padstate 0 0 0 0 0 0 0) 0 50 60 0 0 3 0 0
       [0; 0; 0] [0; 0; 0] 0 0 0 0 0 0;
     xinput_zero; xinput_zero; xinput_zero]
    (repeat 0 256) [].

(** The wireless receiver: nine endpoints, a pad on the first pair and
    the packet just received in [xdata]. *)
Definition wireless_pad_1 : usbh_xinput_t :=
  mk_xinput 0 1 (Some 1%nat) (Some 2%nat) XBOX360_WIRELESS
    (mk_padstate XINPUT_GAMEPAD_A 0 0 0 0 0 0) 0 0 0 0 0 1 1 1
    [0; 0; 0] [0; 0; 0] XINPUT_CHATPAD_GREEN XINPUT_CHATPAD_GREEN 0 0 0 0.

Definition wireless_receiver (pads : list usbh_xinput_t) (buf : list Z)
  : XINPUT :=
  mk_XINPUT 1
    [mk_EpInfo 0 8 0; mk_EpInfo 1 32 0x80; mk_EpInfo 1 32 0;
     mk_EpInfo 3 32 0x80; mk_EpInfo 3 32 0; mk_EpInfo 5 32 0x80;
     mk_EpInfo 5 32 0; mk_EpInfo 7 32 0x80; mk_EpInfo 7 32 0]
    0x0719 0x045e XBOX360_WIRELESS pads
    (buf ++ repeat 0 (256 - length buf)) [].

(** The console facing device after its constructor, with 32 byte
    report buffers, and a Duke in-report with the A button down. *)
Definition console_device : Xid.XID_ :=
  Usbd.XID_new (H := xid_layout) 32.

Definition duke_report : list Z :=
  [0x00; 0x14; 0x00; 0x00; 0xFF] ++ repeat 0x00 15.

(** A slot of the coordinator in Duke mode, and the slot of its peer,
    which was in Steel Battalion mode and has an out-report from the
    console with the left motor at 0x8000. *)
Definition coordinator_slot : Master.usbd_controller_t :=
  Master.mk_controller 1
    (Master.mk_duke_in 0 20 0 0xFF 0 0 0 0 0 0 0 0 0 0 0) (repeat 0 6)
    (Master.mk_sb_in 0 26 (Master.mk_words 0 0 0) 0 0 0 0 0 0 0 0 0 8)
    (repeat 0 22).

Definition peer_slot : Node.usbd_slot :=
  Node.mk_usbd_slot (Slave.mk_slot 2 (repeat 0 20) (repeat 0 26))
    [0x00; 0x06; 0x00; 0x80; 0x00; 0x00] (repeat 0x11 22).

(** A wired pad with the right stick clicked in and pushed up, and
    D-pad up newly pressed. *)
Definition stick_pad : usbh_xinput_t :=
  mk_xinput 0 1 (Some 1%nat) (Some 2%nat) XBOX360_WIRED
    (mk_padstate (XINPUT_GAMEPAD_RIGHT_THUMB + XINPUT_GAMEPAD_DPAD_UP)
       0 0 0 0 0 1000)
    0 0 0 0 0 1 1 0 [0; 0; 0] [0; 0; 0] 0 0 0 0 0 0.

(** A wireless pad whose chatpad reports the given sample. *)
Definition chatpad_pad (wButtons : Z) (sample : list Z) : usbh_xinput_t :=
  mk_xinput 0 1 (Some 1%nat) (Some 2%nat) XBOX360_WIRELESS
    (mk_padstate wButtons 0 0 0 0 0 0) 0 0 0 0 0 1 1 1
    sample [0; 0; 0] XINPUT_CHATPAD_GREEN XINPUT_CHATPAD_GREEN 0 0 0 0.

(** A slot in Duke mode whose pad holds the orange key, and the
    coordinator with that pad in slot 0 and no pad in the other
    slots. *)
Definition orange_slot : Master.slot :=
  Master.mk_slot (chatpad_pad 0 [XINPUT_CHATPAD_ORANGE; 0; 0])
    coordinator_slot (Master.mk_user_data 0 0 32768 32768).

Definition empty_slot : Master.slot :=
  Master.mk_slot xinput_zero coordinator_slot
    (Master.mk_user_data 0 0 32768 32768).

Definition one_pad : Master.master_state :=
  Master.mk_master [orange_slot; empty_slot; empty_slot; empty_slot]
    (Master.mk_settings 400 []).

(** The cockpit mapping with orange and the 2 key held, and with the
    left stick clicked in and no chatpad key. *)
Definition orange_2_state : Master.sb_state :=
  Master.mk_sb_state
    (chatpad_pad 0 [XINPUT_CHATPAD_ORANGE; XINPUT_CHATPAD_2; 0])
    (Master.mk_sb_in 0 26 (Master.mk_words 0 0 0) 0 0 0 0 0 0 0 0 0 8)
    (repeat 0 22)
    (Master.mk_user_data 0 0 32768 32768)
    (Master.mk_settings 400 []).

Definition thumb_state : Master.sb_state :=
  Master.mk_sb_state (chatpad_pad XINPUT_GAMEPAD_LEFT_THUMB [0; 0; 0])
    (Master.mk_sb_in 0 26 (Master.mk_words 0 0 0) 0 0 0 0 0 0 0 0 0 8)
    (repeat 0 22)
    (Master.mk_user_data 0 0 32768 32768)
    (Master.mk_settings 400 []).

(** An erased EEPROM. *)
Definition blank_eeprom : list Z := repeat 0xFF 16.

(** * Properties *)

(** ** Bit-level facts *)

Lemma u8_land_ones x : u8 x = Z.land x 255.
Proof. unfold u8. rewrite <- Z.land_ones by lia. reflexivity. Qed.

Lemma u16_land_ones x : u16 x = Z.land x 65535.
Proof. unfold u16. rewrite <- Z.land_ones by lia. reflexivity. Qed.

Lemma u8_range x : 0 <= u8 x < 256.
Proof. unfold u8. apply Z.mod_pos_bound. lia. Qed.

Lemma u16_range x : 0 <= u16 x < 65536.
Proof. unfold u16. apply Z.mod_pos_bound. lia. Qed.

Lemma u8_small x : 0 <= x < 256 -> u8 x = x.
Proof. intros. unfold u8. apply Z.mod_small. lia. Qed.

Lemma u16_small x : 0 <= x < 65536 -> u16 x = x.
Proof. intros. unfold u16. apply Z.mod_small. lia. Qed.

Lemma u16_idem x : u16 (u16 x) = u16 x.
Proof. apply u16_small, u16_range. Qed.

Lemma truthy_true x : truthy x = true <-> x <> 0.
Proof.
  unfold truthy. destruct (Z.eqb_spec x 0); simpl; split; intros; congruence.
Qed.

Lemma truthy_false x : truthy x = false <-> x = 0.
Proof.
  unfold truthy. destruct (Z.eqb_spec x 0); simpl; split; intros; congruence.
Qed.

(** A mask without bits in the low byte vanishes in a [uint8_t]. *)
Lemma u8_land_high_mask w m :
  Z.land m 255 = 0 -> u8 (Z.land w (u16 m)) = 0.
Proof.
  intros Hm. rewrite u8_land_ones, u16_land_ones.
  apply Z.bits_inj'. intros n Hn.
  assert (Hb : Z.testbit (Z.land m 255) n = false)
    by (rewrite Hm; apply Z.bits_0).
  rewrite !Z.land_spec, Z.bits_0. rewrite Z.land_spec in Hb.
  destruct (Z.testbit m n), (Z.testbit 255 n); simpl in *;
    try discriminate; rewrite ?andb_false_r; reflexivity.
Qed.

(** ** The gamepad query *)

(** C10.  For a button mask whose bits all lie in the high byte of the
    button word, [usbh_xinput_is_gamepad_pressed] returns 0 whatever the
    buttons are (the conjunction is cut to eight bits by the return
    type), and [usbh_xinput_was_gamepad_pressed] therefore never reports
    a rising edge for it. *)
Theorem is_gamepad_pressed_high_byte_mask (x : usbh_xinput_t) (mask : Z) :
  mask <> 0 ->
  Z.land mask 0x00FF = 0 ->
  usbh_xinput_is_gamepad_pressed x mask = 0 /\
  snd (usbh_xinput_was_gamepad_pressed x mask) = 0.
Proof.
  intros _ Hm.
  assert (Hq : forall m, Z.land m 255 = 0 ->
                         usbh_xinput_is_gamepad_pressed x m = 0).
  { intros m Hm'. unfold usbh_xinput_is_gamepad_pressed.
    destruct (bAddress x =? 0); [reflexivity | now apply u8_land_high_mask]. }
  split; [now apply Hq |].
  unfold usbh_xinput_was_gamepad_pressed.
  rewrite Hq.
  - reflexivity.
  - rewrite u16_land_ones, <- Z.land_assoc. change (Z.land 65535 255) with 255.
    exact Hm.
Qed.

(** The A button is held, and neither query sees it. *)
Lemma is_gamepad_pressed_high_byte_mask_witness :
  let x := set_pad_state
             (mk_xinput 0 1 None None XBOX360_WIRED (mk_padstate 0 0 0 0 0 0 0)
                        0 0 0 0 0 0 0 0 [0; 0; 0] [0; 0; 0] 0 0 0 0 0 0)
             (mk_padstate XINPUT_GAMEPAD_A 0 0 0 0 0 0) in
  Z.land (wButtons (pad_state x)) XINPUT_GAMEPAD_A <> 0 /\
  usbh_xinput_is_gamepad_pressed x XINPUT_GAMEPAD_A = 0 /\
  snd (usbh_xinput_was_gamepad_pressed x XINPUT_GAMEPAD_A) = 0.
Proof.
  split; [vm_compute; discriminate |].
  apply is_gamepad_pressed_high_byte_mask; [vm_compute; discriminate | reflexivity].
Defined.

(** ** The chatpad edge detector *)

Section ChatpadEdges.

Lemma is_chatpad_pressed_01 x code :
  usbh_xinput_is_chatpad_pressed x code = 0 \/
  usbh_xinput_is_chatpad_pressed x code = 1.
Proof.
  unfold usbh_xinput_is_chatpad_pressed.
  repeat match goal with |- context [if ?c then _ else _] => destruct c end;
    auto.
Qed.

Lemma is_chatpad_pressed_u16 x code :
  usbh_xinput_is_chatpad_pressed x (u16 code) =
  usbh_xinput_is_chatpad_pressed x code.
Proof. unfold usbh_xinput_is_chatpad_pressed. now rewrite u16_idem. Qed.

(** A key that reads as down has a code that fits the history bytes
    and differs from the free marker. *)
Lemma pressed_code_range x code :
  Forall is_u8 (chatpad_state x) ->
  usbh_xinput_is_chatpad_pressed x code = 1 ->
  1 <= u16 code < 256.
Proof.
  intros Hwf. unfold usbh_xinput_is_chatpad_pressed.
  pose proof (u16_range code) as Hr. set (c := u16 code) in *.
  destruct (bAddress x =? 0); [discriminate |].
  destruct (Z.ltb_spec c 17) as [Hlt | Hge]; simpl.
  - destruct (truthy (Z.land (Buf.get (chatpad_state x) 0) c)) eqn:Ht;
      [| discriminate].
    intros _. apply truthy_true in Ht.
    assert (c <> 0) by (intros ->; rewrite Z.land_0_r in Ht; congruence).
    lia.
  - assert (Hnth : forall k, is_u8 (Buf.get (chatpad_state x) k)).
    { intros k. unfold Buf.get.
      destruct (nth_in_or_default k (chatpad_state x) 0) as [Hin | ->].
      - rewrite Forall_forall in Hwf. now apply Hwf.
      - unfold is_u8; lia. }
    destruct (Z.eqb_spec (Buf.get (chatpad_state x) 1) c) as [E1 | _]; simpl.
    + intros _. pose proof (Hnth 1%nat) as Hb. unfold is_u8 in Hb. lia.
    + destruct (Z.eqb_spec (Buf.get (chatpad_state x) 2) c) as [E2 | _];
        [| discriminate].
      intros _. pose proof (Hnth 2%nat) as Hb. unfold is_u8 in Hb. lia.
Qed.

Lemma history_lacks_spec old c :
  history_lacks old c = true <-> ~ In c old.
Proof.
  unfold history_lacks. induction old as [| e old IH]; simpl.
  - tauto.
  - destruct (Z.eqb_spec e c); simpl.
    + split; [discriminate | intros Hn; exfalso; apply Hn; now left].
    + rewrite IH. split; [intros Hn [E | Hin]; congruence | tauto].
Qed.

Lemma history_claim_free old c :
  In 0 old ->
  exists old', history_claim old c = Some old' /\ In (u8 c) old'.
Proof.
  induction old as [| e old IH]; simpl; [tauto |].
  intros Hin. destruct (Z.eqb_spec e 0) as [-> | Hne].
  - eexists; split; [reflexivity | now left].
  - destruct Hin as [E | Hin]; [congruence |].
    destruct (IH Hin) as (old' & -> & Hin'). simpl.
    eexists; split; [reflexivity | now right].
Qed.

Lemma history_clear_frees old c : In c old -> In 0 (history_clear old c).
Proof.
  unfold history_clear. intros Hin. apply in_map_iff.
  exists c. now rewrite Z.eqb_refl.
Qed.

Lemma history_clear_lacks old c : c <> 0 -> ~ In c (history_clear old c).
Proof.
  unfold history_clear. intros Hc Hin. apply in_map_iff in Hin.
  destruct Hin as (e & He & _). destruct (Z.eqb_spec e c); congruence.
Qed.

Variable code : Z.

(** Polling changes nothing but the history. *)
Lemma was_chatpad_pressed_frame x :
  let x' := fst (usbh_xinput_was_chatpad_pressed x code) in
  bAddress x' = bAddress x /\ chatpad_state x' = chatpad_state x.
Proof.
  unfold usbh_xinput_was_chatpad_pressed.
  repeat match goal with
         | |- context [if ?c then _ else _] => destruct c
         | |- context [match ?c with Some _ => _ | None => _ end] => destruct c
         end; simpl; auto.
Qed.

Lemma poll_bAddress x sample :
  bAddress (fst (poll x sample code)) = bAddress x.
Proof.
  unfold poll.
  now destruct (was_chatpad_pressed_frame (set_chatpad_state x sample)) as [-> _].
Qed.

Lemma key_down_bAddress x y sample :
  bAddress x = bAddress y -> key_down x code sample -> key_down y code sample.
Proof.
  unfold key_down, usbh_xinput_is_chatpad_pressed. simpl.
  now intros ->.
Qed.

Lemma key_up_bAddress x y sample :
  bAddress x = bAddress y -> key_up x code sample -> key_up y code sample.
Proof.
  unfold key_up, usbh_xinput_is_chatpad_pressed. simpl.
  now intros ->.
Qed.

(** Rising edge: the key is down, untracked, and a slot is free. *)
Lemma poll_rising x sample :
  key_down x code sample ->
  ~ In (u16 code) (chatpad_state_old x) ->
  In 0 (chatpad_state_old x) ->
  snd (poll x sample code) = 1 /\
  In (u16 code) (chatpad_state_old (fst (poll x sample code))).
Proof.
  intros [Hwf Hdown] Hlack Hfree.
  pose proof (pressed_code_range (set_chatpad_state x sample) code Hwf Hdown)
    as Hr.
  unfold poll, usbh_xinput_was_chatpad_pressed.
  rewrite is_chatpad_pressed_u16, Hdown. simpl.
  apply history_lacks_spec in Hlack. rewrite Hlack.
  destruct (history_claim_free _ (u16 code) Hfree) as (old' & -> & Hin).
  simpl. rewrite u8_small in Hin by lia. auto.
Qed.

(** Held: the key is down and tracked; nothing changes. *)
Lemma poll_held x sample :
  key_down x code sample ->
  In (u16 code) (chatpad_state_old x) ->
  poll x sample code = (set_chatpad_state x sample, 0).
Proof.
  intros [Hwf Hdown] Hin.
  unfold poll, usbh_xinput_was_chatpad_pressed.
  rewrite is_chatpad_pressed_u16, Hdown. simpl.
  destruct (history_lacks (chatpad_state_old x) (u16 code)) eqn:Hl;
    [| reflexivity].
  apply history_lacks_spec in Hl. contradiction.
Qed.

(** Released: the slot of the key is freed. *)
Lemma poll_released x sample :
  key_up x code sample ->
  snd (poll x sample code) = 0 /\
  chatpad_state_old (fst (poll x sample code)) =
  history_clear (chatpad_state_old x) (u16 code).
Proof.
  intros Hup. unfold poll, usbh_xinput_was_chatpad_pressed.
  rewrite is_chatpad_pressed_u16, Hup. simpl. auto.
Qed.

End ChatpadEdges.

(** *** Polls of other codes on the same history *)

(** Clearing a code keeps every other entry and every free slot. *)
Lemma history_clear_keeps old c d : c <> d -> In d old -> In d (history_clear old c).
Proof.
  unfold history_clear. intros Hcd Hin. apply in_map_iff. exists d.
  split; [| exact Hin]. destruct (Z.eqb_spec d c); congruence.
Qed.

Lemma history_clear_keeps_free old c : In 0 old -> In 0 (history_clear old c).
Proof.
  unfold history_clear. intros Hin. apply in_map_iff. exists 0.
  split; [| exact Hin]. now destruct (0 =? c).
Qed.

Lemma history_clear_adds_only_free old c d :
  d <> 0 -> ~ In d old -> ~ In d (history_clear old c).
Proof.
  unfold history_clear. intros Hd Hn Hin. apply in_map_iff in Hin.
  destruct Hin as (e & He & Hin). destruct (e =? c); congruence.
Qed.

(** Claiming a slot writes one free slot and nothing else. *)
Lemma history_claim_keeps old c : forall old' d,
  history_claim old c = Some old' -> d <> 0 -> In d old -> In d old'.
Proof.
  induction old as [| e old IH]; intros old' d Hc Hd Hin; [destruct Hin |].
  cbn [history_claim] in Hc.
  destruct (Z.eqb_spec e 0) as [-> | He].
  - injection Hc as <-. destruct Hin as [E | Hin]; [congruence | now right].
  - destruct (history_claim old c) as [o |]; [| discriminate].
    injection Hc as <-.
    destruct Hin as [E | Hin]; [now left | right; now apply (IH o)].
Qed.

Lemma history_claim_adds old c : forall old' d,
  history_claim old c = Some old' -> In d old' -> d = u8 c \/ In d old.
Proof.
  induction old as [| e old IH]; intros old' d Hc Hin; [discriminate |].
  cbn [history_claim] in Hc.
  destruct (Z.eqb_spec e 0) as [-> | He].
  - injection Hc as <-.
    destruct Hin as [E | Hin]; [now left | right; now right].
  - destruct (history_claim old c) as [o |]; [| discriminate].
    injection Hc as <-.
    destruct Hin as [E | Hin]; [right; now left |].
    destruct (IH o d eq_refl Hin) as [E | Hin']; [now left | right; now right].
Qed.

Lemma poll_same_code x sample c d :
  u16 c = u16 d -> poll x sample c = poll x sample d.
Proof.
  unfold poll, usbh_xinput_was_chatpad_pressed. now intros ->.
Qed.

(** A poll of a code, whatever its key does, keeps the entries of the
    history that hold other codes. *)
Lemma was_chatpad_pressed_keeps x c d :
  d <> 0 -> d <> u16 c -> In d (chatpad_state_old x) ->
  In d (chatpad_state_old (fst (usbh_xinput_was_chatpad_pressed x c))).
Proof.
  intros Hz Hne Hin. unfold usbh_xinput_was_chatpad_pressed.
  destruct (negb (truthy _)).
  - cbn [fst chatpad_state_old set_chatpad_state_old].
    apply history_clear_keeps; [congruence | exact Hin].
  - destruct (history_lacks _ _); [| exact Hin].
    destruct (history_claim _ _) as [old' |] eqn:Hc; [| exact Hin].
    cbn [fst chatpad_state_old set_chatpad_state_old].
    apply (history_claim_keeps _ _ _ _ Hc Hz). exact Hin.
Qed.

Lemma poll_other_keeps x sample c c' :
  u16 c' <> u16 c -> u16 c <> 0 ->
  In (u16 c) (chatpad_state_old x) ->
  In (u16 c) (chatpad_state_old (fst (poll x sample c'))).
Proof.
  intros Hne Hz Hin. unfold poll.
  apply was_chatpad_pressed_keeps; [exact Hz | congruence | exact Hin].
Qed.

(** A poll of another code does not make an untracked code tracked. *)
Lemma poll_other_lacks x sample c c' :
  Forall is_u8 sample ->
  u16 c' <> u16 c -> u16 c <> 0 ->
  ~ In (u16 c) (chatpad_state_old x) ->
  ~ In (u16 c) (chatpad_state_old (fst (poll x sample c'))).
Proof.
  intros Hwf Hne Hz Hlack. unfold poll, usbh_xinput_was_chatpad_pressed.
  destruct (is_chatpad_pressed_01 (set_chatpad_state x sample) (u16 c'))
    as [E | E]; rewrite E.
  - cbn [truthy Z.eqb negb fst chatpad_state_old set_chatpad_state_old
         set_chatpad_state].
    apply history_clear_adds_only_free; [exact Hz | exact Hlack].
  - cbn [truthy Z.eqb negb].
    destruct (history_lacks _ _); [| exact Hlack].
    destruct (history_claim _ _) as [old' |] eqn:Hc; [| exact Hlack].
    cbn [fst chatpad_state_old set_chatpad_state_old].
    intros Hin.
    destruct (history_claim_adds _ _ _ _ Hc Hin) as [Eq | Hold];
      [| exact (Hlack Hold)].
    rewrite is_chatpad_pressed_u16 in E.
    pose proof (pressed_code_range (set_chatpad_state x sample) c' Hwf E)
      as Hr.
    rewrite u8_small in Eq by lia. congruence.
Qed.

(** The poll of a key that is up takes no slot. *)
Lemma poll_up_keeps_free x sample c' :
  key_up x c' sample ->
  In 0 (chatpad_state_old x) ->
  In 0 (chatpad_state_old (fst (poll x sample c'))).
Proof.
  intros Hup Hfree.
  destruct (poll_released c' x sample Hup) as [_ ->].
  now apply history_clear_keeps_free.
Qed.

(** While the key of [code] is held, polls of [code] return 0 and polls
    of any other codes leave it tracked. *)
Lemma poll_run_held code held : forall x,
  u16 code <> 0 ->
  Forall (fun p => u16 (snd p) = u16 code -> key_down x code (fst p)) held ->
  In (u16 code) (chatpad_state_old x) ->
  Forall2 (fun p r => u16 (snd p) = u16 code -> r = 0)
          held (snd (poll_run x held)) /\
  bAddress (fst (poll_run x held)) = bAddress x /\
  In (u16 code) (chatpad_state_old (fst (poll_run x held))).
Proof.
  induction held as [| [sample c'] rest IH]; intros x Hz Hall Hin;
    cbn [poll_run]; [cbn [fst snd]; auto |].
  pose proof (poll_bAddress c' x sample) as Ha.
  assert (Hstep : (u16 c' = u16 code -> snd (poll x sample c') = 0) /\
                  In (u16 code)
                     (chatpad_state_old (fst (poll x sample c')))).
  { destruct (Z.eq_dec (u16 c') (u16 code)) as [E | E].
    - rewrite (poll_same_code x sample c' code E).
      rewrite (poll_held code x sample (Forall_inv Hall E) Hin).
      cbn [fst snd chatpad_state_old set_chatpad_state]. auto.
    - split; [intros E'; contradiction |].
      now apply poll_other_keeps. }
  destruct Hstep as [Hr Hin1].
  destruct (poll x sample c') as [x1 r1]. cbn [fst snd] in *.
  assert (Hrest : Forall (fun p => u16 (snd p) = u16 code ->
                                   key_down x1 code (fst p)) rest).
  { eapply Forall_impl; [| exact (Forall_inv_tail Hall)].
    intros p Hp E. apply (key_down_bAddress code x); [congruence | auto]. }
  destruct (IH x1 Hz Hrest Hin1) as (Hrs & Ha' & Hin').
  destruct (poll_run x1 rest) as [x2 rs]. cbn [fst snd] in *.
  split; [constructor; assumption |]. split; [congruence | exact Hin'].
Qed.

(** Polls of other codes between two presses: the code stays
    untracked, and a free slot stays free while the keys polled are
    up. *)
Lemma poll_run_between code between : forall x y,
  u16 code <> 0 ->
  bAddress x = bAddress y ->
  Forall (fun p => Forall is_u8 (fst p) /\ u16 (snd p) <> u16 code)
         between ->
  ~ In (u16 code) (chatpad_state_old x) ->
  bAddress (fst (poll_run x between)) = bAddress x /\
  ~ In (u16 code) (chatpad_state_old (fst (poll_run x between))) /\
  (Forall (fun p => key_up y (snd p) (fst p)) between ->
   In 0 (chatpad_state_old x) ->
   In 0 (chatpad_state_old (fst (poll_run x between)))).
Proof.
  induction between as [| [sample c'] rest IH]; intros x y Hz Hxy Hall Hlack;
    cbn [poll_run]; [cbn [fst]; auto |].
  destruct (Forall_inv Hall) as [Hwf Hne]. cbn [fst snd] in Hwf, Hne.
  pose proof (poll_bAddress c' x sample) as Ha.
  pose proof (poll_other_lacks x sample code c' Hwf Hne Hz Hlack) as Hl1.
  assert (Hf1 : key_up y c' sample -> In 0 (chatpad_state_old x) ->
                In 0 (chatpad_state_old (fst (poll x sample c')))).
  { intros Hup. apply poll_up_keeps_free.
    apply (key_up_bAddress c' y); [congruence | exact Hup]. }
  destruct (poll x sample c') as [x1 r1]. cbn [fst snd] in *.
  assert (Hx1y : bAddress x1 = bAddress y) by congruence.
  destruct (IH x1 y Hz Hx1y (Forall_inv_tail Hall) Hl1) as (Ha' & Hl' & Hf').
  destruct (poll_run x1 rest) as [x2 rs]. cbn [fst snd] in *.
  split; [congruence |]. split; [exact Hl' |].
  intros Hup Hfree. apply Hf'; [exact (Forall_inv_tail Hup) |].
  apply Hf1; [exact (Forall_inv Hup) | exact Hfree].
Qed.

(** C5.  A sustained press of a chatpad key is reported once, on a
    history that other keys share.  The first poll after the key went
    down returns 1 (the key is not tracked yet and a history slot is
    free).  While the key stays down every further poll of it returns
    0, whatever other codes are polled in between and whatever their
    keys do (up, held, newly pressed and claiming a slot, released).
    The poll that sees the key released returns 0 and leaves a free
    slot.  After further polls of other codes the poll that sees the
    key down again returns 1, provided a slot is still free then; one
    is whenever the keys polled in between were up. *)
Theorem was_chatpad_pressed_once_per_press
  (x : usbh_xinput_t) (code : Z)
  (first : list Z) (held : list (list Z * Z)) (released : list Z)
  (between : list (list Z * Z)) (again : list Z) :
  key_down x code first ->
  Forall (fun p => u16 (snd p) = u16 code -> key_down x code (fst p)) held ->
  key_up x code released ->
  Forall (fun p => Forall is_u8 (fst p) /\ u16 (snd p) <> u16 code)
         between ->
  key_down x code again ->
  ~ In (u16 code) (chatpad_state_old x) ->
  In 0 (chatpad_state_old x) ->
  let (x1, r1) := poll x first code in
  let (x2, rs) := poll_run x1 held in
  let (x3, r3) := poll x2 released code in
  let (x4, rs') := poll_run x3 between in
  let (x5, r5) := poll x4 again code in
  r1 = 1 /\
  Forall2 (fun p r => u16 (snd p) = u16 code -> r = 0) held rs /\
  r3 = 0 /\ In 0 (chatpad_state_old x3) /\
  (In 0 (chatpad_state_old x4) -> r5 = 1) /\
  (Forall (fun p => key_up x (snd p) (fst p)) between -> r5 = 1).
Proof.
  intros Hfirst Hheld Hup Hbetween Hagain Hlack Hfree.
  assert (Hz : u16 code <> 0).
  { destruct Hfirst as [Hwf Hdown].
    pose proof (pressed_code_range (set_chatpad_state x first) code Hwf
                  Hdown).
    lia. }
  pose proof (poll_rising code x first Hfirst Hlack Hfree) as [Hr1 Hin1].
  pose proof (poll_bAddress code x first) as Ha1.
  destruct (poll x first code) as [x1 r1]. cbn [fst snd] in *.
  assert (Hheld1 : Forall (fun p => u16 (snd p) = u16 code ->
                                    key_down x1 code (fst p)) held).
  { eapply Forall_impl; [| exact Hheld].
    intros p Hp E. apply (key_down_bAddress code x); [congruence | auto]. }
  pose proof (poll_run_held code held x1 Hz Hheld1 Hin1) as (Hrs & Ha2 & Hin2).
  destruct (poll_run x1 held) as [x2 rs]. cbn [fst snd] in *.
  assert (Hup2 : key_up x2 code released)
    by (apply (key_up_bAddress code x); [congruence | exact Hup]).
  pose proof (poll_released code x2 released Hup2) as [Hr3 Ho3].
  pose proof (poll_bAddress code x2 released) as Ha3.
  destruct (poll x2 released code) as [x3 r3]. cbn [fst snd] in *.
  assert (Hfree3 : In 0 (chatpad_state_old x3))
    by (rewrite Ho3; now apply history_clear_frees).
  assert (Hlack3 : ~ In (u16 code) (chatpad_state_old x3))
    by (rewrite Ho3; now apply history_clear_lacks).
  assert (Hx3 : bAddress x3 = bAddress x) by congruence.
  pose proof (poll_run_between code between x3 x Hz Hx3 Hbetween Hlack3)
    as (Ha4 & Hlack4 & Hfree4).
  destruct (poll_run x3 between) as [x4 rs']. cbn [fst snd] in *.
  assert (Hagain4 : key_down x4 code again)
    by (apply (key_down_bAddress code x); [congruence | exact Hagain]).
  assert (Hrise : In 0 (chatpad_state_old x4) ->
                  snd (poll x4 again code) = 1)
    by (intros Hf; now apply poll_rising).
  destruct (poll x4 again code) as [x5 r5]. cbn [fst snd] in *.
  repeat split; auto.
Qed.

(** The Q key on a wireless pad.  While Q is held, A is polled up,
    then newly pressed, and orange is newly pressed: both take a slot
    of the history and Q is still reported 0.  Q is released, A is
    polled up, and Q is pressed again. *)
Lemma was_chatpad_pressed_once_per_press_witness :
  let x := mk_xinput 0 1 (Some 1%nat) (Some 2%nat) XBOX360_WIRELESS
             (mk_padstate 0 0 0 0 0 0 0) 0 0 0 0 0 0 0 1
             [0; 0; 0] [0; 0; 0] 0 0 0 0 0 0 in
  let q := XINPUT_CHATPAD_Q in
  let a := XINPUT_CHATPAD_A in
  let held := [([0; q; 0], a); ([0; q; 0], q);
               ([0; q; a], a); ([0; q; a], q);
               ([XINPUT_CHATPAD_ORANGE; q; a], XINPUT_CHATPAD_ORANGE);
               ([XINPUT_CHATPAD_ORANGE; q; a], q)] in
  let between := [([0; 0; 0], a)] in
  snd (poll_run (fst (poll x [0; q; 0] q)) held) = [0; 0; 1; 0; 1; 0] /\
  let (x1, r1) := poll x [0; q; 0] q in
  let (x2, rs) := poll_run x1 held in
  let (x3, r3) := poll x2 [0; 0; a] q in
  let (x4, rs') := poll_run x3 between in
  let (x5, r5) := poll x4 [0; 0; q] q in
  r1 = 1 /\
  Forall2 (fun p r => u16 (snd p) = u16 q -> r = 0) held rs /\
  r3 = 0 /\ In 0 (chatpad_state_old x3) /\
  (In 0 (chatpad_state_old x4) -> r5 = 1) /\
  (Forall (fun p => key_up x (snd p) (fst p)) between -> r5 = 1).
Proof.
  assert (Hu8 : forall l, forallb (fun b => (0 <=? b) && (b <? 256)) l = true ->
                          Forall is_u8 l).
  { intros l Hl. rewrite forallb_forall in Hl. apply Forall_forall.
    intros b Hb. specialize (Hl b Hb). unfold is_u8. lia. }
  split; [reflexivity |].
  apply (was_chatpad_pressed_once_per_press
           (mk_xinput 0 1 (Some 1%nat) (Some 2%nat) XBOX360_WIRELESS
              (mk_padstate 0 0 0 0 0 0 0) 0 0 0 0 0 0 0 1
              [0; 0; 0] [0; 0; 0] 0 0 0 0 0 0)
           XINPUT_CHATPAD_Q [0; XINPUT_CHATPAD_Q; 0]
           [([0; XINPUT_CHATPAD_Q; 0], XINPUT_CHATPAD_A);
            ([0; XINPUT_CHATPAD_Q; 0], XINPUT_CHATPAD_Q);
            ([0; XINPUT_CHATPAD_Q; XINPUT_CHATPAD_A], XINPUT_CHATPAD_A);
            ([0; XINPUT_CHATPAD_Q; XINPUT_CHATPAD_A], XINPUT_CHATPAD_Q);
            ([XINPUT_CHATPAD_ORANGE; XINPUT_CHATPAD_Q; XINPUT_CHATPAD_A],
             XINPUT_CHATPAD_ORANGE);
            ([XINPUT_CHATPAD_ORANGE; XINPUT_CHATPAD_Q; XINPUT_CHATPAD_A],
             XINPUT_CHATPAD_Q)]
           [0; 0; XINPUT_CHATPAD_A]
           [([0; 0; 0], XINPUT_CHATPAD_A)]
           [0; 0; XINPUT_CHATPAD_Q]).
  - split; [apply Hu8 |]; reflexivity.
  - repeat (apply Forall_cons;
            [intros E; first [discriminate E
                             | split; [apply Hu8 |]; reflexivity] |]).
    apply Forall_nil.
  - reflexivity.
  - repeat (apply Forall_cons;
            [split; [apply Hu8; reflexivity | discriminate] |]).
    apply Forall_nil.
  - split; [apply Hu8 |]; reflexivity.
  - vm_compute. intuition discriminate.
  - simpl. auto.
Defined.

(** ** Rumble and LED commands *)

Lemma nth_list_upd {A : Type} (l : list A) (f : A -> A) (a : A) : forall i,
  (i < length l)%nat -> nth i (list_upd l i f) a = f (nth i l a).
Proof.
  induction l as [| h t IH]; intros [| i] Hi; simpl in *; try lia; auto.
  apply IH. lia.
Qed.

Lemma nth_list_upd_other {A : Type} (l : list A) (f : A -> A) (a : A) :
  forall i j, i <> j -> nth j (list_upd l i f) a = nth j l a.
Proof.
  induction l as [| h t IH]; intros [| i] [| j] Hij; simpl; auto; try lia.
Qed.

Lemma length_list_upd {A : Type} (l : list A) (f : A -> A) : forall i,
  length (list_upd l i f) = length l.
Proof. induction l as [| h t IH]; intros [| i]; simpl; auto. Qed.

Lemma dev_upd_dev d i f :
  (i < length (xinput_devices d))%nat -> dev (upd_dev d i f) i = f (dev d i).
Proof. intros Hi. unfold dev, upd_dev. simpl. now apply nth_list_upd. Qed.

(** C3, as stated, fails: the transfer of [SetRumble] and of [SetLed]
    returns the error code 4, and the actual fields have changed all the
    same. *)
Lemma SetRumble_SetLed_failed_write_counterexample :
  let d := failing_write_driver in
  let rc := 4 in
  let (d1, ret1) := SetRumble d 0 200 100 1000 rc in
  let (d2, ret2) := SetLed d 0 2 1000 rc in
  (ret1 <> hrSUCCESS /\
   usb_trace d1 = [OutTransfer 1 2 [0x00; 0x08; 0x00; 200; 100; 0x00; 0x00; 0x00]] /\
   lValue_actual (dev d1 0) <> lValue_actual (dev d 0) /\
   rValue_actual (dev d1 0) <> rValue_actual (dev d 0) /\
   lValue_actual (dev d1 0) = 200 /\ rValue_actual (dev d1 0) = 100) /\
  (ret2 <> hrSUCCESS /\
   usb_trace d2 = [OutTransfer 1 2 [0x01; 0x03; 7]] /\
   led_actual (dev d2 0) <> led_actual (dev d 0) /\
   led_actual (dev d2 0) = 2).
Proof. vm_compute. repeat split; discriminate. Qed.

Lemma SetRumble_actual d i lValue rValue now rc :
  (i < length (xinput_devices d))%nat ->
  lValue_actual (dev (fst (SetRumble d i lValue rValue now rc)) i) =
    lValue_requested (dev d i) /\
  rValue_actual (dev (fst (SetRumble d i lValue rValue now rc)) i) =
    rValue_requested (dev d i) /\
  (snd (SetRumble d i lValue rValue now rc) = rc \/
   snd (SetRumble d i lValue rValue now rc) = hrSUCCESS).
Proof.
  intros Hi. unfold SetRumble.
  rewrite !dev_upd_dev by exact Hi.
  cbn [type set_timer_out set_rumble_actual].
  destruct (type (dev d i)); cbn [fst snd];
    (split; [| split; [| auto]]);
    unfold dev, outTransfer_xdata, emit, set_xdata, upd_dev,
      set_xinput_devices; cbn [xinput_devices];
    rewrite nth_list_upd by exact Hi; reflexivity.
Qed.

Lemma SetLed_actual d i quadrant now rc :
  (i < length (xinput_devices d))%nat ->
  led_actual (dev (fst (SetLed d i quadrant now rc)) i) =
    led_requested (dev d i) /\
  (snd (SetLed d i quadrant now rc) = rc \/
   snd (SetLed d i quadrant now rc) = hrSUCCESS).
Proof.
  intros Hi. unfold SetLed.
  rewrite !dev_upd_dev by exact Hi.
  cbn [type set_timer_out set_led_actual].
  destruct (type (dev d i)); cbn [fst snd];
    (split; [| auto]);
    unfold dev, outTransfer_xdata, emit, set_xdata, upd_dev,
      set_xinput_devices; cbn [xinput_devices];
    rewrite nth_list_upd by exact Hi; reflexivity.
Qed.

(** C3, amended.  [SetRumble] copies the requested rumble levels into
    the actual fields and [SetLed] copies the requested quadrant into
    [led_actual] before the transfer is started and whatever its result
    is; the result code is handed back to the caller, which ignores
    it. *)
Theorem SetRumble_SetLed_actual_follows_requested
  (d : XINPUT) (i : nat) (lValue rValue quadrant now rc : Z) :
  (i < length (xinput_devices d))%nat ->
  let (d1, ret1) := SetRumble d i lValue rValue now rc in
  let (d2, ret2) := SetLed d i quadrant now rc in
  (lValue_actual (dev d1 i) = lValue_requested (dev d i) /\
   rValue_actual (dev d1 i) = rValue_requested (dev d i) /\
   (ret1 = rc \/ ret1 = hrSUCCESS)) /\
  (led_actual (dev d2 i) = led_requested (dev d i) /\
   (ret2 = rc \/ ret2 = hrSUCCESS)).
Proof.
  intros Hi.
  pose proof (SetRumble_actual d i lValue rValue now rc Hi) as HR.
  pose proof (SetLed_actual d i quadrant now rc Hi) as HL.
  destruct (SetRumble d i lValue rValue now rc) as [d1 ret1].
  destruct (SetLed d i quadrant now rc) as [d2 ret2].
  simpl in HR, HL. auto.
Qed.

Lemma SetRumble_SetLed_actual_follows_requested_witness :
  let d := failing_write_driver in
  let (d1, ret1) := SetRumble d 0 200 100 1000 4 in
  let (d2, ret2) := SetLed d 0 2 1000 4 in
  (lValue_actual (dev d1 0) = lValue_requested (dev d 0) /\
   rValue_actual (dev d1 0) = rValue_requested (dev d 0) /\
   (ret1 = 4 \/ ret1 = hrSUCCESS)) /\
  (led_actual (dev d2 0) = led_requested (dev d 0) /\
   (ret2 = 4 \/ ret2 = hrSUCCESS)).
Proof.
  apply (SetRumble_SetLed_actual_follows_requested
           failing_write_driver 0 200 100 2 1000 4).
  simpl. lia.
Defined.

(** ** The wire decoder and short packets *)

(** C2, on the code: a received packet one byte short of the wired
    report is decoded.  [ParseInputData] overwrites the pad state (the
    high byte of the last axis is the stale byte 13 of [xdata]) and
    reports a new pad state, because its guards look at the capacity of
    [xdata] and the received length never reaches it. *)
Lemma ParseInputData_short_packet_decoded :
  let d := short_packet_driver in
  let '(d', xpad', fresh) := Poll_in d (Some 0%nat) 1 hrSUCCESS short_packet 1000 in
  length short_packet = 13%nat /\
  fresh = true /\
  pad_state (dev d 0) = mk_padstate 0 0 0 0 0 0 0 /\
  pad_state (dev d' 0) =
    mk_padstate XINPUT_GAMEPAD_DPAD_UP 0xFF 0 0x10 0x20 0x30 0x7F40.
Proof. vm_compute. repeat split. Qed.

(** ** Buffers *)

Lemma buf_set_split (a : list Z) (v : Z) : forall i,
  (i < length a)%nat -> Buf.set a i v = firstn i a ++ v :: skipn (S i) a.
Proof.
  induction a as [| h t IH]; intros [| i] Hi; simpl in *; try lia; auto.
  f_equal. apply IH. lia.
Qed.

Lemma buf_set_length (a : list Z) (v : Z) : forall i,
  length (Buf.set a i v) = length a.
Proof. induction a as [| h t IH]; intros [| i]; simpl; auto. Qed.

(** The receive loop copies [n] bytes when the bus holds at least that
    many and the target has room for them. *)
Lemma read_into_copies : forall n buf i w,
  (i + n <= length buf)%nat -> (n <= length w)%nat ->
  TwoWire.read_into buf i n w =
  (firstn i buf ++ firstn n w ++ skipn (i + n) buf, skipn n w).
Proof.
  induction n as [| n IH]; intros buf i w Hb Hw.
  - simpl. rewrite Nat.add_0_r, firstn_skipn. now destruct w.
  - destruct w as [| b rest]; simpl in Hw; [lia |].
    simpl TwoWire.read_into. rewrite IH.
    + rewrite buf_set_split by lia.
      assert (Hl : length (firstn i buf) = i) by (rewrite length_firstn; lia).
      assert (Hs : skipn (S i + n) buf = skipn n (skipn (S i) buf))
        by (rewrite skipn_skipn; f_equal; lia).
      replace (i + S n)%nat with (S i + n)%nat by lia. rewrite Hs.
      remember (skipn (S i) buf) as tl eqn:Etl.
      f_equal.
      replace (S i) with (length (firstn i buf) + 1)%nat at 1 by lia.
      rewrite firstn_app_2.
      replace (S i + n)%nat with (length (firstn i buf) + S n)%nat by lia.
      rewrite skipn_app, Hl.
      replace (i + S n - i)%nat with (S n) by lia.
      rewrite (skipn_all2 (firstn i buf)) by lia.
      cbn [firstn skipn app]. rewrite <- app_assoc. reflexivity.
    + rewrite buf_set_length. lia.
    + lia.
Qed.

Lemma read_into_all n buf w :
  length buf = n -> length w = n -> TwoWire.read_into buf 0 n w = (w, []).
Proof.
  intros Hb Hw. rewrite read_into_copies by lia. simpl.
  rewrite firstn_all2, !skipn_all2 by lia. now rewrite app_nil_r.
Qed.

(** ** The report cache of the emulated device *)

Section GetReport.
Context {H : usbd_xid_h}.
Import Xid.

(** C7.  A call of [getReport] for a report of [len] bytes:
    - without fresh data and with more than 500 ms since the last fresh
      read, the caller's buffer is filled with zeros;
    - without fresh data and with at most 500 ms since then (499 ms,
      say), the caller's buffer receives the cached report;
    - with fresh data, the data is cached and copied to the caller and
      the staleness stamp is set to the current time. *)
Theorem getReport_fresh_cached_expired
  (x : XID_) (data r : list Z) (len recv_len now : Z) :
  0 <= len <= sizeof_xid_out_data ->
  sizeof_xid_out_data < 65536 ->
  length data = Z.to_nat len ->
  length (xid_out_data x) = Z.to_nat sizeof_xid_out_data ->
  (Z.to_nat len <= length r)%nat ->
  let elapsed := u32 (now - xid_out_expired x) in
  let '(x', data', ret) := getReport x data len recv_len r now in
  (recv_len <> len -> 500 < elapsed ->
     data' = repeat 0 (length data) /\ x' = x) /\
  (recv_len <> len -> elapsed <= 500 ->
     data' = firstn (length data) (xid_out_data x) /\ x' = x) /\
  (recv_len = len ->
     data' = firstn (length data) r /\
     firstn (length data) (xid_out_data x') = firstn (length data) r /\
     length (xid_out_data x') = length (xid_out_data x) /\
     xid_out_expired x' = u32 now /\ ret = len).
Proof.
  intros Hlen Hsz Hdata Hout Hr elapsed.
  assert (Hcap : capped len = len).
  { unfold capped. rewrite !u16_small by lia.
    destruct (Z.ltb_spec len sizeof_xid_out_data); lia. }
  unfold getReport. rewrite Hcap. fold elapsed.
  destruct (Z.eqb_spec recv_len len) as [Heq | Hne].
  - split; [intros Hn; congruence |]. split; [intros Hn; congruence |].
    intros _. cbn [xid_out_data xid_out_expired]. unfold Buf.memcpy.
    rewrite <- Hdata. repeat split.
    + now rewrite skipn_all, app_nil_r.
    + rewrite firstn_app, length_firstn.
      replace (length data - Nat.min (length data) (length r))%nat with 0%nat
        by lia.
      cbn [firstn]. rewrite app_nil_r. rewrite firstn_firstn. f_equal. lia.
    + rewrite length_app, length_firstn, length_skipn. lia.
  - destruct (Z.ltb_spec 500 elapsed) as [Hexp | Hok].
    + split; [| split]; [| intros; lia | intros; congruence].
      intros _ _. unfold Buf.memzero.
      now rewrite <- Hdata, skipn_all, app_nil_r.
    + split; [| split]; [intros; lia | | intros; congruence].
      intros _ _. unfold Buf.memcpy.
      now rewrite <- Hdata, skipn_all, app_nil_r.
Qed.

End GetReport.

(** 499 ms after a fresh read nothing arrives: the cached report is
    returned. *)
Lemma getReport_fresh_cached_expired_witness :
  let x := Xid.mk_XID (repeat 0 32) ([0; 6; 0xFF; 0xFF; 0; 0] ++ repeat 0 26)
             10000 1 in
  let data := repeat 0xEE 6 in
  let r := repeat 0 32 in
  let elapsed := u32 (10499 - Xid.xid_out_expired x) in
  let '(x', data', ret) :=
    Xid.getReport (H := xid_layout) x data 6 (-1) r 10499 in
  (-1 <> 6 -> 500 < elapsed -> data' = repeat 0 (length data) /\ x' = x) /\
  (-1 <> 6 -> elapsed <= 500 ->
     data' = firstn (length data) (Xid.xid_out_data x) /\ x' = x) /\
  (-1 = 6 ->
     data' = firstn (length data) r /\
     firstn (length data) (Xid.xid_out_data x') = firstn (length data) r /\
     length (Xid.xid_out_data x') = length (Xid.xid_out_data x) /\
     Xid.xid_out_expired x' = u32 10499 /\ ret = 6).
Proof.
  apply (getReport_fresh_cached_expired (H := xid_layout)
           (Xid.mk_XID (repeat 0 32) ([0; 6; 0xFF; 0xFF; 0; 0] ++ repeat 0 26)
              10000 1)
           (repeat 0xEE 6) (repeat 0 32) 6 (-1) 10499).
  - simpl. lia.
  - simpl. lia.
  - reflexivity.
  - reflexivity.
  - simpl. lia.
Defined.

(** ** The peer node's receive handler *)


Section I2cGetData.
Context {H : usbd_xid_h}.
Import Slave.


End I2cGetData.


(** ** The cockpit mapping: ignition *)

Lemma land_cleared_mask w h : Z.land (u16 (Z.land w (Z.lnot h))) h = 0.
Proof.
  rewrite u16_land_ones. apply Z.bits_inj'. intros n Hn.
  rewrite !Z.land_spec, Z.lnot_spec, Z.bits_0 by exact Hn.
  destruct (Z.testbit h n), (Z.testbit w n), (Z.testbit 65535 n); reflexivity.
Qed.

Section Ignition.
Context {H : usbd_xid_h}.
Import Master.

(** C1.  When the ignition bit is set in word 0 of the report that
    [handle_sbattalion] leaves behind, both aiming outputs are zero and
    the cockpit hatch bit of word 0 is clear, whatever the pad, the
    chatpad, the mapping context and the out-report are. *)
Theorem handle_sbattalion_ignition_clamp (e : env) (s : sb_state) :
  let r := st_in (handle_sbattalion e s) in
  Z.land (word0 (sb_wButtons r)) SBC_W0_IGNITION <> 0 ->
  aimingX r = 0 /\ aimingY r = 0 /\
  Z.land (word0 (sb_wButtons r)) SBC_W0_COCKPITHATCH = 0.
Proof.
  unfold handle_sbattalion.
  destruct (sb_buttons (st_xinput s) (st_in s) (st_out s))
    as [[[x w] dial] gear].
  match goal with
  | |- context [if truthy (usbh_xinput_is_chatpad_pressed ?a ?b)
                then select_sensitivity ?c ?d ?f ?g else ?h] =>
      destruct (if truthy (usbh_xinput_is_chatpad_pressed a b)
                then select_sensitivity c d f g else h) as [x' g']
  end.
  destruct (truthy (Z.land (word0 w) SBC_W0_IGNITION)) eqn:Hign;
    cbn [st_in sb_wButtons aimingX aimingY word_upd word0].
  - intros _. repeat split. apply land_cleared_mask.
  - intros Hset. apply truthy_false in Hign. contradiction.
Qed.

End Ignition.

Lemma handle_sbattalion_ignition_clamp_witness :
  let r := Master.st_in
             (Master.handle_sbattalion (H := xid_layout)
                (Master.mk_env 1000 0) ignition_state) in
  Z.land (Master.word0 (Master.sb_wButtons r))
         (SBC_W0_IGNITION (usbd_xid_h := xid_layout)) <> 0 /\
  Master.vmouse_x
    (Master.st_user
       (Master.handle_sbattalion (H := xid_layout)
          (Master.mk_env 1000 0) ignition_state)) = 32818 /\
  Master.aimingX r = 0 /\ Master.aimingY r = 0 /\
  Z.land (Master.word0 (Master.sb_wButtons r))
         (SBC_W0_COCKPITHATCH (usbd_xid_h := xid_layout)) = 0.
Proof.
  split; [vm_compute; discriminate |].
  split; [vm_compute; reflexivity |].
  apply (handle_sbattalion_ignition_clamp (H := xid_layout)
           (Master.mk_env 1000 0) ignition_state).
  vm_compute. discriminate.
Defined.

(** ** The cockpit mapping: frame facts *)

Lemma inputs_bAddress x y : inputs x = inputs y -> bAddress x = bAddress y.
Proof. intros E. exact (f_equal (fun p => fst (fst p)) E). Qed.

Lemma is_chatpad_pressed_inputs x y code :
  inputs x = inputs y ->
  usbh_xinput_is_chatpad_pressed x code = usbh_xinput_is_chatpad_pressed y code.
Proof.
  unfold inputs, usbh_xinput_is_chatpad_pressed.
  intros E. injection E as -> _ ->. reflexivity.
Qed.

Lemma was_chatpad_pressed_inputs x code :
  inputs (fst (usbh_xinput_was_chatpad_pressed x code)) = inputs x.
Proof.
  unfold usbh_xinput_was_chatpad_pressed.
  repeat match goal with
         | |- context [if ?c then _ else _] => destruct c
         | |- context [match ?c with Some _ => _ | None => _ end] => destruct c
         end; reflexivity.
Qed.

Lemma was_gamepad_pressed_inputs x mask :
  inputs (fst (usbh_xinput_was_gamepad_pressed x mask)) = inputs x.
Proof.
  unfold usbh_xinput_was_gamepad_pressed.
  repeat match goal with
         | |- context [if ?c then _ else _] => destruct c
         end; reflexivity.
Qed.

Lemma was_gamepad_pressed_history x mask :
  chatpad_state_old (fst (usbh_xinput_was_gamepad_pressed x mask)) =
  chatpad_state_old x.
Proof.
  unfold usbh_xinput_was_gamepad_pressed.
  repeat match goal with
         | |- context [if ?c then _ else _] => destruct c
         end; reflexivity.
Qed.

Section MasterFrames.
Context {H : usbd_xid_h}.
Import Master.

Lemma was_gamepad_pressed_either_inputs x m1 m2 :
  inputs (fst (was_gamepad_pressed_either x m1 m2)) = inputs x.
Proof.
  unfold was_gamepad_pressed_either.
  pose proof (was_gamepad_pressed_inputs x m1) as H1.
  destruct (usbh_xinput_was_gamepad_pressed x m1) as [x1 r1].
  pose proof (was_gamepad_pressed_inputs x1 m2) as H2.
  destruct (usbh_xinput_was_gamepad_pressed x1 m2) as [x2 r2].
  simpl in *. destruct (truthy r1); simpl; congruence.
Qed.

Lemma was_gamepad_pressed_either_history x m1 m2 :
  chatpad_state_old (fst (was_gamepad_pressed_either x m1 m2)) =
  chatpad_state_old x.
Proof.
  unfold was_gamepad_pressed_either.
  pose proof (was_gamepad_pressed_history x m1) as H1.
  destruct (usbh_xinput_was_gamepad_pressed x m1) as [x1 r1].
  pose proof (was_gamepad_pressed_history x1 m2) as H2.
  destruct (usbh_xinput_was_gamepad_pressed x1 m2) as [x2 r2].
  simpl in *. destruct (truthy r1); simpl; congruence.
Qed.

Lemma apply_toggle_map_inputs tbl : forall xw,
  inputs (fst (apply_toggle_map tbl xw)) = inputs (fst xw).
Proof.
  unfold apply_toggle_map.
  induction tbl as [| e tbl IH]; intros [x w]; simpl; [reflexivity |].
  pose proof (was_chatpad_pressed_inputs x (xinput_mask e)) as Hx.
  destruct (usbh_xinput_was_chatpad_pressed x (xinput_mask e)) as [x1 r1].
  rewrite IH. exact Hx.
Qed.

Lemma select_sensitivity_inputs presets : forall i x g,
  inputs (fst (select_sensitivity presets i x g)) = inputs x.
Proof.
  induction presets as [| p presets IH]; intros i x g;
    cbn [select_sensitivity]; [reflexivity |].
  pose proof (was_chatpad_pressed_inputs x (XINPUT_CHATPAD_1 + i)) as Hx.
  destruct (usbh_xinput_was_chatpad_pressed x (XINPUT_CHATPAD_1 + i))
    as [x1 r1].
  simpl in Hx. destruct (truthy r1).
  - destruct (negb (sb_sensitivity g =? p)); exact Hx.
  - rewrite IH. exact Hx.
Qed.

Lemma sb_alternate_inputs x r w :
  inputs (fst (fst (fst (sb_alternate x r w)))) = inputs x.
Proof.
  unfold sb_alternate.
  destruct (_ || _).
  - pose proof (was_gamepad_pressed_either_inputs x XINPUT_GAMEPAD_DPAD_UP
                  XINPUT_GAMEPAD_DPAD_RIGHT) as H1.
    destruct (was_gamepad_pressed_either x XINPUT_GAMEPAD_DPAD_UP
                XINPUT_GAMEPAD_DPAD_RIGHT) as [x1 up].
    pose proof (was_gamepad_pressed_either_inputs x1 XINPUT_GAMEPAD_DPAD_DOWN
                  XINPUT_GAMEPAD_DPAD_LEFT) as H2.
    destruct (was_gamepad_pressed_either x1 XINPUT_GAMEPAD_DPAD_DOWN
                XINPUT_GAMEPAD_DPAD_LEFT) as [x2 down].
    simpl in *. congruence.
  - destruct (negb (truthy (usbh_xinput_is_chatpad_pressed x
                              XINPUT_CHATPAD_ORANGE))); [| reflexivity].
    destruct (negb (truthy _)); [| reflexivity].
    pose proof (was_gamepad_pressed_inputs x XINPUT_GAMEPAD_DPAD_UP) as H1.
    destruct (usbh_xinput_was_gamepad_pressed x XINPUT_GAMEPAD_DPAD_UP)
      as [x1 up].
    pose proof (was_gamepad_pressed_inputs x1 XINPUT_GAMEPAD_DPAD_DOWN) as H2.
    destruct (usbh_xinput_was_gamepad_pressed x1 XINPUT_GAMEPAD_DPAD_DOWN)
      as [x2 down].
    simpl in *. congruence.
Qed.

Lemma sb_buttons_inputs x r out :
  inputs (fst (fst (fst (sb_buttons x r out)))) = inputs x.
Proof.
  unfold sb_buttons.
  match goal with
  | |- context [apply_toggle_map ?t ?xw] =>
      pose proof (apply_toggle_map_inputs t xw) as H1;
      destruct (apply_toggle_map t xw) as [x1 w1]
  end.
  match goal with
  | |- context [sb_alternate ?a ?b ?c] =>
      pose proof (sb_alternate_inputs a b c) as H2;
      destruct (sb_alternate a b c) as [[[x2 w2] dial] gear]
  end.
  pose proof (was_chatpad_pressed_inputs x2 XINPUT_CHATPAD_SHIFT) as H3.
  destruct (usbh_xinput_was_chatpad_pressed x2 XINPUT_CHATPAD_SHIFT)
    as [x3 shift].
  simpl in *. congruence.
Qed.

(** The mapping context after a call is the pointer update on the pad
    state the call was entered with. *)
Lemma handle_sbattalion_user e s :
  st_user (handle_sbattalion e s) =
  sb_vmouse e (st_xinput s) (st_user s) (st_settings s).
Proof.
  unfold handle_sbattalion.
  pose proof (sb_buttons_inputs (st_xinput s) (st_in s) (st_out s)) as Hx.
  destruct (sb_buttons (st_xinput s) (st_in s) (st_out s))
    as [[[x w] dial] gear].
  match goal with
  | |- context [if truthy (usbh_xinput_is_chatpad_pressed ?a ?b)
                then select_sensitivity ?c ?d ?f ?g else ?h] =>
      destruct (if truthy (usbh_xinput_is_chatpad_pressed a b)
                then select_sensitivity c d f g else h) as [x' g']
  end.
  destruct (truthy (Z.land (word0 w) SBC_W0_IGNITION)); cbn [st_user];
    unfold sb_vmouse; unfold inputs in Hx; simpl in Hx;
    injection Hx as _ -> _; reflexivity.
Qed.

End MasterFrames.

(** ** The cockpit mapping: the virtual pointer *)

Lemma fold_left_cons_gen {A B : Type} (f : A -> B -> A) (b : B) (l : list B)
  (a : A) : fold_left f (b :: l) a = fold_left f l (f a b).
Proof. reflexivity. Qed.

Lemma constrain_range amt low high :
  low <= high -> low <= constrain amt low high <= high.
Proof.
  intros Hlh. unfold constrain.
  destruct (Z.ltb_spec amt low); [lia |].
  destruct (Z.ltb_spec high amt); lia.
Qed.

Section VirtualPointer.
Context {H : usbd_xid_h}.
Import Master.

Lemma sb_vmouse_range e x u g :
  0 <= SBC_AIMING_MID <= 65535 -> pointer_in_range (sb_vmouse e x u g).
Proof.
  intros Hmid. unfold sb_vmouse, pointer_in_range, UINT16_MAX.
  repeat match goal with
         | |- context [if ?c then mk_user_data _ _ _ _ else _] => destruct c
         end; cbn [vmouse_x vmouse_y];
    split; try exact Hmid; apply constrain_range; lia.
Qed.

Lemma sb_vmouse_released e x u g :
  Z.land (wButtons (pad_state x)) XINPUT_GAMEPAD_LEFT_THUMB = 0 ->
  button_hold_timer (sb_vmouse e x u g) = u32 (millis e).
Proof.
  intros Hup. unfold sb_vmouse.
  apply truthy_false in Hup. rewrite Hup. reflexivity.
Qed.

Lemma sb_vmouse_held e x u g :
  Z.land (wButtons (pad_state x)) XINPUT_GAMEPAD_LEFT_THUMB <> 0 ->
  button_hold_timer (sb_vmouse e x u g) = button_hold_timer u /\
  (500 < u32 (millis e - button_hold_timer u) ->
   vmouse_x (sb_vmouse e x u g) = SBC_AIMING_MID /\
   vmouse_y (sb_vmouse e x u g) = SBC_AIMING_MID).
Proof.
  intros Hdown. unfold sb_vmouse.
  apply truthy_true in Hdown. rewrite Hdown.
  destruct (Z.ltb_spec 500 (u32 (millis e - button_hold_timer u)));
    cbn [button_hold_timer vmouse_x vmouse_y]; split; auto; lia.
Qed.

Lemma sb_step_user t s :
  st_user (sb_step t s) =
  sb_vmouse (tick_env t)
    (set_chatpad_state (set_pad_state (st_xinput s) (tick_pad t))
       (tick_chatpad t))
    (st_user s) (st_settings s).
Proof. unfold sb_step. now rewrite handle_sbattalion_user. Qed.

Lemma sb_final_cons t ticks s :
  sb_final (t :: ticks) s = sb_final ticks (sb_step t s).
Proof.
  unfold sb_final.
  exact (fold_left_cons_gen (fun s t => sb_step t s) t ticks s).
Qed.

Lemma sb_final_held_timer held : forall s,
  Forall left_thumb_down held ->
  button_hold_timer (st_user (sb_final held s)) = button_hold_timer (st_user s).
Proof.
  induction held as [| t held IH]; intros s Hall; [reflexivity |].
  rewrite sb_final_cons.
  rewrite IH by (eapply Forall_inv_tail; exact Hall).
  rewrite sb_step_user.
  apply (sb_vmouse_held (tick_env t) _ (st_user s) (st_settings s)).
  exact (Forall_inv Hall).
Qed.

(** C6.  With the midpoint inside the 16-bit range:
    - after every call of [handle_sbattalion], from any state and
      hence for any stick input, sensitivity and prior accumulation,
      both accumulators lie in [0, 65535];
    - the same holds after every tick of any sequence of ticks;
    - a tick with the left stick released stores the current time in
      the hold timer, and when the stick is then held through any
      number of ticks, a tick more than 500 ms after the release sets
      both accumulators to [SBC_AIMING_MID]. *)
Theorem vmouse_clamped_and_recentred :
  0 <= SBC_AIMING_MID <= 65535 ->
  (forall e s, pointer_in_range (st_user (handle_sbattalion e s))) /\
  (forall ticks s,
     Forall (fun s' => pointer_in_range (st_user s')) (sb_run ticks s)) /\
  (forall s t_rel held t,
     ~ left_thumb_down t_rel ->
     Forall left_thumb_down held ->
     left_thumb_down t ->
     500 < u32 (millis (tick_env t) - u32 (millis (tick_env t_rel))) ->
     let s1 := sb_step t_rel s in
     let s3 := sb_step t (sb_final held s1) in
     button_hold_timer (st_user s1) = u32 (millis (tick_env t_rel)) /\
     vmouse_x (st_user s3) = SBC_AIMING_MID /\
     vmouse_y (st_user s3) = SBC_AIMING_MID).
Proof.
  intros Hmid.
  assert (Hone : forall e s, pointer_in_range (st_user (handle_sbattalion e s))).
  { intros e s. rewrite handle_sbattalion_user. now apply sb_vmouse_range. }
  split; [exact Hone |]. split.
  - induction ticks as [| t ticks IH]; intros s; simpl; constructor.
    + apply Hone.
    + apply IH.
  - intros s t_rel held t Hrel Hheld Ht Helapsed s1 s3.
    assert (Htimer : button_hold_timer (st_user s1) =
                     u32 (millis (tick_env t_rel))).
    { subst s1. rewrite sb_step_user. apply sb_vmouse_released.
      cbn [pad_state set_chatpad_state set_pad_state].
      unfold left_thumb_down in Hrel.
      destruct (Z.eq_dec (Z.land (wButtons (tick_pad t_rel))
                            XINPUT_GAMEPAD_LEFT_THUMB) 0); tauto. }
    split; [exact Htimer |].
    subst s3. rewrite sb_step_user.
    apply sb_vmouse_held.
    + exact Ht.
    + rewrite sb_final_held_timer by exact Hheld. now rewrite Htimer.
Qed.

End VirtualPointer.

(** ** The coordinator's bus exchange *)

Section MasterTask.
Context {H : usbd_xid_h}.
Import Master.

Lemma handle_sbattalion_out e s : st_out (handle_sbattalion e s) = st_out s.
Proof.
  unfold handle_sbattalion.
  destruct (sb_buttons (st_xinput s) (st_in s) (st_out s))
    as [[[x w] dial] gear].
  match goal with
  | |- context [if truthy (usbh_xinput_is_chatpad_pressed ?a ?b)
                then select_sensitivity ?c ?d ?f ?g else ?h] =>
      destruct (if truthy (usbh_xinput_is_chatpad_pressed a b)
                then select_sensitivity c d f g else h) as [x' g']
  end.
  destruct (truthy (Z.land (word0 w) SBC_W0_IGNITION)); reflexivity.
Qed.

(** The mapping of a slot does not write the buffers of the receive
    step. *)
Lemma map_slot_rx_buffers e s g :
  rx_buffers (fst (map_slot e s g)) = rx_buffers s.
Proof.
  unfold map_slot, rx_buffers.
  set (c0 := if bAddress (usbh_xinput s) =? 0
             then set_type (usbd_c s) DISCONNECTED
             else if c_type (usbd_c s) =? DISCONNECTED
                  then set_type (usbd_c s) DUKE else usbd_c s).
  assert (H0 : duke_out c0 = duke_out (usbd_c s) /\
               sb_out c0 = sb_out (usbd_c s)).
  { subst c0. destruct (bAddress (usbh_xinput s) =? 0); [now split |].
    destruct (c_type (usbd_c s) =? DISCONNECTED); now split. }
  destruct H0 as [Hd Hs]. rewrite <- Hd, <- Hs. clearbody c0.
  match goal with
  | |- context [let (c, x) := ?t in _] =>
      assert (Ht : duke_out (fst t) = duke_out c0 /\
                   sb_out (fst t) = sb_out c0)
        by (repeat match goal with
                   | |- context [if ?b then _ else _] => destruct b
                   end; now split);
      destruct t as [c x]
  end.
  cbn [fst] in Ht. destruct Ht as [Hd' Hs']. rewrite <- Hd', <- Hs'.
  destruct (c_type c =? DUKE).
  - destruct (handle_duke x (duke_out c) (user_data s)) as [[x1 r1] u1].
    reflexivity.
  - destruct (c_type c =? STEELBATTALION); [| reflexivity].
    cbn [fst usbd_c duke_out sb_out].
    now rewrite handle_sbattalion_out.
Qed.

(** One exchange: the peer is always addressed; after a failed send
    nothing is requested and nothing is written; after a good send the
    response is requested whenever the family has an out-report. *)
Lemma exchange_slot_spec io i c :
  let (c', evs) := exchange_slot io i c in
  (exists status payload, In (Transmit i status payload) evs) /\
  (forall ev, In ev evs -> event_peer ev = i) /\
  c_type c' = c_type c /\
  (io_end io <> 0 -> c' = c /\ forall q, ~ In (Request i q) evs) /\
  (io_end io = 0 -> rx_len_of c <> 0 -> In (Request i (rx_len_of c)) evs).
Proof.
  unfold exchange_slot, rx_len_of.
  destruct (Z.eqb_spec (io_end io) 0) as [He | He]; cbn [negb];
    destruct (c_type c =? DUKE); destruct (c_type c =? STEELBATTALION);
    cbn [orb andb];
    repeat match goal with
           | |- context [negb (?a =? 0)] =>
               destruct (Z.eqb_spec a 0); cbn [negb]
           | |- context [if u8 (io_request io) =? ?a then _ else _] =>
               destruct (u8 (io_request io) =? a)
           end;
    cbn [c_type];
    (split; [eauto using in_eq |]);
    (split; [intros ev Hin; simpl in Hin; intuition (subst; reflexivity) |]);
    (split; [reflexivity |]);
    (split; [intros Hne;
             first [contradiction
                   | split; [reflexivity |];
                     intros q Hin; simpl in Hin; intuition discriminate]
            | intros Hz Hnz; first [contradiction | simpl; auto]]).
Qed.

Lemma nth_list_upd_const {A : Type} (l : list A) (v a : A) (i : nat) :
  nth i (list_upd l i (fun _ => v)) a = if (i <? length l)%nat then v else a.
Proof.
  destruct (Nat.ltb_spec i (length l)) as [Hi | Hi].
  - now rewrite nth_list_upd.
  - apply nth_overflow. now rewrite length_list_upd.
Qed.

(** One iteration of the loop. *)
Lemma master_slot_spec bus i st :
  let (st', evs) := master_slot bus i st in
  length (slots st') = length (slots st) /\
  (forall j, j <> i -> slot_at st' j = slot_at st j) /\
  (i <> 0%nat -> exists status payload, In (Transmit i status payload) evs) /\
  (forall ev, In ev evs -> event_peer ev = i) /\
  (io_end (bus i) <> 0 ->
     rx_buffers (slot_at st' i) = rx_buffers (slot_at st i) /\
     forall q, ~ In (Request i q) evs) /\
  (i <> 0%nat -> io_end (bus i) = 0 -> (i < length (slots st))%nat ->
     rx_len_of (usbd_c (slot_at st' i)) <> 0 ->
     In (Request i (rx_len_of (usbd_c (slot_at st' i)))) evs).
Proof.
  unfold master_slot, slot_at.
  pose proof (map_slot_rx_buffers (io_env (bus i)) (nth i (slots st) slot_zero)
                (globals st)) as Hrx.
  destruct (map_slot (io_env (bus i)) (nth i (slots st) slot_zero) (globals st))
    as [s g].
  cbn [fst] in Hrx.
  destruct (Nat.eqb_spec i 0) as [Hi0 | Hi0].
  - cbn [slots]. rewrite length_list_upd.
    split; [reflexivity |].
    split; [intros j Hj; now apply nth_list_upd_other |].
    split; [intros Hn; contradiction |].
    split; [intros ev [] |].
    split; [| intros Hn; contradiction].
    intros _. split; [| intros q []].
    rewrite nth_list_upd_const.
    destruct (Nat.ltb_spec i (length (slots st))) as [Hl | Hl];
      [exact Hrx | now rewrite nth_overflow by lia].
  - pose proof (exchange_slot_spec (bus i) i (usbd_c s))
      as Hex.
    destruct (exchange_slot (bus i) i (usbd_c s)) as [c evs].
    destruct Hex as (Htx & Hpeer & Hty & Hfail & Hgood).
    cbn [slots]. rewrite length_list_upd.
    split; [reflexivity |].
    split; [intros j Hj; now apply nth_list_upd_other |].
    split; [intros _; exact Htx |].
    split; [exact Hpeer |].
    split.
    + intros He. destruct (Hfail He) as [-> Hnoreq].
      split; [| exact Hnoreq].
      rewrite nth_list_upd_const.
      destruct (Nat.ltb_spec i (length (slots st))) as [Hl | Hl];
        [exact Hrx | now rewrite nth_overflow by lia].
    + intros _ He Hl. rewrite nth_list_upd_const.
      apply Nat.ltb_lt in Hl. rewrite Hl. cbn [usbd_c].
      assert (Hlen : rx_len_of c = rx_len_of (usbd_c s))
        by (unfold rx_len_of; now rewrite Hty).
      rewrite Hlen. now apply Hgood.
Qed.

(** The loop over a duplicate free list of indices. *)
Lemma master_loop_spec bus indices :
  NoDup indices -> forall st,
  let (st', evs) := master_loop bus indices st in
  length (slots st') = length (slots st) /\
  (forall j, ~ In j indices -> slot_at st' j = slot_at st j) /\
  (forall j, In j indices -> j <> 0%nat ->
     exists status payload, In (Transmit j status payload) evs) /\
  (forall ev, In ev evs -> In (event_peer ev) indices) /\
  (forall j, In j indices -> io_end (bus j) <> 0 ->
     rx_buffers (slot_at st' j) = rx_buffers (slot_at st j) /\
     forall q, ~ In (Request j q) evs) /\
  (forall j, In j indices -> j <> 0%nat -> io_end (bus j) = 0 ->
     (j < length (slots st))%nat ->
     rx_len_of (usbd_c (slot_at st' j)) <> 0 ->
     In (Request j (rx_len_of (usbd_c (slot_at st' j)))) evs).
Proof.
  induction 1 as [| i rest Hnotin Hnodup IH]; intros st.
  - cbn [master_loop]. repeat split; try tauto; intros j [].
  - cbn [master_loop].
    pose proof (master_slot_spec bus i st) as H1.
    destruct (master_slot bus i st) as [st1 evs1].
    specialize (IH st1).
    destruct (master_loop bus rest st1) as [st2 evs2].
    destruct H1 as (L1 & F1 & T1 & P1 & B1 & G1).
    destruct IH as (L2 & F2 & T2 & P2 & B2 & G2).
    split; [congruence |].
    split.
    { intros j Hj. rewrite F2, F1; auto; intros E; apply Hj; simpl; auto. }
    split.
    { intros j [<- | Hj] Hj0.
      - destruct (T1 Hj0) as (status & payload & Hin).
        exists status, payload. apply in_or_app. now left.
      - destruct (T2 j Hj Hj0) as (status & payload & Hin).
        exists status, payload. apply in_or_app. now right. }
    split.
    { intros ev Hin. apply in_app_or in Hin. destruct Hin as [Hin | Hin].
      - left. symmetry. now apply P1.
      - right. now apply P2. }
    split.
    { intros j [<- | Hj] He.
      - destruct (B1 He) as [Hb Hq]. split.
        + rewrite F2 by exact Hnotin. exact Hb.
        + intros q Hin. apply in_app_or in Hin. destruct Hin as [Hin | Hin].
          * exact (Hq q Hin).
          * apply Hnotin. exact (P2 _ Hin).
      - assert (Hji : j <> i) by (intros ->; contradiction).
        destruct (B2 j Hj He) as [Hb Hq]. split.
        + rewrite Hb, F1 by exact Hji. reflexivity.
        + intros q Hin. apply in_app_or in Hin. destruct Hin as [Hin | Hin].
          * apply Hji. exact (P1 _ Hin).
          * exact (Hq q Hin). }
    intros j [<- | Hj] Hj0 He Hl Hnz.
    + rewrite F2 in * by exact Hnotin.
      apply in_or_app. left. now apply G1.
    + apply in_or_app. right. apply G2; auto. congruence.
Qed.

(** C9.  When the send to peer [i] fails in a tick, the receive step
    for that peer is skipped (nothing is requested from it and both
    out-reports of its slot keep their bytes), every peer is still
    addressed in that tick, the peers whose send succeeded are asked for
    their response, and the next tick addresses peer [i] again. *)
Theorem master_task_send_failure
  (bus : nat -> slot_io) (st : master_state) (i : nat) :
  (1 <= i < MAX_GAMEPADS)%nat ->
  io_end (bus i) <> 0 ->
  let (st', evs) := master_task bus st in
  rx_buffers (slot_at st' i) = rx_buffers (slot_at st i) /\
  (forall q, ~ In (Request i q) evs) /\
  (forall j, (1 <= j < MAX_GAMEPADS)%nat ->
     exists status payload, In (Transmit j status payload) evs) /\
  (forall j, (1 <= j < MAX_GAMEPADS)%nat -> io_end (bus j) = 0 ->
     (j < length (slots st))%nat ->
     rx_len_of (usbd_c (slot_at st' j)) <> 0 ->
     In (Request j (rx_len_of (usbd_c (slot_at st' j)))) evs) /\
  (forall bus',
     exists status payload,
       In (Transmit i status payload) (snd (master_task bus' st'))).
Proof.
  intros Hi He. unfold master_task.
  assert (Hnd : NoDup (seq 0 MAX_GAMEPADS)) by apply seq_NoDup.
  assert (Hin : forall j, (1 <= j < MAX_GAMEPADS)%nat ->
                          In j (seq 0 MAX_GAMEPADS) /\ j <> 0%nat).
  { intros j Hj. split; [apply in_seq |]; lia. }
  pose proof (master_loop_spec bus _ Hnd st) as Hspec.
  destruct (master_loop bus (seq 0 MAX_GAMEPADS) st) as [st' evs].
  destruct Hspec as (_ & _ & T & _ & B & G).
  destruct (Hin i Hi) as [Hii Hi0].
  destruct (B i Hii He) as [Hb Hq].
  split; [exact Hb |]. split; [exact Hq |].
  split; [intros j Hj; destruct (Hin j Hj); now apply T |].
  split; [intros j Hj; destruct (Hin j Hj); now apply G |].
  intros bus'.
  pose proof (master_loop_spec bus' _ Hnd st') as Hspec'.
  destruct (master_loop bus' (seq 0 MAX_GAMEPADS) st') as [st'' evs'].
  destruct Hspec' as (_ & _ & T' & _). cbn [snd]. now apply T'.
Qed.

End MasterTask.

(** The pointer saturates at 65535 and is recentred 501 ms after the
    release. *)
Lemma vmouse_clamped_and_recentred_witness :
  let s1 := Master.sb_step (H := xid_layout) tick_released pointer_state in
  let s3 := Master.sb_step (H := xid_layout) tick_recentre
              (Master.sb_final (H := xid_layout) [tick_held] s1) in
  Master.vmouse_x (Master.st_user s1) = 65535 /\
  Master.pointer_in_range (Master.st_user s1) /\
  Forall (fun s' => Master.pointer_in_range (Master.st_user s'))
    (Master.sb_run (H := xid_layout)
       [tick_released; tick_held; tick_recentre] pointer_state) /\
  Master.button_hold_timer (Master.st_user s1) = 1000 /\
  Master.vmouse_x (Master.st_user s3) = 32768 /\
  Master.vmouse_y (Master.st_user s3) = 32768.
Proof.
  destruct (vmouse_clamped_and_recentred (H := xid_layout))
    as (Hone & Hrun & Hrec).
  - simpl. lia.
  - split; [vm_compute; reflexivity |].
    split; [apply Hone |].
    split; [apply Hrun |].
    apply (Hrec pointer_state tick_released [tick_held] tick_recentre).
    + intros Hdown. apply Hdown. reflexivity.
    + repeat constructor. vm_compute. discriminate.
    + vm_compute. discriminate.
    + vm_compute. reflexivity.
Defined.

(** The send to peer 2 fails; peers 1 and 3 are served. *)
Lemma master_task_send_failure_witness :
  let (st', evs) :=
    Master.master_task (H := xid_layout) bus_peer2_fails four_pads in
  Master.rx_buffers (Master.slot_at st' 2) =
    Master.rx_buffers (Master.slot_at four_pads 2) /\
  (forall q, ~ In (Master.Request 2 q) evs) /\
  (forall j, (1 <= j < Master.MAX_GAMEPADS)%nat ->
     exists status payload, In (Master.Transmit j status payload) evs) /\
  (forall j, (1 <= j < Master.MAX_GAMEPADS)%nat ->
     Master.io_end (bus_peer2_fails j) = 0 ->
     (j < length (Master.slots four_pads))%nat ->
     Master.rx_len_of (H := xid_layout)
       (Master.usbd_c (Master.slot_at st' j)) <> 0 ->
     In (Master.Request j
           (Master.rx_len_of (H := xid_layout)
              (Master.usbd_c (Master.slot_at st' j)))) evs) /\
  (forall bus',
     exists status payload,
       In (Master.Transmit 2 status payload)
          (snd (Master.master_task (H := xid_layout) bus' st'))).
Proof.
  apply (master_task_send_failure (H := xid_layout)
           bus_peer2_fails four_pads 2).
  - unfold Master.MAX_GAMEPADS. lia.
  - simpl. discriminate.
Defined.

(** ** The cockpit mapping: toggle switches *)

(** A poll of a released key. *)
Lemma was_chatpad_pressed_up x code :
  usbh_xinput_is_chatpad_pressed x code = 0 ->
  usbh_xinput_was_chatpad_pressed x code =
  (set_chatpad_state_old x (history_clear (chatpad_state_old x) (u16 code)), 0).
Proof.
  intros Hup. unfold usbh_xinput_was_chatpad_pressed.
  now rewrite is_chatpad_pressed_u16, Hup.
Qed.

(** A poll of a key that is down and tracked. *)
Lemma was_chatpad_pressed_tracked x code :
  usbh_xinput_is_chatpad_pressed x code = 1 ->
  In (u16 code) (chatpad_state_old x) ->
  usbh_xinput_was_chatpad_pressed x code = (x, 0).
Proof.
  intros Hdown Hin. unfold usbh_xinput_was_chatpad_pressed.
  rewrite is_chatpad_pressed_u16, Hdown. simpl.
  destruct (history_lacks (chatpad_state_old x) (u16 code)) eqn:Hl;
    [| reflexivity].
  apply history_lacks_spec in Hl. contradiction.
Qed.

(** A poll of a key that is down, untracked, with a free slot. *)
Lemma was_chatpad_pressed_rising x code :
  Forall is_u8 (chatpad_state x) ->
  usbh_xinput_is_chatpad_pressed x code = 1 ->
  ~ In (u16 code) (chatpad_state_old x) ->
  In 0 (chatpad_state_old x) ->
  snd (usbh_xinput_was_chatpad_pressed x code) = 1 /\
  In (u16 code)
     (chatpad_state_old (fst (usbh_xinput_was_chatpad_pressed x code))).
Proof.
  intros Hwf Hdown Hlack Hfree.
  pose proof (pressed_code_range x code Hwf Hdown) as Hr.
  unfold usbh_xinput_was_chatpad_pressed.
  rewrite is_chatpad_pressed_u16, Hdown. simpl.
  apply history_lacks_spec in Hlack. rewrite Hlack.
  destruct (history_claim_free _ (u16 code) Hfree) as (old' & -> & Hin).
  simpl. rewrite u8_small in Hin by lia. auto.
Qed.

Lemma is_chatpad_pressed_same_code x c d :
  u16 c = u16 d ->
  usbh_xinput_is_chatpad_pressed x c = usbh_xinput_is_chatpad_pressed x d.
Proof. unfold usbh_xinput_is_chatpad_pressed. now intros ->. Qed.

Section ToggleLoop.
Context {H : usbd_xid_h}.
Import Master.

(** The loop while every key of the table is up: no switch moves and
    the history is cleared of the keys of the table. *)
Lemma apply_toggle_map_up tbl : forall x w,
  (forall e, In e tbl -> usbh_xinput_is_chatpad_pressed x (xinput_mask e) = 0) ->
  apply_toggle_map tbl (x, w) =
  (set_chatpad_state_old x (history_clear_all tbl (chatpad_state_old x)), w).
Proof.
  unfold apply_toggle_map, history_clear_all.
  induction tbl as [| e tbl IH]; intros x w Hup.
  - now destruct x.
  - cbn [fold_left fst snd].
    rewrite was_chatpad_pressed_up by (apply Hup; now left).
    cbn [truthy Z.eqb negb]. rewrite IH.
    + reflexivity.
    + intros e' He'. rewrite <- (Hup e' (or_intror He')).
      apply is_chatpad_pressed_inputs. reflexivity.
Qed.

End ToggleLoop.

(** *** The toggle loop beside keys that are held

    [D] lists the codes of keys that are down and tracked; every other
    key of the table is up. *)

Section ToggleSteady.
Context {H : usbd_xid_h}.
Import Master.

Lemma apply_toggle_map_steady tbl : forall (D : list Z) x w,
  (forall d, In d D -> d <> 0 /\ In d (chatpad_state_old x)) ->
  (forall e, In e tbl ->
     (In (u16 (xinput_mask e)) D /\
      usbh_xinput_is_chatpad_pressed x (xinput_mask e) = 1) \/
     (~ In (u16 (xinput_mask e)) D /\
      usbh_xinput_is_chatpad_pressed x (xinput_mask e) = 0)) ->
  snd (apply_toggle_map tbl (x, w)) = w /\
  (forall d, In d D ->
     In d (chatpad_state_old (fst (apply_toggle_map tbl (x, w))))) /\
  (In 0 (chatpad_state_old x) ->
   In 0 (chatpad_state_old (fst (apply_toggle_map tbl (x, w))))) /\
  (forall c, c <> 0 -> ~ In c (chatpad_state_old x) ->
     ~ In c (chatpad_state_old (fst (apply_toggle_map tbl (x, w))))) /\
  (forall e, In e tbl -> ~ In (u16 (xinput_mask e)) D ->
     u16 (xinput_mask e) <> 0 ->
     ~ In (u16 (xinput_mask e))
          (chatpad_state_old (fst (apply_toggle_map tbl (x, w)))) /\
     (In (u16 (xinput_mask e)) (chatpad_state_old x) ->
      In 0 (chatpad_state_old (fst (apply_toggle_map tbl (x, w)))))).
Proof.
  unfold apply_toggle_map.
  induction tbl as [| e tbl IH]; intros D x w HD Hent.
  - cbn [fold_left fst snd].
    split; [reflexivity |]. split; [intros d Hd; now apply HD |].
    split; [auto |]. split; [auto |]. intros e [].
  - cbn [fold_left fst snd].
    destruct (Hent e (or_introl eq_refl)) as [[HinD Hdown] | [HnD Hup]].
    + destruct (HD _ HinD) as [Hz Hin].
      rewrite was_chatpad_pressed_tracked by assumption.
      cbn [truthy Z.eqb negb].
      destruct (IH D x w HD (fun e' He' => Hent e' (or_intror He')))
        as (I1 & I2 & I3 & I4 & I5).
      split; [exact I1 |]. split; [exact I2 |]. split; [exact I3 |].
      split; [exact I4 |].
      intros e' [<- | He'] HnD' Hz'; [contradiction | now apply I5].
    + rewrite was_chatpad_pressed_up by exact Hup.
      cbn [truthy Z.eqb negb].
      set (x1 := set_chatpad_state_old x
                   (history_clear (chatpad_state_old x) (u16 (xinput_mask e)))).
      assert (HD1 : forall d, In d D -> d <> 0 /\ In d (chatpad_state_old x1)).
      { intros d Hd. destruct (HD d Hd) as [Hz Hin]. split; [exact Hz |].
        subst x1. cbn [chatpad_state_old set_chatpad_state_old].
        apply history_clear_keeps; [| exact Hin].
        intros E. apply HnD. now rewrite E. }
      assert (Hent1 : forall e', In e' tbl ->
                (In (u16 (xinput_mask e')) D /\
                 usbh_xinput_is_chatpad_pressed x1 (xinput_mask e') = 1) \/
                (~ In (u16 (xinput_mask e')) D /\
                 usbh_xinput_is_chatpad_pressed x1 (xinput_mask e') = 0)).
      { intros e' He'.
        replace (usbh_xinput_is_chatpad_pressed x1 (xinput_mask e'))
          with (usbh_xinput_is_chatpad_pressed x (xinput_mask e'))
          by (apply is_chatpad_pressed_inputs; reflexivity).
        apply Hent. now right. }
      destruct (IH D x1 w HD1 Hent1) as (I1 & I2 & I3 & I4 & I5).
      assert (Hold1 : chatpad_state_old x1 =
                      history_clear (chatpad_state_old x) (u16 (xinput_mask e)))
        by reflexivity.
      split; [exact I1 |]. split; [exact I2 |].
      split; [intros Hf; apply I3; rewrite Hold1;
              now apply history_clear_keeps_free |].
      split; [intros c Hc Hn; apply I4; [exact Hc |]; rewrite Hold1;
              now apply history_clear_adds_only_free |].
      intros e' [<- | He'] HnD' Hz'.
      * split.
        -- apply I4; [exact Hz' |]. rewrite Hold1.
           now apply history_clear_lacks.
        -- intros Hin. apply I3. rewrite Hold1.
           now apply history_clear_frees.
      * destruct (I5 e' He' HnD' Hz') as [J1 J2].
        split; [exact J1 |]. intros Hin.
        destruct (Z.eq_dec (u16 (xinput_mask e)) (u16 (xinput_mask e')))
          as [E | E].
        -- apply I3. rewrite Hold1, E. now apply history_clear_frees.
        -- apply J2. rewrite Hold1. now apply history_clear_keeps.
Qed.

(** The loop on a rising edge of [k] beside the held keys of [D]: the
    first entry for [k] flips its switch, no other switch moves, and
    [k] and the keys of [D] are tracked afterwards. *)
Lemma apply_toggle_map_edge tbl : forall (D : list Z) x w k e0,
  Forall is_u8 (chatpad_state x) ->
  (forall d, In d D -> d <> 0 /\ In d (chatpad_state_old x)) ->
  ~ In (u16 k) D ->
  usbh_xinput_is_chatpad_pressed x k = 1 ->
  ~ In (u16 k) (chatpad_state_old x) ->
  In 0 (chatpad_state_old x) ->
  (forall e, In e tbl -> u16 (xinput_mask e) <> u16 k ->
     (In (u16 (xinput_mask e)) D /\
      usbh_xinput_is_chatpad_pressed x (xinput_mask e) = 1) \/
     (~ In (u16 (xinput_mask e)) D /\
      usbh_xinput_is_chatpad_pressed x (xinput_mask e) = 0)) ->
  find (fun e => u16 (xinput_mask e) =? u16 k) tbl = Some e0 ->
  snd (apply_toggle_map tbl (x, w)) =
    word_xor w (sb_word_offset e0) (sb_mask e0) /\
  In (u16 k) (chatpad_state_old (fst (apply_toggle_map tbl (x, w)))) /\
  (forall d, In d D ->
     In d (chatpad_state_old (fst (apply_toggle_map tbl (x, w))))).
Proof.
  induction tbl as [| e tbl IH];
    intros D x w k e0 Hwf HD HkD Hdown Hlack Hfree Hent Hfind;
    [discriminate |].
  pose proof (pressed_code_range x k Hwf Hdown) as Hr.
  cbn [find] in Hfind.
  destruct (Z.eqb_spec (u16 (xinput_mask e)) (u16 k)) as [Ek | Ek].
  - injection Hfind as <-.
    assert (Hd : usbh_xinput_is_chatpad_pressed x (xinput_mask e) = 1)
      by now rewrite (is_chatpad_pressed_same_code x _ k Ek).
    assert (Hl : ~ In (u16 (xinput_mask e)) (chatpad_state_old x))
      by now rewrite Ek.
    pose proof (was_chatpad_pressed_rising x _ Hwf Hd Hl Hfree) as [Hr1 Hin1].
    pose proof (was_chatpad_pressed_inputs x (xinput_mask e)) as Hi1.
    assert (Hk1 : forall d, In d D ->
              In d (chatpad_state_old
                      (fst (usbh_xinput_was_chatpad_pressed x
                              (xinput_mask e))))).
    { intros d Hdd. destruct (HD d Hdd) as [Hz Hin].
      apply was_chatpad_pressed_keeps; [exact Hz | | exact Hin].
      intros E. apply HkD. now rewrite <- Ek, <- E. }
    unfold apply_toggle_map. cbn [fold_left fst snd].
    destruct (usbh_xinput_was_chatpad_pressed x (xinput_mask e)) as [x1 r1].
    cbn [fst snd] in *. subst r1. cbn [truthy Z.eqb negb].
    destruct (apply_toggle_map_steady tbl (u16 k :: D) x1
                (word_xor w (sb_word_offset e) (sb_mask e)))
      as (I1 & I2 & _).
    + intros d [<- | Hdd].
      * split; [lia | now rewrite <- Ek].
      * split; [apply HD; exact Hdd | now apply Hk1].
    + intros e' He'.
      replace (usbh_xinput_is_chatpad_pressed x1 (xinput_mask e'))
        with (usbh_xinput_is_chatpad_pressed x (xinput_mask e'))
        by (symmetry; now apply is_chatpad_pressed_inputs).
      destruct (Z.eq_dec (u16 (xinput_mask e')) (u16 k)) as [E' | E'].
      * left. split; [left; now rewrite E' |].
        now rewrite (is_chatpad_pressed_same_code x _ k E').
      * destruct (Hent e' (or_intror He') E') as [[A B] | [A B]].
        -- left. split; [now right | exact B].
        -- right. split; [| exact B]. intros [E | Hin]; [congruence | auto].
    + unfold apply_toggle_map in I1, I2.
      split; [exact I1 |]. split; [apply I2; now left |].
      intros d Hdd. apply I2. now right.
  - unfold apply_toggle_map. cbn [fold_left fst snd].
    destruct (Hent e (or_introl eq_refl) Ek) as [[HinD Hdn] | [HnD Hup]].
    + destruct (HD _ HinD) as [Hz Hin].
      rewrite was_chatpad_pressed_tracked by assumption.
      cbn [truthy Z.eqb negb].
      apply (IH D x w k e0); auto.
      intros e' He'. apply Hent. now right.
    + rewrite was_chatpad_pressed_up by exact Hup.
      cbn [truthy Z.eqb negb].
      apply (IH D); auto.
      * intros d Hdd. destruct (HD d Hdd) as [Hz Hin]. split; [exact Hz |].
        cbn [chatpad_state_old set_chatpad_state_old].
        apply history_clear_keeps; [| exact Hin].
        intros E. apply HnD. now rewrite E.
      * cbn [chatpad_state_old set_chatpad_state_old].
        apply history_clear_adds_only_free; [lia | exact Hlack].
      * cbn [chatpad_state_old set_chatpad_state_old].
        now apply history_clear_keeps_free.
      * intros e' He' Hne.
        replace (usbh_xinput_is_chatpad_pressed
                   (set_chatpad_state_old x
                      (history_clear (chatpad_state_old x)
                         (u16 (xinput_mask e)))) (xinput_mask e'))
          with (usbh_xinput_is_chatpad_pressed x (xinput_mask e'))
          by (apply is_chatpad_pressed_inputs; reflexivity).
        apply Hent; [now right | exact Hne].
Qed.

End ToggleSteady.

Section ToggleSwitches.
Context {H : usbd_xid_h}.
Import Master.

Lemma word2_if_or_low (c : bool) w k m :
  (k < 2)%nat -> word2 (if c then word_or w k m else w) = word2 w.
Proof.
  intros Hk. destruct c; [| reflexivity].
  destruct k as [| [| k]]; [reflexivity | reflexivity | lia].
Qed.

Lemma word2_if_or_2 (c : bool) w m :
  word2 (if c then word_or w 2 m else w) =
  if c then u16 (Z.lor (word2 w) m) else word2 w.
Proof. now destruct c. Qed.

Ltac word2_of_table :=
  cbn [fold_left xinput_mask sb_mask sb_word_offset skipn];
  repeat first [rewrite word2_if_or_low by lia | rewrite word2_if_or_2].

Lemma apply_pad_map_app l1 l2 x w :
  apply_pad_map (l1 ++ l2) x w = apply_pad_map l2 x (apply_pad_map l1 x w).
Proof. unfold apply_pad_map. apply fold_left_app. Qed.

Lemma apply_chatpad_map_app l1 l2 x w :
  apply_chatpad_map (l1 ++ l2) x w =
  apply_chatpad_map l2 x (apply_chatpad_map l1 x w).
Proof. unfold apply_chatpad_map. apply fold_left_app. Qed.

(** Entries for words 0 and 1 leave word 2 alone. *)
Lemma apply_pad_map_low tbl x :
  Forall (fun e => (sb_word_offset e < 2)%nat) tbl ->
  forall w, word2 (apply_pad_map tbl x w) = word2 w.
Proof.
  unfold apply_pad_map.
  induction 1 as [| e tbl He _ IH]; intros w; [reflexivity |].
  cbn [fold_left]. rewrite IH. now apply word2_if_or_low.
Qed.

Lemma apply_chatpad_map_low tbl x :
  Forall (fun e => (sb_word_offset e < 2)%nat) tbl ->
  forall w, word2 (apply_chatpad_map tbl x w) = word2 w.
Proof.
  unfold apply_chatpad_map.
  induction 1 as [| e tbl He _ IH]; intros w; [reflexivity |].
  cbn [fold_left]. rewrite IH. now apply word2_if_or_low.
Qed.

Ltac low_table := cbn [firstn]; repeat constructor.

Lemma apply_pad_map_word2 x w :
  word2 (apply_pad_map sb_pad_map x w) = pad_word2 x (word2 w).
Proof.
  rewrite <- (firstn_skipn 7 sb_pad_map), apply_pad_map_app.
  set (w' := apply_pad_map (firstn 7 sb_pad_map) x w).
  assert (Hw : word2 w' = word2 w)
    by (apply apply_pad_map_low; unfold sb_pad_map; low_table).
  clearbody w'.
  unfold apply_pad_map, sb_pad_map, pad_word2. word2_of_table.
  now rewrite Hw.
Qed.

Lemma apply_chatpad_map_word2 x w :
  word2 (apply_chatpad_map sb_chatpad_map x w) = word2 w.
Proof. apply apply_chatpad_map_low. unfold sb_chatpad_map. low_table. Qed.

Lemma apply_alt1_map_word2 x w :
  word2 (apply_chatpad_map sb_chatpad_alt1_map x w) =
  if truthy (usbh_xinput_is_chatpad_pressed x XINPUT_CHATPAD_5)
  then u16 (Z.lor (word2 w) SBC_W2_COMM5) else word2 w.
Proof.
  rewrite <- (firstn_skipn 4 sb_chatpad_alt1_map), apply_chatpad_map_app.
  set (w' := apply_chatpad_map (firstn 4 sb_chatpad_alt1_map) x w).
  assert (Hw : word2 w' = word2 w)
    by (apply apply_chatpad_map_low; unfold sb_chatpad_alt1_map; low_table).
  clearbody w'.
  unfold apply_chatpad_map, sb_chatpad_alt1_map. word2_of_table.
  now rewrite Hw.
Qed.

Lemma apply_alt2_map_word2 x w :
  word2 (apply_chatpad_map sb_chatpad_alt2_map x w) = word2 w.
Proof. apply apply_chatpad_map_low. unfold sb_chatpad_alt2_map. low_table. Qed.

Lemma sb_x_button_word2 wB out w : word2 (sb_x_button wB out w) = word2 w.
Proof.
  unfold sb_x_button.
  repeat rewrite word2_if_or_low by lia. reflexivity.
Qed.

Lemma sb_alternate_word2 x r w :
  usbh_xinput_is_chatpad_pressed x XINPUT_CHATPAD_5 = 0 ->
  word2 (snd (fst (fst (sb_alternate x r w)))) = word2 w.
Proof.
  intros H5. unfold sb_alternate.
  destruct (_ || _).
  - destruct (was_gamepad_pressed_either x XINPUT_GAMEPAD_DPAD_UP
                XINPUT_GAMEPAD_DPAD_RIGHT) as [x1 up].
    destruct (was_gamepad_pressed_either x1 XINPUT_GAMEPAD_DPAD_DOWN
                XINPUT_GAMEPAD_DPAD_LEFT) as [x2 down].
    cbn [fst snd]. rewrite apply_alt1_map_word2, H5. reflexivity.
  - destruct (negb (truthy (usbh_xinput_is_chatpad_pressed x
                              XINPUT_CHATPAD_ORANGE))); [| reflexivity].
    destruct (negb (truthy _)).
    + destruct (usbh_xinput_was_gamepad_pressed x XINPUT_GAMEPAD_DPAD_UP)
        as [x1 up].
      destruct (usbh_xinput_was_gamepad_pressed x1 XINPUT_GAMEPAD_DPAD_DOWN)
        as [x2 down].
      cbn [fst snd]. apply apply_alt2_map_word2.
    + cbn [fst snd]. apply apply_alt2_map_word2.
Qed.

Lemma sb_alternate_history x r w :
  chatpad_state_old (fst (fst (fst (sb_alternate x r w)))) =
  chatpad_state_old x.
Proof.
  unfold sb_alternate.
  destruct (_ || _).
  - pose proof (was_gamepad_pressed_either_history x XINPUT_GAMEPAD_DPAD_UP
                  XINPUT_GAMEPAD_DPAD_RIGHT) as H1.
    destruct (was_gamepad_pressed_either x XINPUT_GAMEPAD_DPAD_UP
                XINPUT_GAMEPAD_DPAD_RIGHT) as [x1 up].
    pose proof (was_gamepad_pressed_either_history x1 XINPUT_GAMEPAD_DPAD_DOWN
                  XINPUT_GAMEPAD_DPAD_LEFT) as H2.
    destruct (was_gamepad_pressed_either x1 XINPUT_GAMEPAD_DPAD_DOWN
                XINPUT_GAMEPAD_DPAD_LEFT) as [x2 down].
    simpl in *. congruence.
  - destruct (negb (truthy (usbh_xinput_is_chatpad_pressed x
                              XINPUT_CHATPAD_ORANGE))); [| reflexivity].
    destruct (negb (truthy _)); [| reflexivity].
    pose proof (was_gamepad_pressed_history x XINPUT_GAMEPAD_DPAD_UP) as H1.
    destruct (usbh_xinput_was_gamepad_pressed x XINPUT_GAMEPAD_DPAD_UP)
      as [x1 up].
    pose proof (was_gamepad_pressed_history x1 XINPUT_GAMEPAD_DPAD_DOWN) as H2.
    destruct (usbh_xinput_was_gamepad_pressed x1 XINPUT_GAMEPAD_DPAD_DOWN)
      as [x2 down].
    simpl in *. congruence.
Qed.

(** What the tail of [sb_buttons] (X button, alternate tables, shift)
    does to word 2 and to the history when shift and the 5 key are up. *)
Lemma sb_buttons_tail x1 r out wB w1 :
  usbh_xinput_is_chatpad_pressed x1 XINPUT_CHATPAD_SHIFT = 0 ->
  usbh_xinput_is_chatpad_pressed x1 XINPUT_CHATPAD_5 = 0 ->
  let '(x2, w2, dial, gear) := sb_alternate x1 r (sb_x_button wB out w1) in
  let (x3, shift) := usbh_xinput_was_chatpad_pressed x2 XINPUT_CHATPAD_SHIFT in
  word2 (if truthy shift then word_xor w2 2 0xFFFC else w2) = word2 w1 /\
  chatpad_state_old x3 =
    history_clear (chatpad_state_old x1) (u16 XINPUT_CHATPAD_SHIFT).
Proof.
  intros Hs H5.
  pose proof (sb_alternate_word2 x1 r (sb_x_button wB out w1) H5) as Hw.
  pose proof (sb_alternate_history x1 r (sb_x_button wB out w1)) as Hh.
  pose proof (sb_alternate_inputs x1 r (sb_x_button wB out w1)) as Hi.
  destruct (sb_alternate x1 r (sb_x_button wB out w1))
    as [[[x2 w2] dial] gear].
  cbn [fst snd] in *.
  rewrite was_chatpad_pressed_up
    by (rewrite <- Hs; now apply is_chatpad_pressed_inputs).
  cbn [truthy Z.eqb negb chatpad_state_old set_chatpad_state_old].
  rewrite Hw, Hh, sb_x_button_word2. auto.
Qed.

End ToggleSwitches.

Section ToggleTicks.
Context {H : usbd_xid_h}.
Import Master.

(** The entries of the toggle table: distinct ordinary keys, all in
    word 2. *)
Lemma toggle_entry_facts e0 :
  In e0 sb_chatpad_toggle_map ->
  find (fun e => u16 (xinput_mask e) =? u16 (xinput_mask e0))
       sb_chatpad_toggle_map = Some e0 /\
  sb_word_offset e0 = 2%nat /\
  u16 (xinput_mask e0) = xinput_mask e0 /\
  17 <= xinput_mask e0 < 256.
Proof.
  intros [<- | [<- | [<- | [<- | [<- | []]]]]];
    (split; [reflexivity |]); (split; [reflexivity |]);
    (split; [reflexivity |]); cbn [xinput_mask];
    unfold XINPUT_CHATPAD_Q, XINPUT_CHATPAD_A, XINPUT_CHATPAD_W,
      XINPUT_CHATPAD_S, XINPUT_CHATPAD_Z; lia.
Qed.

Lemma toggle_bank_steady_inputs x y e0 D :
  inputs x = inputs y -> toggle_bank_steady x e0 D -> toggle_bank_steady y e0 D.
Proof.
  intros Hi (Hwf & Hent & Hs & Ho & H5).
  assert (Hc : chatpad_state y = chatpad_state x)
    by (unfold inputs in Hi; congruence).
  unfold toggle_bank_steady.
  rewrite Hc, <- !(is_chatpad_pressed_inputs x y) by exact Hi.
  repeat split; auto;
    rewrite <- (is_chatpad_pressed_inputs x y) by exact Hi;
    now apply Hent.
Qed.

Lemma toggle_code_facts c :
  In c (map xinput_mask sb_chatpad_toggle_map) ->
  u16 c = c /\ 17 <= c < 256.
Proof.
  intros Hc. apply in_map_iff in Hc. destruct Hc as (e & <- & He).
  destruct (toggle_entry_facts e He) as (_ & _ & Hu & Hr). auto.
Qed.

(** [sb_buttons] in terms of the toggle loop, when shift and the 5 key
    are up. *)
Lemma sb_buttons_loop x r out :
  usbh_xinput_is_chatpad_pressed x XINPUT_CHATPAD_SHIFT = 0 ->
  usbh_xinput_is_chatpad_pressed x XINPUT_CHATPAD_5 = 0 ->
  exists w0,
    word2 w0 = pad_word2 x (word2 (sb_wButtons r)) /\
    word2 (snd (fst (fst (sb_buttons x r out)))) =
      word2 (snd (apply_toggle_map sb_chatpad_toggle_map (x, w0))) /\
    chatpad_state_old (fst (fst (fst (sb_buttons x r out)))) =
      history_clear
        (chatpad_state_old
           (fst (apply_toggle_map sb_chatpad_toggle_map (x, w0))))
        (u16 XINPUT_CHATPAD_SHIFT).
Proof.
  intros Hs H5. unfold sb_buttons.
  set (w := apply_chatpad_map sb_chatpad_map x
              (apply_pad_map sb_pad_map x
                 (mk_words 0 0 (word2 (sb_wButtons r))))).
  exists w.
  split; [subst w; now rewrite apply_chatpad_map_word2, apply_pad_map_word2 |].
  pose proof (apply_toggle_map_inputs sb_chatpad_toggle_map (x, w)) as Hinp.
  destruct (apply_toggle_map sb_chatpad_toggle_map (x, w)) as [x1 w1].
  cbn [fst snd] in Hinp |- *.
  assert (Hs1 : usbh_xinput_is_chatpad_pressed x1 XINPUT_CHATPAD_SHIFT = 0)
    by (rewrite <- Hs; now apply is_chatpad_pressed_inputs).
  assert (H51 : usbh_xinput_is_chatpad_pressed x1 XINPUT_CHATPAD_5 = 0)
    by (rewrite <- H5; now apply is_chatpad_pressed_inputs).
  pose proof (sb_buttons_tail x1 r out (wButtons (pad_state x)) w1 Hs1 H51)
    as Ht.
  destruct (sb_alternate x1 r (sb_x_button (wButtons (pad_state x)) out w1))
    as [[[x2 w2] dial] gear].
  destruct (usbh_xinput_was_chatpad_pressed x2 XINPUT_CHATPAD_SHIFT)
    as [x3 shift].
  cbn [fst snd]. exact Ht.
Qed.

(** [handle_sbattalion] never changes what the queries read. *)
Lemma handle_sbattalion_inputs e s :
  inputs (st_xinput (handle_sbattalion e s)) = inputs (st_xinput s).
Proof.
  unfold handle_sbattalion.
  pose proof (sb_buttons_inputs (st_xinput s) (st_in s) (st_out s)) as Hx.
  destruct (sb_buttons (st_xinput s) (st_in s) (st_out s))
    as [[[x w] dial] gear].
  cbn [fst] in Hx.
  match goal with
  | |- context [if truthy (usbh_xinput_is_chatpad_pressed ?a ?b)
                then select_sensitivity ?c ?d ?f ?g else ?h] =>
      assert (Hsel : inputs (fst (if truthy (usbh_xinput_is_chatpad_pressed a b)
                                  then select_sensitivity c d f g else h))
                     = inputs x)
        by (destruct (truthy (usbh_xinput_is_chatpad_pressed a b));
            [rewrite select_sensitivity_inputs |]; reflexivity);
      destruct (if truthy (usbh_xinput_is_chatpad_pressed a b)
                then select_sensitivity c d f g else h) as [x' g']
  end.
  cbn [fst] in Hsel.
  destruct (truthy (Z.land (word0 w) SBC_W0_IGNITION)); cbn [st_xinput];
    congruence.
Qed.

(** With orange up the presets are not polled: word 2 and the history
    after the call are those after [sb_buttons]. *)
Lemma handle_sbattalion_buttons e s :
  usbh_xinput_is_chatpad_pressed (st_xinput s) XINPUT_CHATPAD_ORANGE = 0 ->
  word2 (sb_wButtons (st_in (handle_sbattalion e s))) =
    word2 (snd (fst (fst (sb_buttons (st_xinput s) (st_in s) (st_out s))))) /\
  chatpad_state_old (st_xinput (handle_sbattalion e s)) =
    chatpad_state_old
      (fst (fst (fst (sb_buttons (st_xinput s) (st_in s) (st_out s))))).
Proof.
  intros Ho. unfold handle_sbattalion.
  pose proof (sb_buttons_inputs (st_xinput s) (st_in s) (st_out s)) as Hx.
  destruct (sb_buttons (st_xinput s) (st_in s) (st_out s))
    as [[[x w] dial] gear].
  cbn [fst snd] in *.
  match goal with
  | |- context [usbh_xinput_is_chatpad_pressed ?a XINPUT_CHATPAD_ORANGE] =>
      replace (usbh_xinput_is_chatpad_pressed a XINPUT_CHATPAD_ORANGE) with 0
        by (rewrite <- Ho; symmetry; apply is_chatpad_pressed_inputs;
            rewrite <- Hx; reflexivity)
  end.
  cbn [truthy Z.eqb negb].
  destruct (truthy (Z.land (word0 w) SBC_W0_IGNITION));
    cbn [st_in st_xinput sb_wButtons word_upd word2]; split; reflexivity.
Qed.

End ToggleTicks.

(** Bits of a switch under the sight change bit and under a flip. *)
Lemma land_lor_disjoint w l m :
  is_u16 w -> Z.land m l = 0 -> Z.land (u16 (Z.lor w l)) m = Z.land w m.
Proof.
  intros Hw Hml. rewrite u16_land_ones.
  apply Z.bits_inj'. intros n Hn.
  assert (Hb : Z.testbit (Z.land m l) n = false) by (rewrite Hml; apply Z.bits_0).
  assert (Hu : Z.testbit w n = Z.testbit (Z.land w 65535) n)
    by (rewrite <- u16_land_ones, u16_small by exact Hw; reflexivity).
  rewrite !Z.land_spec, Z.lor_spec. rewrite !Z.land_spec in *.
  destruct (Z.testbit w n), (Z.testbit l n), (Z.testbit m n),
    (Z.testbit 65535 n); simpl in *; congruence.
Qed.

Lemma land_flip p m :
  is_u16 m -> Z.land (u16 (Z.lxor p m)) m = Z.lxor (Z.land p m) m.
Proof.
  intros Hm. rewrite u16_land_ones.
  apply Z.bits_inj'. intros n Hn.
  assert (Hu : Z.testbit m n = Z.testbit (Z.land m 65535) n)
    by (rewrite <- u16_land_ones, u16_small by exact Hm; reflexivity).
  rewrite !Z.lxor_spec, !Z.land_spec, Z.lxor_spec. rewrite Z.land_spec in Hu.
  destruct (Z.testbit p n), (Z.testbit m n), (Z.testbit 65535 n);
    simpl in *; congruence.
Qed.

(** A 16-bit word keeps its bits under a wrapped disjunction. *)
Lemma land_covers_lor w l : is_u16 w -> Z.land w (u16 (Z.lor w l)) = w.
Proof.
  intros Hw. rewrite u16_land_ones.
  apply Z.bits_inj'. intros n Hn.
  assert (Hu : Z.testbit w n = Z.testbit (Z.land w 65535) n)
    by (rewrite <- u16_land_ones, u16_small by exact Hw; reflexivity).
  rewrite !Z.land_spec, Z.lor_spec. rewrite Z.land_spec in Hu.
  destruct (Z.testbit w n), (Z.testbit l n), (Z.testbit 65535 n);
    simpl in *; congruence.
Qed.

Lemma land_flip_disjoint p m0 m :
  is_u16 p -> Z.land m m0 = 0 -> Z.land (u16 (Z.lxor p m0)) m = Z.land p m.
Proof.
  intros Hp Hd. rewrite u16_land_ones.
  apply Z.bits_inj'. intros n Hn.
  assert (Hb : Z.testbit (Z.land m m0) n = false) by (rewrite Hd; apply Z.bits_0).
  assert (Hu : Z.testbit p n = Z.testbit (Z.land p 65535) n)
    by (rewrite <- u16_land_ones, u16_small by exact Hp; reflexivity).
  rewrite !Z.land_spec, Z.lxor_spec. rewrite !Z.land_spec in *.
  destruct (Z.testbit p n), (Z.testbit m0 n), (Z.testbit m n),
    (Z.testbit 65535 n); simpl in *; congruence.
Qed.

Section ToggleTheorem.
Context {H : usbd_xid_h}.
Import Master.

Lemma pad_word2_bits x w m :
  is_u16 w -> Z.land m SBC_W2_LEFTJOYSIGHTCHANGE = 0 ->
  Z.land (pad_word2 x w) m = Z.land w m /\ is_u16 (pad_word2 x w).
Proof.
  intros Hw Hm. unfold pad_word2.
  destruct (truthy _).
  - split; [now apply land_lor_disjoint | apply u16_range].
  - now split.
Qed.

Lemma sb_step_bAddress t s :
  bAddress (st_xinput (sb_step t s)) = bAddress (st_xinput s).
Proof.
  unfold sb_step.
  exact (inputs_bAddress _ _
           (handle_sbattalion_inputs (tick_env t) (sb_load t s))).
Qed.

Lemma tick_device_inputs t s s' :
  bAddress (st_xinput s') = bAddress (st_xinput s) ->
  inputs (tick_device t s') = inputs (tick_device t s).
Proof. unfold tick_device, sb_load, inputs. simpl. now intros ->. Qed.

(** A tick in terms of the toggle loop, when shift, orange and the 5
    key are up. *)
Lemma sb_step_loop t s :
  usbh_xinput_is_chatpad_pressed (tick_device t s) XINPUT_CHATPAD_SHIFT = 0 ->
  usbh_xinput_is_chatpad_pressed (tick_device t s) XINPUT_CHATPAD_ORANGE = 0 ->
  usbh_xinput_is_chatpad_pressed (tick_device t s) XINPUT_CHATPAD_5 = 0 ->
  exists w0,
    word2 w0 = pad_word2 (tick_device t s) (word2 (sb_wButtons (st_in s))) /\
    word2 (sb_wButtons (st_in (sb_step t s))) =
      word2 (snd (apply_toggle_map sb_chatpad_toggle_map
                    (tick_device t s, w0))) /\
    chatpad_state_old (st_xinput (sb_step t s)) =
      history_clear
        (chatpad_state_old
           (fst (apply_toggle_map sb_chatpad_toggle_map
                   (tick_device t s, w0))))
        (u16 XINPUT_CHATPAD_SHIFT).
Proof.
  intros Hs Ho H5.
  destruct (handle_sbattalion_buttons (tick_env t) (sb_load t s) Ho)
    as [Hw Hh].
  unfold sb_step. rewrite Hw, Hh.
  apply (sb_buttons_loop (tick_device t s) (st_in s) (tick_out t));
    assumption.
Qed.

Section SteadyTicks.
Variable e0 : sb_map_t.
Variable D : list Z.
Hypothesis He0 : In e0 sb_chatpad_toggle_map.
Hypothesis HD : forall c, In c D ->
  c <> xinput_mask e0 /\ In c (map xinput_mask sb_chatpad_toggle_map).

(** The loop hypotheses of a steady bank. *)
Lemma toggle_bank_steady_entries x :
  toggle_bank_steady x e0 D ->
  forall e, In e sb_chatpad_toggle_map ->
    u16 (xinput_mask e) <> u16 (xinput_mask e0) ->
    (In (u16 (xinput_mask e)) D /\
     usbh_xinput_is_chatpad_pressed x (xinput_mask e) = 1) \/
    (~ In (u16 (xinput_mask e)) D /\
     usbh_xinput_is_chatpad_pressed x (xinput_mask e) = 0).
Proof.
  intros (_ & Hent & _) e He Hne.
  destruct (toggle_entry_facts e He) as (_ & _ & Hu & _).
  destruct (toggle_entry_facts e0 He0) as (_ & _ & Hu0 & _).
  rewrite Hu, Hu0 in Hne. rewrite Hu.
  destruct (Hent e He Hne) as [Hin Hout].
  destruct (in_dec Z.eq_dec (xinput_mask e) D) as [Hd | Hd]; auto.
Qed.

Lemma steady_tracked_facts old :
  (forall c, In c D -> In c old) ->
  forall d, In d D -> d <> 0 /\ In d old.
Proof.
  intros Htr d Hd. destruct (HD d Hd) as [_ Htbl].
  destruct (toggle_code_facts d Htbl) as [_ Hr].
  split; [lia | exact (Htr d Hd)].
Qed.

Lemma shift_clear_keeps old d :
  In d (map xinput_mask sb_chatpad_toggle_map) -> In d old ->
  In d (history_clear old (u16 XINPUT_CHATPAD_SHIFT)).
Proof.
  intros Htbl Hin. destruct (toggle_code_facts d Htbl) as [_ Hr].
  apply history_clear_keeps; [| exact Hin].
  change (u16 XINPUT_CHATPAD_SHIFT) with 1. lia.
Qed.

Lemma toggle_e0_code :
  In (xinput_mask e0) (map xinput_mask sb_chatpad_toggle_map).
Proof. apply in_map. exact He0. Qed.

(** A tick with a rising edge of the key of [e0]. *)
Lemma sb_step_edge t s :
  toggle_bank_steady (tick_device t s) e0 D ->
  usbh_xinput_is_chatpad_pressed (tick_device t s) (xinput_mask e0) = 1 ->
  ~ In (xinput_mask e0) (chatpad_state_old (st_xinput s)) ->
  In 0 (chatpad_state_old (st_xinput s)) ->
  (forall c, In c D -> In c (chatpad_state_old (st_xinput s))) ->
  word2 (sb_wButtons (st_in (sb_step t s))) =
    u16 (Z.lxor (pad_word2 (tick_device t s) (word2 (sb_wButtons (st_in s))))
                (sb_mask e0)) /\
  In (xinput_mask e0) (chatpad_state_old (st_xinput (sb_step t s))) /\
  (forall c, In c D -> In c (chatpad_state_old (st_xinput (sb_step t s)))).
Proof.
  intros Hq Hdown Hlack Hfree Htr.
  destruct (toggle_entry_facts e0 He0) as (Hfind & Hoff & Hk & Hrange).
  pose proof (toggle_bank_steady_entries _ Hq) as Hent.
  destruct Hq as (Hwf & _ & Hs & Ho & H5).
  destruct (sb_step_loop t s Hs Ho H5) as (w0 & Hw0 & Hw & Hh).
  assert (HkD : ~ In (u16 (xinput_mask e0)) D)
    by (rewrite Hk; intros Hin'; destruct (HD _ Hin') as [Hne _];
        apply Hne; reflexivity).
  rewrite <- Hk in Hlack.
  destruct (apply_toggle_map_edge sb_chatpad_toggle_map D (tick_device t s)
              w0 (xinput_mask e0) e0 Hwf
              (steady_tracked_facts _ Htr) HkD Hdown Hlack Hfree Hent Hfind)
    as (E1 & E2 & E3).
  rewrite Hk in E2.
  rewrite Hw, Hh, E1, Hoff. cbn [word_xor word_upd word2]. rewrite Hw0.
  split; [reflexivity |]. split.
  - exact (shift_clear_keeps _ _ toggle_e0_code E2).
  - intros c Hc.
    exact (shift_clear_keeps _ _ (proj2 (HD c Hc)) (E3 c Hc)).
Qed.

(** A tick in which the key of [e0] is still down. *)
Lemma sb_step_held t s :
  toggle_bank_steady (tick_device t s) e0 D ->
  usbh_xinput_is_chatpad_pressed (tick_device t s) (xinput_mask e0) = 1 ->
  In (xinput_mask e0) (chatpad_state_old (st_xinput s)) ->
  (forall c, In c D -> In c (chatpad_state_old (st_xinput s))) ->
  word2 (sb_wButtons (st_in (sb_step t s))) =
    pad_word2 (tick_device t s) (word2 (sb_wButtons (st_in s))) /\
  In (xinput_mask e0) (chatpad_state_old (st_xinput (sb_step t s))) /\
  (forall c, In c D -> In c (chatpad_state_old (st_xinput (sb_step t s)))).
Proof.
  intros Hq Hdown Hin Htr.
  destruct (toggle_entry_facts e0 He0) as (Hfind & Hoff & Hk & Hrange).
  assert (Hnz : xinput_mask e0 <> 0) by lia.
  pose proof (toggle_bank_steady_entries _ Hq) as Hent.
  destruct Hq as (Hwf & _ & Hs & Ho & H5).
  destruct (sb_step_loop t s Hs Ho H5) as (w0 & Hw0 & Hw & Hh).
  destruct (apply_toggle_map_steady sb_chatpad_toggle_map
              (xinput_mask e0 :: D) (tick_device t s) w0)
    as (E1 & E2 & _).
  - intros d [<- | Hd]; [split; [exact Hnz | exact Hin] |].
    exact (steady_tracked_facts _ Htr d Hd).
  - intros e He.
    destruct (Z.eq_dec (u16 (xinput_mask e)) (u16 (xinput_mask e0)))
      as [E | E].
    + left. split; [left; rewrite E, Hk; reflexivity |].
      rewrite (is_chatpad_pressed_same_code _ _ _ E). exact Hdown.
    + destruct (Hent e He E) as [[A B] | [A B]].
      * left. split; [right; exact A | exact B].
      * right. split; [| exact B].
        intros [Eq | Hd]; [| exact (A Hd)].
        apply E. rewrite <- Eq, Hk. reflexivity.
  - rewrite Hw, Hh, E1, Hw0. split; [reflexivity |]. split.
    + exact (shift_clear_keeps _ _ toggle_e0_code
               (E2 _ (or_introl eq_refl))).
    + intros c Hc.
      exact (shift_clear_keeps _ _ (proj2 (HD c Hc))
               (E2 _ (or_intror Hc))).
Qed.

(** A tick in which the key of [e0] is seen released. *)
Lemma sb_step_up t s :
  toggle_bank_steady (tick_device t s) e0 D ->
  usbh_xinput_is_chatpad_pressed (tick_device t s) (xinput_mask e0) = 0 ->
  In (xinput_mask e0) (chatpad_state_old (st_xinput s)) ->
  (forall c, In c D -> In c (chatpad_state_old (st_xinput s))) ->
  word2 (sb_wButtons (st_in (sb_step t s))) =
    pad_word2 (tick_device t s) (word2 (sb_wButtons (st_in s))) /\
  In 0 (chatpad_state_old (st_xinput (sb_step t s))) /\
  ~ In (xinput_mask e0) (chatpad_state_old (st_xinput (sb_step t s))) /\
  (forall c, In c D -> In c (chatpad_state_old (st_xinput (sb_step t s)))).
Proof.
  intros Hq Hup Hin Htr.
  destruct (toggle_entry_facts e0 He0) as (Hfind & Hoff & Hk & Hrange).
  assert (Hnz : xinput_mask e0 <> 0) by lia.
  pose proof (toggle_bank_steady_entries _ Hq) as Hent.
  destruct Hq as (Hwf & _ & Hs & Ho & H5).
  destruct (sb_step_loop t s Hs Ho H5) as (w0 & Hw0 & Hw & Hh).
  assert (HkD : ~ In (u16 (xinput_mask e0)) D)
    by (rewrite Hk; intros Hd; destruct (HD _ Hd) as [Hne _];
        apply Hne; reflexivity).
  destruct (apply_toggle_map_steady sb_chatpad_toggle_map D
              (tick_device t s) w0 (steady_tracked_facts _ Htr))
    as (E1 & E2 & _ & _ & E5).
  - intros e He.
    destruct (Z.eq_dec (u16 (xinput_mask e)) (u16 (xinput_mask e0)))
      as [E | E].
    + right. split; [rewrite E; exact HkD |].
      rewrite (is_chatpad_pressed_same_code _ _ _ E). exact Hup.
    + exact (Hent e He E).
  - assert (Hnz' : u16 (xinput_mask e0) <> 0)
      by (rewrite Hk; exact Hnz).
    destruct (E5 e0 He0 HkD Hnz') as [F1 F2].
    rewrite Hk in F1, F2.
    rewrite Hw, Hh, E1, Hw0. split; [reflexivity |]. split.
    + apply history_clear_keeps_free. exact (F2 Hin).
    + split.
      * apply history_clear_adds_only_free; [exact Hnz | exact F1].
      * intros c Hc.
        exact (shift_clear_keeps _ _ (proj2 (HD c Hc)) (E2 c Hc)).
Qed.

(** The ticks of a sustained press: the key of [e0] stays down. *)
Lemma sb_run_held s held : forall s',
  bAddress (st_xinput s') = bAddress (st_xinput s) ->
  is_u16 (word2 (sb_wButtons (st_in s'))) ->
  In (xinput_mask e0) (chatpad_state_old (st_xinput s')) ->
  (forall c, In c D -> In c (chatpad_state_old (st_xinput s'))) ->
  Forall (fun t =>
            toggle_bank_steady (tick_device t s) e0 D /\
            usbh_xinput_is_chatpad_pressed (tick_device t s)
              (xinput_mask e0) = 1) held ->
  (bAddress (st_xinput (sb_final held s')) = bAddress (st_xinput s) /\
   is_u16 (word2 (sb_wButtons (st_in (sb_final held s')))) /\
   In (xinput_mask e0) (chatpad_state_old (st_xinput (sb_final held s'))) /\
   (forall c, In c D ->
      In c (chatpad_state_old (st_xinput (sb_final held s'))))) /\
  (forall m, Z.land m SBC_W2_LEFTJOYSIGHTCHANGE = 0 ->
     Forall (fun s'' => Z.land (word2 (sb_wButtons (st_in s''))) m =
                        Z.land (word2 (sb_wButtons (st_in s'))) m)
       (sb_final held s' :: sb_run held s')).
Proof.
  induction held as [| t held IH]; intros s' A U Hin Htr Hheld.
  - change (sb_final [] s') with s'.
    split; [exact (conj A (conj U (conj Hin Htr))) |]. intros m _. constructor; [reflexivity | constructor].
  - rewrite sb_final_cons.
    change (sb_run (t :: held) s')
      with (sb_step t s' :: sb_run held (sb_step t s')).
    inversion Hheld as [| t' held' [Hq Hd] Hrest]; subst t' held'.
    pose proof (tick_device_inputs t s s' A) as I.
    assert (Hq' : toggle_bank_steady (tick_device t s') e0 D)
      by (eapply toggle_bank_steady_inputs; [symmetry; exact I | exact Hq]).
    assert (Hd' : usbh_xinput_is_chatpad_pressed (tick_device t s')
                    (xinput_mask e0) = 1)
      by (rewrite <- Hd; apply is_chatpad_pressed_inputs; exact I).
    pose proof (sb_step_held t s' Hq' Hd' Hin Htr) as (Hw1 & Hin1 & Htr1).
    pose proof (sb_step_bAddress t s') as A1. rewrite A in A1.
    remember (sb_step t s') as s1 eqn:E1. clear E1.
    assert (U1 : is_u16 (word2 (sb_wButtons (st_in s1))))
      by (rewrite Hw1; apply (pad_word2_bits _ _ 0 U); apply Z.land_0_l).
    destruct (IH s1 A1 U1 Hin1 Htr1 Hrest) as [Hfin Hbits].
    split; [exact Hfin |]. intros m Hm.
    assert (E : Z.land (word2 (sb_wButtons (st_in s1))) m =
                Z.land (word2 (sb_wButtons (st_in s'))) m)
      by (rewrite Hw1; apply pad_word2_bits; assumption).
    specialize (Hbits m Hm).
    assert (Hall : Forall (fun s'' =>
                Z.land (word2 (sb_wButtons (st_in s''))) m =
                Z.land (word2 (sb_wButtons (st_in s'))) m)
              (sb_final held s1 :: sb_run held s1))
      by (eapply Forall_impl; [| exact Hbits];
          intros a Ha; cbv beta in Ha |- *; rewrite Ha; exact E).
    inversion Hall as [| a l Ha Hl]; subst a l.
    constructor; [exact Ha |]. constructor; [exact E | exact Hl].
Qed.

End SteadyTicks.

(** Word 2 of the report is the one [sb_buttons] leaves, in every
    tick. *)
Lemma handle_sbattalion_word2 e s :
  word2 (sb_wButtons (st_in (handle_sbattalion e s))) =
  word2 (snd (fst (fst (sb_buttons (st_xinput s) (st_in s) (st_out s))))).
Proof.
  unfold handle_sbattalion.
  destruct (sb_buttons (st_xinput s) (st_in s) (st_out s))
    as [[[x w] dial] gear].
  match goal with
  | |- context [if truthy (usbh_xinput_is_chatpad_pressed ?a ?b)
                then select_sensitivity ?c ?d ?f ?g else ?h] =>
      destruct (if truthy (usbh_xinput_is_chatpad_pressed a b)
                then select_sensitivity c d f g else h) as [x' g']
  end.
  destruct (truthy (Z.land (word0 w) SBC_W0_IGNITION)); reflexivity.
Qed.

(** The alternate tables only ever add the fifth comms bit to word 2. *)
Lemma sb_alternate_word2_cases x r w :
  word2 (snd (fst (fst (sb_alternate x r w)))) = word2 w \/
  word2 (snd (fst (fst (sb_alternate x r w)))) =
    u16 (Z.lor (word2 w) SBC_W2_COMM5).
Proof.
  unfold sb_alternate.
  destruct (_ || _).
  - destruct (was_gamepad_pressed_either x XINPUT_GAMEPAD_DPAD_UP
                XINPUT_GAMEPAD_DPAD_RIGHT) as [x1 up].
    destruct (was_gamepad_pressed_either x1 XINPUT_GAMEPAD_DPAD_DOWN
                XINPUT_GAMEPAD_DPAD_LEFT) as [x2 down].
    cbn [fst snd]. rewrite apply_alt1_map_word2.
    destruct (truthy _); auto.
  - left.
    destruct (negb (truthy (usbh_xinput_is_chatpad_pressed x
                              XINPUT_CHATPAD_ORANGE))); [| reflexivity].
    destruct (negb (truthy _)).
    + destruct (usbh_xinput_was_gamepad_pressed x XINPUT_GAMEPAD_DPAD_UP)
        as [x1 up].
      destruct (usbh_xinput_was_gamepad_pressed x1 XINPUT_GAMEPAD_DPAD_DOWN)
        as [x2 down].
      cbn [fst snd]. apply apply_alt2_map_word2.
    + cbn [fst snd]. apply apply_alt2_map_word2.
Qed.

(** A tick in which the toggle table and shift are up, with any pad,
    any other chatpad key and any out-report: no bit of word 2 is
    cleared. *)
Lemma sb_step_keeps_word2 t s :
  is_u16 (word2 (sb_wButtons (st_in s))) ->
  (forall e, In e sb_chatpad_toggle_map ->
             usbh_xinput_is_chatpad_pressed (tick_device t s)
               (xinput_mask e) = 0) ->
  usbh_xinput_is_chatpad_pressed (tick_device t s) XINPUT_CHATPAD_SHIFT = 0 ->
  Z.land (word2 (sb_wButtons (st_in s)))
         (word2 (sb_wButtons (st_in (sb_step t s)))) =
  word2 (sb_wButtons (st_in s)).
Proof.
  intros Hw Hup Hs.
  unfold sb_step. rewrite handle_sbattalion_word2.
  change (st_xinput (sb_load t s)) with (tick_device t s).
  change (st_in (sb_load t s)) with (st_in s).
  change (st_out (sb_load t s)) with (tick_out t).
  unfold sb_buttons.
  set (w := apply_chatpad_map sb_chatpad_map (tick_device t s)
              (apply_pad_map sb_pad_map (tick_device t s)
                 (mk_words 0 0 (word2 (sb_wButtons (st_in s)))))).
  assert (Hw2 : word2 w =
                pad_word2 (tick_device t s) (word2 (sb_wButtons (st_in s))))
    by (subst w; now rewrite apply_chatpad_map_word2, apply_pad_map_word2).
  rewrite (apply_toggle_map_up sb_chatpad_toggle_map (tick_device t s) w Hup).
  set (x1 := set_chatpad_state_old (tick_device t s) _).
  set (w1 := sb_x_button _ _ w).
  assert (Hw1 : word2 w1 = word2 w) by apply sb_x_button_word2.
  pose proof (sb_alternate_word2_cases x1 (st_in s) w1) as Hcases.
  pose proof (sb_alternate_inputs x1 (st_in s) w1) as Hi.
  destruct (sb_alternate x1 (st_in s) w1) as [[[x2 w2] dial] gear].
  cbn [fst snd] in Hcases, Hi.
  rewrite was_chatpad_pressed_up
    by (rewrite <- Hs; apply is_chatpad_pressed_inputs; exact Hi).
  cbn [truthy Z.eqb negb fst snd].
  rewrite Hw1, Hw2 in Hcases.
  set (v := word2 (sb_wButtons (st_in s))) in *.
  assert (Hp : Z.land v (pad_word2 (tick_device t s) v) = v /\
               is_u16 (pad_word2 (tick_device t s) v)).
  { unfold pad_word2. destruct (truthy _).
    - split; [now apply land_covers_lor | apply u16_range].
    - split; [apply Z.land_diag | exact Hw]. }
  destruct Hp as [Hp Hpu].
  destruct Hcases as [-> | ->]; [exact Hp |].
  rewrite <- Hp at 1. rewrite <- Z.land_assoc.
  rewrite land_covers_lor by exact Hpu. exact Hp.
Qed.

(** C8.  Let [e0] be an entry of the toggle table whose switch mask is a
    16-bit value apart from the sight change bit.  Other keys of the
    table, listed by code in [others], are held down all the time and
    are in the history; every key of the table that is not listed,
    shift, orange and the 5 key are up; the pad and the out-report are
    arbitrary.  The key of [e0] goes down in tick [t1], stays down
    during the ticks [held] (any number of further calls), is released
    in tick [t2] and goes down again in tick [t3].  Then the first edge
    flips the switch bit (exclusive or with the mask, on the value the
    report had before); the bit keeps that value in every call while the
    key stays down and in the call that sees it released, although
    words 0 and 1 are rebuilt from zero, so one sustained press flips it
    once; the second edge returns it to its original value.  In all of
    these calls every bit of word 2 outside the mask and the sight
    change bit keeps the value it had at the start: the switches of the
    keys that are held next to it are not flipped.  Moreover no tick in
    which the keys of the toggle table and shift are up clears a bit of
    word 2, whatever else is pressed. *)
Theorem toggle_switch_flips
  (s : sb_state) (e0 : sb_map_t) (others : list Z)
  (t1 : sb_tick) (held : list sb_tick) (t2 t3 : sb_tick) :
  In e0 sb_chatpad_toggle_map ->
  is_u16 (sb_mask e0) ->
  Z.land (sb_mask e0) SBC_W2_LEFTJOYSIGHTCHANGE = 0 ->
  is_u16 (word2 (sb_wButtons (st_in s))) ->
  ~ In (xinput_mask e0) (chatpad_state_old (st_xinput s)) ->
  In 0 (chatpad_state_old (st_xinput s)) ->
  toggle_keys_tracked (st_xinput s) e0 others ->
  toggle_bank_steady (tick_device t1 s) e0 others ->
  usbh_xinput_is_chatpad_pressed (tick_device t1 s) (xinput_mask e0) = 1 ->
  Forall (fun t =>
            toggle_bank_steady (tick_device t s) e0 others /\
            usbh_xinput_is_chatpad_pressed (tick_device t s)
              (xinput_mask e0) = 1) held ->
  toggle_bank_steady (tick_device t2 s) e0 others ->
  usbh_xinput_is_chatpad_pressed (tick_device t2 s) (xinput_mask e0) = 0 ->
  toggle_bank_steady (tick_device t3 s) e0 others ->
  usbh_xinput_is_chatpad_pressed (tick_device t3 s) (xinput_mask e0) = 1 ->
  let s1 := sb_step t1 s in
  let s2 := sb_step t2 (sb_final held s1) in
  let s3 := sb_step t3 s2 in
  toggle_bit e0 s1 = Z.lxor (toggle_bit e0 s) (sb_mask e0) /\
  Forall (fun s' => toggle_bit e0 s' = toggle_bit e0 s1) (sb_run held s1) /\
  toggle_bit e0 s2 = toggle_bit e0 s1 /\
  toggle_bit e0 s3 = toggle_bit e0 s /\
  (forall m,
     Z.land m (sb_mask e0) = 0 ->
     Z.land m SBC_W2_LEFTJOYSIGHTCHANGE = 0 ->
     Forall (fun s' => Z.land (word2 (sb_wButtons (st_in s'))) m =
                       Z.land (word2 (sb_wButtons (st_in s))) m)
       (s1 :: sb_run held s1 ++ [s2; s3])) /\
  (forall s' t,
     is_u16 (word2 (sb_wButtons (st_in s'))) ->
     (forall e, In e sb_chatpad_toggle_map ->
                usbh_xinput_is_chatpad_pressed (tick_device t s')
                  (xinput_mask e) = 0) ->
     usbh_xinput_is_chatpad_pressed (tick_device t s') XINPUT_CHATPAD_SHIFT = 0 ->
     Z.land (word2 (sb_wButtons (st_in s')))
            (word2 (sb_wButtons (st_in (sb_step t s')))) =
     word2 (sb_wButtons (st_in s'))).
Proof.
  intros He0 Hm Hdis Hw Hlack Hfree Htrk Hq1 Hd1 Hheld Hq2 Hu2 Hq3 Hd3.
  cbv zeta.
  assert (HD : forall c, In c others ->
             c <> xinput_mask e0 /\
             In c (map xinput_mask sb_chatpad_toggle_map))
    by (intros c Hc; destruct (Htrk c Hc) as (A & B & _); auto).
  assert (Htr : forall c, In c others ->
              In c (chatpad_state_old (st_xinput s)))
    by (intros c Hc; now apply Htrk).
  (* the first edge *)
  pose proof (sb_step_edge e0 others He0 HD t1 s Hq1 Hd1 Hlack Hfree Htr)
    as (Hw1 & Hin1 & Htr1).
  pose proof (sb_step_bAddress t1 s) as A1.
  remember (sb_step t1 s) as s1 eqn:E1. clear E1.
  destruct (pad_word2_bits (tick_device t1 s) _ _ Hw Hdis) as [Hb1 Hp1].
  assert (B1 : toggle_bit e0 s1 = Z.lxor (toggle_bit e0 s) (sb_mask e0)).
  { unfold toggle_bit. rewrite Hw1, land_flip by exact Hm.
    rewrite Hb1. reflexivity. }
  assert (U1 : is_u16 (word2 (sb_wButtons (st_in s1))))
    by (rewrite Hw1; apply u16_range).
  assert (M1 : forall m, Z.land m (sb_mask e0) = 0 ->
                 Z.land m SBC_W2_LEFTJOYSIGHTCHANGE = 0 ->
                 Z.land (word2 (sb_wButtons (st_in s1))) m =
                 Z.land (word2 (sb_wButtons (st_in s))) m).
  { intros m Hm0 Hms. rewrite Hw1, land_flip_disjoint by assumption.
    now apply pad_word2_bits. }
  clear Hw1 Hb1 Hp1.
  (* the key stays down *)
  destruct (sb_run_held e0 others He0 HD s held s1 A1 U1 Hin1 Htr1 Hheld)
    as ((Ah & Uh & Hinh & Htrh) & Mh).
  remember (sb_final held s1) as sh eqn:Eh. clear Eh.
  (* the release *)
  pose proof (tick_device_inputs t2 s sh Ah) as I2.
  assert (Hq2' : toggle_bank_steady (tick_device t2 sh) e0 others)
    by (eapply toggle_bank_steady_inputs; [symmetry; exact I2 | exact Hq2]).
  assert (Hu2' : usbh_xinput_is_chatpad_pressed (tick_device t2 sh)
                   (xinput_mask e0) = 0)
    by (rewrite <- Hu2; apply is_chatpad_pressed_inputs; exact I2).
  pose proof (sb_step_up e0 others He0 HD t2 sh Hq2' Hu2' Hinh Htrh)
    as (Hw2 & Hfree2 & Hlack2 & Htr2).
  pose proof (sb_step_bAddress t2 sh) as A2.
  rewrite Ah in A2.
  remember (sb_step t2 sh) as s2 eqn:E2. clear E2.
  assert (M2 : forall m, Z.land m SBC_W2_LEFTJOYSIGHTCHANGE = 0 ->
                 Z.land (word2 (sb_wButtons (st_in s2))) m =
                 Z.land (word2 (sb_wButtons (st_in s1))) m).
  { intros m Hms. rewrite Hw2.
    destruct (pad_word2_bits (tick_device t2 sh) _ _ Uh Hms) as [-> _].
    pose proof (Mh m Hms) as F. inversion F; assumption. }
  assert (U2 : is_u16 (word2 (sb_wButtons (st_in s2))))
    by (rewrite Hw2; apply (pad_word2_bits _ _ 0 Uh); apply Z.land_0_l).
  clear Hw2.
  (* the second edge *)
  pose proof (tick_device_inputs t3 s s2 A2) as I3.
  assert (Hq3' : toggle_bank_steady (tick_device t3 s2) e0 others)
    by (eapply toggle_bank_steady_inputs; [symmetry; exact I3 | exact Hq3]).
  assert (Hd3' : usbh_xinput_is_chatpad_pressed (tick_device t3 s2)
                   (xinput_mask e0) = 1)
    by (rewrite <- Hd3; apply is_chatpad_pressed_inputs; exact I3).
  pose proof (sb_step_edge e0 others He0 HD t3 s2 Hq3' Hd3' Hlack2 Hfree2 Htr2)
    as (Hw3 & _ & _).
  remember (sb_step t3 s2) as s3 eqn:E3. clear E3.
  destruct (pad_word2_bits (tick_device t3 s2) _ _ U2 Hdis) as [Hb3 Hp3].
  assert (B3 : toggle_bit e0 s3 = Z.lxor (toggle_bit e0 s2) (sb_mask e0)).
  { unfold toggle_bit. rewrite Hw3, land_flip by exact Hm.
    rewrite Hb3. reflexivity. }
  assert (B2 : toggle_bit e0 s2 = toggle_bit e0 s1)
    by (unfold toggle_bit; now apply M2).
  split; [exact B1 |]. split.
  { pose proof (Mh (sb_mask e0) Hdis) as F.
    inversion F as [| a l _ Hl]; subst a l. exact Hl. }
  split; [exact B2 |]. split.
  { rewrite B3, B2, B1.
    rewrite Z.lxor_assoc, Z.lxor_nilpotent, Z.lxor_0_r. reflexivity. }
  split; [| intros s' t; apply sb_step_keeps_word2].
  intros m Hm0 Hms.
  pose proof (M1 m Hm0 Hms) as K1.
  pose proof (M2 m Hms) as K2.
  constructor; [exact K1 |]. apply Forall_app. split.
  - pose proof (Mh m Hms) as F.
    inversion F as [| a l _ Hl]; subst a l.
    eapply Forall_impl; [| exact Hl].
    intros a Ha; cbv beta in Ha |- *. now rewrite Ha.
  - constructor; [now rewrite K2 |]. constructor; [| constructor].
    rewrite Hw3, land_flip_disjoint by assumption.
    destruct (pad_word2_bits (tick_device t3 s2) _ _ U2 Hms) as [-> _].
    now rewrite K2.
Qed.

End ToggleTheorem.

(** The oxygen switch goes off with the first press of Q, stays off
    while Q is held and when it is released, and goes on again with the
    second press; the filter control switch of the A key, which is held
    all the time, stays on. *)
Lemma toggle_switch_flips_witness :
  let held := [tick_q_held; tick_q_still] in
  let s1 := Master.sb_step (H := xid_layout) tick_q_down oxygen_on in
  let s2 := Master.sb_step (H := xid_layout) tick_q_up
              (Master.sb_final (H := xid_layout) held s1) in
  let s3 := Master.sb_step (H := xid_layout) tick_q_again s2 in
  (Master.toggle_bit oxygen_entry oxygen_on = 8 /\
   map (fun s' => Master.word2 (Master.sb_wButtons (Master.st_in s')))
     (s1 :: Master.sb_run (H := xid_layout) held s1 ++ [s2; s3]) =
   [0x0004; 0x0006; 0x0006; 0x0006; 0x000E]) /\
  Master.toggle_bit oxygen_entry s1 =
    Z.lxor (Master.toggle_bit oxygen_entry oxygen_on)
           (Master.sb_mask oxygen_entry) /\
  Forall (fun s' => Master.toggle_bit oxygen_entry s' =
                    Master.toggle_bit oxygen_entry s1)
    (Master.sb_run (H := xid_layout) held s1) /\
  Master.toggle_bit oxygen_entry s2 = Master.toggle_bit oxygen_entry s1 /\
  Master.toggle_bit oxygen_entry s3 = Master.toggle_bit oxygen_entry oxygen_on /\
  (forall m,
     Z.land m (Master.sb_mask oxygen_entry) = 0 ->
     Z.land m (SBC_W2_LEFTJOYSIGHTCHANGE (usbd_xid_h := xid_layout)) = 0 ->
     Forall (fun s' =>
               Z.land (Master.word2 (Master.sb_wButtons (Master.st_in s'))) m =
               Z.land (Master.word2
                         (Master.sb_wButtons (Master.st_in oxygen_on))) m)
       (s1 :: Master.sb_run (H := xid_layout) held s1 ++ [s2; s3])) /\
  (forall s' t,
     is_u16 (Master.word2 (Master.sb_wButtons (Master.st_in s'))) ->
     (forall e, In e (Master.sb_chatpad_toggle_map (H := xid_layout)) ->
                usbh_xinput_is_chatpad_pressed (Master.tick_device t s')
                  (Master.xinput_mask e) = 0) ->
     usbh_xinput_is_chatpad_pressed (Master.tick_device t s')
       XINPUT_CHATPAD_SHIFT = 0 ->
     Z.land (Master.word2 (Master.sb_wButtons (Master.st_in s')))
            (Master.word2
               (Master.sb_wButtons
                  (Master.st_in (Master.sb_step (H := xid_layout) t s')))) =
     Master.word2 (Master.sb_wButtons (Master.st_in s'))).
Proof.
  assert (Hcase : forall x c,
            (usbh_xinput_is_chatpad_pressed x c =?
             (if c =? XINPUT_CHATPAD_A then 1 else 0)) = true ->
            (In c [XINPUT_CHATPAD_A] ->
             usbh_xinput_is_chatpad_pressed x c = 1) /\
            (~ In c [XINPUT_CHATPAD_A] ->
             usbh_xinput_is_chatpad_pressed x c = 0)).
  { intros x c E. apply Z.eqb_eq in E.
    destruct (Z.eq_dec c XINPUT_CHATPAD_A) as [Ec | Hne].
    - rewrite (proj2 (Z.eqb_eq _ _) Ec) in E.
      split; [intros _; exact E |].
      intros Hn. exfalso. apply Hn. left. symmetry. exact Ec.
    - rewrite (proj2 (Z.eqb_neq _ _) Hne) in E.
      split; [| intros _; exact E].
      intros [E' | []]. exfalso. apply Hne. symmetry. exact E'. }
  assert (Hsteady : forall t,
            Forall is_u8 (Master.tick_chatpad t) ->
            forallb (fun c =>
                       usbh_xinput_is_chatpad_pressed
                         (Master.tick_device t oxygen_on) c =?
                       (if c =? XINPUT_CHATPAD_A then 1 else 0))
              [XINPUT_CHATPAD_A; XINPUT_CHATPAD_W; XINPUT_CHATPAD_S;
               XINPUT_CHATPAD_Z; XINPUT_CHATPAD_SHIFT; XINPUT_CHATPAD_ORANGE;
               XINPUT_CHATPAD_5] = true ->
            Master.toggle_bank_steady (H := xid_layout)
              (Master.tick_device t oxygen_on) oxygen_entry
              [XINPUT_CHATPAD_A]).
  { intros t Hwf Hf. rewrite forallb_forall in Hf.
    split; [exact Hwf |]. split.
    - intros e He Hne. apply Hcase. apply Hf.
      destruct He as [<- | [<- | [<- | [<- | [<- | []]]]]];
        [exfalso; apply Hne; reflexivity | simpl; auto 10 ..].
    - split; [| split]; apply Z.eqb_eq;
        match goal with
        | |- (usbh_xinput_is_chatpad_pressed _ ?c =? 0) = true =>
            exact (Hf c ltac:(simpl; auto 10))
        end. }
  assert (Hu8 : forall l, forallb (fun b => (0 <=? b) && (b <? 256)) l = true ->
                          Forall is_u8 l).
  { intros l Hl. rewrite forallb_forall in Hl. apply Forall_forall.
    intros b Hb. specialize (Hl b Hb). unfold is_u8. lia. }
  split; [vm_compute; repeat split; reflexivity |].
  apply (toggle_switch_flips (H := xid_layout) oxygen_on oxygen_entry
           [XINPUT_CHATPAD_A] tick_q_down [tick_q_held; tick_q_still]
           tick_q_up tick_q_again).
  - left. reflexivity.
  - unfold is_u16. simpl. lia.
  - reflexivity.
  - unfold is_u16. simpl. lia.
  - vm_compute. intuition discriminate.
  - simpl. auto.
  - intros c [<- | []]. split; [discriminate |]. split; simpl; auto.
  - apply Hsteady; [apply Hu8 |]; reflexivity.
  - reflexivity.
  - constructor; [| constructor; [| constructor]];
      (split; [apply Hsteady; [apply Hu8 |]; reflexivity | reflexivity]).
  - apply Hsteady; [apply Hu8 |]; reflexivity.
  - reflexivity.
  - apply Hsteady; [apply Hu8 |]; reflexivity.
  - reflexivity.
Defined.

(** * Further properties *)

(** ** The gamepad edge detector *)

Section GamepadEdges.
Variable mask : Z.
Hypothesis Hmask : 0 < mask < 256.

(** For a mask in the low byte the query is the plain conjunction. *)
Lemma is_gamepad_pressed_low x :
  bAddress x <> 0 ->
  usbh_xinput_is_gamepad_pressed x mask = Z.land (wButtons (pad_state x)) mask.
Proof.
  intros Ha. unfold usbh_xinput_is_gamepad_pressed.
  destruct (Z.eqb_spec (bAddress x) 0) as [E | _]; [contradiction |].
  rewrite u16_small by lia.
  rewrite u8_land_ones, <- Z.land_assoc. f_equal.
  rewrite <- u8_land_ones. apply u8_small. lia.
Qed.

Lemma land_set_mask w : Z.land (u16 (Z.lor w mask)) mask = mask.
Proof.
  rewrite u16_land_ones.
  apply Z.bits_inj'. intros n Hn.
  rewrite !Z.land_spec, Z.lor_spec.
  destruct (Z.testbit mask n) eqn:Em; [| now rewrite andb_false_r].
  rewrite orb_true_r, andb_true_r. cbn [andb].
  destruct (Z.ltb_spec n 16) as [Hlt | Hge].
  - change 65535 with (Z.ones 16). rewrite Z.ones_spec_low by lia. reflexivity.
  - exfalso.
    assert (Hb : Z.testbit mask n = false).
    { apply Z.bits_above_log2; [lia |].
      apply Z.log2_lt_pow2; [lia |].
      apply Z.lt_le_trans with (2 ^ 16); [lia |].
      apply Z.pow_le_mono_r; lia. }
    congruence.
Qed.

Lemma pad_poll_rising x p :
  bAddress x <> 0 ->
  Z.land (wButtons p) mask <> 0 ->
  Z.land (pad_state_wButtons_old x) mask = 0 ->
  snd (pad_poll x p mask) = 1 /\
  bAddress (fst (pad_poll x p mask)) = bAddress x /\
  Z.land (pad_state_wButtons_old (fst (pad_poll x p mask))) mask <> 0.
Proof.
  intros Ha Hd Ho. unfold pad_poll, usbh_xinput_was_gamepad_pressed.
  rewrite u16_small by lia.
  rewrite is_gamepad_pressed_low by exact Ha.
  cbn [pad_state set_pad_state pad_state_wButtons_old].
  destruct (truthy (Z.land (wButtons p) mask)) eqn:Et;
    [| apply truthy_false in Et; contradiction].
  rewrite Ho. cbn [truthy Z.eqb negb fst snd].
  cbn [bAddress set_wButtons_old set_pad_state pad_state_wButtons_old].
  rewrite land_set_mask. repeat split; lia.
Qed.

Lemma pad_poll_held x p :
  bAddress x <> 0 ->
  Z.land (wButtons p) mask <> 0 ->
  Z.land (pad_state_wButtons_old x) mask <> 0 ->
  snd (pad_poll x p mask) = 0 /\
  bAddress (fst (pad_poll x p mask)) = bAddress x /\
  Z.land (pad_state_wButtons_old (fst (pad_poll x p mask))) mask <> 0.
Proof.
  intros Ha Hd Ho. unfold pad_poll, usbh_xinput_was_gamepad_pressed.
  rewrite u16_small by lia.
  rewrite is_gamepad_pressed_low by exact Ha.
  cbn [pad_state set_pad_state pad_state_wButtons_old].
  destruct (truthy (Z.land (wButtons p) mask)) eqn:Et;
    [| apply truthy_false in Et; contradiction].
  destruct (truthy (Z.land (pad_state_wButtons_old x) mask)) eqn:Eo;
    [| apply truthy_false in Eo; contradiction].
  cbn [negb fst snd bAddress set_pad_state pad_state_wButtons_old].
  auto.
Qed.

Lemma pad_poll_released x p :
  Z.land (wButtons p) mask = 0 ->
  snd (pad_poll x p mask) = 0 /\
  bAddress (fst (pad_poll x p mask)) = bAddress x /\
  Z.land (pad_state_wButtons_old (fst (pad_poll x p mask))) mask = 0.
Proof.
  intros Hu. unfold pad_poll, usbh_xinput_was_gamepad_pressed.
  rewrite u16_small by lia.
  assert (Hq : usbh_xinput_is_gamepad_pressed (set_pad_state x p) mask = 0).
  { unfold usbh_xinput_is_gamepad_pressed.
    cbn [bAddress set_pad_state pad_state].
    destruct (bAddress x =? 0); [reflexivity |].
    rewrite u16_small by lia. rewrite Hu. reflexivity. }
  rewrite Hq. cbn [truthy Z.eqb negb fst snd].
  cbn [bAddress set_wButtons_old set_pad_state pad_state_wButtons_old].
  repeat split. apply land_cleared_mask.
Qed.

Lemma pad_poll_all_held held : forall x,
  bAddress x <> 0 ->
  Forall (fun p => Z.land (wButtons p) mask <> 0) held ->
  Z.land (pad_state_wButtons_old x) mask <> 0 ->
  Forall (eq 0) (snd (pad_poll_all x held mask)) /\
  bAddress (fst (pad_poll_all x held mask)) = bAddress x /\
  Z.land (pad_state_wButtons_old (fst (pad_poll_all x held mask))) mask <> 0.
Proof.
  induction held as [| p held IH]; intros x Ha Hh Ho; cbn [pad_poll_all].
  - cbn [fst snd]. auto.
  - pose proof (pad_poll_held x p Ha (Forall_inv Hh) Ho) as (Hr & Hb & Hk).
    destruct (pad_poll x p mask) as [x1 r1]. cbn [fst snd] in *.
    assert (Ha1 : bAddress x1 <> 0) by congruence.
    pose proof (IH x1 Ha1 (Forall_inv_tail Hh) Hk) as (Hrs & Hb' & Hk').
    destruct (pad_poll_all x1 held mask) as [x2 rs]. cbn [fst snd] in *.
    split; [constructor; auto | split; [congruence | exact Hk']].
Qed.

End GamepadEdges.

(** X1.  A sustained press of a gamepad button whose mask lies in the
    low byte of the button word is reported once: the first poll with
    the button down returns 1, every further poll while it stays down
    returns 0, the poll that sees it released returns 0, and the poll
    after the next press returns 1 again. *)
Theorem was_gamepad_pressed_once_per_press
  (x : usbh_xinput_t) (mask : Z)
  (first : xinput_padstate_t) (held : list xinput_padstate_t)
  (released again : xinput_padstate_t) :
  bAddress x <> 0 ->
  0 < mask < 256 ->
  Z.land (pad_state_wButtons_old x) mask = 0 ->
  Z.land (wButtons first) mask <> 0 ->
  Forall (fun p => Z.land (wButtons p) mask <> 0) held ->
  Z.land (wButtons released) mask = 0 ->
  Z.land (wButtons again) mask <> 0 ->
  let (x1, r1) := pad_poll x first mask in
  let (x2, rs) := pad_poll_all x1 held mask in
  let (x3, r3) := pad_poll x2 released mask in
  let (x4, r4) := pad_poll x3 again mask in
  r1 = 1 /\ Forall (eq 0) rs /\ r3 = 0 /\ r4 = 1.
Proof.
  intros Ha Hm Ho Hf Hh Hr Hg.
  pose proof (pad_poll_rising mask Hm x first Ha Hf Ho) as (R1 & A1 & O1).
  destruct (pad_poll x first mask) as [x1 r1]. cbn [fst snd] in *.
  assert (Ha1 : bAddress x1 <> 0) by congruence.
  pose proof (pad_poll_all_held mask Hm held x1 Ha1 Hh O1) as (R2 & A2 & O2).
  destruct (pad_poll_all x1 held mask) as [x2 rs]. cbn [fst snd] in *.
  pose proof (pad_poll_released mask Hm x2 released Hr) as (R3 & A3 & O3).
  destruct (pad_poll x2 released mask) as [x3 r3]. cbn [fst snd] in *.
  assert (Ha3 : bAddress x3 <> 0) by congruence.
  pose proof (pad_poll_rising mask Hm x3 again Ha3 Hg O3) as (R4 & _).
  destruct (pad_poll x3 again mask) as [x4 r4]. cbn [fst snd] in *.
  auto.
Qed.

(** D-pad up on a wired pad: pressed, held for two reports (the second
    with another button), released, pressed again. *)
Lemma was_gamepad_pressed_once_per_press_witness :
  let x := mk_xinput 0 1 (Some 1%nat) (Some 2%nat) XBOX360_WIRED
             (mk_padstate 0 0 0 0 0 0 0) 0 0 0 0 0 0 0 0
             [0; 0; 0] [0; 0; 0] 0 0 0 0 0 0 in
  let up := mk_padstate XINPUT_GAMEPAD_DPAD_UP 0 0 0 0 0 0 in
  let up_a := mk_padstate (XINPUT_GAMEPAD_DPAD_UP + XINPUT_GAMEPAD_A)
                0 0 0 0 0 0 in
  let idle := mk_padstate 0 0 0 0 0 0 0 in
  let (x1, r1) := pad_poll x up XINPUT_GAMEPAD_DPAD_UP in
  let (x2, rs) := pad_poll_all x1 [up; up_a] XINPUT_GAMEPAD_DPAD_UP in
  let (x3, r3) := pad_poll x2 idle XINPUT_GAMEPAD_DPAD_UP in
  let (x4, r4) := pad_poll x3 up XINPUT_GAMEPAD_DPAD_UP in
  r1 = 1 /\ Forall (eq 0) rs /\ r3 = 0 /\ r4 = 1.
Proof.
  apply (was_gamepad_pressed_once_per_press
           (mk_xinput 0 1 (Some 1%nat) (Some 2%nat) XBOX360_WIRED
              (mk_padstate 0 0 0 0 0 0 0) 0 0 0 0 0 0 0 0
              [0; 0; 0] [0; 0; 0] 0 0 0 0 0 0)
           XINPUT_GAMEPAD_DPAD_UP
           (mk_padstate XINPUT_GAMEPAD_DPAD_UP 0 0 0 0 0 0)
           [mk_padstate XINPUT_GAMEPAD_DPAD_UP 0 0 0 0 0 0;
            mk_padstate (XINPUT_GAMEPAD_DPAD_UP + XINPUT_GAMEPAD_A)
              0 0 0 0 0 0]
           (mk_padstate 0 0 0 0 0 0 0)
           (mk_padstate XINPUT_GAMEPAD_DPAD_UP 0 0 0 0 0 0)).
  - simpl. lia.
  - unfold XINPUT_GAMEPAD_DPAD_UP. lia.
  - reflexivity.
  - vm_compute. discriminate.
  - repeat (apply Forall_cons; [vm_compute; discriminate |]). apply Forall_nil.
  - reflexivity.
  - vm_compute. discriminate.
Defined.

(** ** The wire decoder: bytes, words and button tables *)

Lemma get_u8 (b : list Z) (k : nat) : Forall is_u8 b -> is_u8 (Buf.get b k).
Proof.
  intros Hb. unfold Buf.get.
  destruct (Nat.lt_ge_cases k (length b)) as [Hlt | Hge].
  - rewrite Forall_forall in Hb. apply Hb. now apply nth_In.
  - rewrite nth_overflow by exact Hge. unfold is_u8. lia.
Qed.

Lemma testbit_u8_high x n : is_u8 x -> 8 <= n -> Z.testbit x n = false.
Proof.
  intros [H0 H1] Hn.
  destruct (Z.eq_dec x 0) as [-> | Hx]; [apply Z.bits_0 |].
  apply Z.bits_above_log2; [lia |].
  apply Z.lt_le_trans with 8; [| exact Hn].
  apply Z.log2_lt_pow2; lia.
Qed.

(** [lo | (hi << 8)] is [lo + 256 * hi]. *)
Lemma lor_shiftl_8 lo hi :
  is_u8 lo -> 0 <= hi -> Z.lor lo (Z.shiftl hi 8) = lo + 256 * hi.
Proof.
  intros Hlo Hhi.
  assert (Hd : Z.land lo (Z.shiftl hi 8) = 0).
  { apply Z.bits_inj'. intros n Hn. rewrite Z.land_spec, Z.bits_0.
    destruct (Z.ltb_spec n 8) as [Hlt | Hge].
    - rewrite Z.shiftl_spec_low by lia. apply andb_false_r.
    - rewrite (testbit_u8_high lo n Hlo Hge). reflexivity. }
  rewrite <- Z.lxor_lor by exact Hd.
  rewrite <- Z.add_nocarry_lxor by exact Hd.
  rewrite Z.shiftl_mul_pow2 by lia. change (2 ^ 8) with 256. lia.
Qed.

Lemma le16_value b k :
  Forall is_u8 b -> le16 b k = Buf.get b k + 256 * Buf.get b (S k).
Proof.
  intros Hb. unfold le16.
  pose proof (get_u8 b k Hb) as H0. pose proof (get_u8 b (S k) Hb) as H1.
  rewrite lor_shiftl_8 by (unfold is_u8 in *; auto; lia).
  apply u16_small. unfold is_u8 in *. lia.
Qed.

Lemma le16s_value b k :
  Forall is_u8 b -> le16s b k = s16 (Buf.get b k + 256 * Buf.get b (S k)).
Proof.
  intros Hb. unfold le16s.
  pose proof (get_u8 b k Hb) as H0. pose proof (get_u8 b (S k) Hb) as H1.
  rewrite lor_shiftl_8 by (unfold is_u8 in *; auto; lia).
  reflexivity.
Qed.

(** The test [w & (1 << k)] reads bit [k]. *)
Lemma truthy_land_bit w k :
  0 <= k -> truthy (Z.land w (Z.shiftl 1 k)) = Z.testbit w k.
Proof.
  intros Hk. rewrite Z.shiftl_1_l.
  destruct (Z.testbit w k) eqn:Eb.
  - apply truthy_true. intros E.
    assert (Hb : Z.testbit (Z.land w (2 ^ k)) k = true)
      by (rewrite Z.land_spec, Eb, Z.pow2_bits_true by lia; reflexivity).
    rewrite E, Z.bits_0 in Hb. discriminate.
  - apply truthy_false. apply Z.bits_inj'. intros n Hn.
    rewrite Z.land_spec, Z.bits_0, Z.pow2_bits_eqb by lia.
    destruct (Z.eqb_spec k n) as [<- | _];
      [now rewrite Eb | apply andb_false_r].
Qed.

Lemma u16_lor a m : is_u16 a -> is_u16 m -> u16 (Z.lor a m) = Z.lor a m.
Proof.
  intros Ha Hm. rewrite u16_land_ones, Z.land_lor_distr_l.
  rewrite <- !u16_land_ones, !u16_small by exact Ha || exact Hm.
  reflexivity.
Qed.

Lemma is_u16_lor a m : is_u16 a -> is_u16 m -> is_u16 (Z.lor a m).
Proof.
  intros Ha Hm. rewrite <- (u16_lor a m Ha Hm). apply u16_range.
Qed.

(** Bit [n] of the canonical word is set when some table entry with
    that bit in its mask has its source bit set. *)
Lemma map_buttons_testbit tbl w n : forall acc,
  Forall (fun e => 0 <= fst e /\ is_u16 (snd e)) tbl ->
  is_u16 acc ->
  Z.testbit (map_buttons tbl w acc) n =
    Z.testbit acc n
    || existsb (fun e => Z.testbit (snd e) n && Z.testbit w (fst e)) tbl.
Proof.
  unfold map_buttons.
  induction tbl as [| e tbl IH]; intros acc Ht Ha; cbn [fold_left existsb].
  - now rewrite orb_false_r.
  - destruct (Forall_inv Ht) as [Hk Hm].
    rewrite truthy_land_bit by exact Hk.
    destruct (Z.testbit w (fst e)) eqn:Eb.
    + rewrite u16_lor by assumption.
      rewrite IH; [| exact (Forall_inv_tail Ht) | now apply is_u16_lor].
      rewrite Z.lor_spec, andb_true_r. now rewrite orb_assoc.
    + rewrite IH; [| exact (Forall_inv_tail Ht) | exact Ha].
      now rewrite andb_false_r.
Qed.

Lemma map_buttons_u16 tbl w : forall acc,
  Forall (fun e => 0 <= fst e /\ is_u16 (snd e)) tbl ->
  is_u16 acc -> is_u16 (map_buttons tbl w acc).
Proof.
  unfold map_buttons.
  induction tbl as [| e tbl IH]; intros acc Ht Ha; cbn [fold_left]; [exact Ha |].
  destruct (Forall_inv Ht) as [Hk Hm].
  destruct (truthy _); apply IH; try exact (Forall_inv_tail Ht); try exact Ha.
  rewrite u16_lor by assumption. now apply is_u16_lor.
Qed.

Lemma testbit_u16_high x n : is_u16 x -> 16 <= n -> Z.testbit x n = false.
Proof.
  intros [H0 H1] Hn.
  destruct (Z.eq_dec x 0) as [-> | Hx]; [apply Z.bits_0 |].
  apply Z.bits_above_log2; [lia |].
  apply Z.lt_le_trans with 16; [| exact Hn].
  apply Z.log2_lt_pow2; lia.
Qed.

Ltac table_ok :=
  repeat (apply Forall_cons;
          [cbn [fst snd]; split;
           [lia | vm_compute; split; [discriminate | reflexivity]] |]);
  apply Forall_nil.

Ltac bit_cases n Hn :=
  let H := fresh in
  assert (H : In n (map Z.of_nat (seq 0 16)))
    by (cbn [map seq In Z.of_nat Pos.of_succ_nat Pos.succ]; lia);
  clear Hn; cbn [map seq In Z.of_nat Pos.of_succ_nat Pos.succ] in H;
  repeat (destruct H as [<- | H]); [.. | contradiction].

(** The wired pad table keeps the bit positions and drops bits 10
    and 11. *)
Lemma map_buttons_xbox360_wired w :
  is_u16 w -> map_buttons buttons_xbox360_wired w 0 = Z.land w 0xF3FF.
Proof.
  intros Hw.
  assert (Ht : Forall (fun e => 0 <= fst e /\ is_u16 (snd e))
                 buttons_xbox360_wired) by (unfold buttons_xbox360_wired; table_ok).
  assert (H0 : is_u16 0) by (unfold is_u16; lia).
  apply Z.bits_inj'. intros n Hn.
  rewrite map_buttons_testbit, Z.land_spec, Z.bits_0 by assumption.
  cbn [orb].
  destruct (Z.ltb_spec n 16) as [Hlt | Hge].
  - assert (Hr : 0 <= n < 16) by lia. clear Hn Hlt.
    unfold buttons_xbox360_wired. cbn [existsb fst snd].
    generalize (Z.testbit w). intros f.
    bit_cases n Hr; vm_compute; repeat (destruct (f _)); reflexivity.
  - rewrite (testbit_u16_high w n Hw Hge). cbn [andb].
    apply not_true_is_false. intros E.
    apply existsb_exists in E. destruct E as (e & He & Hb).
    rewrite Forall_forall in Ht. destruct (Ht e He) as [_ Hm].
    rewrite (testbit_u16_high (snd e) n Hm Hge) in Hb.
    discriminate.
Qed.

(** ** The wire decoder: reports of the wired pad *)

Lemma eqb_wireless_false t :
  t <> XBOX360_WIRELESS -> xinput_type_eqb t XBOX360_WIRELESS = false.
Proof. destruct t; intros; try reflexivity; congruence. Qed.

Lemma dev_upd_dev_other d i j f : i <> j -> dev (upd_dev d i f) j = dev d j.
Proof.
  intros Hij. unfold dev, upd_dev. cbn [xinput_devices set_xinput_devices].
  now apply nth_list_upd_other.
Qed.

(** X2.  A report of a wired Xbox 360 pad (header bytes 00 14) is
    decoded into the pad state of its device: the button word is the
    little-endian word of bytes 2 and 3 without bits 10 and 11 (the
    guide button is never reported for a wired pad), the triggers are
    bytes 4 and 5, the sticks the signed little-endian words of bytes 6
    to 13.  No other device changes and nothing is sent. *)
Theorem ParseInputData_wired_report (d : XINPUT) (i ep : nat) (now : Z) :
  dev_type d <> XBOX360_WIRELESS ->
  (i < length (xinput_devices d))%nat ->
  type (dev d i) = XBOX360_WIRED ->
  Forall is_u8 (xdata d) ->
  Buf.get (xdata d) 0 = 0x00 ->
  Buf.get (xdata d) 1 = 0x14 ->
  let b := Buf.get (xdata d) in
  let '(d', xpad', fresh) := ParseInputData d (Some i) ep now in
  fresh = true /\ xpad' = Some i /\
  pad_state (dev d' i) =
    mk_padstate (Z.land (b 2%nat + 256 * b 3%nat) 0xF3FF) (b 4%nat) (b 5%nat)
      (s16 (b 6%nat + 256 * b 7%nat)) (s16 (b 8%nat + 256 * b 9%nat))
      (s16 (b 10%nat + 256 * b 11%nat)) (s16 (b 12%nat + 256 * b 13%nat)) /\
  Z.land (wButtons (pad_state (dev d' i))) XINPUT_GAMEPAD_XBOX_BUTTON = 0 /\
  (forall j, j <> i -> dev d' j = dev d j) /\
  usb_trace d' = usb_trace d.
Proof.
  intros Hw Hi Hty Hb H0 H1 b.
  unfold ParseInputData.
  rewrite (eqb_wireless_false _ Hw), Hty.
  cbv beta iota zeta.
  rewrite H0, H1.
  change ((0 =? 1) && (3 <=? sizeof_xdata)) with false.
  change ((0 =? 3) && (5 <=? sizeof_xdata)) with false.
  change (negb (0 =? 0) || negb (20 =? 20) || (sizeof_xdata <? 14)) with false.
  cbv iota beta.
  rewrite dev_upd_dev by exact Hi.
  cbn [pad_state set_pad_state wButtons].
  rewrite le16_value, !le16s_value by exact Hb.
  assert (Hw16 : is_u16 (Buf.get (xdata d) 2 + 256 * Buf.get (xdata d) 3)).
  { pose proof (get_u8 _ 2 Hb). pose proof (get_u8 _ 3 Hb).
    unfold is_u8, is_u16 in *. lia. }
  rewrite map_buttons_xbox360_wired by exact Hw16.
  split; [reflexivity |]. split; [reflexivity |]. split; [reflexivity |].
  split.
  - rewrite <- Z.land_assoc. apply Z.land_0_r.
  - split; [| reflexivity].
    intros j Hj. apply dev_upd_dev_other. congruence.
Qed.

Lemma forallb_is_u8 l :
  forallb (fun b => (0 <=? b) && (b <? 256)) l = true -> Forall is_u8 l.
Proof.
  intros Hl. rewrite forallb_forall in Hl. apply Forall_forall.
  intros b Hb. specialize (Hl b Hb). unfold is_u8. lia.
Qed.

(** D-pad up, guide and A are down in the packet; the guide bit is
    dropped. *)
Lemma ParseInputData_wired_report_witness :
  let d := wired_pad wired_report in
  let '(d', xpad', fresh) := ParseInputData d (Some 0%nat) 1 1000 in
  fresh = true /\ xpad' = Some 0%nat /\
  pad_state (dev d' 0) =
    mk_padstate (XINPUT_GAMEPAD_DPAD_UP + XINPUT_GAMEPAD_A) 0x80 0
      16 32 48 (-32704) /\
  Z.land (wButtons (pad_state (dev d' 0))) XINPUT_GAMEPAD_XBOX_BUTTON = 0 /\
  (forall j, j <> 0%nat -> dev d' j = dev d j) /\
  usb_trace d' = usb_trace d.
Proof.
  apply (ParseInputData_wired_report (wired_pad wired_report) 0 1 1000).
  - vm_compute. discriminate.
  - simpl. lia.
  - reflexivity.
  - apply forallb_is_u8. vm_compute. reflexivity.
  - reflexivity.
  - reflexivity.
Defined.

(** ** The wire decoder: triggers of the Xbox One pad *)

(** X3.  The ten-bit triggers of an Xbox One report (header byte 0x20)
    are scaled to eight bits: the stored trigger is the little-endian
    word of bytes 6, 7 (left) and 8, 9 (right) divided by four, a value
    from 0 to 255. *)
Theorem ParseInputData_xboxone_triggers (d : XINPUT) (i ep : nat) (now : Z) :
  dev_type d <> XBOX360_WIRELESS ->
  (i < length (xinput_devices d))%nat ->
  type (dev d i) = XBOXONE ->
  Forall is_u8 (xdata d) ->
  Buf.get (xdata d) 0 = 0x20 ->
  let b := Buf.get (xdata d) in
  b 7%nat < 4 -> b 9%nat < 4 ->
  let '(d', xpad', fresh) := ParseInputData d (Some i) ep now in
  fresh = true /\
  bLeftTrigger (pad_state (dev d' i)) = (b 6%nat + 256 * b 7%nat) / 4 /\
  bRightTrigger (pad_state (dev d' i)) = (b 8%nat + 256 * b 9%nat) / 4 /\
  is_u8 (bLeftTrigger (pad_state (dev d' i))) /\
  is_u8 (bRightTrigger (pad_state (dev d' i))).
Proof.
  intros Hw Hi Hty Hb H0 b H7 H9.
  unfold ParseInputData.
  rewrite (eqb_wireless_false _ Hw), Hty.
  cbv beta iota zeta.
  rewrite H0.
  change (negb (32 =? 32) || (sizeof_xdata <? 18)) with false.
  cbv iota beta.
  rewrite dev_upd_dev by exact Hi.
  cbn [pad_state set_pad_state bLeftTrigger bRightTrigger].
  rewrite !le16s_value by exact Hb.
  assert (Hs : forall lo hi, is_u8 lo -> 0 <= hi < 4 ->
             u8 (Z.shiftr (s16 (lo + 256 * hi)) 2) = (lo + 256 * hi) / 4 /\
             is_u8 ((lo + 256 * hi) / 4)).
  { intros lo hi Hlo Hhi. unfold is_u8 in *.
    assert (Hv : 0 <= lo + 256 * hi < 1024) by lia.
    assert (Hq : 0 <= (lo + 256 * hi) / 4 < 256).
    { split; [apply Z.div_pos; lia | apply Z.div_lt_upper_bound; lia]. }
    unfold s16. rewrite Z.mod_small by lia.
    replace (lo + 256 * hi + 2 ^ 15 - 2 ^ 15) with (lo + 256 * hi) by lia.
    rewrite Z.shiftr_div_pow2 by lia. change (2 ^ 2) with 4.
    split; [apply u8_small |]; exact Hq. }
  pose proof (get_u8 _ 6 Hb) as B6. pose proof (get_u8 _ 7 Hb) as B7.
  pose proof (get_u8 _ 8 Hb) as B8. pose proof (get_u8 _ 9 Hb) as B9.
  fold b in B6, B7, B8, B9.
  destruct (Hs (b 6%nat) (b 7%nat) B6) as [L1 L2]; [unfold is_u8 in B7; lia |].
  destruct (Hs (b 8%nat) (b 9%nat) B8) as [R1 R2]; [unfold is_u8 in B9; lia |].
  fold b. rewrite L1, R1. auto.
Qed.

(** The left trigger is fully pulled (1023), the right one half way. *)
Lemma ParseInputData_xboxone_triggers_witness :
  let '(d', xpad', fresh) := ParseInputData xboxone_pad (Some 0%nat) 1 1000 in
  fresh = true /\
  bLeftTrigger (pad_state (dev d' 0)) = 255 /\
  bRightTrigger (pad_state (dev d' 0)) = 128 /\
  is_u8 (bLeftTrigger (pad_state (dev d' 0))) /\
  is_u8 (bRightTrigger (pad_state (dev d' 0))).
Proof.
  apply (ParseInputData_xboxone_triggers xboxone_pad 0 1 1000).
  - vm_compute. discriminate.
  - simpl. lia.
  - reflexivity.
  - apply forallb_is_u8. vm_compute. reflexivity.
  - reflexivity.
  - vm_compute. reflexivity.
  - vm_compute. reflexivity.
Defined.

(** ** The wire decoder: feedback packets of the wired pad *)

Lemma u8_shiftl_8 v : u8 (Z.shiftl v 8) = 0.
Proof.
  unfold u8. rewrite Z.shiftl_mul_pow2 by lia. apply Z.mod_mul. lia.
Qed.

(** X4.  A rumble feedback packet of a wired pad (first byte 0x03)
    stores 0 in both actual rumble levels whatever levels the packet
    reports: each level byte is shifted left by eight bits before it is
    stored in a [uint8_t].  The packet is not a new pad state. *)
Theorem ParseInputData_wired_rumble_feedback
  (d : XINPUT) (i ep : nat) (now : Z) :
  dev_type d <> XBOX360_WIRELESS ->
  (i < length (xinput_devices d))%nat ->
  type (dev d i) = XBOX360_WIRED ->
  Buf.get (xdata d) 0 = 0x03 ->
  let '(d', xpad', fresh) := ParseInputData d (Some i) ep now in
  fresh = false /\
  lValue_actual (dev d' i) = 0 /\ rValue_actual (dev d' i) = 0 /\
  lValue_requested (dev d' i) = lValue_requested (dev d i) /\
  rValue_requested (dev d' i) = rValue_requested (dev d i) /\
  pad_state (dev d' i) = pad_state (dev d i).
Proof.
  intros Hw Hi Hty H0.
  unfold ParseInputData.
  rewrite (eqb_wireless_false _ Hw), Hty.
  cbv beta iota zeta.
  rewrite H0.
  change ((3 =? 1) && (3 <=? sizeof_xdata)) with false.
  change ((3 =? 3) && (5 <=? sizeof_xdata)) with true.
  cbv iota beta.
  rewrite dev_upd_dev by exact Hi.
  rewrite !u8_shiftl_8.
  repeat split.
Qed.

(** Both motors run at 200/100 and the packet reports full level: the
    actual levels become 0 and differ from the requested ones again. *)
Lemma ParseInputData_wired_rumble_feedback_witness :
  let d := wired_pad wired_rumble_feedback in
  let '(d', xpad', fresh) := ParseInputData d (Some 0%nat) 1 1000 in
  fresh = false /\
  lValue_actual (dev d' 0) = 0 /\ rValue_actual (dev d' 0) = 0 /\
  lValue_requested (dev d' 0) = 200 /\
  rValue_requested (dev d' 0) = 100 /\
  pad_state (dev d' 0) = pad_state (dev d 0).
Proof.
  apply (ParseInputData_wired_rumble_feedback
           (wired_pad wired_rumble_feedback) 0 1 1000).
  - vm_compute. discriminate.
  - simpl. lia.
  - reflexivity.
  - reflexivity.
Defined.

(** ** The LED command and its feedback *)

(** X5.  The LED command of a wired pad and its feedback packet are
    inverse to each other for the quadrants 0 to 10: [SetLed] sends
    01 03 c with c = 0 for quadrant 0 and c = quadrant + 5 otherwise,
    and a feedback packet 01 03 c is decoded to [led_actual] =
    quadrant. *)
Theorem SetLed_feedback_round_trip
  (d : XINPUT) (i : nat) (quadrant now rc : Z)
  (d2 : XINPUT) (i2 ep : nat) (now2 : Z) :
  0 <= quadrant <= 10 ->
  type (dev d i) = XBOX360_WIRED ->
  (i < length (xinput_devices d))%nat ->
  let c := if quadrant =? 0 then 0 else quadrant + 5 in
  dev_type d2 <> XBOX360_WIRELESS ->
  (i2 < length (xinput_devices d2))%nat ->
  type (dev d2 i2) = XBOX360_WIRED ->
  firstn 3 (xdata d2) = [0x01; 0x03; c] ->
  usb_trace (fst (SetLed d i quadrant now rc)) =
    OutTransfer (this_bAddress d) (pipe_epAddr d (usbh_outPipe (dev d i)))
      [0x01; 0x03; c] :: usb_trace d /\
  led_actual (dev (fst (fst (ParseInputData d2 (Some i2) ep now2))) i2) =
    quadrant.
Proof.
  intros Hq Hty Hi c Hw2 Hi2 Hty2 Hx.
  split.
  - unfold SetLed.
    rewrite dev_upd_dev by exact Hi.
    cbn [type set_timer_out set_led_actual usbh_outPipe].
    rewrite Hty.
    unfold outTransfer_xdata, emit, set_xdata, upd_dev, set_xinput_devices,
      pipe_epAddr, Buf.memcpy, xbox360_wired_led.
    cbn [fst usb_trace this_bAddress this_epInfo xdata length firstn app
         Buf.set].
    subst c.
    destruct (quadrant =? 0); [reflexivity |].
    rewrite u8_small by lia. reflexivity.
  - assert (H0 : Buf.get (xdata d2) 0 = 1 /\ Buf.get (xdata d2) 2 = c).
    { unfold Buf.get.
      destruct (xdata d2) as [| b0 [| b1 [| b2 rest]]]; try discriminate.
      cbn [firstn] in Hx. injection Hx as -> _ ->. auto. }
    destruct H0 as [H0 H2].
    unfold ParseInputData.
    rewrite (eqb_wireless_false _ Hw2), Hty2.
    cbv beta iota zeta.
    rewrite H0, H2.
    change ((1 =? 1) && (3 <=? sizeof_xdata)) with true.
    cbv iota beta. cbn [fst].
    rewrite dev_upd_dev by exact Hi2.
    cbn [led_actual set_led_actual].
    subst c.
    assert (Hc : quadrant = 0 \/ quadrant = 1 \/ quadrant = 2 \/ quadrant = 3 \/
                 quadrant = 4 \/ quadrant = 5 \/ quadrant = 6 \/ quadrant = 7 \/
                 quadrant = 8 \/ quadrant = 9 \/ quadrant = 10) by lia.
    repeat (destruct Hc as [-> | Hc]; [reflexivity |]).
    subst quadrant. reflexivity.
Qed.

(** Quadrant 3 on the wired pad: the command byte is 8. *)
Lemma SetLed_feedback_round_trip_witness :
  let d := wired_pad [] in
  let d2 := wired_pad [0x01; 0x03; 0x08] in
  usb_trace (fst (SetLed d 0 3 1000 0)) =
    [OutTransfer 1 2 [0x01; 0x03; 0x08]] /\
  led_actual (dev (fst (fst (ParseInputData d2 (Some 0%nat) 1 1004))) 0) = 3.
Proof.
  apply (SetLed_feedback_round_trip (wired_pad []) 0 3 1000 0
           (wired_pad [0x01; 0x03; 0x08]) 0 1 1004).
  - lia.
  - reflexivity.
  - simpl. lia.
  - vm_compute. discriminate.
  - simpl. lia.
  - reflexivity.
  - reflexivity.
Defined.

(** ** The wire decoder: what it leaves alone *)

Lemma nth_list_upd_proj {A B : Type} (g : A -> B) (f : A -> A) (a : A)
  (l : list A) :
  (forall x, g (f x) = g x) ->
  forall i j, g (nth j (list_upd l i f) a) = g (nth j l a).
Proof.
  intros Hg. induction l as [| h t IH]; intros [| i] [| j]; cbn; auto.
Qed.

Lemma dev_upd_dev_proj {B : Type} (g : usbh_xinput_t -> B) d i f j :
  (forall x, g (f x) = g x) -> g (dev (upd_dev d i f) j) = g (dev d j).
Proof.
  intros Hg. unfold dev, upd_dev. cbn [xinput_devices set_xinput_devices].
  now apply nth_list_upd_proj.
Qed.

(** X6.  A packet decoded for a driver that is not the wireless
    receiver changes nothing but decoded state of the device it belongs
    to: the device pointer, the transfer buffer, the endpoint table and
    the USB trace stay as they are, every other device is untouched, and
    on the device itself the bus address, the interface, the pipes, the
    family, the requested rumble and LED values and both edge histories
    are kept.  Without a device the packet is dropped. *)
Theorem ParseInputData_keeps
  (d : XINPUT) (xpad : option nat) (ep : nat) (now : Z) :
  dev_type d <> XBOX360_WIRELESS ->
  (forall i, xpad = Some i -> type (dev d i) <> XBOX360_WIRELESS) ->
  let '(d', xpad', fresh) := ParseInputData d xpad ep now in
  xpad' = xpad /\
  usb_trace d' = usb_trace d /\ xdata d' = xdata d /\
  this_epInfo d' = this_epInfo d /\
  (forall j, xpad <> Some j -> dev d' j = dev d j) /\
  (forall j, kept_by_decoder (dev d' j) = kept_by_decoder (dev d j)) /\
  (xpad = None -> d' = d /\ fresh = false).
Proof.
  intros Hw Hty.
  unfold ParseInputData.
  rewrite (eqb_wireless_false _ Hw).
  destruct xpad as [i |].
  - specialize (Hty i eq_refl).
    destruct (type (dev d i)); try congruence; cbv beta iota zeta;
      repeat match goal with
             | |- context [if ?c then _ else _] => destruct c
             end;
      (split; [reflexivity |]); (split; [reflexivity |]);
      (split; [reflexivity |]); (split; [reflexivity |]);
      (split; [| split; [| discriminate]]);
      intros j; try reflexivity;
      try (intros Hj; apply dev_upd_dev_other; congruence);
      apply dev_upd_dev_proj; reflexivity.
  - cbv beta iota zeta. repeat split; auto.
Qed.

(** The wired pad report again: the second slot and the requests of
    the first one are as before. *)
Lemma ParseInputData_keeps_witness :
  let d := wired_pad wired_report in
  let '(d', xpad', fresh) := ParseInputData d (Some 0%nat) 1 1000 in
  xpad' = Some 0%nat /\
  usb_trace d' = usb_trace d /\ xdata d' = xdata d /\
  this_epInfo d' = this_epInfo d /\
  (forall j, Some 0%nat <> Some j -> dev d' j = dev d j) /\
  (forall j, kept_by_decoder (dev d' j) = kept_by_decoder (dev d j)) /\
  (Some 0%nat = None -> d' = d /\ fresh = false).
Proof.
  apply (ParseInputData_keeps (wired_pad wired_report) (Some 0%nat) 1 1000).
  - vm_compute. discriminate.
  - intros i Hi. injection Hi as <-. vm_compute. discriminate.
Defined.

(** ** The device table: allocation and release *)

Lemma first_free_some l : forall k0 k,
  first_free l k0 = Some k ->
  (k0 <= k < k0 + length l)%nat /\
  bAddress (nth (k - k0) l xinput_zero) = 0 /\
  (forall j, (j < k - k0)%nat -> bAddress (nth j l xinput_zero) <> 0).
Proof.
  induction l as [| x l IH]; intros k0 k Hf; cbn [first_free] in Hf;
    [discriminate |].
  destruct (Z.eqb_spec (bAddress x) 0) as [E | E].
  - injection Hf as <-. rewrite Nat.sub_diag. cbn [length nth].
    split; [lia |]. split; [exact E |]. intros j Hj. lia.
  - destruct (IH _ _ Hf) as (Hr & Hz & Hb). cbn [length].
    split; [lia |].
    replace (k - k0)%nat with (S (k - S k0)) by lia. cbn [nth].
    split; [exact Hz |].
    intros [| j] Hj; cbn [nth]; [exact E | apply Hb; lia].
Qed.

Lemma first_free_none l : forall k0,
  first_free l k0 = None -> Forall (fun x => bAddress x <> 0) l.
Proof.
  induction l as [| x l IH]; intros k0 Hf; cbn [first_free] in Hf;
    [constructor |].
  destruct (Z.eqb_spec (bAddress x) 0) as [E | E]; [discriminate |].
  constructor; [exact E | eapply IH; exact Hf].
Qed.

Lemma first_free_busy l : forall k0,
  Forall (fun x => bAddress x <> 0) l -> first_free l k0 = None.
Proof.
  induction l as [| x l IH]; intros k0 Hb; cbn [first_free]; [reflexivity |].
  destruct (Z.eqb_spec (bAddress x) 0) as [E | E].
  - exfalso. exact (Forall_inv Hb E).
  - apply IH. exact (Forall_inv_tail Hb).
Qed.

Lemma nth_firstn_lt {A : Type} (a : A) (l : list A) : forall n j,
  (j < n)%nat -> nth j (firstn n l) a = nth j l a.
Proof.
  induction l as [| h t IH]; intros [| n] [| j] Hj; cbn; auto; try lia.
  apply IH. lia.
Qed.

Lemma list_upd_compose {A : Type} (f g : A -> A) (l : list A) : forall i,
  list_upd (list_upd l i f) i g = list_upd l i (fun x => g (f x)).
Proof.
  induction l as [| h t IH]; intros [| i]; cbn; auto. now rewrite IH.
Qed.

Lemma WritePacket_devices d i data now :
  xinput_devices (WritePacket d i data now) =
  list_upd (xinput_devices d) i (fun x => set_timer_out x now).
Proof. reflexivity. Qed.

Lemma WritePacket_ids d i data now :
  this_VID (WritePacket d i data now) = this_VID d /\
  this_PID (WritePacket d i data now) = this_PID d.
Proof. split; reflexivity. Qed.

Lemma alloc_xinput_device_devices d bAddr itf pin pout ty now index :
  first_free (firstn XINPUT_MAXGAMEPADS (xinput_devices d)) 0 = Some index ->
  exists F,
    xinput_devices (fst (alloc_xinput_device d bAddr itf pin pout ty now)) =
      list_upd (xinput_devices d) index F /\
    snd (alloc_xinput_device d bAddr itf pin pout ty now) = Some index /\
    forall x, allocated x (F x) bAddr itf pin pout ty index now.
Proof.
  intros Hf. unfold alloc_xinput_device. rewrite Hf.
  destruct (first_free_some _ _ _ Hf) as (Hr & _).
  rewrite length_firstn in Hr.
  assert (Hk : (index < 4)%nat) by (unfold XINPUT_MAXGAMEPADS in Hr; lia).
  assert (Hled : u8 (Z.of_nat index + 1) = Z.of_nat index + 1)
    by (apply u8_small; lia).
  cbv zeta.
  destruct ty; cbn [fst snd];
    repeat match goal with
           | |- context [if ?c then _ else _] => destruct c
           end;
    rewrite ?WritePacket_devices;
    unfold upd_dev, emit, set_xinput_devices; cbn [xinput_devices];
    rewrite ?WritePacket_devices;
    unfold upd_dev, emit, set_xinput_devices; cbn [xinput_devices];
    rewrite ?list_upd_compose;
    (eexists; split; [reflexivity | split; [reflexivity |]]);
    intros x; unfold allocated; cbn; rewrite ?Hled; reflexivity.
Qed.

(** The two outcomes of [alloc_xinput_device]. *)
Lemma alloc_xinput_device_cases
  (d : XINPUT) (bAddr itf : Z) (pin pout : option nat) (ty : xinput_type_t)
  (now : Z) :
  match alloc_xinput_device d bAddr itf pin pout ty now with
  | (d', None) =>
      d' = d /\
      Forall (fun x => bAddress x <> 0)
             (firstn XINPUT_MAXGAMEPADS (xinput_devices d))
  | (d', Some k) =>
      (k < XINPUT_MAXGAMEPADS)%nat /\ (k < length (xinput_devices d))%nat /\
      bAddress (dev d k) = 0 /\
      (forall j, (j < k)%nat -> bAddress (dev d j) <> 0) /\
      allocated (dev d k) (dev d' k) bAddr itf pin pout ty k now /\
      (forall j, j <> k -> dev d' j = dev d j)
  end.
Proof.
  destruct (first_free (firstn XINPUT_MAXGAMEPADS (xinput_devices d)) 0)
    as [k |] eqn:Hf.
  - destruct (alloc_xinput_device_devices d bAddr itf pin pout ty now k Hf)
      as (F & Hd & Hk & HF).
    destruct (alloc_xinput_device d bAddr itf pin pout ty now) as [d' r].
    cbn [fst snd] in Hd, Hk. subst r.
    destruct (first_free_some _ _ _ Hf) as (Hr & Hz & Hb).
    rewrite length_firstn in Hr. rewrite Nat.sub_0_r in Hz, Hb.
    assert (Hk4 : (k < XINPUT_MAXGAMEPADS)%nat) by lia.
    assert (Hkl : (k < length (xinput_devices d))%nat) by lia.
    split; [exact Hk4 |]. split; [exact Hkl |].
    rewrite nth_firstn_lt in Hz by exact Hk4.
    split; [exact Hz |].
    split.
    { intros j Hj. specialize (Hb j Hj).
      rewrite nth_firstn_lt in Hb by lia. exact Hb. }
    unfold dev. rewrite Hd. split.
    + rewrite nth_list_upd by exact Hkl. apply HF.
    + intros j Hj. apply nth_list_upd_other. congruence.
  - unfold alloc_xinput_device. rewrite Hf.
    split; [reflexivity | eapply first_free_none; exact Hf].
Qed.

(** X7.  [alloc_xinput_device] hands out the free slot (bus address 0)
    with the lowest index: it fails, changing nothing and sending
    nothing, exactly when the four slots are all in use; otherwise the
    chosen slot gets the bus address, interface, pipes and family given,
    LED quadrant index + 1 and the green chatpad LED as requests, and,
    for a wireless or an Xbox One pad, the time of the call as the time
    of its last write; every other field of the slot is what it was
    (none is cleared), and no other slot changes. *)
Theorem alloc_xinput_device_spec
  (d : XINPUT) (bAddr itf : Z) (pin pout : option nat) (ty : xinput_type_t)
  (now : Z) :
  match alloc_xinput_device d bAddr itf pin pout ty now with
  | (d', None) =>
      d' = d /\
      Forall (fun x => bAddress x <> 0)
             (firstn XINPUT_MAXGAMEPADS (xinput_devices d))
  | (d', Some k) =>
      (k < XINPUT_MAXGAMEPADS)%nat /\ (k < length (xinput_devices d))%nat /\
      bAddress (dev d k) = 0 /\
      (forall j, (j < k)%nat -> bAddress (dev d j) <> 0) /\
      allocated (dev d k) (dev d' k) bAddr itf pin pout ty k now /\
      (forall j, j <> k -> dev d' j = dev d j)
  end.
Proof. exact (alloc_xinput_device_cases d bAddr itf pin pout ty now). Qed.

Lemma firstn_list_upd {A : Type} (f : A -> A) (l : list A) : forall n k,
  (k < n)%nat -> firstn n (list_upd l k f) = list_upd (firstn n l) k f.
Proof.
  induction l as [| h t IH]; intros [| n] [| k] Hk; cbn; auto; try lia.
  f_equal. apply IH. lia.
Qed.

Lemma first_free_list_upd z l : forall k k0,
  bAddress z = 0 ->
  (k < length l)%nat ->
  (forall j, (j < k)%nat -> bAddress (nth j l xinput_zero) <> 0) ->
  first_free (list_upd l k (fun _ => z)) k0 = Some (k0 + k)%nat.
Proof.
  intros k k0 Hz. revert k k0.
  induction l as [| h t IH]; intros [| k] k0 Hk Hb; cbn [length] in Hk;
    try lia; cbn [list_upd first_free].
  - rewrite Hz. cbn. f_equal. lia.
  - destruct (Z.eqb_spec (bAddress h) 0) as [E | E].
    + exfalso. apply (Hb 0%nat); [lia | exact E].
    + rewrite IH; [f_equal; lia | lia |].
      intros j Hj. apply (Hb (S j)). lia.
Qed.

(** X8.  A slot that has been allocated and is freed again is blank
    (every field zero), no other slot has changed on the way, and the
    next allocation hands out the same slot. *)
Theorem alloc_then_free
  (d d1 : XINPUT) (bAddr itf : Z) (pin pout : option nat)
  (ty : xinput_type_t) (now : Z) (k : nat) :
  alloc_xinput_device d bAddr itf pin pout ty now = (d1, Some k) ->
  let (d2, r) := free_xinput_device d1 k in
  r = 1 /\ dev d2 k = xinput_zero /\
  (forall j, j <> k -> dev d2 j = dev d j) /\
  (forall bAddr' itf' pin' pout' ty' now',
     snd (alloc_xinput_device d2 bAddr' itf' pin' pout' ty' now') = Some k).
Proof.
  intros Ha.
  assert (Hf : first_free (firstn XINPUT_MAXGAMEPADS (xinput_devices d)) 0
               = Some k).
  { unfold alloc_xinput_device in Ha.
    destruct (first_free _ 0) as [k' |]; [| discriminate].
    cbv zeta in Ha. injection Ha as _ <-. reflexivity. }
  destruct (alloc_xinput_device_devices d bAddr itf pin pout ty now k Hf)
    as (F & Hd & _ & _).
  rewrite Ha in Hd. cbn [fst] in Hd.
  destruct (first_free_some _ _ _ Hf) as (Hr & _ & Hb).
  rewrite length_firstn in Hr. rewrite Nat.sub_0_r in Hb.
  assert (Hk4 : (k < XINPUT_MAXGAMEPADS)%nat) by lia.
  assert (Hkl : (k < length (xinput_devices d))%nat) by lia.
  unfold free_xinput_device.
  destruct (Nat.ltb_spec k XINPUT_MAXGAMEPADS) as [_ | Hge]; [| lia].
  assert (Hd2 : xinput_devices (upd_dev d1 k (fun _ => xinput_zero)) =
                list_upd (xinput_devices d) k (fun _ => xinput_zero)).
  { unfold upd_dev, set_xinput_devices. cbn [xinput_devices].
    rewrite Hd. apply list_upd_compose. }
  split; [reflexivity |].
  unfold dev. rewrite Hd2.
  split; [now rewrite nth_list_upd by exact Hkl |].
  split; [intros j Hj; apply nth_list_upd_other; congruence |].
  intros bAddr' itf' pin' pout' ty' now'.
  assert (Hf2 : first_free
                  (firstn XINPUT_MAXGAMEPADS
                     (xinput_devices (upd_dev d1 k (fun _ => xinput_zero)))) 0
                = Some k).
  { rewrite Hd2, firstn_list_upd by exact Hk4.
    rewrite first_free_list_upd; [reflexivity | reflexivity | |].
    - rewrite length_firstn. lia.
    - exact Hb. }
  destruct (alloc_xinput_device_devices _ bAddr' itf' pin' pout' ty' now' k Hf2)
    as (_ & _ & Hs & _).
  exact Hs.
Qed.

(** A second wired pad is given slot 1; freed, slot 1 is blank and is
    handed out again. *)
Lemma alloc_then_free_witness :
  let d := wired_pad [] in
  let d1 := fst (alloc_xinput_device d 2 0 (Some 1%nat) (Some 2%nat)
                   XBOX360_WIRED 1000) in
  let (d2, r) := free_xinput_device d1 1 in
  r = 1 /\ dev d2 1 = xinput_zero /\
  (forall j, j <> 1%nat -> dev d2 j = dev d j) /\
  (forall bAddr' itf' pin' pout' ty' now',
     snd (alloc_xinput_device d2 bAddr' itf' pin' pout' ty' now')
     = Some 1%nat).
Proof.
  apply (alloc_then_free (wired_pad [])
           (fst (alloc_xinput_device (wired_pad []) 2 0 (Some 1%nat)
                   (Some 2%nat) XBOX360_WIRED 1000))
           2 0 (Some 1%nat) (Some 2%nat) XBOX360_WIRED 1000 1).
  reflexivity.
Defined.

(** ** The wireless receiver: link packets *)

(** X9.  On the wireless receiver a link packet (bit 3 of byte 0) with
    byte 1 zero, received for an endpoint that has a device, frees the
    device: its slot becomes blank, the endpoint has no device any more,
    no other slot changes, nothing is sent and the packet is not a new
    pad state. *)
Theorem ParseInputData_wireless_disconnect
  (d : XINPUT) (k ep : nat) (now : Z) :
  dev_type d = XBOX360_WIRELESS ->
  Z.land (Buf.get (xdata d) 0) 0x08 <> 0 ->
  Buf.get (xdata d) 1 = 0x00 ->
  (k < XINPUT_MAXGAMEPADS)%nat ->
  (k < length (xinput_devices d))%nat ->
  let '(d', xpad', fresh) := ParseInputData d (Some k) ep now in
  fresh = false /\ xpad' = None /\
  dev d' k = xinput_zero /\
  (forall j, j <> k -> dev d' j = dev d j) /\
  usb_trace d' = usb_trace d.
Proof.
  intros Hdt Hb0 Hb1 Hk Hkl.
  unfold ParseInputData. rewrite Hdt.
  cbv beta iota zeta. cbn [xinput_type_eqb].
  cbv beta iota zeta.
  change (sizeof_xdata <? 27) with false. cbv iota.
  apply truthy_true in Hb0. rewrite Hb0, Hb1.
  cbn [Z.eqb]. cbv iota beta.
  unfold free_xinput_device.
  destruct (Nat.ltb_spec k XINPUT_MAXGAMEPADS) as [_ | Hge]; [| lia].
  cbn [fst].
  split; [reflexivity |]. split; [reflexivity |].
  split; [now rewrite dev_upd_dev by exact Hkl |].
  split; [| reflexivity].
  intros j Hj. apply dev_upd_dev_other. congruence.
Qed.

Lemma memcpy_prefix (dst data : list Z) :
  firstn (length data) (Buf.memcpy dst data (length data)) = data.
Proof.
  unfold Buf.memcpy. rewrite firstn_all.
  rewrite firstn_app, Nat.sub_diag, firstn_all. cbn [firstn].
  apply app_nil_r.
Qed.

Lemma WritePacket_trace d i data now :
  usb_trace (WritePacket d i data now) =
  OutTransfer (this_bAddress d) (pipe_epAddr d (usbh_outPipe (dev d i))) data
    :: usb_trace d.
Proof.
  unfold WritePacket, outTransfer_xdata, emit, set_xdata.
  cbn [usb_trace this_bAddress xdata].
  rewrite memcpy_prefix.
  replace (usbh_outPipe (dev _ i)) with (usbh_outPipe (dev d i))
    by (symmetry; apply (dev_upd_dev_proj usbh_outPipe); reflexivity).
  reflexivity.
Qed.

Lemma WritePacket_xdata d i data now :
  xdata (WritePacket d i data now) = Buf.memcpy (xdata d) data (length data).
Proof. reflexivity. Qed.

Lemma WritePacket_driver d i data now :
  this_bAddress (WritePacket d i data now) = this_bAddress d /\
  this_epInfo (WritePacket d i data now) = this_epInfo d /\
  dev_type (WritePacket d i data now) = dev_type d.
Proof. repeat split. Qed.

Lemma WritePacket_dev_proj {B : Type} (g : usbh_xinput_t -> B) d i data now j :
  (forall x t, g (set_timer_out x t) = g x) ->
  g (dev (WritePacket d i data now) j) = g (dev d j).
Proof.
  intros Hg. unfold dev. rewrite WritePacket_devices.
  apply nth_list_upd_proj. intros x. apply Hg.
Qed.

Lemma pipe_epAddr_epInfo d d' p :
  this_epInfo d' = this_epInfo d -> pipe_epAddr d' p = pipe_epAddr d p.
Proof. intros E. unfold pipe_epAddr. now rewrite E. Qed.

(** The start-up packets of a wireless pad. *)
Lemma alloc_wireless_packets d bAddr itf pin pout now k :
  first_free (firstn XINPUT_MAXGAMEPADS (xinput_devices d)) 0 = Some k ->
  let d1 := fst (alloc_xinput_device d bAddr itf pin pout XBOX360_WIRELESS
                   now) in
  Buf.get (xdata d1) 1 = 0 /\
  usb_trace d1 =
    OutTransfer (this_bAddress d) (pipe_epAddr d pout) xbox360w_rumble_enable
    :: OutTransfer (this_bAddress d) (pipe_epAddr d pout) xbox360w_unknown
    :: OutTransfer (this_bAddress d) (pipe_epAddr d pout)
         xbox360w_controller_info
    :: usb_trace d.
Proof.
  intros Hf.
  destruct (first_free_some _ _ _ Hf) as (Hr & _).
  rewrite length_firstn in Hr.
  assert (Hkl : (k < length (xinput_devices d))%nat) by lia.
  unfold alloc_xinput_device. rewrite Hf. cbv zeta. cbn [fst].
  match goal with
  | |- context [WritePacket (upd_dev d k ?f) k xbox360w_controller_info now] =>
      set (d0 := upd_dev d k f)
  end.
  assert (Hp : usbh_outPipe (dev d0 k) = pout).
  { subst d0. rewrite dev_upd_dev by exact Hkl. reflexivity. }
  assert (He : this_epInfo d0 = this_epInfo d) by reflexivity.
  assert (Ha : this_bAddress d0 = this_bAddress d) by reflexivity.
  assert (Ht : usb_trace d0 = usb_trace d) by reflexivity.
  clearbody d0.
  split; [reflexivity |].
  rewrite !WritePacket_trace.
  rewrite !(WritePacket_dev_proj usbh_outPipe) by reflexivity.
  repeat match goal with
         | |- context [this_bAddress (WritePacket ?a ?b ?c ?e)] =>
             change (this_bAddress (WritePacket a b c e))
               with (this_bAddress a)
         end.
  rewrite Hp, Ha, Ht.
  repeat match goal with
         | |- context [pipe_epAddr (WritePacket ?a ?b ?c ?e) ?p] =>
             change (pipe_epAddr (WritePacket a b c e) p)
               with (pipe_epAddr a p)
         end.
  rewrite (pipe_epAddr_epInfo d d0 pout He).
  reflexivity.
Qed.

(** X10.  On the wireless receiver a link packet with byte 1 not zero,
    received for an endpoint without a device, allocates a device for
    the endpoint pair and decodes nothing else: the three start-up
    packets have replaced the head of the transfer buffer, so the rest
    of the packet (pad event, chatpad report) is not looked at.  When no
    slot is free nothing changes. *)
Theorem ParseInputData_wireless_connect (d : XINPUT) (ep : nat) (now : Z) :
  dev_type d = XBOX360_WIRELESS ->
  Z.land (Buf.get (xdata d) 0) 0x08 <> 0 ->
  Buf.get (xdata d) 1 <> 0x00 ->
  let '(d', xpad', fresh) := ParseInputData d None ep now in
  (d', xpad') =
    alloc_xinput_device d (this_bAddress d) 0 (Some ep) (Some (S ep))
      XBOX360_WIRELESS now /\
  match xpad' with
  | Some k =>
      fresh = true /\
      pad_state (dev d' k) = pad_state (dev d k) /\
      chatpad_state (dev d' k) = chatpad_state (dev d k) /\
      firstn 3 (usb_trace d') =
        [OutTransfer (this_bAddress d) (pipe_epAddr d (Some (S ep)))
           xbox360w_rumble_enable;
         OutTransfer (this_bAddress d) (pipe_epAddr d (Some (S ep)))
           xbox360w_unknown;
         OutTransfer (this_bAddress d) (pipe_epAddr d (Some (S ep)))
           xbox360w_controller_info]
  | None => fresh = false /\ d' = d
  end.
Proof.
  intros Hdt Hb0 Hb1.
  pose proof (alloc_xinput_device_cases d (this_bAddress d) 0 (Some ep)
                (Some (S ep)) XBOX360_WIRELESS now) as Hspec.
  pose proof (alloc_wireless_packets d (this_bAddress d) 0 (Some ep)
                (Some (S ep)) now) as Hpk.
  assert (Hsome : forall k,
            snd (alloc_xinput_device d (this_bAddress d) 0 (Some ep)
                   (Some (S ep)) XBOX360_WIRELESS now) = Some k ->
            first_free (firstn XINPUT_MAXGAMEPADS (xinput_devices d)) 0
            = Some k).
  { intros k. unfold alloc_xinput_device.
    destruct (first_free _ 0) as [k' |]; cbv zeta; cbn [snd]; congruence. }
  unfold ParseInputData. rewrite Hdt.
  cbv beta iota zeta. cbn [xinput_type_eqb].
  cbv beta iota zeta.
  change (sizeof_xdata <? 27) with false. cbv iota.
  apply truthy_true in Hb0. rewrite Hb0.
  destruct (Z.eqb_spec (Buf.get (xdata d) 1) 0) as [E | _]; [contradiction |].
  cbn [negb]. cbv iota beta.
  destruct (alloc_xinput_device d (this_bAddress d) 0 (Some ep)
              (Some (S ep)) XBOX360_WIRELESS now) as [d1 [k |]].
  - specialize (Hpk k (Hsome k eq_refl)). cbn [fst] in Hpk.
    destruct Hpk as [Hx1 Htr].
    destruct Hspec as (_ & _ & _ & _ & Hal & _).
    cbv iota beta. rewrite Hx1.
    change (0 =? 248) with false.
    change (truthy (Z.land 0 1)) with false.
    change (truthy (Z.land 0 2)) with false.
    cbv iota beta. cbn [andb].
    split; [reflexivity |]. split; [reflexivity |].
    unfold allocated in Hal.
    split; [rewrite Hal; reflexivity |]. split; [rewrite Hal; reflexivity |].
    rewrite Htr. reflexivity.
  - destruct Hspec as [-> _]. cbv iota beta.
    repeat split.
Qed.

(** ** [Release] *)

Lemma nth_map_firstn_skipn {A : Type} (f : A -> A) (a : A) (l : list A) :
  forall n j,
  nth j (map f (firstn n l) ++ skipn n l) a =
  if (j <? n)%nat && (j <? length l)%nat then f (nth j l a) else nth j l a.
Proof.
  induction l as [| h t IH]; intros n j.
  - rewrite firstn_nil, skipn_nil. cbn [map app length].
    destruct j; cbn [nth]; now rewrite andb_false_r.
  - destruct n as [| n]; [cbn [firstn skipn map app]; reflexivity |].
    destruct j as [| j]; [reflexivity |].
    cbn [firstn skipn map app nth length]. rewrite IH. reflexivity.
Qed.

(** X11.  [Release] frees the slots of the device it is called for and
    no other: every slot that carries the bus address of the driver
    becomes blank, every other slot is kept, the driver has no address
    and is not ready afterwards, and its address has been handed back to
    the address pool.  A driver without an address frees nothing. *)
Theorem Release_frees_own_slots (d : XINPUT) :
  let r := Release d in
  let d' := rel_driver r in
  this_bAddress d' = 0 /\ rel_bIsReady r = false /\
  rel_freed r = this_bAddress d /\ rel_result r = 0 /\
  (forall j, (j < XINPUT_MAXGAMEPADS)%nat ->
     (j < length (xinput_devices d))%nat ->
     this_bAddress d <> 0 -> bAddress (dev d j) = this_bAddress d ->
     dev d' j = xinput_zero) /\
  (forall j, bAddress (dev d j) <> this_bAddress d -> dev d' j = dev d j) /\
  (this_bAddress d = 0 -> xinput_devices d' = xinput_devices d) /\
  (forall j, (j < XINPUT_MAXGAMEPADS)%nat -> this_bAddress d <> 0 ->
     bAddress (dev d' j) <> this_bAddress d) /\
  usb_trace d' = usb_trace d.
Proof.
  cbv zeta. unfold Release. cbn [rel_driver rel_bIsReady rel_freed rel_result
    this_bAddress usb_trace].
  split; [reflexivity |]. split; [reflexivity |].
  split; [reflexivity |]. split; [reflexivity |].
  unfold dev. cbn [xinput_devices].
  split; [| split; [| split; [| split; [| reflexivity]]]].
  - intros j Hj Hl Ha Hb.
    rewrite nth_map_firstn_skipn.
    destruct (Nat.ltb_spec j XINPUT_MAXGAMEPADS); [| lia].
    destruct (Nat.ltb_spec j (length (xinput_devices d))); [| lia].
    cbn [andb]. rewrite Hb, Z.eqb_refl.
    apply truthy_true in Ha. rewrite Ha. reflexivity.
  - intros j Hb. rewrite nth_map_firstn_skipn.
    destruct (_ && _); [| reflexivity].
    destruct (Z.eqb_spec (bAddress (nth j (xinput_devices d) xinput_zero))
                (this_bAddress d)) as [E | _]; [contradiction |].
    now rewrite andb_false_r.
  - intros Ha. rewrite Ha. cbn [truthy Z.eqb negb andb].
    rewrite map_id. apply firstn_skipn.
  - intros j Hj Ha. rewrite nth_map_firstn_skipn.
    destruct (Nat.ltb_spec j XINPUT_MAXGAMEPADS); [| lia].
    destruct (Nat.ltb_spec j (length (xinput_devices d))) as [Hl | Hl];
      cbn [andb].
    + apply truthy_true in Ha. rewrite Ha. cbn [andb].
      destruct (Z.eqb_spec (bAddress (nth j (xinput_devices d) xinput_zero))
                  (this_bAddress d)) as [E | E].
      * cbn [bAddress xinput_zero]. apply truthy_true in Ha. congruence.
      * exact E.
    + rewrite nth_overflow by exact Hl. cbn [bAddress xinput_zero]. congruence.
Qed.

(** The pad on the first endpoint pair leaves; a pad is announced on the
    second pair (with the pad-event bit set in the same packet). *)
Lemma ParseInputData_wireless_disconnect_witness :
  let d := wireless_receiver
             [wireless_pad_1; xinput_zero; xinput_zero; xinput_zero]
             [0x08; 0x00] in
  let '(d', xpad', fresh) := ParseInputData d (Some 0%nat) 1 1000 in
  fresh = false /\ xpad' = None /\
  dev d' 0 = xinput_zero /\
  (forall j, j <> 0%nat -> dev d' j = dev d j) /\
  usb_trace d' = usb_trace d.
Proof.
  apply (ParseInputData_wireless_disconnect
           (wireless_receiver
              [wireless_pad_1; xinput_zero; xinput_zero; xinput_zero]
              [0x08; 0x00]) 0 1 1000).
  - reflexivity.
  - vm_compute. discriminate.
  - reflexivity.
  - unfold XINPUT_MAXGAMEPADS. lia.
  - simpl. lia.
Defined.

Lemma ParseInputData_wireless_connect_witness :
  let d := wireless_receiver
             [wireless_pad_1; xinput_zero; xinput_zero; xinput_zero]
             [0x08; 0x81; 0x00; 0x00; 0x00; 0x13; 0xFF; 0xFF] in
  let '(d', xpad', fresh) := ParseInputData d None 3 1000 in
  (d', xpad') =
    alloc_xinput_device d 1 0 (Some 3%nat) (Some 4%nat) XBOX360_WIRELESS 1000 /\
  match xpad' with
  | Some k =>
      fresh = true /\
      pad_state (dev d' k) = pad_state (dev d k) /\
      chatpad_state (dev d' k) = chatpad_state (dev d k) /\
      firstn 3 (usb_trace d') =
        [OutTransfer 1 3 xbox360w_rumble_enable;
         OutTransfer 1 3 xbox360w_unknown;
         OutTransfer 1 3 xbox360w_controller_info]
  | None => fresh = false /\ d' = d
  end.
Proof.
  apply (ParseInputData_wireless_connect
           (wireless_receiver
              [wireless_pad_1; xinput_zero; xinput_zero; xinput_zero]
              [0x08; 0x81; 0x00; 0x00; 0x00; 0x13; 0xFF; 0xFF]) 3 1000).
  - reflexivity.
  - vm_compute. discriminate.
  - vm_compute. discriminate.
Defined.

(** ** Rumble packets *)

(** What [SetRumble] sends. *)
Lemma SetRumble_trace (d : XINPUT) (i : nat) (lValue rValue now rc : Z) :
  (i < length (xinput_devices d))%nat ->
  let sent := usb_trace (fst (SetRumble d i lValue rValue now rc)) in
  let to_pad := OutTransfer (this_bAddress d)
                  (pipe_epAddr d (usbh_outPipe (dev d i))) in
  (type (dev d i) = XBOX360_WIRED ->
     sent = to_pad [0x00; 0x08; 0x00; lValue; rValue; 0x00; 0x00; 0x00]
            :: usb_trace d) /\
  (type (dev d i) = XBOX360_WIRELESS ->
     sent = to_pad [0x00; 0x01; 0x0F; 0xC0] :: usb_trace d).
Proof.
  intros Hi. cbv zeta. unfold SetRumble.
  rewrite !dev_upd_dev by exact Hi.
  cbn [type usbh_outPipe set_timer_out set_rumble_actual].
  split; intros ->; reflexivity.
Qed.

(** X12.  The rumble packet of a wired pad carries the two levels in
    bytes 3 and 4.  The rumble packet of a wireless pad is the four
    byte header 00 01 0F C0 whatever the levels are: they are stored at
    offsets 5 and 6 of the transfer buffer, beyond the four bytes that
    are sent. *)
Theorem SetRumble_packets (d : XINPUT) (i : nat) (lValue rValue now rc : Z) :
  (i < length (xinput_devices d))%nat ->
  let sent := usb_trace (fst (SetRumble d i lValue rValue now rc)) in
  let to_pad := OutTransfer (this_bAddress d)
                  (pipe_epAddr d (usbh_outPipe (dev d i))) in
  (type (dev d i) = XBOX360_WIRED ->
     sent = to_pad [0x00; 0x08; 0x00; lValue; rValue; 0x00; 0x00; 0x00]
            :: usb_trace d) /\
  (type (dev d i) = XBOX360_WIRELESS ->
     sent = to_pad [0x00; 0x01; 0x0F; 0xC0] :: usb_trace d).
Proof. exact (SetRumble_trace d i lValue rValue now rc). Qed.

Lemma SetRumble_packets_witness :
  let d := wired_pad [] in
  let w := wireless_receiver
             [wireless_pad_1; xinput_zero; xinput_zero; xinput_zero] [] in
  usb_trace (fst (SetRumble d 0 200 100 1000 0)) =
    [OutTransfer 1 2 [0x00; 0x08; 0x00; 200; 100; 0x00; 0x00; 0x00]] /\
  usb_trace (fst (SetRumble w 0 200 100 1000 0)) =
    [OutTransfer 1 1 [0x00; 0x01; 0x0F; 0xC0]].
Proof.
  split.
  - apply (SetRumble_packets (wired_pad []) 0 200 100 1000 0);
      [simpl; lia | reflexivity].
  - apply (SetRumble_packets
             (wireless_receiver
                [wireless_pad_1; xinput_zero; xinput_zero; xinput_zero] [])
             0 200 100 1000 0); [simpl; lia | reflexivity].
Defined.

(** ** The out pipes of [Poll] *)

Lemma SetRumble_dev_proj {B : Type} (g : usbh_xinput_t -> B)
  d i lValue rValue now rc j :
  (forall x t, g (set_timer_out x t) = g x) ->
  (forall x l r, g (set_rumble_actual x l r) = g x) ->
  g (dev (fst (SetRumble d i lValue rValue now rc)) j) = g (dev d j).
Proof.
  intros H1 H2. unfold SetRumble.
  match goal with
  | |- context [upd_dev d i ?f] =>
      assert (Hf : forall x, g (f x) = g x)
        by (intros x; rewrite H1, H2; reflexivity);
      pose proof (dev_upd_dev_proj g d i f j Hf) as Hd;
      generalize dependent (upd_dev d i f)
  end.
  intros d0 Hd. cbv zeta.
  destruct (type (dev d0 i)); cbn [fst]; exact Hd.
Qed.

Lemma SetLed_dev_proj {B : Type} (g : usbh_xinput_t -> B)
  d i quadrant now rc j :
  (forall x t, g (set_timer_out x t) = g x) ->
  (forall x v, g (set_led_actual x v) = g x) ->
  g (dev (fst (SetLed d i quadrant now rc)) j) = g (dev d j).
Proof.
  intros H1 H2. unfold SetLed.
  match goal with
  | |- context [upd_dev d i ?f] =>
      assert (Hf : forall x, g (f x) = g x)
        by (intros x; rewrite H1, H2; reflexivity);
      pose proof (dev_upd_dev_proj g d i f j Hf) as Hd;
      generalize dependent (upd_dev d i f)
  end.
  intros d0 Hd. cbv zeta.
  destruct (type (dev d0 i)); cbn [fst]; exact Hd.
Qed.

Lemma SetRumble_driver d i lValue rValue now rc :
  this_epInfo (fst (SetRumble d i lValue rValue now rc)) = this_epInfo d /\
  this_bAddress (fst (SetRumble d i lValue rValue now rc)) = this_bAddress d /\
  length (xinput_devices (fst (SetRumble d i lValue rValue now rc))) =
    length (xinput_devices d).
Proof.
  unfold SetRumble. cbv zeta.
  destruct (type _); cbn [fst]; repeat split; cbn; apply length_list_upd.
Qed.

Lemma SetLed_driver d i quadrant now rc :
  this_epInfo (fst (SetLed d i quadrant now rc)) = this_epInfo d /\
  this_bAddress (fst (SetLed d i quadrant now rc)) = this_bAddress d /\
  length (xinput_devices (fst (SetLed d i quadrant now rc))) =
    length (xinput_devices d).
Proof.
  unfold SetLed. cbv zeta.
  destruct (type _); cbn [fst]; repeat split; cbn; apply length_list_upd.
Qed.

Lemma chatpad_led_step_dev_proj {B : Type} (g : usbh_xinput_t -> B)
  i ep millis st led j :
  (forall x t, g (set_timer_out x t) = g x) ->
  (forall x t, g (set_timer_periodic x t) = g x) ->
  (forall x v, g (set_chatpad_led_actual x v) = g x) ->
  g (dev (fst (chatpad_led_step i ep millis st led)) j) = g (dev (fst st) j).
Proof.
  intros H1 H2 H3. destruct st as [d k]. unfold chatpad_led_step.
  cbv zeta.
  repeat match goal with
         | |- context [if ?c then _ else _] => destruct c
         end; cbn [fst]; try reflexivity;
    unfold outTransfer_xdata, emit, set_xdata;
    (rewrite (dev_upd_dev_proj g)
      by (intros; rewrite H2, H1; reflexivity));
    unfold dev, upd_dev, set_xinput_devices; cbn [xinput_devices];
    apply nth_list_upd_proj; intros; apply H3.
Qed.

Lemma chatpad_led_fold_dev_proj {B : Type} (g : usbh_xinput_t -> B)
  i ep millis leds j :
  (forall x t, g (set_timer_out x t) = g x) ->
  (forall x t, g (set_timer_periodic x t) = g x) ->
  (forall x v, g (set_chatpad_led_actual x v) = g x) ->
  forall st,
  g (dev (fst (fold_left (chatpad_led_step i ep millis) leds st)) j) =
  g (dev (fst st) j).
Proof.
  intros H1 H2 H3.
  induction leds as [| led leds IH]; intros st; cbn [fold_left];
    [reflexivity |].
  rewrite IH. now apply chatpad_led_step_dev_proj.
Qed.

Ltac kept := unfold kept_by_poll; repeat split; reflexivity.

Lemma Poll_out_dev_proj {B : Type} (g : usbh_xinput_t -> B)
  d xinput ep millis j :
  kept_by_poll g ->
  g (dev (Poll_out d xinput ep millis) j) = g (dev d j).
Proof.
  intros (K1 & K2 & K3 & K4 & K5 & K6 & K7 & K8).
  unfold Poll_out. destruct xinput as [i |]; [| reflexivity].
  cbv zeta.
  repeat match goal with
         | |- context [if ?c then _ else _] => destruct c
         end; try reflexivity.
  - now apply SetRumble_dev_proj.
  - now apply SetLed_dev_proj.
  - rewrite (dev_upd_dev_proj g) by (intros; apply K6).
    now apply WritePacket_dev_proj.
  - rewrite chatpad_led_fold_dev_proj by assumption. reflexivity.
  - rewrite (dev_upd_dev_proj g) by (intros; apply K3).
    now apply WritePacket_dev_proj.
  - rewrite (dev_upd_dev_proj g) by (intros; apply K3). reflexivity.
  - rewrite (dev_upd_dev_proj g) by (intros; apply K2).
    rewrite (WritePacket_dev_proj g) by assumption.
    rewrite (dev_upd_dev_proj g) by (intros; apply K8).
    rewrite (SetLed_dev_proj g) by assumption.
    rewrite !(WritePacket_dev_proj g) by assumption. reflexivity.
  - rewrite (dev_upd_dev_proj g) by (intros; apply K2).
    rewrite (WritePacket_dev_proj g) by assumption.
    rewrite (dev_upd_dev_proj g) by (intros; apply K8).
    rewrite (SetLed_dev_proj g) by assumption.
    rewrite !(WritePacket_dev_proj g) by assumption. reflexivity.
  - rewrite (dev_upd_dev_proj g) by (intros; apply K2). reflexivity.
Qed.

Lemma chatpad_led_step_driver i ep millis st led :
  this_epInfo (fst (chatpad_led_step i ep millis st led)) =
    this_epInfo (fst st) /\
  this_bAddress (fst (chatpad_led_step i ep millis st led)) =
    this_bAddress (fst st) /\
  length (xinput_devices (fst (chatpad_led_step i ep millis st led))) =
    length (xinput_devices (fst st)).
Proof.
  destruct st as [d k]. unfold chatpad_led_step. cbv zeta.
  repeat match goal with
         | |- context [if ?c then _ else _] => destruct c
         end; cbn [fst]; repeat split; cbn;
    now rewrite !length_list_upd.
Qed.

Lemma chatpad_led_fold_driver i ep millis leds : forall st,
  this_epInfo (fst (fold_left (chatpad_led_step i ep millis) leds st)) =
    this_epInfo (fst st) /\
  this_bAddress (fst (fold_left (chatpad_led_step i ep millis) leds st)) =
    this_bAddress (fst st) /\
  length (xinput_devices
            (fst (fold_left (chatpad_led_step i ep millis) leds st))) =
    length (xinput_devices (fst st)).
Proof.
  induction leds as [| led leds IH]; intros st; cbn [fold_left]; [auto |].
  destruct (IH (chatpad_led_step i ep millis st led)) as (A & B & C).
  destruct (chatpad_led_step_driver i ep millis st led) as (A' & B' & C').
  repeat split; congruence.
Qed.

Lemma Poll_out_driver d xinput ep millis :
  this_epInfo (Poll_out d xinput ep millis) = this_epInfo d /\
  this_bAddress (Poll_out d xinput ep millis) = this_bAddress d /\
  length (xinput_devices (Poll_out d xinput ep millis)) =
    length (xinput_devices d).
Proof.
  unfold Poll_out. destruct xinput as [i |]; [| auto].
  cbv zeta.
  destruct (xinput_type_eqb (type (dev d i)) XBOX360_WIRELESS);
    destruct (truthy (Z.land (wButtons (pad_state (dev d i)))
                        XINPUT_GAMEPAD_XBOX_BUTTON));
    cbn [andb negb];
    repeat match goal with
           | |- context [if ?c then _ else _] => destruct c
           end; auto;
    try apply SetRumble_driver; try apply SetLed_driver;
    try (match goal with
         | |- context [fold_left ?f ?l ?st] =>
             destruct (chatpad_led_fold_driver i ep millis l st)
               as (A & B & C); cbn [fst] in A, B, C
         end; auto);
    repeat split; cbn; now rewrite ?length_list_upd.
Qed.

(** One pass that is not held back: the rumble levels are settled, and
    so is the LED when the rumble levels were settled before. *)
Lemma Poll_out_pass d i ep millis :
  (i < length (xinput_devices d))%nat ->
  pipe_epAddr d (usbh_outPipe (dev d i)) <> 0 ->
  20 <= u32 (millis 0%nat - timer_out (dev d i)) ->
  let d' := Poll_out d (Some i) ep millis in
  lValue_actual (dev d' i) = lValue_requested (dev d i) /\
  rValue_actual (dev d' i) = rValue_requested (dev d i) /\
  (lValue_requested (dev d i) = lValue_actual (dev d i) ->
   rValue_requested (dev d i) = rValue_actual (dev d i) ->
   led_actual (dev d' i) = led_requested (dev d i)).
Proof.
  intros Hi Hp Ht. cbv zeta. unfold Poll_out. cbv zeta.
  destruct (Z.eqb_spec (pipe_epAddr d (usbh_outPipe (dev d i))) 0)
    as [E | _]; [contradiction |].
  destruct (Z.ltb_spec (u32 (millis 0%nat - timer_out (dev d i))) 20)
    as [E | _]; [lia |].
  destruct (Z.eqb_spec (lValue_requested (dev d i)) (lValue_actual (dev d i)))
    as [El | El];
    destruct (Z.eqb_spec (rValue_requested (dev d i))
                (rValue_actual (dev d i))) as [Er | Er];
    cbn [negb orb];
    try (destruct (SetRumble_actual d i (lValue_requested (dev d i))
                     (rValue_requested (dev d i)) (millis 1%nat) hrSUCCESS Hi)
           as (A & B & _);
         split; [exact A | split; [exact B | intros; congruence]]).
  destruct (Z.eqb_spec (led_requested (dev d i)) (led_actual (dev d i)))
    as [Ed | Ed]; cbn [negb].
  - destruct (xinput_type_eqb (type (dev d i)) XBOX360_WIRELESS);
      destruct (truthy (Z.land (wButtons (pad_state (dev d i)))
                          XINPUT_GAMEPAD_XBOX_BUTTON));
      cbn [andb negb];
      repeat match goal with
             | |- context [if ?c then _ else _] => destruct c
             end;
      rewrite El, Er, Ed;
      (split; [| split; [| intros _ _]]);
      try reflexivity;
      try (rewrite chatpad_led_fold_dev_proj by reflexivity; reflexivity);
      try (rewrite dev_upd_dev_proj by reflexivity;
           try rewrite WritePacket_dev_proj by reflexivity; reflexivity).
  - destruct (SetLed_actual d i (led_requested (dev d i)) (millis 1%nat)
                hrSUCCESS Hi) as (A & _).
    split; [| split; [| intros _ _; exact A]].
    + rewrite (SetLed_dev_proj lValue_actual) by reflexivity. congruence.
    + rewrite (SetLed_dev_proj rValue_actual) by reflexivity. congruence.
Qed.

(** X13.  Two passes of the out pipe of a pad that are not held back by
    the 20 ms spacing settle its rumble and its LED: rumble is served
    first, the LED in the next pass at the latest, and after the second
    pass the actual rumble levels and the actual LED quadrant are the
    requested ones. *)
Theorem Poll_out_settles_rumble_and_led
  (d : XINPUT) (i ep : nat) (millis1 millis2 : nat -> Z) :
  (i < length (xinput_devices d))%nat ->
  pipe_epAddr d (usbh_outPipe (dev d i)) <> 0 ->
  20 <= u32 (millis1 0%nat - timer_out (dev d i)) ->
  let d1 := Poll_out d (Some i) ep millis1 in
  20 <= u32 (millis2 0%nat - timer_out (dev d1 i)) ->
  let d2 := Poll_out d1 (Some i) ep millis2 in
  lValue_actual (dev d2 i) = lValue_requested (dev d i) /\
  rValue_actual (dev d2 i) = rValue_requested (dev d i) /\
  led_actual (dev d2 i) = led_requested (dev d i).
Proof.
  intros Hi Hp Ht1 d1 Ht2 d2.
  destruct (Poll_out_pass d i ep millis1 Hi Hp Ht1) as (L1 & R1 & _).
  fold d1 in L1, R1.
  destruct (Poll_out_driver d (Some i) ep millis1) as (E1 & _ & N1).
  fold d1 in E1, N1.
  assert (Hi1 : (i < length (xinput_devices d1))%nat) by lia.
  assert (Ql : lValue_requested (dev d1 i) = lValue_requested (dev d i))
    by (apply Poll_out_dev_proj; kept).
  assert (Qr : rValue_requested (dev d1 i) = rValue_requested (dev d i))
    by (apply Poll_out_dev_proj; kept).
  assert (Qd : led_requested (dev d1 i) = led_requested (dev d i))
    by (apply Poll_out_dev_proj; kept).
  assert (Qp : usbh_outPipe (dev d1 i) = usbh_outPipe (dev d i))
    by (apply Poll_out_dev_proj; kept).
  assert (Hp1 : pipe_epAddr d1 (usbh_outPipe (dev d1 i)) <> 0).
  { rewrite Qp, (pipe_epAddr_epInfo d d1 _ E1). exact Hp. }
  destruct (Poll_out_pass d1 i ep millis2 Hi1 Hp1 Ht2) as (L2 & R2 & D2).
  fold d2 in L2, R2, D2.
  split; [congruence |]. split; [congruence |].
  rewrite <- Qd. apply D2; congruence.
Qed.

(** The wired pad asks for rumble 50/60 and LED quadrant 3; the two
    passes are 30 ms apart. *)
Lemma Poll_out_settles_rumble_and_led_witness :
  let d1 := Poll_out pending_pad (Some 0%nat) 2 (fun _ => 1000) in
  let d2 := Poll_out d1 (Some 0%nat) 2 (fun _ => 1030) in
  lValue_actual (dev d2 0) = 50 /\
  rValue_actual (dev d2 0) = 60 /\
  led_actual (dev d2 0) = 3.
Proof.
  apply (Poll_out_settles_rumble_and_led pending_pad
           0 2 (fun _ => 1000) (fun _ => 1030)).
  - simpl. lia.
  - vm_compute. discriminate.
  - vm_compute. discriminate.
  - vm_compute. discriminate.
Defined.

Lemma SetRumble_timer d i lValue rValue now rc :
  (i < length (xinput_devices d))%nat ->
  timer_out (dev (fst (SetRumble d i lValue rValue now rc)) i) = now.
Proof.
  intros Hi. unfold SetRumble. cbv zeta.
  destruct (type _); cbn [fst];
    unfold dev, outTransfer_xdata, emit, set_xdata, upd_dev,
      set_xinput_devices; cbn [xinput_devices];
    rewrite nth_list_upd by exact Hi; reflexivity.
Qed.

Lemma SetLed_timer d i quadrant now rc :
  (i < length (xinput_devices d))%nat ->
  timer_out (dev (fst (SetLed d i quadrant now rc)) i) = now.
Proof.
  intros Hi. unfold SetLed. cbv zeta.
  destruct (type _); cbn [fst];
    unfold dev, outTransfer_xdata, emit, set_xdata, upd_dev,
      set_xinput_devices; cbn [xinput_devices];
    rewrite nth_list_upd by exact Hi; reflexivity.
Qed.

Lemma WritePacket_timer d i data now :
  (i < length (xinput_devices d))%nat ->
  timer_out (dev (WritePacket d i data now) i) = now.
Proof.
  intros Hi. unfold dev. rewrite WritePacket_devices.
  rewrite nth_list_upd by exact Hi. reflexivity.
Qed.

Lemma chatpad_led_step_timer i ep millis st led :
  (i < length (xinput_devices (fst st)))%nat ->
  chatpad_led_step i ep millis st led = st \/
  exists k, timer_out (dev (fst (chatpad_led_step i ep millis st led)) i)
            = millis k.
Proof.
  destruct st as [d k]. cbn [fst]. intros Hi.
  unfold chatpad_led_step. cbv zeta.
  repeat match goal with
         | |- context [if ?c then _ else _] => destruct c
         end; auto; right; exists k; cbn [fst];
    rewrite dev_upd_dev
      by (unfold outTransfer_xdata, emit, upd_dev, set_xinput_devices,
            set_xdata; cbn [xinput_devices];
          rewrite length_list_upd; exact Hi);
    reflexivity.
Qed.

Lemma chatpad_led_fold_timer i ep millis leds : forall st,
  (i < length (xinput_devices (fst st)))%nat ->
  fold_left (chatpad_led_step i ep millis) leds st = st \/
  exists k, timer_out
              (dev (fst (fold_left (chatpad_led_step i ep millis) leds st)) i)
            = millis k.
Proof.
  induction leds as [| led leds IH]; intros st Hi; cbn [fold_left]; [auto |].
  destruct (chatpad_led_step_driver i ep millis st led) as (_ & _ & Hl).
  destruct (IH (chatpad_led_step i ep millis st led)) as [E | E];
    [lia | | right; exact E].
  rewrite E.
  destruct (chatpad_led_step_timer i ep millis st led Hi) as [E' | E'];
    [left; exact E' | right; exact E'].
Qed.

Lemma Poll_out_stamp d i ep millis :
  (i < length (xinput_devices d))%nat ->
  usb_trace (Poll_out d (Some i) ep millis) = usb_trace d \/
  exists k, timer_out (dev (Poll_out d (Some i) ep millis) i) = millis k.
Proof.
  intros Hi. unfold Poll_out. cbv zeta.
  destruct (xinput_type_eqb (type (dev d i)) XBOX360_WIRELESS);
    destruct (truthy (Z.land (wButtons (pad_state (dev d i)))
                        XINPUT_GAMEPAD_XBOX_BUTTON));
    cbn [andb negb];
    repeat match goal with
           | |- context [if ?c then _ else _] => destruct c
           end; auto;
    try (right; eexists; apply SetRumble_timer; exact Hi);
    try (right; eexists; apply SetLed_timer; exact Hi);
    try (right; eexists;
         rewrite (dev_upd_dev_proj timer_out) by reflexivity;
         apply WritePacket_timer; exact Hi);
    match goal with
    | |- context [fold_left ?f ?l ?st] =>
        destruct (chatpad_led_fold_timer i ep millis l st Hi) as [E | E];
          [left; rewrite E; reflexivity | right; exact E]
    end.
Qed.

(** X14.  Writes to a pad are spaced: when a pass of the out pipe has
    sent a packet, the time of the last write of the pad is a clock
    reading of that pass, and every later pass whose first clock reading
    is less than 20 ms after it does nothing at all. *)
Theorem Poll_out_spacing (d : XINPUT) (i ep : nat) (millis1 : nat -> Z) :
  (i < length (xinput_devices d))%nat ->
  let d1 := Poll_out d (Some i) ep millis1 in
  usb_trace d1 <> usb_trace d ->
  exists k,
    timer_out (dev d1 i) = millis1 k /\
    forall millis2 ep2,
      u32 (millis2 0%nat - millis1 k) < 20 ->
      Poll_out d1 (Some i) ep2 millis2 = d1.
Proof.
  intros Hi d1 Hs.
  destruct (Poll_out_stamp d i ep millis1 Hi) as [E | [k Hk]];
    [contradiction |].
  fold d1 in Hk. exists k. split; [exact Hk |].
  intros millis2 ep2 Hlt. unfold Poll_out. cbv zeta.
  destruct (_ =? 0); [reflexivity |].
  rewrite Hk.
  destruct (Z.ltb_spec (u32 (millis2 0%nat - millis1 k)) 20); [reflexivity | lia].
Qed.

(** The rumble packet of the pending pad goes out at 1000 ms; a pass
    at 1019 ms is held back although the LED is still pending. *)
Lemma Poll_out_spacing_witness :
  let d1 := Poll_out pending_pad (Some 0%nat) 2 (fun _ => 1000) in
  exists k,
    timer_out (dev d1 0) = (fun _ : nat => 1000) k /\
    forall millis2 ep2,
      u32 (millis2 0%nat - (fun _ : nat => 1000) k) < 20 ->
      Poll_out d1 (Some 0%nat) ep2 millis2 = d1.
Proof.
  apply (Poll_out_spacing pending_pad 0 2 (fun _ => 1000)).
  - simpl. lia.
  - vm_compute. discriminate.
Defined.

(** The chatpad LED packets: 00 00 0C and one of the on/off codes. *)
Lemma chatpad_led_codes led :
  0 <= nth led chatpad_led_on 0 < 0x1E /\ 0 <= nth led chatpad_led_off 0 < 0x1E.
Proof.
  do 5 (destruct led as [| led]; [cbn; lia |]). cbn. lia.
Qed.

Lemma chatpad_led_step_events i ep millis st led :
  (exists c rest, xdata (fst st) = 0x00 :: 0x00 :: 0x0C :: c :: rest) ->
  (exists c rest, xdata (fst (chatpad_led_step i ep millis st led))
                  = 0x00 :: 0x00 :: 0x0C :: c :: rest) /\
  exists sent,
    usb_trace (fst (chatpad_led_step i ep millis st led)) =
      sent ++ usb_trace (fst st) /\
    forall a e p, In (OutTransfer a e p) sent ->
      exists code, p = [0x00; 0x00; 0x0C; code] /\ 0 <= code < 0x1E.
Proof.
  destruct st as [d k]. cbn [fst]. intros (c & rest & Hx).
  destruct (chatpad_led_codes led) as [Hon Hoff].
  unfold chatpad_led_step. cbv zeta.
  repeat match goal with
         | |- context [if ?c then _ else _] => destruct c
         end; cbn [fst];
    try (split; [exists c, rest; exact Hx |];
         exists []; split; [reflexivity | intros a e p []]);
    unfold outTransfer_xdata, emit, set_xdata, upd_dev, set_xinput_devices;
    cbn [xdata usb_trace this_bAddress this_epInfo xinput_devices];
    rewrite Hx; cbn [Buf.set length xbox360w_chatpad_led_ctrl firstn];
    (split; [eexists; eexists; reflexivity |]);
    (eexists [_]; split; [reflexivity |]);
    intros a e p [E | []]; injection E as _ _ <-;
    eexists; (split; [reflexivity | assumption]).
Qed.

Lemma chatpad_led_fold_events i ep millis leds : forall st,
  (exists c rest, xdata (fst st) = 0x00 :: 0x00 :: 0x0C :: c :: rest) ->
  exists sent,
    usb_trace (fst (fold_left (chatpad_led_step i ep millis) leds st)) =
      sent ++ usb_trace (fst st) /\
    forall a e p, In (OutTransfer a e p) sent ->
      exists code, p = [0x00; 0x00; 0x0C; code] /\ 0 <= code < 0x1E.
Proof.
  induction leds as [| led leds IH]; intros st Hx; cbn [fold_left].
  - exists []. split; [reflexivity | intros a e p []].
  - destruct (chatpad_led_step_events i ep millis st led Hx)
      as (Hx' & s1 & T1 & P1).
    destruct (IH _ Hx') as (s2 & T2 & P2).
    exists (s2 ++ s1). split.
    + rewrite T2, T1. apply app_assoc.
    + intros a e p Hin. apply in_app_or in Hin.
      destruct Hin as [Hin | Hin]; [eapply P2 | eapply P1]; exact Hin.
Qed.

Lemma not_keep_alive_8 b3 : ~ keep_alive_packet [0x00; 0x00; 0x08; b3].
Proof. unfold keep_alive_packet. intros [E | [E | E]]; discriminate. Qed.

(** X15.  The out pipe of a wireless pad never reaches its periodic
    branch: either the power-off test or the reset of the hold timer of
    the Xbox button comes first.  So no pass ever sends a chatpad
    keep-alive packet or a presence inquiry to a wireless pad, and the
    keep-alive toggle never changes. *)
Theorem Poll_out_wireless_no_keep_alive
  (d : XINPUT) (i ep : nat) (millis : nat -> Z) :
  (i < length (xinput_devices d))%nat ->
  type (dev d i) = XBOX360_WIRELESS ->
  let d' := Poll_out d (Some i) ep millis in
  chatpad_keepalive_toggle (dev d' i) = chatpad_keepalive_toggle (dev d i) /\
  exists sent,
    usb_trace d' = sent ++ usb_trace d /\
    forall a e p, In (OutTransfer a e p) sent -> ~ keep_alive_packet p.
Proof.
  intros Hi Hty. cbv zeta. unfold Poll_out. cbv zeta.
  rewrite Hty. cbn [xinput_type_eqb].
  destruct (truthy (Z.land (wButtons (pad_state (dev d i)))
                      XINPUT_GAMEPAD_XBOX_BUTTON));
    cbn [andb negb];
    repeat match goal with
           | |- context [if ?c then _ else _] => destruct c
           end;
    try (split; [reflexivity |]; exists [];
         split; [reflexivity | intros a e p []]).
  all: try (split;
            [rewrite ?(dev_upd_dev_proj chatpad_keepalive_toggle) by reflexivity;
             first [ apply SetRumble_dev_proj; reflexivity
                   | apply SetLed_dev_proj; reflexivity
                   | apply WritePacket_dev_proj; reflexivity
                   | rewrite chatpad_led_fold_dev_proj by reflexivity;
                     reflexivity ] |]).
  all: try (match goal with
            | |- context [fold_left ?f ?l ?st] =>
                destruct (chatpad_led_fold_events i ep millis l st)
                  as (sent & Ts & Ps);
                  [cbn [fst xdata set_xdata]; unfold Buf.memcpy;
                   cbn [length xbox360w_chatpad_led_ctrl firstn app];
                   eexists; eexists; reflexivity |];
                exists sent; split; [exact Ts |];
                intros a e p Hin; destruct (Ps a e p Hin) as (code & -> & Hc);
                unfold keep_alive_packet; intros [E | [E | E]];
                injection E as E; lia
            end).
  all: try (unfold upd_dev, set_xinput_devices; cbn [usb_trace];
            rewrite WritePacket_trace;
            eexists [_]; split; [reflexivity |];
            intros a e p [E | []]; injection E as _ _ <-;
            unfold keep_alive_packet; intros [E | [E | E]]; discriminate).
  - destruct (SetRumble_trace d i (lValue_requested (dev d i))
                (rValue_requested (dev d i)) (millis 1%nat) hrSUCCESS Hi)
      as [_ Hw].
    rewrite (Hw Hty). eexists [_]. split; [reflexivity |].
    intros a e p [E | []]. injection E as _ _ <-.
    unfold keep_alive_packet. intros [E | [E | E]]; discriminate.
  - unfold SetLed. rewrite dev_upd_dev by exact Hi.
    cbn [type set_timer_out set_led_actual]. rewrite Hty. cbn [fst].
    unfold outTransfer_xdata, emit, set_xdata, upd_dev, set_xinput_devices,
      Buf.memcpy, xbox360w_led.
    cbn [usb_trace xdata length firstn app Buf.set].
    eexists [_]. split; [reflexivity |].
    intros a e p [E | []]. injection E as _ _ <-. apply not_keep_alive_8.
  - destruct (SetRumble_trace d i (lValue_requested (dev d i))
                (rValue_requested (dev d i)) (millis 1%nat) hrSUCCESS Hi)
      as [_ Hw].
    rewrite (Hw Hty). eexists [_]. split; [reflexivity |].
    intros a e p [E | []]. injection E as _ _ <-.
    unfold keep_alive_packet. intros [E | [E | E]]; discriminate.
  - unfold SetLed. rewrite dev_upd_dev by exact Hi.
    cbn [type set_timer_out set_led_actual]. rewrite Hty. cbn [fst].
    unfold outTransfer_xdata, emit, set_xdata, upd_dev, set_xinput_devices,
      Buf.memcpy, xbox360w_led.
    cbn [usb_trace xdata length firstn app Buf.set].
    eexists [_]. split; [reflexivity |].
    intros a e p [E | []]. injection E as _ _ <-. apply not_keep_alive_8.
  - split; [apply dev_upd_dev_proj; reflexivity |].
    exists []. split; [reflexivity | intros a e p []].
Qed.

(** The pad of the wireless receiver is settled and more than a second
    has gone by since its last periodic write: the pass only resets the
    hold timer of the Xbox button. *)
Lemma Poll_out_wireless_no_keep_alive_witness :
  let d := wireless_receiver
             [wireless_pad_1; xinput_zero; xinput_zero; xinput_zero] [] in
  let d' := Poll_out d (Some 0%nat) 2 (fun _ => 5000) in
  chatpad_keepalive_toggle (dev d' 0) = chatpad_keepalive_toggle (dev d 0) /\
  exists sent,
    usb_trace d' = sent ++ usb_trace d /\
    forall a e p, In (OutTransfer a e p) sent -> ~ keep_alive_packet p.
Proof.
  apply (Poll_out_wireless_no_keep_alive
           (wireless_receiver
              [wireless_pad_1; xinput_zero; xinput_zero; xinput_zero] [])
           0 2 (fun _ => 5000)).
  - simpl. lia.
  - reflexivity.
Defined.

(** ** The chatpad LEDs *)

Lemma testbit_u8 x n : 0 <= n -> Z.testbit (u8 x) n = (n <? 8) && Z.testbit x n.
Proof.
  intros Hn. rewrite u8_land_ones, Z.land_spec.
  change 255 with (Z.ones 8).
  destruct (Z.ltb_spec n 8).
  - rewrite Z.ones_spec_low by lia. now rewrite andb_true_r.
  - rewrite Z.ones_spec_high by lia. now rewrite andb_false_r.
Qed.

Lemma is_u8_testbit x :
  0 <= x -> (forall n, 8 <= n -> Z.testbit x n = false) -> is_u8 x.
Proof.
  intros H0 Hb. unfold is_u8. split; [exact H0 |].
  destruct (Z.eq_dec x 0) as [-> | Hx]; [lia |].
  destruct (Z.lt_ge_cases x 256) as [Hlt | Hge]; [exact Hlt |].
  exfalso.
  assert (Hl : 8 <= Z.log2 x).
  { change 8 with (Z.log2 256). apply Z.log2_le_mono. lia. }
  specialize (Hb (Z.log2 x) Hl).
  rewrite Z.bit_log2 in Hb by lia. discriminate.
Qed.

Lemma truthy_u8_land_bit a b :
  0 <= b < 8 -> truthy (u8 (Z.land a (Z.shiftl 1 b))) = Z.testbit a b.
Proof.
  intros Hb. rewrite <- (truthy_land_bit a b) by lia.
  f_equal. rewrite u8_land_ones, <- Z.land_assoc. f_equal.
  rewrite <- u8_land_ones. apply u8_small.
  rewrite Z.shiftl_1_l. split; [apply Z.pow_nonneg; lia |].
  apply Z.lt_le_trans with (2 ^ 8); [| lia].
  apply Z.pow_lt_mono_r; lia.
Qed.

(** One LED: afterwards its bit of [chatpad_led_actual] is the bit of
    [chatpad_led_requested], and the other bits are as before. *)
Lemma chatpad_led_step_actual i ep millis st led b :
  (i < length (xinput_devices (fst st)))%nat ->
  nth led chatpad_mod 0 = Z.shiftl 1 b ->
  0 <= b < 8 ->
  is_u8 (chatpad_led_actual (dev (fst st) i)) ->
  let st' := chatpad_led_step i ep millis st led in
  is_u8 (chatpad_led_actual (dev (fst st') i)) /\
  forall n, 0 <= n ->
    Z.testbit (chatpad_led_actual (dev (fst st') i)) n =
    if n =? b then Z.testbit (chatpad_led_requested (dev (fst st) i)) b
    else Z.testbit (chatpad_led_actual (dev (fst st) i)) n.
Proof.
  destruct st as [d k]. cbn [fst]. intros Hi Hm Hb Ha. cbv zeta.
  unfold chatpad_led_step. cbv zeta. rewrite Hm.
  rewrite !truthy_u8_land_bit by exact Hb.
  set (a := chatpad_led_actual (dev d i)) in *.
  set (r := chatpad_led_requested (dev d i)) in *.
  assert (Hhigh : forall n, 8 <= n -> Z.testbit a n = false)
    by (intros n Hn; now apply testbit_u8_high).
  assert (Hdev : forall v dd,
            (i < length (xinput_devices dd))%nat ->
            chatpad_led_actual
              (dev (upd_dev
                      (outTransfer_xdata
                         (upd_dev dd i
                            (fun x => set_chatpad_led_actual x v))
                         (epAddr (nth ep (this_epInfo
                            (upd_dev dd i
                               (fun x => set_chatpad_led_actual x v)))
                            (mk_EpInfo 0 0 0)))
                         (length xbox360w_chatpad_led_ctrl)) i
                      (fun x => set_timer_periodic
                                  (set_timer_out x (millis k))
                                  (u32 (timer_periodic x - 2000)))) i) = v).
  { intros v dd Hdd.
    rewrite (dev_upd_dev_proj chatpad_led_actual) by reflexivity.
    unfold outTransfer_xdata, emit, dev. cbn [xinput_devices].
    unfold upd_dev, set_xinput_devices. cbn [xinput_devices].
    rewrite nth_list_upd by exact Hdd. reflexivity. }
  destruct (Z.testbit a b) eqn:Ea; destruct (Z.testbit r b) eqn:Er;
    cbn [negb andb fst].
  - (* both on *)
    split; [exact Ha |]. intros n Hn.
    destruct (Z.eqb_spec n b) as [-> | _]; [exact Ea | reflexivity].
  - (* on, not wanted *)
    rewrite Hdev by exact Hi.
    assert (Hbits : forall n, 0 <= n ->
              Z.testbit (u8 (Z.land a (Z.lnot (Z.shiftl 1 b)))) n =
              if n =? b then false else Z.testbit a n).
    { intros n Hn. rewrite testbit_u8, Z.land_spec, Z.lnot_spec by lia.
      rewrite Z.shiftl_1_l, Z.pow2_bits_eqb by lia.
      destruct (Z.eqb_spec n b) as [-> | Hnb].
      - rewrite Z.eqb_refl. cbn [negb]. now rewrite !andb_false_r.
      - destruct (Z.eqb_spec b n) as [E | _]; [congruence |].
        cbn [negb]. rewrite andb_true_r.
        destruct (Z.ltb_spec n 8); [reflexivity |].
        now rewrite Hhigh by lia. }
    split; [| exact Hbits].
    apply is_u8_testbit; [apply u8_range |].
    intros n Hn. rewrite Hbits by lia.
    destruct (n =? b); [reflexivity | now apply Hhigh].
  - (* off, wanted *)
    rewrite Hdev by exact Hi.
    assert (Hbits : forall n, 0 <= n ->
              Z.testbit (u8 (Z.lor a (Z.shiftl 1 b))) n =
              if n =? b then true else Z.testbit a n).
    { intros n Hn. rewrite testbit_u8, Z.lor_spec by lia.
      rewrite Z.shiftl_1_l, Z.pow2_bits_eqb by lia.
      destruct (Z.eqb_spec n b) as [-> | Hnb].
      - rewrite Z.eqb_refl, orb_true_r.
        destruct (Z.ltb_spec b 8); [reflexivity | lia].
      - destruct (Z.eqb_spec b n) as [E | _]; [congruence |].
        rewrite orb_false_r.
        destruct (Z.ltb_spec n 8); [reflexivity |].
        now rewrite Hhigh by lia. }
    split; [| exact Hbits].
    apply is_u8_testbit; [apply u8_range |].
    intros n Hn. rewrite Hbits by lia.
    destruct (Z.eqb_spec n b); [lia | now apply Hhigh].
  - (* both off *)
    split; [exact Ha |]. intros n Hn.
    destruct (Z.eqb_spec n b) as [-> | _]; [exact Ea | reflexivity].
Qed.

Lemma chatpad_led_bits i ep millis d :
  (i < length (xinput_devices d))%nat ->
  is_u8 (chatpad_led_actual (dev d i)) ->
  let d' := fst (fold_left (chatpad_led_step i ep millis) [0; 1; 2; 3]%nat
                   (d, 1%nat)) in
  forall n, 0 <= n ->
    Z.testbit (chatpad_led_actual (dev d' i)) n =
    if (n =? 1) || (n =? 2) || (n =? 3) || (n =? 5)
    then Z.testbit (chatpad_led_requested (dev d i)) n
    else Z.testbit (chatpad_led_actual (dev d i)) n.
Proof.
  intros Hi Ha. cbv zeta. cbn [fold_left].
  set (s0 := (d, 1%nat)).
  set (s1 := chatpad_led_step i ep millis s0 0).
  set (s2 := chatpad_led_step i ep millis s1 1).
  set (s3 := chatpad_led_step i ep millis s2 2).
  set (s4 := chatpad_led_step i ep millis s3 3).
  assert (L1 : (i < length (xinput_devices (fst s1)))%nat).
  { destruct (chatpad_led_step_driver i ep millis s0 0) as (_ & _ & Hl).
    fold s1 in Hl. rewrite Hl. exact Hi. }
  assert (L2 : (i < length (xinput_devices (fst s2)))%nat).
  { destruct (chatpad_led_step_driver i ep millis s1 1) as (_ & _ & Hl).
    fold s2 in Hl. rewrite Hl. exact L1. }
  assert (L3 : (i < length (xinput_devices (fst s3)))%nat).
  { destruct (chatpad_led_step_driver i ep millis s2 2) as (_ & _ & Hl).
    fold s3 in Hl. rewrite Hl. exact L2. }
  assert (R1 : chatpad_led_requested (dev (fst s1) i) =
               chatpad_led_requested (dev d i))
    by (apply (chatpad_led_step_dev_proj chatpad_led_requested);
        reflexivity).
  assert (R2 : chatpad_led_requested (dev (fst s2) i) =
               chatpad_led_requested (dev d i))
    by (rewrite <- R1;
        apply (chatpad_led_step_dev_proj chatpad_led_requested);
        reflexivity).
  assert (R3 : chatpad_led_requested (dev (fst s3) i) =
               chatpad_led_requested (dev d i))
    by (rewrite <- R2;
        apply (chatpad_led_step_dev_proj chatpad_led_requested);
        reflexivity).
  destruct (chatpad_led_step_actual i ep millis s0 0 5 Hi eq_refl
              ltac:(lia) Ha) as (A1 & B1).
  fold s1 in A1, B1.
  destruct (chatpad_led_step_actual i ep millis s1 1 1 L1 eq_refl
              ltac:(lia) A1) as (A2 & B2).
  fold s2 in A2, B2.
  destruct (chatpad_led_step_actual i ep millis s2 2 2 L2 eq_refl
              ltac:(lia) A2) as (A3 & B3).
  fold s3 in A3, B3.
  destruct (chatpad_led_step_actual i ep millis s3 3 3 L3 eq_refl
              ltac:(lia) A3) as (A4 & B4).
  fold s4 in A4, B4.
  rewrite R1 in B2. rewrite R2 in B3. rewrite R3 in B4.
  cbn [fst] in B1.
  intros n Hn. rewrite B4 by exact Hn.
  destruct (Z.eqb_spec n 3) as [-> | N3]; [reflexivity |].
  rewrite B3 by exact Hn.
  destruct (Z.eqb_spec n 2) as [-> | N2]; [reflexivity |].
  rewrite B2 by exact Hn.
  destruct (Z.eqb_spec n 1) as [-> | N1]; [reflexivity |].
  rewrite B1 by exact Hn.
  destruct (Z.eqb_spec n 5) as [-> | N5]; reflexivity.
Qed.

(** X16.  When rumble and LED of a wireless pad are settled and its
    chatpad is initialised, one pass of the out pipe that is not held
    back brings the four chatpad LEDs (caps lock, green, orange,
    messenger) in line with the request: each of the four bits of
    [chatpad_led_actual] becomes the bit of [chatpad_led_requested], and
    the other bits are kept. *)
Theorem Poll_out_chatpad_leds (d : XINPUT) (i ep : nat) (millis : nat -> Z) :
  (i < length (xinput_devices d))%nat ->
  type (dev d i) = XBOX360_WIRELESS ->
  pipe_epAddr d (usbh_outPipe (dev d i)) <> 0 ->
  20 <= u32 (millis 0%nat - timer_out (dev d i)) ->
  lValue_requested (dev d i) = lValue_actual (dev d i) ->
  rValue_requested (dev d i) = rValue_actual (dev d i) ->
  led_requested (dev d i) = led_actual (dev d i) ->
  chatpad_initialised (dev d i) <> 0 ->
  is_u8 (chatpad_led_actual (dev d i)) ->
  let d' := Poll_out d (Some i) ep millis in
  (forall m, In m chatpad_mod ->
     Z.land (chatpad_led_actual (dev d' i)) m =
     Z.land (chatpad_led_requested (dev d i)) m) /\
  Z.land (chatpad_led_actual (dev d' i)) 0xD1 =
    Z.land (chatpad_led_actual (dev d i)) 0xD1.
Proof.
  intros Hi Hty Hp Ht El Er Ed Hc Ha. cbv zeta.
  assert (Hbits : forall n, 0 <= n ->
            Z.testbit (chatpad_led_actual
                         (dev (Poll_out d (Some i) ep millis) i)) n =
            if (n =? 1) || (n =? 2) || (n =? 3) || (n =? 5)
            then Z.testbit (chatpad_led_requested (dev d i)) n
            else Z.testbit (chatpad_led_actual (dev d i)) n).
  { unfold Poll_out. cbv zeta.
    destruct (Z.eqb_spec (pipe_epAddr d (usbh_outPipe (dev d i))) 0)
      as [E | _]; [contradiction |].
    destruct (Z.ltb_spec (u32 (millis 0%nat - timer_out (dev d i))) 20)
      as [E | _]; [lia |].
    rewrite El, Er, Ed, !Z.eqb_refl. cbn [negb orb].
    rewrite Hty. cbn [xinput_type_eqb andb].
    destruct (Z.eqb_spec (chatpad_initialised (dev d i)) 0) as [E | _];
      [contradiction |].
    destruct (Z.eqb_spec (chatpad_led_requested (dev d i))
                (chatpad_led_actual (dev d i))) as [Eq | Nq]; cbn [negb].
    - intros n Hn. rewrite Eq.
      destruct (truthy _); cbn [negb];
        repeat match goal with
               | |- context [if ?c then _ else _] => destruct c
               end;
        try reflexivity;
        rewrite (dev_upd_dev_proj chatpad_led_actual) by reflexivity;
        try rewrite (WritePacket_dev_proj chatpad_led_actual) by reflexivity;
        reflexivity.
    - match goal with
      | |- context [fold_left _ _ (?d0, 1%nat)] =>
          pose proof (chatpad_led_bits i ep millis d0 Hi Ha) as Hb
      end.
      exact Hb. }
  split.
  - intros m Hm. apply Z.bits_inj'. intros n Hn.
    rewrite !Z.land_spec, Hbits by exact Hn.
    cbn [In chatpad_mod] in Hm.
    destruct Hm as [<- | [<- | [<- | [<- | []]]]].
    + change XINPUT_CHATPAD_CAPSLOCK with (2 ^ 5).
      rewrite Z.pow2_bits_eqb by lia.
      destruct (Z.eqb_spec 5 n) as [<- | _]; [reflexivity |].
      now rewrite !andb_false_r.
    + change XINPUT_CHATPAD_GREEN with (2 ^ 1).
      rewrite Z.pow2_bits_eqb by lia.
      destruct (Z.eqb_spec 1 n) as [<- | _]; [reflexivity |].
      now rewrite !andb_false_r.
    + change XINPUT_CHATPAD_ORANGE with (2 ^ 2).
      rewrite Z.pow2_bits_eqb by lia.
      destruct (Z.eqb_spec 2 n) as [<- | _]; [reflexivity |].
      now rewrite !andb_false_r.
    + change XINPUT_CHATPAD_MESSENGER with (2 ^ 3).
      rewrite Z.pow2_bits_eqb by lia.
      destruct (Z.eqb_spec 3 n) as [<- | _]; [reflexivity |].
      now rewrite !andb_false_r.
  - apply Z.bits_inj'. intros n Hn.
    rewrite !Z.land_spec, Hbits by exact Hn.
    destruct (Z.eqb_spec n 1) as [-> | _];
      [change (Z.testbit 209 1) with false; now rewrite !andb_false_r |].
    destruct (Z.eqb_spec n 2) as [-> | _];
      [change (Z.testbit 209 2) with false; now rewrite !andb_false_r |].
    destruct (Z.eqb_spec n 3) as [-> | _];
      [change (Z.testbit 209 3) with false; now rewrite !andb_false_r |].
    destruct (Z.eqb_spec n 5) as [-> | _];
      [change (Z.testbit 209 5) with false; now rewrite !andb_false_r |].
    reflexivity.
Qed.

(** The green LED is on and the orange one is requested: after the
    pass orange is on and green is off. *)
Lemma Poll_out_chatpad_leds_witness :
  let d := upd_dev
             (wireless_receiver
                [wireless_pad_1; xinput_zero; xinput_zero; xinput_zero] [])
             0 (fun x => set_chatpad_led_requested x XINPUT_CHATPAD_ORANGE) in
  let d' := Poll_out d (Some 0%nat) 2 (fun _ => 5000) in
  (forall m, In m chatpad_mod ->
     Z.land (chatpad_led_actual (dev d' 0)) m =
     Z.land XINPUT_CHATPAD_ORANGE m) /\
  Z.land (chatpad_led_actual (dev d' 0)) 0xD1 =
    Z.land XINPUT_CHATPAD_GREEN 0xD1.
Proof.
  apply (Poll_out_chatpad_leds
           (upd_dev
              (wireless_receiver
                 [wireless_pad_1; xinput_zero; xinput_zero; xinput_zero] [])
              0 (fun x => set_chatpad_led_requested x XINPUT_CHATPAD_ORANGE))
           0 2 (fun _ => 5000)).
  - simpl. lia.
  - reflexivity.
  - vm_compute. discriminate.
  - vm_compute. discriminate.
  - reflexivity.
  - reflexivity.
  - reflexivity.
  - vm_compute. discriminate.
  - vm_compute. split; [discriminate | reflexivity].
Defined.

(** ** The in-report of the console facing device *)

Section SendReport.
Variable sizeof_xid_in_data : Z.
Import Xid Usbd.

Lemma bytes_eqb_refl a : bytes_eqb a a = true.
Proof. induction a as [| x a IH]; cbn; [reflexivity |]. now rewrite Z.eqb_refl. Qed.

Lemma bytes_eqb_eq a : forall b, bytes_eqb a b = true -> a = b.
Proof.
  induction a as [| x a IH]; intros [| y b] E; cbn in E; try discriminate;
    [reflexivity |].
  apply andb_true_iff in E. destruct E as [E1 E2].
  apply Z.eqb_eq in E1. f_equal; auto.
Qed.

Lemma firstn_memcpy (dst src : list Z) n :
  (n <= length src)%nat -> firstn n (Buf.memcpy dst src n) = firstn n src.
Proof.
  intros Hn. unfold Buf.memcpy.
  rewrite firstn_app, length_firstn, Nat.min_l by exact Hn.
  rewrite Nat.sub_diag. cbn [firstn]. rewrite app_nil_r.
  rewrite firstn_firstn. now rewrite Nat.min_id.
Qed.

(** X17.  [sendReport] sends a report only when it differs from the
    last one handed to it: the first call with new data stores it and
    passes it to the endpoint, a second call with the same data sends
    nothing and returns the capped length.  The copy is stored before
    the transfer and whatever the transfer returns, so a report whose
    transfer failed is not sent again either. *)
Theorem sendReport_sends_a_change_once
  (x : XID_) (data : list Z) (len sent1 sent2 : Z) :
  let n := Z.to_nat (capped_in sizeof_xid_in_data len) in
  (n <= length data)%nat ->
  let '(x1, tx1, r1) := sendReport sizeof_xid_in_data x data len sent1 in
  let '(x2, tx2, r2) := sendReport sizeof_xid_in_data x1 data len sent2 in
  firstn n (xid_in_data x1) = firstn n data /\
  (firstn n (xid_in_data x) <> firstn n data ->
     tx1 = Some (firstn n data) /\ r1 = sent1) /\
  (firstn n (xid_in_data x) = firstn n data ->
     tx1 = None /\ x1 = x /\ r1 = capped_in sizeof_xid_in_data len) /\
  tx2 = None /\ x2 = x1 /\ r2 = capped_in sizeof_xid_in_data len.
Proof.
  intros n Hn. unfold sendReport. fold n. unfold memcmp_differs.
  destruct (bytes_eqb (firstn n (xid_in_data x)) (firstn n data)) eqn:E1;
    cbn [negb].
  - apply bytes_eqb_eq in E1.
    rewrite E1, bytes_eqb_refl. cbn [negb].
    split; [reflexivity |].
    split; [intros Hne; contradiction |].
    repeat split.
  - cbn [xid_in_data].
    rewrite firstn_memcpy by exact Hn.
    rewrite bytes_eqb_refl. cbn [negb].
    split; [reflexivity |].
    split; [intros _; split; reflexivity |].
    split; [| repeat split].
    intros E. rewrite E, bytes_eqb_refl in E1. discriminate.
Qed.

End SendReport.

(** A Duke report with the A button down is sent once; the transfer
    reports a failure (0 bytes), and the same report is not sent
    again. *)
Lemma sendReport_sends_a_change_once_witness :
  let '(x1, tx1, r1) :=
    Usbd.sendReport 32 console_device duke_report 20 0 in
  let '(x2, tx2, r2) :=
    Usbd.sendReport 32 x1 duke_report 20 20 in
  firstn 20 (Xid.xid_in_data x1) = firstn 20 duke_report /\
  (firstn 20 (Xid.xid_in_data console_device) <> firstn 20 duke_report ->
     tx1 = Some (firstn 20 duke_report) /\ r1 = 0) /\
  (firstn 20 (Xid.xid_in_data console_device) = firstn 20 duke_report ->
     tx1 = None /\ x1 = console_device /\ r1 = 20) /\
  tx2 = None /\ x2 = x1 /\ r2 = 20.
Proof.
  apply (sendReport_sends_a_change_once 32
           console_device duke_report 20 0 20).
  simpl. lia.
Defined.

(** ** [loop()] and the type of the console facing device *)

Section Loop.
Context {H : usbd_xid_h}.
Variable sizeof_xid_in_data : Z.
Import Xid Usbd Node.

Lemma sendReport_type x data len sent :
  xid_type (fst (fst (sendReport sizeof_xid_in_data x data len sent))) =
  xid_type x.
Proof. unfold sendReport. destruct (memcmp_differs _ _ _); reflexivity. Qed.

Lemma getReport_type x data len recv_len r now :
  xid_type (fst (fst (getReport x data len recv_len r now))) = xid_type x.
Proof.
  unfold getReport. destruct (_ =? _); [reflexivity |].
  destruct (_ <? _); reflexivity.
Qed.

Lemma setType_same x detach :
  setType x detach (xid_type x) = (x, detach, false).
Proof. unfold setType. now rewrite Z.eqb_refl. Qed.

Lemma loop_poll_type n millis sent_len recv_len r :
  xid_type (usbd_xid (fst (loop_poll sizeof_xid_in_data n millis sent_len
                             recv_len r))) =
  xid_type (usbd_xid n).
Proof.
  unfold loop_poll, getType.
  destruct (4 <=? _); [| reflexivity].
  destruct (Z.eqb_spec (xid_type (usbd_xid n)) DUKE) as [E | _].
  - rewrite <- E, setType_same.
    destruct (negb _);
      pose proof (sendReport_type (usbd_xid n)
                    (Slave.duke_in (slot_in (usbd_c0 n)))
                    sizeof_usbd_duke_in_t sent_len) as Hs;
      destruct (sendReport _ _ _ _ _) as [[x1 tx] r1]; cbn [fst] in Hs;
      pose proof (getReport_type x1 (duke_out (usbd_c0 n))
                    sizeof_usbd_duke_out_t recv_len r (millis 1%nat)) as Hg;
      destruct (getReport _ _ _ _ _ _) as [[x2 out] r2]; cbn [fst] in Hg;
      cbn [fst usbd_xid]; congruence.
  - destruct (Z.eqb_spec (xid_type (usbd_xid n)) STEELBATTALION) as [E | _].
    + rewrite <- E, setType_same.
      destruct (negb _);
        pose proof (sendReport_type (usbd_xid n)
                      (Slave.sb_in (slot_in (usbd_c0 n)))
                      sizeof_usbd_sbattalion_in_t sent_len) as Hs;
        destruct (sendReport _ _ _ _ _) as [[x1 tx] r1]; cbn [fst] in Hs;
        pose proof (getReport_type x1 (sb_out (usbd_c0 n))
                      sizeof_usbd_sbattalion_out_t recv_len r (millis 1%nat))
          as Hg;
        destruct (getReport _ _ _ _ _ _) as [[x2 out] r2]; cbn [fst] in Hg;
        cbn [fst usbd_xid]; congruence.
    + destruct (Z.eqb_spec (xid_type (usbd_xid n)) DISCONNECTED) as [E | _];
        [| reflexivity].
      rewrite <- E, setType_same. destruct (negb _); reflexivity.
Qed.

(** X18.  [loop()] never changes the type of the console facing
    device: it calls [setType] only with the type the device already
    has, which returns at once.  Whatever the task of the node and the
    bus handlers write to [usbd_c[0].type], after any number of turns
    the device has the type it started with, and a device that starts
    from its constructor is a Duke for good. *)
Theorem loop_keeps_xid_type (ios : list loop_io) (n : node) :
  getType (usbd_xid (loops sizeof_xid_in_data ios n)) = getType (usbd_xid n) /\
  (usbd_xid n = XID_new sizeof_xid_in_data ->
   getType (usbd_xid (loops sizeof_xid_in_data ios n)) = DUKE).
Proof.
  assert (Hl : forall ios n,
            getType (usbd_xid (loops sizeof_xid_in_data ios n)) =
            getType (usbd_xid n)).
  { clear ios n. unfold loops, getType.
    induction ios as [| io ios IH]; intros n; cbn [fold_left];
      [reflexivity |].
    rewrite IH. unfold loop. now rewrite loop_poll_type. }
  split; [apply Hl |].
  intros E. rewrite Hl, E. reflexivity.
Qed.

End Loop.

(** ** One exchange between the coordinator and a peer *)

Section Exchange.
Context {H : usbd_xid_h}.

Lemma status_byte_nibbles t :
  0 <= t < 16 ->
  Z.land (u8 (Z.lor 0xF0 t)) 0xF0 = 0xF0 /\
  Z.land (u8 (Z.lor 0xF0 t)) 0x0F = t /\
  u8 (Z.lor 0xF0 t) <> 0xAA.
Proof.
  intros Ht.
  assert (Hc : t = 0 \/ t = 1 \/ t = 2 \/ t = 3 \/ t = 4 \/ t = 5 \/ t = 6 \/
               t = 7 \/ t = 8 \/ t = 9 \/ t = 10 \/ t = 11 \/ t = 12 \/
               t = 13 \/ t = 14 \/ t = 15) by lia.
  repeat (destruct Hc as [-> | Hc];
          [vm_compute; repeat split; discriminate |]).
  subst t. vm_compute. repeat split; discriminate.
Qed.

(** The family a peer is left with by a status packet. *)
Lemma i2c_get_data_type c status payload len :
  1 <= len ->
  Z.land status 0xF0 = 0xF0 ->
  status <> 0xAA ->
  Slave.c_type (fst (fst (Slave.i2c_get_data c (status :: payload) len))) =
  Z.land status 0x0F.
Proof.
  intros Hl Ht Hp. unfold Slave.i2c_get_data.
  destruct (Z.ltb_spec len 1); [lia |].
  cbn [TwoWire.Wire_read].
  destruct (Z.eqb_spec status 0xAA); [contradiction |].
  rewrite Ht, Z.eqb_refl.
  destruct (Slave.rxbuf_of _); cbn [fst Slave.c_type];
    try reflexivity;
    destruct (_ || _); cbn [fst Slave.c_type]; try reflexivity;
    destruct (TwoWire.read_into _ _ _ _); reflexivity.
Qed.

(** X19.  One exchange on the bus, end to end.  The coordinator
    announces the family of a slot in the status byte 0xF0 | type, the
    peer takes the family from the low nibble and answers the request
    that follows with its out-report of that family, and the
    coordinator stores the answer in the out-report of the slot.  For
    the families Duke and Steel Battalion, identifiers below 16 and
    out-reports of 1 to 255 bytes, the slot of the coordinator ends up
    with the out-report of the peer. *)
Theorem i2c_exchange_round_trip
  (c : Master.usbd_controller_t) (s : Node.usbd_slot) (i : nat)
  (e : Master.env) (payload : list Z) :
  0 <= DUKE < 16 -> 0 <= STEELBATTALION < 16 -> DUKE <> STEELBATTALION ->
  0 < sizeof_usbd_duke_out_t < 256 ->
  0 < sizeof_usbd_sbattalion_out_t < 256 ->
  length (Master.duke_out c) = Z.to_nat sizeof_usbd_duke_out_t ->
  length (Master.sb_out c) = Z.to_nat sizeof_usbd_sbattalion_out_t ->
  length (Node.duke_out s) = Z.to_nat sizeof_usbd_duke_out_t ->
  length (Node.sb_out s) = Z.to_nat sizeof_usbd_sbattalion_out_t ->
  Master.c_type c = DUKE \/ Master.c_type c = STEELBATTALION ->
  let status := u8 (Z.lor 0xF0 (Master.c_type c)) in
  let s' := Node.i2c_receive s (status :: payload)
              (1 + Z.of_nat (length payload)) in
  let reply := Node.i2c_send_data s' in
  let io := Master.mk_io e 0 (Z.of_nat (length reply)) reply in
  let (c', evs) := Master.exchange_slot io i c in
  Slave.c_type (Node.slot_in s') = Master.c_type c /\
  (exists tx, evs = [Master.Transmit i status tx;
                     Master.Request i (Z.of_nat (length reply))]) /\
  (Master.c_type c = DUKE ->
     Master.duke_out c' = Node.duke_out s /\
     Master.sb_out c' = Master.sb_out c) /\
  (Master.c_type c = STEELBATTALION ->
     Master.sb_out c' = Node.sb_out s /\
     Master.duke_out c' = Master.duke_out c).
Proof.
  intros Hd Hs Hds Hdo Hso Lmd Lms Lnd Lns Hty. cbv zeta.
  assert (Ht : 0 <= Master.c_type c < 16) by (destruct Hty as [-> | ->]; lia).
  destruct (status_byte_nibbles _ Ht) as (N1 & N2 & N3).
  assert (Hrx : Slave.c_type
                  (Node.slot_in
                     (Node.i2c_receive s
                        (u8 (Z.lor 0xF0 (Master.c_type c)) :: payload)
                        (1 + Z.of_nat (length payload)))) = Master.c_type c).
  { unfold Node.i2c_receive. cbn [Node.slot_in].
    rewrite i2c_get_data_type by (auto; lia). exact N2. }
  unfold Node.i2c_send_data. rewrite Hrx.
  unfold Node.i2c_receive. cbn [Node.duke_out Node.sb_out].
  unfold Master.exchange_slot. cbn [Master.io_end Master.io_request Master.io_rx].
  cbn [Z.eqb negb].
  destruct Hty as [E | E]; rewrite E.
  - rewrite Z.eqb_refl. cbn [orb andb].
    rewrite firstn_all2 by lia.
    rewrite (u8_small sizeof_usbd_duke_out_t) by lia.
    destruct (Z.eqb_spec sizeof_usbd_duke_out_t 0) as [Hz | _]; [lia |].
    cbn [negb].
    rewrite Lnd, Z2Nat.id by lia.
    rewrite (u8_small sizeof_usbd_duke_out_t), Z.eqb_refl by lia.
    split; [reflexivity |].
    split; [eexists; reflexivity |].
    split; [| intros Eq; congruence].
    intros _. cbn [Master.duke_out Master.sb_out].
    split; [| reflexivity].
    rewrite <- Lmd. rewrite read_into_all; [reflexivity | reflexivity |].
    congruence.
  - destruct (Z.eqb_spec STEELBATTALION DUKE) as [Eq | _]; [congruence |].
    rewrite Z.eqb_refl. cbn [orb andb].
    rewrite firstn_all2 by lia.
    rewrite (u8_small sizeof_usbd_sbattalion_out_t) by lia.
    destruct (Z.eqb_spec sizeof_usbd_sbattalion_out_t 0) as [Hz | _]; [lia |].
    cbn [negb].
    rewrite Lns, Z2Nat.id by lia.
    rewrite (u8_small sizeof_usbd_sbattalion_out_t), Z.eqb_refl by lia.
    split; [reflexivity |].
    split; [eexists; reflexivity |].
    split; [intros Eq; congruence |].
    intros _. cbn [Master.duke_out Master.sb_out].
    split; [| reflexivity].
    rewrite <- Lms. rewrite read_into_all; [reflexivity | reflexivity |].
    congruence.
Qed.

End Exchange.

(** The coordinator sends 0xF1 and a Duke report; the peer switches
    from Steel Battalion to Duke and answers with its six byte Duke
    out-report. *)
Lemma i2c_exchange_round_trip_witness :
  let c := coordinator_slot in
  let s := peer_slot in
  let status := 0xF1 in
  let s' := Node.i2c_receive (H := xid_layout) s (status :: duke_report) 21 in
  let reply := Node.i2c_send_data (H := xid_layout) s' in
  let io := Master.mk_io (Master.mk_env 5000 0) 0 6 reply in
  let (c', evs) := Master.exchange_slot (H := xid_layout) io 2 c in
  Slave.c_type (Node.slot_in s') = 1 /\
  (exists tx, evs = [Master.Transmit 2 status tx; Master.Request 2 6]) /\
  (Master.c_type c = DUKE (usbd_xid_h := xid_layout) ->
     Master.duke_out c' = Node.duke_out s /\
     Master.sb_out c' = Master.sb_out c) /\
  (Master.c_type c = STEELBATTALION (usbd_xid_h := xid_layout) ->
     Master.sb_out c' = Node.sb_out s /\
     Master.duke_out c' = Master.duke_out c).
Proof.
  apply (i2c_exchange_round_trip (H := xid_layout) coordinator_slot peer_slot
           2 (Master.mk_env 5000 0) duke_report).
  - simpl. lia.
  - simpl. lia.
  - simpl. lia.
  - simpl. lia.
  - simpl. lia.
  - reflexivity.
  - reflexivity.
  - reflexivity.
  - reflexivity.
  - left. reflexivity.
Defined.

(** ** The mapping engine: what the edge detectors leave alone *)

Lemma was_chatpad_pressed_proj {B : Type} (g : usbh_xinput_t -> B) x code :
  kept_by_edges g ->
  g (fst (usbh_xinput_was_chatpad_pressed x code)) = g x.
Proof.
  intros [K1 K2]. unfold usbh_xinput_was_chatpad_pressed.
  repeat match goal with
         | |- context [if ?c then _ else _] => destruct c
         | |- context [match ?c with Some _ => _ | None => _ end] => destruct c
         end; cbn [fst]; auto.
Qed.

Lemma was_gamepad_pressed_proj {B : Type} (g : usbh_xinput_t -> B) x mask :
  kept_by_edges g ->
  g (fst (usbh_xinput_was_gamepad_pressed x mask)) = g x.
Proof.
  intros [K1 K2]. unfold usbh_xinput_was_gamepad_pressed.
  repeat match goal with
         | |- context [if ?c then _ else _] => destruct c
         end; cbn [fst]; auto.
Qed.

Section MappingFrames.
Context {H : usbd_xid_h}.
Import Master.

Lemma was_gamepad_pressed_either_proj {B : Type} (g : usbh_xinput_t -> B)
  x m1 m2 :
  kept_by_edges g -> g (fst (was_gamepad_pressed_either x m1 m2)) = g x.
Proof.
  intros K. unfold was_gamepad_pressed_either.
  pose proof (was_gamepad_pressed_proj g x m1 K) as H1.
  destruct (usbh_xinput_was_gamepad_pressed x m1) as [x1 r1].
  pose proof (was_gamepad_pressed_proj g x1 m2 K) as H2.
  destruct (usbh_xinput_was_gamepad_pressed x1 m2) as [x2 r2].
  cbn [fst] in *. destruct (truthy r1); cbn [fst]; congruence.
Qed.

Lemma apply_toggle_map_proj {B : Type} (g : usbh_xinput_t -> B) tbl :
  kept_by_edges g ->
  forall xw, g (fst (apply_toggle_map tbl xw)) = g (fst xw).
Proof.
  intros K. unfold apply_toggle_map.
  induction tbl as [| e tbl IH]; intros [x w]; cbn [fold_left fst snd];
    [reflexivity |].
  pose proof (was_chatpad_pressed_proj g x (xinput_mask e) K) as Hx.
  destruct (usbh_xinput_was_chatpad_pressed x (xinput_mask e)) as [x1 r1].
  rewrite IH. exact Hx.
Qed.

Lemma select_sensitivity_proj {B : Type} (g : usbh_xinput_t -> B) presets :
  kept_by_edges g ->
  forall i x s, g (fst (select_sensitivity presets i x s)) = g x.
Proof.
  intros K.
  induction presets as [| p presets IH]; intros i x s;
    cbn [select_sensitivity]; [reflexivity |].
  pose proof (was_chatpad_pressed_proj g x (XINPUT_CHATPAD_1 + i) K) as Hx.
  destruct (usbh_xinput_was_chatpad_pressed x (XINPUT_CHATPAD_1 + i))
    as [x1 r1].
  cbn [fst] in Hx. destruct (truthy r1).
  - destruct (negb (sb_sensitivity s =? p)); exact Hx.
  - rewrite IH. exact Hx.
Qed.

Lemma sb_alternate_proj {B : Type} (g : usbh_xinput_t -> B) x r w :
  kept_by_edges g -> g (fst (fst (fst (sb_alternate x r w)))) = g x.
Proof.
  intros K. unfold sb_alternate.
  destruct (_ || _).
  - pose proof (was_gamepad_pressed_either_proj g x XINPUT_GAMEPAD_DPAD_UP
                  XINPUT_GAMEPAD_DPAD_RIGHT K) as H1.
    destruct (was_gamepad_pressed_either x XINPUT_GAMEPAD_DPAD_UP
                XINPUT_GAMEPAD_DPAD_RIGHT) as [x1 up].
    pose proof (was_gamepad_pressed_either_proj g x1 XINPUT_GAMEPAD_DPAD_DOWN
                  XINPUT_GAMEPAD_DPAD_LEFT K) as H2.
    destruct (was_gamepad_pressed_either x1 XINPUT_GAMEPAD_DPAD_DOWN
                XINPUT_GAMEPAD_DPAD_LEFT) as [x2 down].
    cbn [fst] in *. congruence.
  - destruct (negb (truthy (usbh_xinput_is_chatpad_pressed x
                              XINPUT_CHATPAD_ORANGE))); [| reflexivity].
    destruct (negb (truthy _)); [| reflexivity].
    pose proof (was_gamepad_pressed_proj g x XINPUT_GAMEPAD_DPAD_UP K) as H1.
    destruct (usbh_xinput_was_gamepad_pressed x XINPUT_GAMEPAD_DPAD_UP)
      as [x1 up].
    pose proof (was_gamepad_pressed_proj g x1 XINPUT_GAMEPAD_DPAD_DOWN K)
      as H2.
    destruct (usbh_xinput_was_gamepad_pressed x1 XINPUT_GAMEPAD_DPAD_DOWN)
      as [x2 down].
    cbn [fst] in *. congruence.
Qed.

Lemma sb_buttons_proj {B : Type} (g : usbh_xinput_t -> B) x r out :
  kept_by_edges g -> g (fst (fst (fst (sb_buttons x r out)))) = g x.
Proof.
  intros K. unfold sb_buttons.
  match goal with
  | |- context [apply_toggle_map ?t ?xw] =>
      pose proof (apply_toggle_map_proj g t K xw) as H1;
      destruct (apply_toggle_map t xw) as [x1 w1]
  end.
  match goal with
  | |- context [sb_alternate ?a ?b ?c] =>
      pose proof (sb_alternate_proj g a b c K) as H2;
      destruct (sb_alternate a b c) as [[[x2 w2] dial] gear]
  end.
  pose proof (was_chatpad_pressed_proj g x2 XINPUT_CHATPAD_SHIFT K) as H3.
  destruct (usbh_xinput_was_chatpad_pressed x2 XINPUT_CHATPAD_SHIFT)
    as [x3 shift].
  cbn [fst] in *. congruence.
Qed.

Lemma handle_sbattalion_proj {B : Type} (g : usbh_xinput_t -> B) e s :
  kept_by_edges g ->
  (forall x l r, g (set_rumble_requested x l r) = g x) ->
  g (st_xinput (handle_sbattalion e s)) = g (st_xinput s).
Proof.
  intros K Kr. unfold handle_sbattalion.
  pose proof (sb_buttons_proj g (st_xinput s) (st_in s) (st_out s) K) as Hx.
  destruct (sb_buttons (st_xinput s) (st_in s) (st_out s))
    as [[[x w] dial] gear].
  cbn [fst] in Hx.
  match goal with
  | |- context [if truthy (usbh_xinput_is_chatpad_pressed ?a ?b)
                then select_sensitivity ?c ?d ?f ?h else ?k] =>
      assert (Hs : g (fst (if truthy (usbh_xinput_is_chatpad_pressed a b)
                           then select_sensitivity c d f h else k)) = g x)
        by (destruct (truthy (usbh_xinput_is_chatpad_pressed a b));
            [rewrite select_sensitivity_proj by exact K | cbn [fst]];
            apply Kr);
      destruct (if truthy (usbh_xinput_is_chatpad_pressed a b)
                then select_sensitivity c d f h else k) as [x' g']
  end.
  cbn [fst] in Hs.
  destruct (truthy (Z.land (word0 w) SBC_W0_IGNITION)); cbn [st_xinput];
    congruence.
Qed.

End MappingFrames.

(** ** The gamepad edge detector on the stored pad state *)

Lemma testbit_true_below m n k :
  0 <= m < 2 ^ k -> 0 <= k -> Z.testbit m n = true -> n < k.
Proof.
  intros Hm Hk Hb. destruct (Z.ltb_spec n k) as [Hlt | Hge]; [exact Hlt |].
  exfalso.
  assert (Hz : Z.testbit m n = false).
  { destruct (Z.eq_dec m 0) as [-> | Hne]; [apply Z.bits_0 |].
    apply Z.bits_above_log2; [lia |].
    apply Z.lt_le_trans with k; [| exact Hge].
    apply Z.log2_lt_pow2; lia. }
  congruence.
Qed.

Lemma land_disjoint_bit m m' n :
  Z.land m m' = 0 -> Z.testbit m' n = true -> Z.testbit m n = false.
Proof.
  intros Hd Hb.
  assert (Hn : Z.testbit (Z.land m m') n = false) by (rewrite Hd; apply Z.bits_0).
  rewrite Z.land_spec, Hb, andb_true_r in Hn. exact Hn.
Qed.

Lemma land_other_mask_cleared w m m' :
  Z.land m m' = 0 -> 0 <= m' < 65536 ->
  Z.land (u16 (Z.land w (Z.lnot m))) m' = Z.land w m'.
Proof.
  intros Hd Hm'. rewrite u16_land_ones.
  apply Z.bits_inj'. intros n Hn.
  rewrite !Z.land_spec, Z.lnot_spec by exact Hn.
  destruct (Z.testbit m' n) eqn:Eb; [| now rewrite !andb_false_r].
  rewrite (land_disjoint_bit m m' n Hd Eb).
  assert (Hlt : n < 16)
    by (apply (testbit_true_below m' n 16); [lia | lia | exact Eb]).
  change 65535 with (Z.ones 16). rewrite Z.ones_spec_low by lia.
  cbn [negb]. now rewrite !andb_true_r.
Qed.

Lemma land_other_mask_set w m m' :
  Z.land m m' = 0 -> 0 <= m' < 65536 ->
  Z.land (u16 (Z.lor w m)) m' = Z.land w m'.
Proof.
  intros Hd Hm'. rewrite u16_land_ones.
  apply Z.bits_inj'. intros n Hn.
  rewrite !Z.land_spec, Z.lor_spec.
  destruct (Z.testbit m' n) eqn:Eb; [| now rewrite !andb_false_r].
  rewrite (land_disjoint_bit m m' n Hd Eb).
  assert (Hlt : n < 16)
    by (apply (testbit_true_below m' n 16); [lia | lia | exact Eb]).
  change 65535 with (Z.ones 16). rewrite Z.ones_spec_low by lia.
  now rewrite orb_false_r, !andb_true_r.
Qed.

Lemma kept_by_edges_bAddress : kept_by_edges bAddress.
Proof. split; reflexivity. Qed.

Lemma kept_by_edges_pad_state : kept_by_edges pad_state.
Proof. split; reflexivity. Qed.

Section GamepadEdgeCases.
Variable mask : Z.
Hypothesis Hmask : 0 < mask < 256.

Lemma was_gamepad_pressed_cases x :
  bAddress x <> 0 ->
  truthy (snd (usbh_xinput_was_gamepad_pressed x mask)) = rising_edge x mask /\
  (Z.land (wButtons (pad_state x)) mask <> 0 ->
   Z.land (pad_state_wButtons_old
             (fst (usbh_xinput_was_gamepad_pressed x mask))) mask <> 0) /\
  (forall m', Z.land mask m' = 0 -> 0 <= m' < 65536 ->
     Z.land (pad_state_wButtons_old
               (fst (usbh_xinput_was_gamepad_pressed x mask))) m'
     = Z.land (pad_state_wButtons_old x) m').
Proof.
  intros Ha. unfold usbh_xinput_was_gamepad_pressed, rising_edge.
  rewrite u16_small by lia.
  rewrite (is_gamepad_pressed_low mask Hmask) by exact Ha.
  unfold truthy.
  destruct (Z.eqb_spec (Z.land (wButtons (pad_state x)) mask) 0) as [E | E];
    cbn [negb andb].
  - cbn [fst snd pad_state_wButtons_old set_wButtons_old].
    split; [reflexivity |]. split; [intros Hc; contradiction |].
    intros m' Hd Hm'. now apply land_other_mask_cleared.
  - destruct (Z.eqb_spec (Z.land (pad_state_wButtons_old x) mask) 0)
      as [Eo | Eo]; cbn [negb fst snd pad_state_wButtons_old set_wButtons_old].
    + split; [reflexivity |]. split.
      * intros _. rewrite (land_set_mask mask Hmask). lia.
      * intros m' Hd Hm'. now apply land_other_mask_set.
    + split; [reflexivity |]. split; [intros _; exact Eo | reflexivity].
Qed.

End GamepadEdgeCases.

(** ** [handle_duke]: the stick inversion modifiers *)

Section DukeModifiers.
Context {H : usbd_xid_h}.
Import Master.

Lemma was_gamepad_pressed_either_cases x m1 m2 :
  0 < m1 < 256 -> 0 < m2 < 256 -> Z.land m1 m2 = 0 ->
  bAddress x <> 0 ->
  bAddress (fst (was_gamepad_pressed_either x m1 m2)) = bAddress x /\
  pad_state (fst (was_gamepad_pressed_either x m1 m2)) = pad_state x /\
  snd (was_gamepad_pressed_either x m1 m2)
  = (rising_edge x m1 || rising_edge x m2) /\
  (Z.land (wButtons (pad_state x)) m1 <> 0 ->
   Z.land (pad_state_wButtons_old (fst (was_gamepad_pressed_either x m1 m2)))
     m1 <> 0) /\
  (forall m', Z.land m1 m' = 0 -> Z.land m2 m' = 0 -> 0 <= m' < 65536 ->
     Z.land (pad_state_wButtons_old (fst (was_gamepad_pressed_either x m1 m2)))
       m'
     = Z.land (pad_state_wButtons_old x) m').
Proof.
  intros H1 H2 Hd Ha. unfold was_gamepad_pressed_either.
  pose proof (was_gamepad_pressed_cases m1 H1 x Ha) as (R1 & K1 & O1).
  pose proof (was_gamepad_pressed_proj bAddress x m1 kept_by_edges_bAddress)
    as A1.
  pose proof (was_gamepad_pressed_proj pad_state x m1 kept_by_edges_pad_state)
    as P1.
  destruct (usbh_xinput_was_gamepad_pressed x m1) as [x1 r1].
  cbn [fst snd] in *. rewrite R1.
  destruct (rising_edge x m1) eqn:E1; cbn [fst snd orb].
  - repeat split; try assumption.
    intros m' D1 _ Hm'. now apply O1.
  - assert (Ha1 : bAddress x1 <> 0) by congruence.
    pose proof (was_gamepad_pressed_cases m2 H2 x1 Ha1) as (R2 & K2 & O2).
    pose proof (was_gamepad_pressed_proj bAddress x1 m2 kept_by_edges_bAddress)
      as A2.
    pose proof (was_gamepad_pressed_proj pad_state x1 m2
                  kept_by_edges_pad_state) as P2.
    destruct (usbh_xinput_was_gamepad_pressed x1 m2) as [x2 r2].
    cbn [fst snd] in *.
    split; [congruence |]. split; [congruence |]. split.
    + rewrite R2. unfold rising_edge. rewrite P1.
      rewrite (O1 m2) by lia. reflexivity.
    + split.
      * intros Hp. rewrite (O2 m1); [now apply K1 | now rewrite Z.land_comm | lia].
      * intros m' D1 D2 Hm'. rewrite (O2 m') by assumption. now apply O1.
Qed.

Lemma flip_modifier_bit m k :
  0 <= k < 8 ->
  truthy (Z.land (u8 (Z.lxor m (2 ^ k))) (2 ^ k))
  = negb (truthy (Z.land m (2 ^ k))).
Proof.
  intros Hk.
  assert (Hbit : forall a, truthy (Z.land a (2 ^ k)) = Z.testbit a k).
  { intros a. unfold truthy.
    destruct (Z.eqb_spec (Z.land a (2 ^ k)) 0) as [E | E]; cbn [negb].
    - symmetry.
      assert (Hb : Z.testbit (Z.land a (2 ^ k)) k = false)
        by (rewrite E; apply Z.bits_0).
      rewrite Z.land_spec, Z.pow2_bits_true, andb_true_r in Hb by lia.
      exact Hb.
    - symmetry. destruct (Z.testbit a k) eqn:Eb; [reflexivity |].
      exfalso. apply E. apply Z.bits_inj'. intros n Hn.
      rewrite Z.land_spec, Z.bits_0, Z.pow2_bits_eqb by lia.
      destruct (Z.eqb_spec k n) as [-> | _];
        [now rewrite Eb | now rewrite andb_false_r]. }
  rewrite !Hbit, u8_land_ones, Z.land_spec, Z.lxor_spec.
  rewrite Z.pow2_bits_true by lia.
  change 255 with (Z.ones 8). rewrite Z.ones_spec_low by lia.
  now rewrite andb_true_r, xorb_true_r.
Qed.

(** One call with the right stick held down: the report uses the
    modifiers as they were, then each D-pad axis with a new press flips
    its modifier. *)
Lemma handle_duke_right_thumb x out u :
  bAddress x <> 0 ->
  Z.land (wButtons (pad_state x)) XINPUT_GAMEPAD_RIGHT_THUMB <> 0 ->
  let '(x1, r1, u1) := handle_duke x out u in
  bAddress x1 = bAddress x /\ pad_state x1 = pad_state x /\
  rightStickY r1
  = (if truthy (Z.land (modifiers u) XINPUT_MOD_RSY_INVERT)
     then s16 (- sThumbRY (pad_state x) - 1) else sThumbRY (pad_state x)) /\
  modifiers u1
  = (let m := if rising_edge x XINPUT_GAMEPAD_DPAD_UP
                 || rising_edge x XINPUT_GAMEPAD_DPAD_DOWN
              then u8 (Z.lxor (modifiers u) XINPUT_MOD_RSY_INVERT)
              else modifiers u in
     if rising_edge x XINPUT_GAMEPAD_DPAD_RIGHT
        || rising_edge x XINPUT_GAMEPAD_DPAD_LEFT
     then u8 (Z.lxor m XINPUT_MOD_RSX_INVERT) else m) /\
  (Z.land (wButtons (pad_state x)) XINPUT_GAMEPAD_DPAD_UP <> 0 ->
   Z.land (pad_state_wButtons_old x1) XINPUT_GAMEPAD_DPAD_UP <> 0).
Proof.
  intros Ha Hrs. unfold handle_duke.
  apply truthy_true in Hrs. rewrite Hrs.
  match goal with
  | |- context [was_gamepad_pressed_either ?a XINPUT_GAMEPAD_DPAD_UP
                  XINPUT_GAMEPAD_DPAD_DOWN] => set (x0 := a)
  end.
  assert (Ha0 : bAddress x0 <> 0) by exact Ha.
  pose proof (was_gamepad_pressed_either_cases x0 XINPUT_GAMEPAD_DPAD_UP
                XINPUT_GAMEPAD_DPAD_DOWN ltac:(vm_compute; split; reflexivity)
                ltac:(vm_compute; split; reflexivity) eq_refl Ha0)
    as (A1 & P1 & R1 & K1 & O1).
  destruct (was_gamepad_pressed_either x0 XINPUT_GAMEPAD_DPAD_UP
              XINPUT_GAMEPAD_DPAD_DOWN) as [xa fa].
  cbn [fst snd] in *.
  assert (Haa : bAddress xa <> 0) by congruence.
  pose proof (was_gamepad_pressed_either_cases xa XINPUT_GAMEPAD_DPAD_RIGHT
                XINPUT_GAMEPAD_DPAD_LEFT ltac:(vm_compute; split; reflexivity)
                ltac:(vm_compute; split; reflexivity) eq_refl Haa)
    as (A2 & P2 & R2 & K2 & O2).
  destruct (was_gamepad_pressed_either xa XINPUT_GAMEPAD_DPAD_RIGHT
              XINPUT_GAMEPAD_DPAD_LEFT) as [xb fb].
  cbn [fst snd] in *.
  cbn [rightStickY modifiers].
  split; [rewrite A2, A1; reflexivity |].
  split; [rewrite P2, P1; reflexivity |].
  split; [reflexivity |]. split.
  - rewrite R2, R1. unfold rising_edge. rewrite P1.
    rewrite (O1 XINPUT_GAMEPAD_DPAD_RIGHT), (O1 XINPUT_GAMEPAD_DPAD_LEFT);
      try reflexivity; vm_compute; split; congruence.
  - intros Hup. rewrite (O2 XINPUT_GAMEPAD_DPAD_UP);
      [now apply K1 | reflexivity | reflexivity
      | vm_compute; split; congruence].
Qed.

End DukeModifiers.

(** X20.  In the gamepad mapping, pressing D-pad up while the right
    stick is held down flips the vertical inversion of the right stick
    once: the report of the call that sees the new press still uses the
    old setting, the report of the next call uses the flipped one, and
    keeping the buttons down does not flip it again.  An inverted axis
    reports [-v - 1], which stays in the range of the axis. *)
Theorem handle_duke_invert_toggle {H : usbd_xid_h}
  (x : usbh_xinput_t) (out : list Z) (u : Master.xinput_user_data_t) :
  bAddress x <> 0 ->
  Z.land (wButtons (pad_state x)) XINPUT_GAMEPAD_RIGHT_THUMB <> 0 ->
  Z.land (wButtons (pad_state x)) XINPUT_GAMEPAD_DPAD_UP <> 0 ->
  Z.land (wButtons (pad_state x)) XINPUT_GAMEPAD_DPAD_DOWN = 0 ->
  Z.land (wButtons (pad_state x)) XINPUT_GAMEPAD_DPAD_LEFT = 0 ->
  Z.land (wButtons (pad_state x)) XINPUT_GAMEPAD_DPAD_RIGHT = 0 ->
  Z.land (pad_state_wButtons_old x) XINPUT_GAMEPAD_DPAD_UP = 0 ->
  -32768 <= sThumbRY (pad_state x) <= 32767 ->
  let inverted :=
    truthy (Z.land (Master.modifiers u) Master.XINPUT_MOD_RSY_INVERT) in
  let v := sThumbRY (pad_state x) in
  let '(x1, r1, u1) := Master.handle_duke x out u in
  let '(x2, r2, u2) := Master.handle_duke x1 out u1 in
  Master.rightStickY r1 = (if inverted then - v - 1 else v) /\
  Master.rightStickY r2 = (if inverted then v else - v - 1) /\
  Master.modifiers u2 = Master.modifiers u1 /\
  -32768 <= Master.rightStickY r1 <= 32767 /\
  -32768 <= Master.rightStickY r2 <= 32767.
Proof.
  intros Ha Hrs Hup Hdown Hleft Hright Hold Hv inverted v.
  assert (Hs : s16 (- v - 1) = - v - 1).
  { unfold s16. subst v. rewrite Z.mod_small by lia. lia. }
  pose proof (handle_duke_right_thumb x out u Ha Hrs) as H1.
  destruct (Master.handle_duke x out u) as [[x1 r1] u1].
  destruct H1 as (A1 & P1 & Y1 & M1 & K1).
  assert (Ha1 : bAddress x1 <> 0) by congruence.
  assert (Hrs1 : Z.land (wButtons (pad_state x1)) XINPUT_GAMEPAD_RIGHT_THUMB
                 <> 0) by (rewrite P1; exact Hrs).
  pose proof (handle_duke_right_thumb x1 out u1 Ha1 Hrs1) as H2.
  destruct (Master.handle_duke x1 out u1) as [[x2 r2] u2].
  destruct H2 as (A2 & P2 & Y2 & M2 & K2).
  specialize (K1 Hup).
  assert (E1 : Master.modifiers u1
               = u8 (Z.lxor (Master.modifiers u)
                       Master.XINPUT_MOD_RSY_INVERT)).
  { rewrite M1. unfold rising_edge. rewrite Hold, Hdown, Hleft, Hright.
    destruct (Z.eqb_spec (Z.land (wButtons (pad_state x))
                            XINPUT_GAMEPAD_DPAD_UP) 0) as [E | _];
      [contradiction | reflexivity]. }
  assert (E2 : Master.modifiers u2 = Master.modifiers u1).
  { rewrite M2. unfold rising_edge. rewrite P1, Hdown, Hleft, Hright.
    destruct (Z.eqb_spec (Z.land (pad_state_wButtons_old x1)
                            XINPUT_GAMEPAD_DPAD_UP) 0) as [E | _];
      [contradiction |].
    now rewrite andb_false_r. }
  assert (Y2' : Master.rightStickY r2 = (if inverted then v else - v - 1)).
  { rewrite Y2, E1, P1.
    pose proof (flip_modifier_bit (Master.modifiers u) 1 ltac:(lia)) as Hf.
    change (2 ^ 1) with Master.XINPUT_MOD_RSY_INVERT in Hf. rewrite Hf.
    fold inverted. fold v. rewrite Hs. now destruct inverted. }
  assert (Y1' : Master.rightStickY r1 = (if inverted then - v - 1 else v)).
  { rewrite Y1. fold inverted. fold v. now rewrite Hs. }
  split; [exact Y1' |]. split; [exact Y2' |]. split; [exact E2 |].
  rewrite Y1', Y2'. subst v. destruct inverted; lia.
Qed.

(** Right stick up by 1000 with no inversion set: the first report
    carries 1000, the next one -1001. *)
Lemma handle_duke_invert_toggle_witness :
  let inverted :=
    truthy (Z.land (Master.modifiers (Master.mk_user_data 0 0 0 0))
              Master.XINPUT_MOD_RSY_INVERT) in
  let v := sThumbRY (pad_state stick_pad) in
  let '(x1, r1, u1) :=
    Master.handle_duke (H := xid_layout) stick_pad (repeat 0 6)
      (Master.mk_user_data 0 0 0 0) in
  let '(x2, r2, u2) :=
    Master.handle_duke (H := xid_layout) x1 (repeat 0 6) u1 in
  Master.rightStickY r1 = (if inverted then - v - 1 else v) /\
  Master.rightStickY r2 = (if inverted then v else - v - 1) /\
  Master.modifiers u2 = Master.modifiers u1 /\
  -32768 <= Master.rightStickY r1 <= 32767 /\
  -32768 <= Master.rightStickY r2 <= 32767.
Proof.
  apply (handle_duke_invert_toggle (H := xid_layout) stick_pad (repeat 0 6)
           (Master.mk_user_data 0 0 0 0)).
  - simpl. lia.
  - vm_compute. discriminate.
  - vm_compute. discriminate.
  - reflexivity.
  - reflexivity.
  - reflexivity.
  - reflexivity.
  - simpl. lia.
Defined.

(** ** [master_task]: the target family of a slot *)

Section SlotFamily.
Context {H : usbd_xid_h}.
Import Master.

Lemma kept_by_edges_chatpad_led : kept_by_edges chatpad_led_requested.
Proof. split; reflexivity. Qed.

Lemma handle_duke_chatpad_led x out u :
  chatpad_led_requested (fst (fst (handle_duke x out u)))
  = XINPUT_CHATPAD_GREEN.
Proof.
  unfold handle_duke.
  destruct (truthy (Z.land (wButtons (pad_state x))
                      XINPUT_GAMEPAD_RIGHT_THUMB)); [| reflexivity].
  match goal with
  | |- context [was_gamepad_pressed_either ?a XINPUT_GAMEPAD_DPAD_UP
                  XINPUT_GAMEPAD_DPAD_DOWN] =>
      pose proof (was_gamepad_pressed_either_proj chatpad_led_requested a
                    XINPUT_GAMEPAD_DPAD_UP XINPUT_GAMEPAD_DPAD_DOWN
                    kept_by_edges_chatpad_led) as H1;
      destruct (was_gamepad_pressed_either a XINPUT_GAMEPAD_DPAD_UP
                  XINPUT_GAMEPAD_DPAD_DOWN) as [xa fa]
  end.
  pose proof (was_gamepad_pressed_either_proj chatpad_led_requested xa
                XINPUT_GAMEPAD_DPAD_RIGHT XINPUT_GAMEPAD_DPAD_LEFT
                kept_by_edges_chatpad_led) as H2.
  destruct (was_gamepad_pressed_either xa XINPUT_GAMEPAD_DPAD_RIGHT
              XINPUT_GAMEPAD_DPAD_LEFT) as [xb fb].
  cbn [fst] in *. rewrite H2, H1. reflexivity.
Qed.

(** The mapping step keeps the family it was entered with. *)
Lemma map_slot_tail e x c u g :
  c_type (usbd_c (fst (
    if c_type c =? DUKE then
      let '(x, r, u) := handle_duke x (duke_out c) u in
      (mk_slot x (mk_controller (c_type c) r (duke_out c) (sb_in c) (sb_out c))
         u, g)
    else if c_type c =? STEELBATTALION then
      let s' := handle_sbattalion e (mk_sb_state x (sb_in c) (sb_out c) u g) in
      (mk_slot (st_xinput s')
         (mk_controller (c_type c) (duke_in c) (duke_out c) (st_in s')
            (st_out s'))
         (st_user s'),
       st_settings s')
    else (mk_slot x c u, g)))) = c_type c.
Proof.
  destruct (c_type c =? DUKE).
  - destruct (handle_duke x (duke_out c) u) as [[x1 r1] u1]. reflexivity.
  - destruct (c_type c =? STEELBATTALION); reflexivity.
Qed.

End SlotFamily.

(** X21.  The chatpad's green and orange keys choose the controller
    a slot presents to the console: with green held the slot is a Duke
    gamepad and the green chatpad LED is requested, with orange held
    (and green up) it is a Steel Battalion cockpit and the orange LED
    is requested; green wins when both are held.  With neither key held
    a connected slot keeps the family it had. *)
Theorem map_slot_mode_keys {H : usbd_xid_h}
  (e : Master.env) (s : Master.slot) (g : Master.settings) :
  DUKE <> STEELBATTALION ->
  let x := Master.usbh_xinput s in
  let green := truthy (usbh_xinput_is_chatpad_pressed x XINPUT_CHATPAD_GREEN) in
  let orange :=
    truthy (usbh_xinput_is_chatpad_pressed x XINPUT_CHATPAD_ORANGE) in
  let s' := fst (Master.map_slot e s g) in
  (green = true ->
   Master.c_type (Master.usbd_c s') = DUKE /\
   chatpad_led_requested (Master.usbh_xinput s') = XINPUT_CHATPAD_GREEN) /\
  (green = false -> orange = true ->
   Master.c_type (Master.usbd_c s') = STEELBATTALION /\
   chatpad_led_requested (Master.usbh_xinput s') = XINPUT_CHATPAD_ORANGE) /\
  (green = false -> orange = false -> bAddress x <> 0 ->
   Master.c_type (Master.usbd_c s) <> DISCONNECTED ->
   Master.c_type (Master.usbd_c s') = Master.c_type (Master.usbd_c s)).
Proof.
  intros Hne x green orange s'. subst s'. unfold Master.map_slot.
  fold x. fold green. fold orange.
  set (c0 := if bAddress x =? 0
             then Master.set_type (Master.usbd_c s) DISCONNECTED
             else if Master.c_type (Master.usbd_c s) =? DISCONNECTED
                  then Master.set_type (Master.usbd_c s) DUKE
                  else Master.usbd_c s).
  split; [| split].
  - intros Hg. rewrite Hg.
    cbn [Master.c_type Master.set_type Master.duke_out Master.sb_in
         Master.sb_out Master.duke_in].
    rewrite Z.eqb_refl.
    pose proof (handle_duke_chatpad_led
                  (set_chatpad_led_requested x XINPUT_CHATPAD_GREEN)
                  (Master.duke_out c0) (Master.user_data s)) as Hl.
    destruct (Master.handle_duke
                (set_chatpad_led_requested x XINPUT_CHATPAD_GREEN)
                (Master.duke_out c0) (Master.user_data s)) as [[x1 r1] u1].
    cbn [fst] in *. split; [reflexivity | exact Hl].
  - intros Hg Ho. rewrite Hg, Ho.
    cbn [Master.c_type Master.set_type Master.duke_out Master.sb_in
         Master.sb_out Master.duke_in].
    destruct (Z.eqb_spec STEELBATTALION DUKE) as [E | _];
      [symmetry in E; contradiction |].
    rewrite Z.eqb_refl.
    cbn [fst Master.usbd_c Master.usbh_xinput Master.c_type].
    split; [reflexivity |].
    rewrite (handle_sbattalion_proj chatpad_led_requested);
      [reflexivity | exact kept_by_edges_chatpad_led | reflexivity].
  - intros Hg Ho Ha Hc. rewrite Hg, Ho.
    rewrite map_slot_tail. subst c0.
    destruct (Z.eqb_spec (bAddress x) 0) as [E | _]; [contradiction |].
    destruct (Z.eqb_spec (Master.c_type (Master.usbd_c s)) DISCONNECTED)
      as [E | _]; [contradiction | reflexivity].
Qed.

(** A Duke slot whose pad holds orange becomes a cockpit. *)
Lemma map_slot_mode_keys_witness :
  let s' := fst (Master.map_slot (H := xid_layout) (Master.mk_env 5000 0)
                   orange_slot (Master.mk_settings 400 [])) in
  Master.c_type (Master.usbd_c s') = 2 /\
  chatpad_led_requested (Master.usbh_xinput s') = XINPUT_CHATPAD_ORANGE.
Proof.
  apply (map_slot_mode_keys (H := xid_layout) (Master.mk_env 5000 0)
           orange_slot (Master.mk_settings 400 [])).
  - simpl. lia.
  - reflexivity.
  - reflexivity.
Defined.

(** ** [master_task]: a slot without a pad *)

(** X22.  A slot whose pad is gone is marked DISCONNECTED and is not
    mapped: the device record, both report pairs, the mapping context
    and the settings are left as they are.  Its peer on the bus is
    still sent the status byte in every pass, with no report behind it,
    and nothing is read back. *)
Theorem master_slot_disconnected {H : usbd_xid_h}
  (bus : nat -> Master.slot_io) (i : nat) (st : Master.master_state) :
  DISCONNECTED <> DUKE -> DISCONNECTED <> STEELBATTALION ->
  (i < length (Master.slots st))%nat ->
  bAddress (Master.usbh_xinput (Master.slot_at st i)) = 0 ->
  let s := Master.slot_at st i in
  let (st', evs) := Master.master_slot bus i st in
  Master.slot_at st' i
  = Master.mk_slot (Master.usbh_xinput s)
      (Master.set_type (Master.usbd_c s) DISCONNECTED) (Master.user_data s) /\
  Master.globals st' = Master.globals st /\
  evs = if (i =? 0)%nat then []
        else [Master.Transmit i (u8 (Z.lor 0xF0 DISCONNECTED)) Master.TxNone].
Proof.
  intros Hd Hs Hi Ha s.
  assert (Hmap : Master.map_slot (Master.io_env (bus i)) s (Master.globals st)
                 = (Master.mk_slot (Master.usbh_xinput s)
                      (Master.set_type (Master.usbd_c s) DISCONNECTED)
                      (Master.user_data s), Master.globals st)).
  { unfold Master.map_slot. subst s.
    unfold usbh_xinput_is_chatpad_pressed. rewrite Ha.
    cbn [Z.eqb truthy negb Master.c_type Master.set_type].
    destruct (Z.eqb_spec DISCONNECTED DUKE) as [E | _]; [contradiction |].
    destruct (Z.eqb_spec DISCONNECTED STEELBATTALION) as [E | _];
      [contradiction | reflexivity]. }
  unfold Master.master_slot. fold (Master.slot_at st i). fold s.
  rewrite Hmap.
  destruct (Nat.eqb_spec i 0) as [Hi0 | Hi0].
  - cbn [Master.globals]. unfold Master.slot_at at 1. cbn [Master.slots].
    rewrite nth_list_upd by exact Hi. repeat split.
  - unfold Master.exchange_slot.
    cbn [Master.usbd_c Master.c_type Master.set_type].
    destruct (Z.eqb_spec DISCONNECTED DUKE) as [E | _]; [contradiction |].
    destruct (Z.eqb_spec DISCONNECTED STEELBATTALION) as [E | _];
      [contradiction |].
    cbn [orb andb Z.eqb].
    destruct (negb (Master.io_end (bus i) =? 0));
      cbn [Master.globals Master.usbh_xinput Master.user_data];
      unfold Master.slot_at at 1; cbn [Master.slots];
      rewrite nth_list_upd by exact Hi; repeat split.
Qed.

(** Slot 1 of a coordinator with one pad: the peer is sent 0xF0 alone. *)
Lemma master_slot_disconnected_witness :
  let s := Master.slot_at one_pad 1 in
  let (st', evs) :=
    Master.master_slot (H := xid_layout) bus_peer2_fails 1 one_pad in
  Master.slot_at st' 1
  = Master.mk_slot (Master.usbh_xinput s)
      (Master.set_type (Master.usbd_c s)
         (DISCONNECTED (usbd_xid_h := xid_layout)))
      (Master.user_data s) /\
  Master.globals st' = Master.globals one_pad /\
  evs = if (1 =? 0)%nat then []
        else [Master.Transmit 1
                (u8 (Z.lor 0xF0 (DISCONNECTED (usbd_xid_h := xid_layout))))
                Master.TxNone].
Proof.
  apply (master_slot_disconnected (H := xid_layout) bus_peer2_fails 1 one_pad).
  - simpl. lia.
  - simpl. lia.
  - simpl. lia.
  - reflexivity.
Defined.

(** ** [handle_sbattalion]: the sensitivity presets *)

Section SensitivityPresets.
Context {H : usbd_xid_h}.
Import Master.

(** The keys a chatpad sample reports outside the range of codes the
    preset loop polls. *)
Lemma is_chatpad_pressed_other_key x code :
  17 <= code < 65536 ->
  Buf.get (chatpad_state x) 1 <> code ->
  Buf.get (chatpad_state x) 2 <> code ->
  usbh_xinput_is_chatpad_pressed x code = 0.
Proof.
  intros Hc H1 H2. unfold usbh_xinput_is_chatpad_pressed.
  rewrite u16_small by lia.
  destruct (bAddress x =? 0); [reflexivity |].
  destruct (Z.ltb_spec code 17) as [Hlt | _]; [lia |]. cbn [andb].
  destruct (Z.eqb_spec (Buf.get (chatpad_state x) 1) code) as [E | _];
    [contradiction |].
  destruct (Z.eqb_spec (Buf.get (chatpad_state x) 2) code) as [E | _];
    [contradiction | reflexivity].
Qed.

Lemma inputs_chatpad_state x y :
  inputs x = inputs y -> chatpad_state x = chatpad_state y.
Proof. intros E. exact (f_equal snd E). Qed.

Lemma select_sensitivity_no_key presets : forall i x g,
  0 <= i -> i + Z.of_nat (length presets) <= 9 ->
  ~ (23 <= Buf.get (chatpad_state x) 1 <= 31) ->
  ~ (23 <= Buf.get (chatpad_state x) 2 <= 31) ->
  snd (select_sensitivity presets i x g) = g.
Proof.
  induction presets as [| p presets IH]; intros i x g Hi Hlen H1 H2;
    cbn [select_sensitivity]; [reflexivity |].
  cbn [length] in Hlen.
  assert (Hup : usbh_xinput_is_chatpad_pressed x (XINPUT_CHATPAD_1 + i) = 0).
  { apply is_chatpad_pressed_other_key; unfold XINPUT_CHATPAD_1; lia. }
  rewrite (was_chatpad_pressed_up x _ Hup).
  cbn [truthy Z.eqb negb].
  apply IH; try lia; exact H1 || exact H2.
Qed.

End SensitivityPresets.

(** X23.  The pointer sensitivity of the cockpit mapping and its
    copy in the EEPROM are changed only through a chatpad key whose
    code is one of the nine codes from XINPUT_CHATPAD_1 upwards (23 to
    31): whatever else is pressed, with or without orange, a call
    leaves the settings as they are.  The digit keys 2 to 9 have the
    codes 22 down to 17, 103 and 102, so they select no preset. *)
Theorem handle_sbattalion_presets_by_code {H : usbd_xid_h}
  (e : Master.env) (s : Master.sb_state) :
  ~ (23 <= Buf.get (chatpad_state (Master.st_xinput s)) 1 <= 31) ->
  ~ (23 <= Buf.get (chatpad_state (Master.st_xinput s)) 2 <= 31) ->
  Master.st_settings (Master.handle_sbattalion e s) = Master.st_settings s.
Proof.
  intros H1 H2. unfold Master.handle_sbattalion.
  pose proof (sb_buttons_inputs (Master.st_xinput s) (Master.st_in s)
                (Master.st_out s)) as Hx.
  destruct (Master.sb_buttons (Master.st_xinput s) (Master.st_in s)
              (Master.st_out s)) as [[[x w] dial] gear].
  cbn [fst] in Hx. apply inputs_chatpad_state in Hx.
  match goal with
  | |- context [if truthy (usbh_xinput_is_chatpad_pressed ?a ?b)
                then Master.select_sensitivity ?c ?d ?f ?h else ?k] =>
      assert (Hs : snd (if truthy (usbh_xinput_is_chatpad_pressed a b)
                        then Master.select_sensitivity c d f h else k)
                   = Master.st_settings s)
        by (destruct (truthy (usbh_xinput_is_chatpad_pressed a b));
            [apply select_sensitivity_no_key;
             [lia | cbn [length Master.sensitivities]; lia
             | cbn [chatpad_state set_rumble_requested]; now rewrite Hx
             | cbn [chatpad_state set_rumble_requested]; now rewrite Hx]
            | reflexivity]);
      destruct (if truthy (usbh_xinput_is_chatpad_pressed a b)
                then Master.select_sensitivity c d f h else k) as [x' g']
  end.
  cbn [snd] in Hs.
  destruct (truthy (Z.land (Master.word0 w) SBC_W0_IGNITION));
    cbn [Master.st_settings]; exact Hs.
Qed.

(** Orange with the 2 key (code 22): the sensitivity stays at 400 and
    nothing is written. *)
Lemma handle_sbattalion_presets_by_code_witness :
  Master.st_settings
    (Master.handle_sbattalion (H := xid_layout) (Master.mk_env 5000 0)
       orange_2_state)
  = Master.st_settings orange_2_state.
Proof.
  apply (handle_sbattalion_presets_by_code (H := xid_layout)
           (Master.mk_env 5000 0) orange_2_state).
  - change (~ (23 <= 22 <= 31)). lia.
  - change (~ (23 <= 0 <= 31)). lia.
Defined.

(** ** [handle_sbattalion]: word 2 of the report is never cleared *)

Section SightChange.
Context {H : usbd_xid_h}.
Import Master.

Lemma keys_up_no_key x :
  chatpad_state x = [0; 0; 0] ->
  forall code, usbh_xinput_is_chatpad_pressed x code = 0.
Proof.
  intros Hc code. unfold usbh_xinput_is_chatpad_pressed. rewrite Hc.
  unfold Buf.get. cbn [nth]. rewrite Z.land_0_l.
  destruct (bAddress x =? 0); [reflexivity |].
  change (truthy 0) with false. rewrite andb_false_r.
  destruct (Z.ltb_spec (u16 code) 17) as [Hlt | Hge]; [reflexivity |].
  destruct (Z.eqb_spec 0 (u16 code)) as [E | _]; [lia | reflexivity].
Qed.

Lemma sb_buttons_keys_up x r out :
  (forall code, usbh_xinput_is_chatpad_pressed x code = 0) ->
  word2 (snd (fst (fst (sb_buttons x r out))))
  = pad_word2 x (word2 (sb_wButtons r)).
Proof.
  intros Hup. unfold sb_buttons.
  set (w := apply_chatpad_map sb_chatpad_map x
              (apply_pad_map sb_pad_map x
                 (mk_words 0 0 (word2 (sb_wButtons r))))).
  assert (Hw : word2 w = pad_word2 x (word2 (sb_wButtons r)))
    by (subst w; now rewrite apply_chatpad_map_word2, apply_pad_map_word2).
  rewrite (apply_toggle_map_up sb_chatpad_toggle_map x w)
    by (intros e _; apply Hup).
  set (x1 := set_chatpad_state_old x
               (history_clear_all sb_chatpad_toggle_map (chatpad_state_old x))).
  assert (Hs1 : usbh_xinput_is_chatpad_pressed x1 XINPUT_CHATPAD_SHIFT = 0)
    by (rewrite <- (Hup XINPUT_CHATPAD_SHIFT);
        now apply is_chatpad_pressed_inputs).
  assert (H51 : usbh_xinput_is_chatpad_pressed x1 XINPUT_CHATPAD_5 = 0)
    by (rewrite <- (Hup XINPUT_CHATPAD_5);
        now apply is_chatpad_pressed_inputs).
  pose proof (sb_buttons_tail x1 r out (wButtons (pad_state x)) w Hs1 H51)
    as Ht.
  destruct (sb_alternate x1 r (sb_x_button (wButtons (pad_state x)) out w))
    as [[[x2 w2] dial] gear].
  destruct (usbh_xinput_was_chatpad_pressed x2 XINPUT_CHATPAD_SHIFT)
    as [x3 shift].
  cbn [fst snd]. destruct Ht as [Hword _]. now rewrite Hword.
Qed.

Lemma handle_sbattalion_word2_keys_up e s :
  chatpad_state (st_xinput s) = [0; 0; 0] ->
  word2 (sb_wButtons (st_in (handle_sbattalion e s)))
  = pad_word2 (st_xinput s) (word2 (sb_wButtons (st_in s))).
Proof.
  intros Hc. pose proof (keys_up_no_key (st_xinput s) Hc) as Hup.
  destruct (handle_sbattalion_buttons e s (Hup XINPUT_CHATPAD_ORANGE))
    as [Hw _].
  rewrite Hw. now apply sb_buttons_keys_up.
Qed.

Lemma lor_mask_twice w m : u16 (Z.lor (u16 (Z.lor w m)) m) = u16 (Z.lor w m).
Proof.
  rewrite !u16_land_ones. apply Z.bits_inj'. intros n Hn.
  rewrite !Z.land_spec, !Z.lor_spec, !Z.land_spec, Z.lor_spec.
  destruct (Z.testbit w n), (Z.testbit m n), (Z.testbit 65535 n); reflexivity.
Qed.

Lemma sb_step_word2_keys_up t s :
  tick_chatpad t = [0; 0; 0] ->
  word2 (sb_wButtons (st_in (sb_step t s)))
  = pad_word2 (tick_device t s) (word2 (sb_wButtons (st_in s))).
Proof.
  intros Hc.
  exact (handle_sbattalion_word2_keys_up (tick_env t) (sb_load t s) Hc).
Qed.

Lemma sb_final_word2_latched ticks : forall s w,
  Forall (fun t => tick_chatpad t = [0; 0; 0]) ticks ->
  word2 (sb_wButtons (st_in s)) = u16 (Z.lor w SBC_W2_LEFTJOYSIGHTCHANGE) ->
  word2 (sb_wButtons (st_in (sb_final ticks s)))
  = u16 (Z.lor w SBC_W2_LEFTJOYSIGHTCHANGE).
Proof.
  induction ticks as [| t ticks IH]; intros s w Hk Hw; [exact Hw |].
  rewrite sb_final_cons.
  apply IH; [exact (Forall_inv_tail Hk) |].
  rewrite sb_step_word2_keys_up by exact (Forall_inv Hk).
  unfold pad_word2.
  rewrite Hw. destruct (truthy _); [apply lor_mask_twice | reflexivity].
Qed.

End SightChange.

(** X24.  Word 2 of the cockpit report is carried over from call to
    call and the sight change bit of the left stick click is only ever
    set in it: a call that sees the left stick clicked in sets the bit,
    and it is still set in every later report, whatever the pad does
    (stick held or released), as long as no chatpad key is pressed. *)
Theorem sight_change_bit_latches {H : usbd_xid_h}
  (e : Master.env) (s : Master.sb_state) (ticks : list Master.sb_tick) :
  chatpad_state (Master.st_xinput s) = [0; 0; 0] ->
  Z.land (wButtons (pad_state (Master.st_xinput s))) XINPUT_GAMEPAD_LEFT_THUMB
  <> 0 ->
  Forall (fun t => Master.tick_chatpad t = [0; 0; 0]) ticks ->
  let w2 (s : Master.sb_state) :=
    Master.word2 (Master.sb_wButtons (Master.st_in s)) in
  let s1 := Master.handle_sbattalion e s in
  w2 s1 = u16 (Z.lor (w2 s) SBC_W2_LEFTJOYSIGHTCHANGE) /\
  w2 (Master.sb_final ticks s1) = w2 s1.
Proof.
  intros Hc Ht Hk w2 s1.
  assert (H1 : w2 s1 = u16 (Z.lor (w2 s) SBC_W2_LEFTJOYSIGHTCHANGE)).
  { subst w2 s1. cbv beta.
    rewrite handle_sbattalion_word2_keys_up by exact Hc.
    unfold Master.pad_word2.
    change (u16 XINPUT_GAMEPAD_LEFT_THUMB) with XINPUT_GAMEPAD_LEFT_THUMB.
    apply truthy_true in Ht. now rewrite Ht. }
  split; [exact H1 |].
  rewrite H1. subst w2. cbv beta.
  apply sb_final_word2_latched; [exact Hk | exact H1].
Qed.

(** The left stick is clicked in for one call and released for the
    next two. *)
Lemma sight_change_bit_latches_witness :
  let w2 (s : Master.sb_state) :=
    Master.word2 (Master.sb_wButtons (Master.st_in s)) in
  let s1 := Master.handle_sbattalion (H := xid_layout) (Master.mk_env 900 0)
              thumb_state in
  w2 s1 = u16 (Z.lor (w2 thumb_state)
                 (SBC_W2_LEFTJOYSIGHTCHANGE (usbd_xid_h := xid_layout))) /\
  w2 (Master.sb_final (H := xid_layout) [tick_released; tick_released] s1)
  = w2 s1.
Proof.
  apply (sight_change_bit_latches (H := xid_layout) (Master.mk_env 900 0)
           thumb_state [tick_released; tick_released]).
  - reflexivity.
  - vm_compute. discriminate.
  - repeat constructor.
Defined.

(** ** [master_init]: the sensitivity in the EEPROM *)

Lemma buf_get_set_same (a : list Z) (v : Z) : forall i,
  (i < length a)%nat -> Buf.get (Buf.set a i v) i = v.
Proof.
  unfold Buf.get.
  induction a as [| h t IH]; intros [| i] Hi; cbn [length] in Hi;
    cbn [Buf.set nth]; try lia; try reflexivity.
  apply IH. lia.
Qed.

Lemma buf_get_set_other (a : list Z) (v : Z) : forall i j,
  i <> j -> Buf.get (Buf.set a i v) j = Buf.get a j.
Proof.
  unfold Buf.get.
  induction a as [| h t IH]; intros [| i] [| j] Hne; cbn [Buf.set nth];
    try reflexivity; try contradiction.
  apply IH. congruence.
Qed.

Section Eeprom.
Import Master Boot.

Lemma EEPROM_put16_get16 rom v :
  (2 < length rom)%nat -> 0 <= v < 65536 ->
  EEPROM_get16 (EEPROM_put16 rom 1 v) 1 = v.
Proof.
  intros Hl Hv. unfold EEPROM_get16, EEPROM_put16.
  rewrite buf_get_set_other by lia.
  rewrite buf_get_set_same by lia.
  rewrite buf_get_set_same by (rewrite buf_set_length; lia).
  rewrite (u16_small v) by lia.
  rewrite lor_shiftl_8 by (apply u8_range).
  rewrite Z.shiftr_div_pow2 by lia. change (2 ^ 8) with 256.
  assert (Hq : 0 <= v / 256 < 256)
    by (split; [apply Z.div_pos; lia | apply Z.div_lt_upper_bound; lia]).
  rewrite (u8_small (v / 256)) by exact Hq.
  unfold u8. change (2 ^ 8) with 256.
  pose proof (Z.div_mod v 256 ltac:(lia)) as Hd.
  rewrite u16_small by lia. lia.
Qed.

Lemma EEPROM_put16_length rom a v :
  length (EEPROM_put16 rom a v) = length rom.
Proof. unfold EEPROM_put16. now rewrite !buf_set_length. Qed.

Lemma EEPROM_put16_magic rom v :
  EEPROM_read (EEPROM_put16 rom 1 v) 0 = EEPROM_read rom 0.
Proof.
  unfold EEPROM_read, EEPROM_put16. now rewrite !buf_get_set_other by lia.
Qed.

Lemma EEPROM_replay_length puts rom :
  length (EEPROM_replay puts rom) = length rom.
Proof.
  induction puts as [| v puts IH]; cbn [EEPROM_replay fold_right];
    [reflexivity |].
  rewrite EEPROM_put16_length. exact IH.
Qed.

Lemma EEPROM_replay_magic puts rom :
  EEPROM_read (EEPROM_replay puts rom) 0 = EEPROM_read rom 0.
Proof.
  induction puts as [| v puts IH]; cbn [EEPROM_replay fold_right];
    [reflexivity |].
  rewrite EEPROM_put16_magic. exact IH.
Qed.

Context {H : usbd_xid_h}.

(** After [master_init] the EEPROM carries the magic byte, and it has
    the size it had. *)
Lemma master_init_rom st rom n led :
  (2 < length rom)%nat ->
  let rom1 := snd (fst (fst (master_init st rom n led))) in
  EEPROM_read rom1 0 = magic /\ length rom1 = length rom.
Proof.
  intros Hl. unfold master_init.
  destruct (Z.eqb_spec (EEPROM_read rom 0) magic) as [E | E];
    cbn [negb fst snd].
  - split; [exact E | reflexivity].
  - rewrite EEPROM_put16_magic, EEPROM_put16_length.
    unfold EEPROM_write, EEPROM_read.
    rewrite buf_get_set_same, buf_set_length by lia.
    split; reflexivity.
Qed.

End Eeprom.

(** X25.  The pointer sensitivity survives a power cycle.  Whatever
    the EEPROM held at the first start, once [master_init] has run the
    magic byte is in place; when a preset is then stored, the next
    start loads that value as the sensitivity, whatever the variable
    held before, and does not write the EEPROM. *)
Theorem master_init_restores_sensitivity {H : usbd_xid_h}
  (st st' : Master.master_state) (rom : list Z) (n n' : nat)
  (led led' : bool) (v : Z) (puts : list Z) :
  (2 < length rom)%nat -> 0 <= v < 65536 ->
  let rom1 := snd (fst (fst (Boot.master_init st rom n led))) in
  let rom2 := Boot.EEPROM_replay (v :: puts) rom1 in
  let boot2 := Boot.master_init st' rom2 n' led' in
  Master.sb_sensitivity (Master.globals (fst (fst (fst boot2)))) = v /\
  Master.eeprom_puts (Master.globals (fst (fst (fst boot2))))
  = Master.eeprom_puts (Master.globals st') /\
  snd (fst (fst boot2)) = rom2.
Proof.
  intros Hl Hv rom1 rom2 boot2.
  destruct (master_init_rom st rom n led Hl) as [Hm Hlen]. fold rom1 in Hm, Hlen.
  assert (Hm2 : Boot.EEPROM_read rom2 0 = Boot.magic)
    by (subst rom2; now rewrite EEPROM_replay_magic).
  subst boot2. unfold Boot.master_init at 1 2 3. rewrite Hm2, Z.eqb_refl.
  cbn [negb fst snd Master.globals Master.sb_sensitivity Master.eeprom_puts].
  split; [| split; reflexivity].
  subst rom2. cbn [Boot.EEPROM_replay fold_right].
  apply EEPROM_put16_get16; [| exact Hv].
  fold (Boot.EEPROM_replay puts rom1). rewrite EEPROM_replay_length. lia.
Qed.

(** An erased EEPROM, a first start, the preset 1200 stored, and a
    second start. *)
Lemma master_init_restores_sensitivity_witness :
  let rom1 := snd (fst (fst (Boot.master_init (H := xid_layout) four_pads
                               blank_eeprom 0 false))) in
  let rom2 := Boot.EEPROM_replay [1200] rom1 in
  let boot2 := Boot.master_init (H := xid_layout) four_pads rom2 0 false in
  Master.sb_sensitivity (Master.globals (fst (fst (fst boot2)))) = 1200 /\
  Master.eeprom_puts (Master.globals (fst (fst (fst boot2))))
  = Master.eeprom_puts (Master.globals four_pads) /\
  snd (fst (fst boot2)) = rom2.
Proof.
  apply (master_init_restores_sensitivity (H := xid_layout) four_pads
           four_pads blank_eeprom 0 0 false false 1200 []).
  - simpl. lia.
  - lia.
Defined.
